(** * transformers/integrations.py: a shallow embedding

    The module under study is the glue between the [Trainer] and third-party
    reporting, hyper-parameter-search and DeepSpeed libraries.  The embedding
    keeps the Python data as the code has it:

    - a [dict] is an insertion-ordered association list with unique keys
      ([new_d[k] = v] overwrites in place or appends);
    - mutable objects (dicts, lists) live in a store indexed by locations,
      so that aliasing and [deepcopy] mean something;
    - a function that may raise returns a [res], and the store survives the
      exception, as it does in Python;
    - calls into the vendor SDKs are recorded as events of a trace. *)

From Stdlib Require Import ZArith String Ascii List Lia Bool SpecFloat.
From stdpp Require Import base option list gmap strings fin_maps fin_sets.

Import ListNotations.
Local Open Scope string_scope.

(** ** Python strings *)

Module PyStr.

(** [k.startswith(p)] *)
Definition startswith (k p : string) : bool := String.prefix p k.

(** [k[n:]] for [0 <= n] *)
Fixpoint slice_from (n : nat) (k : string) : string :=
  match n, k with
  | O, _ => k
  | S n', String _ k' => slice_from n' k'
  | S _, EmptyString => EmptyString
  end.

(** [sep.join(parts)] *)
Fixpoint join (sep : string) (parts : list string) : string :=
  match parts with
  | [] => ""
  | [p] => p
  | p :: rest => p ++ sep ++ join sep rest
  end.

(** [needle in hay] on two strings: substring test *)
Definition contains (hay needle : string) : bool :=
  match String.index 0 needle hay with
  | Some _ => true
  | None => false
  end.

End PyStr.

(** ** Python dicts: insertion-ordered, unique keys *)

Module PyDict.
Section Dict.
Context {V : Type}.

Definition keys (d : list (string * V)) : list string := map fst d.

Definition values (d : list (string * V)) : list V := map snd d.

(** [d[k]] as an option ([None] is Python's [KeyError]) *)
Fixpoint get (k : string) (d : list (string * V)) : option V :=
  match d with
  | [] => None
  | (k', v) :: rest => if String.eqb k k' then Some v else get k rest
  end.

(** [k in d] *)
Definition mem (k : string) (d : list (string * V)) : bool :=
  match get k d with Some _ => true | None => false end.

(** [d[k] = v]: an existing key keeps its position, a new key goes last *)
Fixpoint set (k : string) (v : V) (d : list (string * V)) : list (string * V) :=
  match d with
  | [] => [(k, v)]
  | (k', v') :: rest =>
      if String.eqb k k' then (k, v) :: rest else (k', v') :: set k v rest
  end.

(** [dict(pairs)]: later pairs win, first occurrence fixes the position *)
Definition of_pairs (pairs : list (string * V)) : list (string * V) :=
  fold_left (fun d '(k, v) => set k v d) pairs [].

(** A well-formed dict has no repeated key. *)
Definition wf (d : list (string * V)) : Prop := NoDup (keys d).

Definition wfb (d : list (string * V)) : bool := bool_decide (NoDup (keys d)).

End Dict.
End PyDict.

(** ** Values, objects, exceptions *)

Abbreviation loc := positive.

(** Python floats are IEEE 754 binary64. *)
Definition prec : Z := 53.
Definition emax : Z := 1024.
Definition float_of_Z (z : Z) : spec_float := binary_normalize prec emax z 0 false.

(** The values that occur in logs and in JSON-like configurations.  A dict
    or a list is a reference into the store. *)
Inductive value :=
  | VNone
  | VBool (b : bool)
  | VInt (z : Z)
  | VFloat (f : spec_float)
  | VStr (s : string)
  | VRef (l : loc).

Inductive obj :=
  | ODict (items : list (string * value))
  | OList (elems : list value).

Inductive exn :=
  | ValueError (msg : string)
  | RuntimeError (msg : string)
  | KeyError (key : string)
  | TypeError
  | AttributeError
  | IndexError
  | ImportError
  | OSError
  | JSONDecodeError
  | OverflowError
  | RecursionError
  | SystemError.

Inductive res (A : Type) :=
  | Ok (a : A)
  | Raise (e : exn).
Arguments Ok {A} a.
Arguments Raise {A} e.

Definition raises {A} (r : res A) : bool :=
  match r with Ok _ => false | Raise _ => true end.

(** [isinstance(v, (int, float))]; [bool] is a subclass of [int]. *)
Definition is_int_or_float (v : value) : bool :=
  match v with
  | VBool _ | VInt _ | VFloat _ => true
  | VNone | VStr _ | VRef _ => false
  end.

(** [v == z] for an int literal [z] that binary64 represents exactly
    (the code only compares with [0] and [3]). *)
Definition py_eq_int (v : value) (z : Z) : bool :=
  match v with
  | VInt z' => Z.eqb z' z
  | VBool b => Z.eqb (Z.b2z b) z
  | VFloat f => SFeqb f (float_of_Z z)
  | VNone | VStr _ | VRef _ => false
  end.

(** [v == s] for a str literal [s] *)
Definition py_eq_str (v : value) (s : string) : bool :=
  match v with
  | VStr s' => String.eqb s' s
  | _ => false
  end.

(** [v is True] *)
Definition py_is_True (v : value) : bool :=
  match v with
  | VBool true => true
  | _ => false
  end.

(** ** Log rewriting *)

Section RewriteLogs.

Definition eval_prefix : string := "eval_".
Definition eval_prefix_len : nat := String.length eval_prefix.

Context {V : Type}.

(** The key one iteration of the loop writes. *)
Definition rewrite_key (k : string) : string :=
  if PyStr.startswith k eval_prefix
  then "eval/" ++ PyStr.slice_from eval_prefix_len k
  else "train/" ++ k.

Definition rewrite_entry (kv : string * V) : string * V :=
  (rewrite_key (fst kv), snd kv).

(** [rewrite_logs(d)]: the loop over [d.items()] writing into [new_d]. *)
Definition rewrite_logs (d : list (string * V)) : list (string * V) :=
  fold_left
    (fun new_d '(k, v) =>
       if PyStr.startswith k eval_prefix
       then PyDict.set ("eval/" ++ PyStr.slice_from eval_prefix_len k) v new_d
       else PyDict.set ("train/" ++ k) v new_d)
    d [].

End RewriteLogs.

(** ** The registry of reporting integrations *)

Inductive callback_class :=
  | AzureMLCallback
  | CometCallback
  | MLflowCallback
  | TensorBoardCallback
  | WandbCallback.

Definition INTEGRATION_TO_CALLBACK : list (string * callback_class) :=
  [ ("azure_ml", AzureMLCallback);
    ("comet_ml", CometCallback);
    ("mlflow", MLflowCallback);
    ("tensorboard", TensorBoardCallback);
    ("wandb", WandbCallback) ].

(** The five names the specification enumerates. *)
Definition valid_names : list string :=
  ["azure_ml"; "comet_ml"; "mlflow"; "tensorboard"; "wandb"].

(** The validation loop: the first unknown name raises. *)
Fixpoint check_integrations (report_to : list string) : res unit :=
  match report_to with
  | [] => Ok tt
  | integration :: rest =>
      if negb (PyDict.mem integration INTEGRATION_TO_CALLBACK)
      then Raise (ValueError
                    (integration ++ " is not supported, only "
                     ++ PyStr.join ", " (PyDict.keys INTEGRATION_TO_CALLBACK)
                     ++ " are supported."))
      else check_integrations rest
  end.

(** The comprehension [[INTEGRATION_TO_CALLBACK[i] for i in report_to]]. *)
Fixpoint lookup_integrations (report_to : list string) : res (list callback_class) :=
  match report_to with
  | [] => Ok []
  | integration :: rest =>
      match PyDict.get integration INTEGRATION_TO_CALLBACK with
      | None => Raise (KeyError integration)
      | Some cb =>
          match lookup_integrations rest with
          | Ok cbs => Ok (cb :: cbs)
          | Raise e => Raise e
          end
      end
  end.

Definition get_reporting_integration_callbacks (report_to : list string)
  : res (list callback_class) :=
  match check_integrations report_to with
  | Raise e => Raise e
  | Ok _ => lookup_integrations report_to
  end.

(** ** Callback adapters: the [on_log] hooks

    The vendor SDK calls and the logger's warnings are the observable
    behaviour of a hook; they are collected in a trace.  A warning carries
    the key and the value it reports rather than the formatted text. *)

Inductive event :=
  | TbNewWriter (log_dir : string)
  | TbAddScalar (k : string) (v : value) (step : Z)
  | TbFlush
  | WandbSetup
  | WandbLog (payload : list (string * value))
  | MlflowSetup
  | MlflowLogMetric (k : string) (v : value) (step : Z)
  | AzureRunLog (k : string) (v : value) (description : string)
  | LoggerWarning (k : string) (v : value).

(** The fields of [TrainerState] and [TrainingArguments] the hooks read. *)
Record TrainerState := {
  is_world_process_zero : bool;
  global_step : Z
}.

Record LogArgs := {
  logging_dir : string
}.

Module TensorBoard.

(** [_SummaryWriter] is the writer class or [None]; [tb_writer] is the
    writer, identified by its log directory, or [None]. *)
Record self := {
  _SummaryWriter : bool;
  tb_writer : option string
}.

Definition _init_summary_writer (s : self) (args : LogArgs) : self * list event :=
  if _SummaryWriter s
  then ({| _SummaryWriter := _SummaryWriter s; tb_writer := Some (logging_dir args) |},
        [TbNewWriter (logging_dir args)])
  else (s, []).

(** The loop body of [on_log]. *)
Definition log_entry (state : TrainerState) (kv : string * value) : event :=
  let '(k, v) := kv in
  if is_int_or_float v then TbAddScalar k v (global_step state)
  else LoggerWarning k v.

Definition on_log (s : self) (args : LogArgs) (state : TrainerState)
    (logs : list (string * value)) : self * list event :=
  if negb (is_world_process_zero state) then (s, [])
  else
    let '(s1, tr1) :=
      match tb_writer s with
      | None => _init_summary_writer s args
      | Some _ => (s, [])
      end in
    match tb_writer s1 with
    | Some _ =>
        let logs := rewrite_logs logs in
        (s1, (tr1 ++ map (log_entry state) logs ++ [TbFlush])%list)
    | None => (s1, tr1)
    end.

End TensorBoard.

Module Wandb.

Record self := {
  _wandb : bool;         (* the [wandb] module, or [None] *)
  _initialized : bool
}.

(** [setup]: the calls into [wandb] ([init], [config.update], [watch], ...)
    are one event. *)
Definition setup (s : self) (state : TrainerState) : self * list event :=
  if negb (_wandb s) then (s, [])
  else ({| _wandb := _wandb s; _initialized := true |},
        if is_world_process_zero state then [WandbSetup] else []).

Definition on_log (s : self) (state : TrainerState)
    (logs : list (string * value)) : self * list event :=
  if negb (_wandb s) then (s, [])
  else
    let '(s1, tr1) := if negb (_initialized s) then setup s state else (s, []) in
    if is_world_process_zero state
    then
      let logs := rewrite_logs logs in
      (s1, (tr1 ++ [WandbLog (PyDict.set "train/global_step" (VInt (global_step state)) logs)])%list)
    else (s1, tr1).

End Wandb.

Module MLflow.

Record self := {
  _initialized : bool;
  _log_artifacts : bool
}.

(** [setup]: [log_artifacts_env] is the test on [HF_MLFLOW_LOG_ARTIFACTS];
    [start_run] and the [log_params] batches are one event. *)
Definition setup (s : self) (log_artifacts_env : bool) (state : TrainerState)
  : self * list event :=
  ({| _initialized := true;
      _log_artifacts := if log_artifacts_env then true else _log_artifacts s |},
   if is_world_process_zero state then [MlflowSetup] else []).

Definition log_entry (state : TrainerState) (kv : string * value) : event :=
  let '(k, v) := kv in
  if is_int_or_float v then MlflowLogMetric k v (global_step state)
  else LoggerWarning k v.

Definition on_log (s : self) (log_artifacts_env : bool) (state : TrainerState)
    (logs : list (string * value)) : self * list event :=
  let '(s1, tr1) :=
    if negb (_initialized s) then setup s log_artifacts_env state else (s, []) in
  if is_world_process_zero state
  then (s1, (tr1 ++ map (log_entry state) logs)%list)
  else (s1, tr1).

End MLflow.

Module AzureML.

Record self := {
  azureml_run : bool     (* a [Run], or [None] *)
}.

(** The loop of [on_log]: an entry that is not an int or a float is
    skipped, and nothing is logged about it. *)
Definition log_entries (logs : list (string * value)) : list event :=
  flat_map (fun '(k, v) => if is_int_or_float v then [AzureRunLog k v k] else []) logs.

Definition on_log (s : self) (logs : list (string * value)) : self * list event :=
  if azureml_run s then (s, log_entries logs) else (s, []).

End AzureML.

(** The four adapters named by the specification, with what the hook is
    called on, so that one statement can range over them. *)
Inductive adapter :=
  | OfTensorBoard (s : TensorBoard.self) (args : LogArgs)
  | OfWandb (s : Wandb.self)
  | OfMLflow (s : MLflow.self) (log_artifacts_env : bool)
  | OfAzureML (s : AzureML.self).

Definition on_log (a : adapter) (state : TrainerState) (logs : list (string * value))
  : list event :=
  match a with
  | OfTensorBoard s args => snd (TensorBoard.on_log s args state logs)
  | OfWandb s => snd (Wandb.on_log s state logs)
  | OfMLflow s e => snd (MLflow.on_log s e state logs)
  | OfAzureML s => snd (AzureML.on_log s logs)
  end.


(** What an event hands to the backing service. *)
Definition forwarded (e : event) : list (string * value) :=
  match e with
  | TbAddScalar k v _ => [(k, v)]
  | WandbLog payload => payload
  | MlflowLogMetric k v _ => [(k, v)]
  | AzureRunLog k v _ => [(k, v)]
  | TbNewWriter _ | TbFlush | WandbSetup | MlflowSetup | LoggerWarning _ _ => []
  end.

Definition forwarded_by (tr : list event) : list (string * value) :=
  flat_map forwarded tr.

Definition warnings_of (tr : list event) : list (string * value) :=
  flat_map (fun e => match e with LoggerWarning k v => [(k, v)] | _ => [] end) tr.

Definition numeric_entry (kv : string * value) : bool := is_int_or_float (snd kv).


(** ** Hyper-parameter search with Ray Tune *)

Module Ray.

(** Modelled from the spec: the enum [IntervalStrategy] of
    [trainer_utils], which is not among the sources; the function only
    compares with its member [NO]. *)
Inductive IntervalStrategy := NO | STEPS | EPOCH.

Definition IntervalStrategy_eqb (a b : IntervalStrategy) : bool :=
  match a, b with
  | NO, NO | STEPS, STEPS | EPOCH, EPOCH => true
  | _, _ => false
  end.

(** The scheduler classes of [ray.tune.schedulers] the function imports,
    and [FIFOScheduler] for any other scheduler. *)
Inductive scheduler_class :=
  | ASHAScheduler
  | MedianStoppingRule
  | HyperBandForBOHB
  | PopulationBasedTraining
  | FIFOScheduler.

(** [type(scheduler).__name__]; Ray defines [ASHAScheduler] as another
    name of the class [AsyncHyperBandScheduler]. *)
Definition class_name (c : scheduler_class) : string :=
  match c with
  | ASHAScheduler => "AsyncHyperBandScheduler"
  | MedianStoppingRule => "MedianStoppingRule"
  | HyperBandForBOHB => "HyperBandForBOHB"
  | PopulationBasedTraining => "PopulationBasedTraining"
  | FIFOScheduler => "FIFOScheduler"
  end.

(** The values passed as keyword arguments. *)
Inductive kwvalue :=
  | KwNone
  | KwInt (z : Z)
  | KwScheduler (c : scheduler_class)
  | KwResources (r : list (string * Z))
  | KwObject (name : string).

(** [isinstance(v, (ASHAScheduler, MedianStoppingRule, HyperBandForBOHB,
    PopulationBasedTraining))] *)
Definition needs_intermediate_reporting (v : kwvalue) : bool :=
  match v with
  | KwScheduler (ASHAScheduler | MedianStoppingRule | HyperBandForBOHB
                 | PopulationBasedTraining) => true
  | _ => false
  end.

(** The fields of the trainer and of [trainer.args] the function
    touches; [hp_space] is what the call [trainer.hp_space(None)] returns
    or raises. *)
Record Trainer := {
  has_tensorboard_callback : bool;
  has_model : bool;
  n_gpu : Z;
  _n_gpu : Z;
  do_eval : bool;
  evaluation_strategy : IntervalStrategy;
  use_tune_checkpoints : bool;
  hp_space : res kwvalue
}.

(** Modelled from the spec: [BestRun] of [trainer_utils], which is not
    among the sources: a trial identifier, an objective value and the
    hyperparameters. *)
Record BestRun := {
  run_id : string;
  objective : spec_float;
  hyperparameters : list (string * value)
}.

(** Ray is not part of the program.  What its calls answer is given:
    a trial as [get_best_trial] returns it, an analysis as
    [ray.tune.run] returns it, and the two functions of [ray.tune] the
    search calls, each of which may raise. *)
Record Trial := {
  trial_id : string;
  last_result : list (string * spec_float);
  config : list (string * value)
}.

Record Analysis := {
  (* [analysis.get_best_trial(metric=..., mode=...)]; [None] when no
     trial has reported the metric *)
  get_best_trial : string -> string -> res (option Trial)
}.

Record RayTune := {
  (* [ray.tune.with_parameters(_objective, local_trainer=trainer)] *)
  with_parameters : res unit;
  (* [ray.tune.run(trainable, config=..., num_samples=..., **kwargs)] *)
  run : kwvalue -> Z -> list (string * kwvalue) -> res Analysis
}.

(** The calls into Ray, as they are made. *)
Inductive event :=
  | WithParameters
  | RayTuneRun (config : kwvalue) (num_samples : Z) (kwargs : list (string * kwvalue))
  | GetBestTrial (metric mode : string).

(** [v > z] for an int literal [z] *)
Definition gt_int (v : kwvalue) (z : Z) : res bool :=
  match v with
  | KwInt n => Ok (Z.ltb z n)
  | _ => Raise TypeError
  end.

Definition scheduler_message (cls : string) : string :=
  "You are using " ++ cls ++ " as a scheduler but you haven't enabled evaluation during training. "
  ++ "This means your trials will not report intermediate results to Ray Tune, and "
  ++ "can thus not be stopped early or used to exploit other trials parameters. "
  ++ "If this is what you want, do not use " ++ cls ++ ". If you would like to use " ++ cls ++ ", "
  ++ "make sure you pass `do_eval=True` and `evaluation_strategy='steps'` in the "
  ++ "Trainer `args`.".

(** [trainer.use_tune_checkpoints = True] *)
Definition set_use_tune_checkpoints (trainer : Trainer) : Trainer :=
  {| has_tensorboard_callback := has_tensorboard_callback trainer;
     has_model := has_model trainer;
     n_gpu := n_gpu trainer;
     _n_gpu := _n_gpu trainer;
     do_eval := do_eval trainer;
     evaluation_strategy := evaluation_strategy trainer;
     use_tune_checkpoints := true;
     hp_space := hp_space trainer |}.

(** The block guarded by ["keep_checkpoints_num" in kwargs]; the trainer
    is returned as the block leaves it, also when it raises. *)
Definition keep_checkpoints_step (trainer : Trainer) (kwargs : list (string * kwvalue))
  : res unit * Trainer :=
  match PyDict.get "keep_checkpoints_num" kwargs with
  | None => (Ok tt, trainer)
  | Some k =>
      match gt_int k 0 with
      | Raise e => (Raise e, trainer)
      | Ok false => (Ok tt, trainer)
      | Ok true =>
          (* `keep_checkpoints_num=0` would disabled checkpointing *)
          let trainer := set_use_tune_checkpoints trainer in
          match gt_int k 1 with
          | Raise e => (Raise e, trainer)
          | Ok false => (Ok tt, trainer)
          | Ok true =>
              (* the text of the warning reads [kwargs['keep_checkpoint_num']] *)
              match PyDict.get "keep_checkpoint_num" kwargs with
              | None => (Raise (KeyError "keep_checkpoint_num"), trainer)
              | Some _ => (Ok tt, trainer)
              end
          end
      end
  end.

(** The block guarded by ["scheduler" in kwargs]. *)
Definition scheduler_step (trainer : Trainer) (kwargs : list (string * kwvalue))
  : res unit :=
  match PyDict.get "scheduler" kwargs with
  | None => Ok tt
  | Some sched =>
      if needs_intermediate_reporting sched
         && (negb (do_eval trainer)
             || IntervalStrategy_eqb (evaluation_strategy trainer) NO)
      then Raise (RuntimeError
                    (scheduler_message
                       (match sched with
                        | KwScheduler c => class_name c
                        | _ => ""
                        end)))
      else Ok tt
  end.

(** [trainer.pop_callback(TensorBoardCallback)] and [trainer.model = None]:
    neither the writer nor the model can be pickled. *)
Definition detach (trainer : Trainer) : Trainer :=
  {| has_tensorboard_callback := false;
     has_model := false;
     n_gpu := n_gpu trainer;
     _n_gpu := _n_gpu trainer;
     do_eval := do_eval trainer;
     evaluation_strategy := evaluation_strategy trainer;
     use_tune_checkpoints := use_tune_checkpoints trainer;
     hp_space := hp_space trainer |}.

(** [trainer.args._n_gpu = gpus_per_trial] *)
Definition set_n_gpu (gpus_per_trial : Z) (trainer : Trainer) : Trainer :=
  {| has_tensorboard_callback := has_tensorboard_callback trainer;
     has_model := has_model trainer;
     n_gpu := n_gpu trainer;
     _n_gpu := gpus_per_trial;
     do_eval := do_eval trainer;
     evaluation_strategy := evaluation_strategy trainer;
     use_tune_checkpoints := use_tune_checkpoints trainer;
     hp_space := hp_space trainer |}.

(** [trainer.add_callback(_tb_writer)], when a writer was removed *)
Definition reattach (_tb_writer : bool) (trainer : Trainer) : Trainer :=
  {| has_tensorboard_callback := _tb_writer;
     has_model := has_model trainer;
     n_gpu := n_gpu trainer;
     _n_gpu := _n_gpu trainer;
     do_eval := do_eval trainer;
     evaluation_strategy := evaluation_strategy trainer;
     use_tune_checkpoints := use_tune_checkpoints trainer;
     hp_space := hp_space trainer |}.

(** The default [resources_per_trial]: 1 CPU, and 1 GPU if there is one. *)
Definition default_resources (trainer : Trainer) (kwargs : list (string * kwvalue))
  : list (string * kwvalue) :=
  if PyDict.mem "resources_per_trial" kwargs then kwargs
  else PyDict.set "resources_per_trial"
         (KwResources (if Z.ltb 0 (n_gpu trainer)
                       then [("cpu", 1%Z); ("gpu", 1%Z)]
                       else [("cpu", 1%Z)]))
         kwargs.

(** The default [progress_reporter]. *)
Definition default_progress_reporter (kwargs : list (string * kwvalue))
  : list (string * kwvalue) :=
  if PyDict.mem "progress_reporter" kwargs then kwargs
  else PyDict.set "progress_reporter" (KwObject "CLIReporter") kwargs.

(** The last statements: the call of [ray.tune.run], the best trial of
    the analysis and the run made of it.  The positional argument and
    the two keyword arguments are evaluated first; a [config] or a
    [num_samples] among [kwargs] then makes the call itself a
    [TypeError], for an argument given twice.  [direction[:3]] is the
    mode.  The TensorBoard callback is put back only at the end. *)
Definition tune_step (ray : RayTune) (_tb_writer : bool) (trainer : Trainer) (n_trials : Z)
    (direction : string) (kwargs : list (string * kwvalue))
  : res BestRun * Trainer * list event :=
  match with_parameters ray with
  | Raise e => (Raise e, trainer, [WithParameters])
  | Ok _ =>
      match hp_space trainer with
      | Raise e => (Raise e, trainer, [WithParameters])
      | Ok space =>
          if PyDict.mem "config" kwargs || PyDict.mem "num_samples" kwargs
          then (Raise TypeError, trainer, [WithParameters])
          else
            let calls := [WithParameters; RayTuneRun space n_trials kwargs] in
            match run ray space n_trials kwargs with
            | Raise e => (Raise e, trainer, calls)
            | Ok analysis =>
                let mode := String.substring 0 3 direction in
                let calls := (calls ++ [GetBestTrial "objective" mode])%list in
                match get_best_trial analysis "objective" mode with
                | Raise e => (Raise e, trainer, calls)
                | Ok None => (Raise AttributeError, trainer, calls)
                | Ok (Some best_trial) =>
                    match PyDict.get "objective" (last_result best_trial) with
                    | None => (Raise (KeyError "objective"), trainer, calls)
                    | Some objective =>
                        (Ok {| run_id := trial_id best_trial;
                               objective := objective;
                               hyperparameters := config best_trial |},
                         reattach _tb_writer trainer, calls)
                    end
                end
            end
      end
  end.

(** [run_hp_search_ray(trainer, n_trials, direction, **kwargs)], where
    Ray is installed, so that the imports of the function succeed.  The
    result carries the trainer as the call leaves it and the calls made
    into Ray. *)
Definition run_hp_search_ray (ray : RayTune) (trainer : Trainer) (n_trials : Z)
    (direction : string) (kwargs : list (string * kwvalue))
  : res BestRun * Trainer * list event :=
  let _tb_writer := has_tensorboard_callback trainer in
  let trainer := detach trainer in
  let kwargs := default_resources trainer kwargs in
  match PyDict.get "resources_per_trial" kwargs with
  | Some (KwResources r) =>
      let gpus_per_trial :=
        match PyDict.get "gpu" r with Some g => g | None => 0%Z end in
      let trainer := set_n_gpu gpus_per_trial trainer in
      let kwargs := default_progress_reporter kwargs in
      match keep_checkpoints_step trainer kwargs with
      | (Raise e, trainer) => (Raise e, trainer, [])
      | (Ok _, trainer) =>
          match scheduler_step trainer kwargs with
          | Raise e => (Raise e, trainer, [])
          | Ok _ => tune_step ray _tb_writer trainer n_trials direction kwargs
          end
      end
  | Some _ => (Raise AttributeError, trainer, [])
  | None => (Raise (KeyError "resources_per_trial"), trainer, [])
  end.

(** The keyword arguments [ray.tune.run] gets: the caller's, with the
    two defaults filled in. *)
Definition completed_kwargs (trainer : Trainer) (kwargs : list (string * kwvalue))
  : list (string * kwvalue) :=
  default_progress_reporter (default_resources trainer kwargs).

End Ray.

(** ** DeepSpeed: the store, the process state, the monad *)

Module DS.

(** The text of a JSON file, as a tree. *)
#[local] Unset Elimination Schemes.
Inductive json :=
  | JNull
  | JBool (b : bool)
  | JInt (z : Z)
  | JFloat (f : spec_float)
  | JStr (s : string)
  | JList (elems : list json)
  | JDict (pairs : list (string * json)).
#[local] Set Elimination Schemes.

Inductive fs_entry :=
  | FsMissing
  | FsDirectory
  | FsFile (content : option json).   (* [None]: the file is not JSON *)

(** What the process observes of its environment. *)
Record Env := {
  argv : list string;                       (* [sys.argv] *)
  files : string -> fs_entry;
  deepspeed_importable : bool;              (* [import deepspeed] *)
  deepspeed_version_ok : bool;              (* [dep_version_check("deepspeed")] *)
  glob : string -> list string;             (* [glob.glob(pattern)] *)
  load_checkpoint : string -> option string; (* the [load_path] the engine returns *)
  deepcopy_depth : nat;     (* the nesting [copy.deepcopy] can follow before
                               the interpreter's recursion limit stops it *)
  json_depth_limit : nat    (* the nesting [json.load] can parse before it *)
}.

(** The calls out of the module. *)
Inductive event :=
  | CreateOptimizer
  | CreateScheduler (num_training_steps : Z)
  | Initialize (config : value) (optimizer lr_scheduler : bool)
  | LoadCheckpoint (path : string).

(** The state of the process: the objects, the module-level variable
    [_is_deepspeed_zero3_enabled], and the calls made so far. *)
Record world := {
  heap : gmap loc obj;
  _is_deepspeed_zero3_enabled : option bool;
  trace : list event
}.

Definition with_heap (h : gmap loc obj) (w : world) : world :=
  {| heap := h;
     _is_deepspeed_zero3_enabled := _is_deepspeed_zero3_enabled w;
     trace := trace w |}.

(** A computation runs on the state and either returns or raises; the
    state it leaves is kept in both cases. *)
Definition M (A : Type) : Type := world -> res A * world.

Definition ret {A} (a : A) : M A := fun w => (Ok a, w).

Definition raise {A} (e : exn) : M A := fun w => (Raise e, w).

Definition bind {A B} (c : M A) (k : A -> M B) : M B :=
  fun w =>
    match c w with
    | (Ok a, w') => k a w'
    | (Raise e, w') => (Raise e, w')
    end.

Declare Scope py_scope.
Delimit Scope py_scope with py.
Notation "x <- c ;; k" := (bind c (fun x => k))
  (at level 100, c at next level, right associativity) : py_scope.
Notation "c ;; k" := (bind c (fun _ => k))
  (at level 100, right associativity) : py_scope.
Local Open Scope py_scope.

Definition get_heap : M (gmap loc obj) := fun w => (Ok (heap w), w).

Definition put_heap (h : gmap loc obj) : M unit := fun w => (Ok tt, with_heap h w).

Definition emit (e : event) : M unit :=
  fun w =>
    (Ok tt,
     {| heap := heap w;
        _is_deepspeed_zero3_enabled := _is_deepspeed_zero3_enabled w;
        trace := (trace w ++ [e])%list |}).

(** [for x in xs: body(x)] *)
Fixpoint for_each {A} (xs : list A) (body : A -> M unit) : M unit :=
  match xs with
  | [] => ret tt
  | x :: rest => body x ;; for_each rest body
  end.

(** *** Objects *)

(** A new object gets a location that is not in use. *)
Definition alloc (o : obj) : M value :=
  fun w =>
    let l := fresh (dom (heap w)) in
    (Ok (VRef l), with_heap (<[l := o]> (heap w)) w).

(** The object a reference denotes; a reference to nothing does not
    occur in Python and raises [SystemError] here. *)
Definition load (l : loc) : M obj :=
  h <- get_heap ;;
  match h !! l with
  | Some o => ret o
  | None => raise SystemError
  end.

Definition store (l : loc) (o : obj) : M unit :=
  h <- get_heap ;; put_heap (<[l := o]> h).

(** [k in c] *)
Definition contains (c : value) (k : string) : M bool :=
  match c with
  | VRef l =>
      o <- load l ;;
      match o with
      | ODict items => ret (PyDict.mem k items)
      | OList elems => ret (existsb (fun v => py_eq_str v k) elems)
      end
  | VStr s => ret (PyStr.contains s k)
  | VNone | VBool _ | VInt _ | VFloat _ => raise TypeError
  end.

(** [c[k]] *)
Definition getitem (c : value) (k : string) : M value :=
  match c with
  | VRef l =>
      o <- load l ;;
      match o with
      | ODict items =>
          match PyDict.get k items with
          | Some v => ret v
          | None => raise (KeyError k)
          end
      | OList _ => raise TypeError
      end
  | _ => raise TypeError
  end.

(** [c[k] = v] *)
Definition setitem (c : value) (k : string) (v : value) : M unit :=
  match c with
  | VRef l =>
      o <- load l ;;
      match o with
      | ODict items => store l (ODict (PyDict.set k v items))
      | OList _ => raise TypeError
      end
  | _ => raise TypeError
  end.

(** [c.get(k)] *)
Definition get (c : value) (k : string) : M value :=
  match c with
  | VRef l =>
      o <- load l ;;
      match o with
      | ODict items =>
          ret (match PyDict.get k items with Some v => v | None => VNone end)
      | OList _ => raise AttributeError
      end
  | _ => raise AttributeError
  end.

(** [k in c.keys()] *)
Definition in_keys (k : string) (c : value) : M bool :=
  match c with
  | VRef l =>
      o <- load l ;;
      match o with
      | ODict items => ret (PyDict.mem k items)
      | OList _ => raise AttributeError
      end
  | _ => raise AttributeError
  end.

(** [isinstance(v, dict)] *)
Definition is_dict (v : value) : M bool :=
  h <- get_heap ;;
  ret (match v with
       | VRef l => match h !! l with Some (ODict _) => true | _ => false end
       | _ => false
       end).

(** *** [copy.deepcopy]

    The memo maps the objects already met to their copies, so that a
    shared or cyclic structure is copied once.  Each copy is created
    empty, entered in the memo, then filled element by element.  The
    recursion is on the number of objects, one inside the other, that
    the interpreter still lets the copy enter: at [0] the next object
    raises [RecursionError]. *)

Definition copy_state : Type := gmap loc obj * gmap loc loc.

Definition dict_store (kv : string * value) (v' : value) (o : obj) : obj :=
  match o with
  | ODict items => ODict (PyDict.set (fst kv) v' items)
  | OList _ => o
  end.

Definition list_append (_ : value) (v' : value) (o : obj) : obj :=
  match o with
  | OList elems => OList (elems ++ [v'])%list
  | ODict _ => o
  end.

(** [for x in xs: y <store> deepcopy(val x, memo)] *)
Fixpoint copy_elems {A} (rec : value -> copy_state -> res (value * copy_state))
    (y : loc) (val : A -> value) (put : A -> value -> obj -> obj)
    (xs : list A) (st : copy_state) : res copy_state :=
  match xs with
  | [] => Ok st
  | x :: rest =>
      match rec (val x) st with
      | Raise e => Raise e
      | Ok (v', (h, memo)) =>
          copy_elems rec y val put rest (alter (put x v') y h, memo)
      end
  end.

Fixpoint deepcopy_fuel (n : nat) (x : value) (st : copy_state)
  : res (value * copy_state) :=
  match x with
  | VRef l =>
      match snd st !! l with
      | Some y => Ok (VRef y, st)
      | None =>
          match n with
          | O => Raise RecursionError
          | S n' =>
              let y := fresh (dom (fst st)) in
              match fst st !! l with
              | None => Raise SystemError
              | Some (ODict items) =>
                  match copy_elems (deepcopy_fuel n') y snd dict_store items
                          (<[y := ODict []]> (fst st), <[l := y]> (snd st)) with
                  | Ok st' => Ok (VRef y, st')
                  | Raise e => Raise e
                  end
              | Some (OList elems) =>
                  match copy_elems (deepcopy_fuel n') y id list_append elems
                          (<[y := OList []]> (fst st), <[l := y]> (snd st)) with
                  | Ok st' => Ok (VRef y, st')
                  | Raise e => Raise e
                  end
              end
          end
      end
  | VNone | VBool _ | VInt _ | VFloat _ | VStr _ => Ok (x, st)
  end.

(** [deepcopy(x)]: an empty memo; [depth] is the nesting the recursion
    limit allows.  An exception leaves the new objects unreachable: the
    state is as before. *)
Definition deepcopy (depth : nat) (x : value) : M value :=
  fun w =>
    match deepcopy_fuel depth x (heap w, ∅) with
    | Ok (v, (h', _)) => (Ok v, with_heap h' w)
    | Raise e => (Raise e, w)
    end.

(** *** [json.load]: the tree becomes objects, children first *)

Section AllocChildren.
Context (alloc_child : json -> gmap loc obj -> value * gmap loc obj).

Fixpoint alloc_elems (js : list json) (h : gmap loc obj)
  : list value * gmap loc obj :=
  match js with
  | [] => ([], h)
  | j :: rest =>
      let '(v, h1) := alloc_child j h in
      let '(vs, h2) := alloc_elems rest h1 in
      (v :: vs, h2)
  end.

Fixpoint alloc_pairs (js : list (string * json)) (h : gmap loc obj)
  : list (string * value) * gmap loc obj :=
  match js with
  | [] => ([], h)
  | (k, j) :: rest =>
      let '(v, h1) := alloc_child j h in
      let '(kvs, h2) := alloc_pairs rest h1 in
      ((k, v) :: kvs, h2)
  end.

End AllocChildren.

Fixpoint alloc_json (j : json) (h : gmap loc obj) : value * gmap loc obj :=
  match j with
  | JNull => (VNone, h)
  | JBool b => (VBool b, h)
  | JInt z => (VInt z, h)
  | JFloat f => (VFloat f, h)
  | JStr s => (VStr s, h)
  | JList elems =>
      let '(vs, h1) := alloc_elems alloc_json elems h in
      let l := fresh (dom h1) in
      (VRef l, <[l := OList vs]> h1)
  | JDict pairs =>
      let '(kvs, h1) := alloc_pairs alloc_json pairs h in
      let l := fresh (dom h1) in
      (VRef l, <[l := ODict (PyDict.of_pairs kvs)]> h1)
  end.

(** The nesting of a JSON text: arrays and objects, one inside the
    other. *)
Section Depth.
Context (depth : json -> nat).

Fixpoint depth_elems (js : list json) : nat :=
  match js with
  | [] => O
  | j :: rest => Nat.max (depth j) (depth_elems rest)
  end.

Fixpoint depth_pairs (js : list (string * json)) : nat :=
  match js with
  | [] => O
  | (_, j) :: rest => Nat.max (depth j) (depth_pairs rest)
  end.

End Depth.

Fixpoint json_depth (j : json) : nat :=
  match j with
  | JNull | JBool _ | JInt _ | JFloat _ | JStr _ => O
  | JList elems => S (depth_elems json_depth elems)
  | JDict pairs => S (depth_pairs json_depth pairs)
  end.

(** [with io.open(path) as f: json.load(f)]; a text nested deeper than
    the recursion limit allows raises [RecursionError]. *)
Definition json_load (env : Env) (path : string) : M value :=
  match files env path with
  | FsMissing | FsDirectory => raise OSError
  | FsFile None => raise JSONDecodeError
  | FsFile (Some j) =>
      if Nat.ltb (json_depth_limit env) (json_depth j)
      then raise RecursionError
      else
        h <- get_heap ;;
        let '(v, h') := alloc_json j h in
        put_heap h' ;; ret v
  end.

(** [os.path.exists(path)] *)
Definition path_exists (env : Env) (path : string) : bool :=
  match files env path with
  | FsMissing => false
  | FsDirectory | FsFile _ => true
  end.

(** *** The functions of the module *)

(** [dep_version_check("deepspeed")] is defined in a module that is not
    among the sources; whether it passes is read from the environment. *)
Definition dep_version_check (env : Env) : M unit :=
  if deepspeed_version_ok env then ret tt else raise ImportError.

Definition deepspeed_parse_config (env : Env) (ds_config : value) : M value :=
  dep_version_check env ;;
  d <- is_dict ds_config ;;
  if d then deepcopy (deepcopy_depth env) ds_config
  else
    match ds_config with
    | VStr path => json_load env path
    | _ => raise (ValueError
                    "expecting either a path to a config file or a pre-populated dict")
    end.

Definition get_flag : M (option bool) :=
  fun w => (Ok (_is_deepspeed_zero3_enabled w), w).

Definition set_flag (v : option bool) : M unit :=
  fun w =>
    (Ok tt,
     {| heap := heap w;
        _is_deepspeed_zero3_enabled := v;
        trace := trace w |}).

Definition deepspeed_zero3_enable (enable : bool) : M unit :=
  set_flag (Some enable).

(** [sys.argv.index(x)], for an [x] that occurs *)
Fixpoint index_of (x : string) (l : list string) : nat :=
  match l with
  | [] => O
  | y :: rest => if String.eqb y x then O else S (index_of x rest)
  end.

(** The auto-discovery from the command line. *)
Definition discover_zero3 (env : Env) : M unit :=
  if existsb (String.eqb "--deepspeed") (argv env)
  then
    let idx := index_of "--deepspeed" (argv env) in
    match nth_error (argv env) (idx + 1) with
    | None => raise IndexError
    | Some ds_config =>
        if negb (path_exists env ds_config)
        then raise (ValueError "--deepspeed requires a valid path to a config file")
        else
          config <- deepspeed_parse_config env (VStr ds_config) ;;
          has_zero <- contains config "zero_optimization" ;;
          if has_zero
          then
            zero <- getitem config "zero_optimization" ;;
            has_stage <- contains zero "stage" ;;
            if has_stage
            then
              zero <- getitem config "zero_optimization" ;;
              stage <- getitem zero "stage" ;;
              if py_eq_int stage 3 then set_flag (Some true) else ret tt
            else ret tt
          else ret tt
    end
  else ret tt.

(** The result is the module-level variable: [Some b] is the bool [b]. *)
Definition is_deepspeed_zero3_enabled (env : Env) : M (option bool) :=
  flag <- get_flag ;;
  match flag with
  | None => set_flag (Some false) ;; discover_zero3 env
  | Some _ => ret tt
  end ;;
  get_flag.

(** Calls of [is_deepspeed_zero3_enabled] one after the other, each in
    the environment of its time; the results in order. *)
Fixpoint repeated_calls (envs : list Env) : M (list (option bool)) :=
  match envs with
  | [] => ret []
  | env :: rest =>
      r <- is_deepspeed_zero3_enabled env ;;
      rs <- repeated_calls rest ;;
      ret (r :: rs)
  end.

(** The fields of [trainer.args] and of the trainer that
    [deepspeed_init] reads. *)
Record TrainingArguments := {
  deepspeed : value;
  per_device_train_batch_size : Z;
  gradient_accumulation_steps : Z;
  max_grad_norm : spec_float;
  learning_rate : spec_float;
  adam_beta1 : spec_float;
  adam_beta2 : spec_float;
  adam_epsilon : spec_float;
  weight_decay : spec_float;
  warmup_steps : Z;
  fp16_opt_level : string;
  ort : bool
}.

Record Trainer := {
  args : TrainingArguments;
  fp16_backend : option string;
  hidden_size : Z;                   (* [model.config.hidden_size] *)
  original_module_hidden_size : Z    (* [model._original_module.config.hidden_size] *)
}.

(** What [deepspeed.initialize] was given stands for what it returns. *)
Record Engine := {
  engine_config : value;
  trainer_optimizer : bool;
  trainer_lr_scheduler : bool
}.

Definition bs_keys : list string :=
  ["train_batch_size"; "train_micro_batch_size_per_gpu"].

(** [f"{l}"] for a list of plain strings *)
Definition repr_list (l : list string) : string :=
  "[" ++ PyStr.join ", " (map (fun s => "'" ++ s ++ "'") l) ++ "]".

(** [[x for x in xs if x in config.keys()]] *)
Fixpoint present_keys (xs : list string) (config : value) : M (list string) :=
  match xs with
  | [] => ret []
  | x :: rest =>
      b <- in_keys x config ;;
      found <- present_keys rest config ;;
      ret (if b then x :: found else found)
  end.

(** The two messages, as they print. *)
Definition batch_keys_message : string :=
  "Do not include ['train_batch_size', 'train_micro_batch_size_per_gpu'] entries in the ds config file, as they will be set via --per_device_train_batch_size or its default".

Definition accumulation_message : string :=
  "Do not include gradient_accumulation_steps entries in the ds config file, as they will be set via --gradient_accumulation_steps or its default".

(** The two checks that refuse a config that sets the batch size or the
    gradient accumulation itself. *)
Definition check_batch_keys (config : value) : M unit :=
  found <- present_keys bs_keys config ;;
  if negb (Nat.eqb (length found) 0)
  then raise (ValueError
                ("Do not include " ++ repr_list bs_keys
                 ++ " entries in the ds config file, as they will be set via --per_device_train_batch_size or its default"))
  else
    b <- in_keys "gradient_accumulation_steps" config ;;
    if b
    then raise (ValueError
                  "Do not include gradient_accumulation_steps entries in the ds config file, as they will be set via --gradient_accumulation_steps or its default")
    else ret tt.

(** The merge of the batch size, the gradient accumulation and the
    gradient clipping. *)
Definition merge_batch_args (a : TrainingArguments) (config : value) : M unit :=
  setitem config "train_micro_batch_size_per_gpu" (VInt (per_device_train_batch_size a)) ;;
  setitem config "gradient_accumulation_steps" (VInt (gradient_accumulation_steps a)) ;;
  b <- contains config "gradient_clipping" ;;
  if b then ret tt
  else setitem config "gradient_clipping" (VFloat (max_grad_norm a)).

(** [for k, v in params.items(): if k in config[section]["params"]:
    config[section]["params"][k] = v] *)
Definition override_params (config : value) (section : string)
    (params : list (string * value)) : M unit :=
  for_each params
    (fun '(k, v) =>
       sec <- getitem config section ;;
       p <- getitem sec "params" ;;
       b <- contains p k ;;
       if b
       then
         sec <- getitem config section ;;
         p <- getitem sec "params" ;;
         setitem p k v
       else ret tt).

(** The optimizer section; the result tells whether the trainer's own
    optimizer is used. *)
Definition merge_optimizer (a : TrainingArguments) (config : value) : M bool :=
  b <- contains config "optimizer" ;;
  if b
  then
    betas <- alloc (OList [VFloat (adam_beta1 a); VFloat (adam_beta2 a)]) ;;
    override_params config "optimizer"
      [ ("lr", VFloat (learning_rate a));
        ("betas", betas);
        ("eps", VFloat (adam_epsilon a));
        ("weight_decay", VFloat (weight_decay a)) ] ;;
    ret false
  else
    has_zero <- contains config "zero_optimization" ;;
    offload <-
      (if has_zero
       then
         zero <- getitem config "zero_optimization" ;;
         has_offload <- contains zero "cpu_offload" ;;
         if has_offload
         then
           zero <- getitem config "zero_optimization" ;;
           v <- getitem zero "cpu_offload" ;;
           ret (py_is_True v)
         else ret false
       else ret false) ;;
    if offload
    then raise (ValueError "ZeRO Offload can only work with DeepSpeed optimizers")
    else
      emit CreateOptimizer ;;
      setitem config "zero_allow_untested_optimizer" (VBool true) ;;
      ret true.

(** The scheduler section; the result tells whether the trainer's own
    scheduler is used. *)
Definition merge_scheduler (a : TrainingArguments) (num_training_steps : Z)
    (config : value) : M bool :=
  b <- contains config "scheduler" ;;
  if b
  then
    sched <- getitem config "scheduler" ;;
    ty <- getitem sched "type" ;;
    (if py_eq_str ty "WarmupDecayLR"
     then
       sched <- getitem config "scheduler" ;;
       p <- getitem sched "params" ;;
       setitem p "total_num_steps" (VInt num_training_steps)
     else ret tt) ;;
    override_params config "scheduler"
      [ ("warmup_max_lr", VFloat (learning_rate a));
        ("warmup_num_steps", VInt (warmup_steps a)) ] ;;
    ret false
  else
    has_opt <- contains config "optimizer" ;;
    if has_opt
    then raise (ValueError
                  "At the moment HF scheduler + DeepSpeed optimizer combination is not possible")
    else
      emit (CreateScheduler num_training_steps) ;;
      ret true.

Definition merge_fp16 (t : Trainer) (config : value) : M unit :=
  match fp16_backend t with
  | None => ret tt
  | Some backend =>
      if String.eqb backend "apex"
      then
        b <- contains config "amp" ;;
        if b then ret tt
        else
          d <- alloc (ODict [ ("enabled", VBool true);
                              ("opt_level", VStr (fp16_opt_level (args t))) ]) ;;
          setitem config "amp" d
      else if String.eqb backend "amp"
      then
        b <- contains config "fp16" ;;
        if b then ret tt
        else
          d <- alloc (ODict [ ("enabled", VBool true) ]) ;;
          setitem config "fp16" d
      else ret tt
  end.

(** The int operand of a float product is converted first. *)
Definition float_of_int (z : Z) : M spec_float :=
  match float_of_Z z with
  | S754_infinity _ => raise OverflowError
  | f => ret f
  end.

(** The literal [0.9] *)
Definition float_0_9 : spec_float := S754_finite false 8106479329266893 (-53).

Definition merge_zero (t : Trainer) (config : value) : M unit :=
  b <- contains config "zero_optimization" ;;
  if b
  then
    zero <- getitem config "zero_optimization" ;;
    stage <- get zero "stage" ;;
    deepspeed_zero3_enable (py_eq_int stage 3) ;;
    let hidden_size :=
      if ort (args t) then original_module_hidden_size t else hidden_size t in
    v <- get zero "reduce_bucket_size" ;;
    (if py_eq_int v 0
     then setitem zero "reduce_bucket_size" (VInt (hidden_size * hidden_size))
     else ret tt) ;;
    v <- get zero "stage3_prefetch_bucket_size" ;;
    (if py_eq_int v 0
     then
       f <- float_of_int hidden_size ;;
       let x := SFmul prec emax float_0_9 f in
       f <- float_of_int hidden_size ;;
       setitem zero "stage3_prefetch_bucket_size" (VFloat (SFmul prec emax x f))
     else ret tt) ;;
    v <- get zero "stage3_param_persistence_threshold" ;;
    (if py_eq_int v 0
     then setitem zero "stage3_param_persistence_threshold" (VInt (10 * hidden_size))
     else ret tt)
  else ret tt.

(** The attempt to resume, after the engine exists. *)
Definition resume (env : Env) (resume_from_checkpoint : option string) : M unit :=
  match resume_from_checkpoint with
  | None => ret tt
  | Some path =>
      let deepspeed_checkpoint_dirs := glob env (path ++ "/global_step*") in
      if Nat.ltb 0 (length deepspeed_checkpoint_dirs)
      then
        emit (LoadCheckpoint path) ;;
        match load_checkpoint env path with
        | None => raise (ValueError
                           ("[deepspeed] failed to resume from checkpoint " ++ path))
        | Some _ => ret tt
        end
      else ret tt   (* the path has no deepspeed checkpoint: nothing is done *)
  end.

Definition deepspeed_init (env : Env) (t : Trainer) (num_training_steps : Z)
    (resume_from_checkpoint : option string) : M Engine :=
  (if deepspeed_importable env then ret tt else raise ImportError) ;;
  config <- deepspeed_parse_config env (deepspeed (args t)) ;;
  check_batch_keys config ;;
  merge_batch_args (args t) config ;;
  optimizer <- merge_optimizer (args t) config ;;
  lr_scheduler <- merge_scheduler (args t) num_training_steps config ;;
  merge_fp16 t config ;;
  merge_zero t config ;;
  emit (Initialize config optimizer lr_scheduler) ;;
  resume env resume_from_checkpoint ;;
  ret {| engine_config := config;
         trainer_optimizer := optimizer;
         trainer_lr_scheduler := lr_scheduler |}.

(** The path given to resume from lacks the state a DeepSpeed checkpoint
    has: no [global_step*] entry, or one the engine cannot load. *)
Definition lacks_checkpoint_state (env : Env) (path : string) : Prop :=
  glob env (path ++ "/global_step*") = [] \/ load_checkpoint env path = None.

(** *** What the statements about the store are made of *)

Definition obj_values (o : obj) : list value :=
  match o with
  | ODict items => PyDict.values items
  | OList elems => elems
  end.

Definition obj_wf (o : obj) : Prop :=
  match o with
  | ODict items => PyDict.wf items
  | OList _ => True
  end.

(** A set of locations that holds well-formed objects and every
    location they refer to. *)
Definition region_closed (h : gmap loc obj) (S : gset loc) : Prop :=
  forall l, l ∈ S ->
    exists o, h !! l = Some o /\ obj_wf o
              /\ forall r, In (VRef r) (obj_values o) -> r ∈ S.

(** The stores of Python: no reference to nothing, no repeated key. *)
Definition heap_wf (h : gmap loc obj) : Prop := region_closed h (dom h).

(** The same, as a test. *)
Definition obj_wfb (h : gmap loc obj) (o : obj) : bool :=
  match o with
  | ODict items => PyDict.wfb items
  | OList _ => true
  end
  && forallb (fun v => match v with
                       | VRef r => bool_decide (r ∈ dom h)
                       | _ => true
                       end) (obj_values o).

Definition heap_wfb (h : gmap loc obj) : bool :=
  forallb (fun lo => obj_wfb h (snd lo)) (map_to_list h).

(** [v'] is [v] with each reference replaced by its image under [memo]. *)
Definition copy_val (memo : gmap loc loc) (v v' : value) : Prop :=
  match v with
  | VRef l => exists y, memo !! l = Some y /\ v' = VRef y
  | _ => v' = v
  end.

Definition copy_obj (memo : gmap loc loc) (o o' : obj) : Prop :=
  match o, o' with
  | ODict items, ODict items' =>
      PyDict.keys items' = PyDict.keys items
      /\ Forall2 (copy_val memo) (PyDict.values items) (PyDict.values items')
  | OList elems, OList elems' => Forall2 (copy_val memo) elems elems'
  | _, _ => False
  end.

(** [v'] in [h'] is a deep copy of [v] in [h]: some one-to-one renaming
    [memo] of the objects [v] reaches sends [v] to [v'], each object to
    an object of the same shape, and nothing to a location of [h]. *)
Definition deep_copy (h h' : gmap loc obj) (v v' : value) : Prop :=
  exists memo : gmap loc loc,
    copy_val memo v v'
    /\ (forall l1 l2 y, memo !! l1 = Some y -> memo !! l2 = Some y -> l1 = l2)
    /\ forall l y, memo !! l = Some y ->
         (y ∉ dom h)
         /\ exists o o', h !! l = Some o /\ h' !! y = Some o' /\ copy_obj memo o o'.

(** The entry of a copied dict: the key of the original, the copied value. *)
Definition dict_entry (kv : string * value) (v' : value) : string * value :=
  (fst kv, v').

Definition val_in (S : gset loc) (v : value) : Prop :=
  match v with
  | VRef l => l ∈ S
  | _ => True
  end.

(** The invariant of a copy in progress.  [h0] is the store at the call
    and [S] a closed region of it; [P] holds the objects whose copies
    are still being filled. *)
Record copy_inv (h0 : gmap loc obj) (S P : gset loc) (st : copy_state) : Prop := {
  inv_old : h0 ⊆ fst st;
  inv_memo : forall l y, snd st !! l = Some y ->
               l ∈ S /\ (y ∉ dom h0) /\ y ∈ dom (fst st);
  inv_inj : forall l1 l2 y, snd st !! l1 = Some y -> snd st !! l2 = Some y -> l1 = l2;
  inv_done : forall l y, snd st !! l = Some y -> l ∉ P ->
               exists o o', h0 !! l = Some o /\ fst st !! y = Some o'
                            /\ copy_obj (snd st) o o';
  inv_new : forall y, y ∈ dom (fst st) ->
              y ∈ dom h0 \/ exists l, snd st !! l = Some y
}.

(** A value that is not a reference into [h0]. *)
Definition new_val (h0 : gmap loc obj) (v : value) : Prop :=
  match v with
  | VRef l => l ∉ dom h0
  | _ => True
  end.

(** The state leaves the objects of [h0] as they are, and no object
    outside [h0] refers into [h0]. *)
Definition good (h0 : gmap loc obj) (w : world) : Prop :=
  (forall l o, h0 !! l = Some o -> heap w !! l = Some o)
  /\ (forall l o, heap w !! l = Some o -> l ∉ dom h0 ->
        Forall (new_val h0) (obj_values o)).

(** The config at [c] has the batch size and the gradient accumulation
    of the trainer's arguments. *)
Definition batch_args_set (a : TrainingArguments) (c : loc) (w : world) : Prop :=
  exists items,
    heap w !! c = Some (ODict items)
    /\ PyDict.get "train_micro_batch_size_per_gpu" items
       = Some (VInt (per_device_train_batch_size a))
    /\ PyDict.get "gradient_accumulation_steps" items
       = Some (VInt (gradient_accumulation_steps a)).

Definition merged (h0 : gmap loc obj) (a : TrainingArguments) (c : loc) (w : world)
  : Prop :=
  good h0 w /\ batch_args_set a c w.

(** From a state in [P], [c] returns [a] in a state in [Q a] or raises
    in a state in [E]. *)
Definition hoare {A} (P : world -> Prop) (c : M A)
    (Q : A -> world -> Prop) (E : world -> Prop) : Prop :=
  forall w, P w ->
    match c w with
    | (Ok a, w') => Q a w'
    | (Raise _, w') => E w'
    end.

(** [c] keeps the invariant [I], and what it returns satisfies [Q]. *)
Definition keeps {A} (I : world -> Prop) (c : M A) (Q : A -> Prop) : Prop :=
  hoare I c (fun a w => I w /\ Q a) I.

(** The flag has been computed or set. *)
Definition flag_set (w : world) : Prop := is_Some (_is_deepspeed_zero3_enabled w).

(** The mapping given as [args.deepspeed], a dict or the path of a JSON
    file holding one, has the key [k]. *)
Definition config_has_key (env : Env) (w : world) (ds_config : value) (k : string)
  : Prop :=
  match ds_config with
  | VRef l => exists items, heap w !! l = Some (ODict items) /\ PyDict.mem k items = true
  | VStr path =>
      exists pairs, files env path = FsFile (Some (JDict pairs))
                    /\ PyDict.mem k pairs = true
  | _ => False
  end.

(** The mapping given as [args.deepspeed] is within what the recursion
    limit lets [deepspeed_parse_config] read: a dict in a store of fewer
    objects than [copy.deepcopy] can nest, or a file whose text is not
    nested deeper than [json.load] can parse. *)
Definition config_within_limits (env : Env) (w : world) (ds_config : value) : Prop :=
  match ds_config with
  | VRef _ => size (heap w) < deepcopy_depth env
  | VStr path =>
      forall j, files env path = FsFile (Some j) -> json_depth j <= json_depth_limit env
  | _ => True
  end.

(** The specification's sentence on resuming: a path that lacks the
    checkpoint state makes [deepspeed_init] raise. *)
Definition resume_must_raise (env : Env) (t : Trainer) (num_training_steps : Z)
    (path : string) (w : world) : Prop :=
  lacks_checkpoint_state env path ->
  raises (fst (deepspeed_init env t num_training_steps (Some path) w)) = true.

End DS.

(** ** The inputs of the examples *)

Module Examples.
Import DS.

(** DeepSpeed installed, nothing on the command line, no file, no
    checkpoint directory.  In each environment [copy.deepcopy] can
    follow 300 objects one inside the other and [json.load] 900. *)
Definition env_plain : Env :=
  {| argv := ["train.py"];
     files := fun _ => FsMissing;
     deepspeed_importable := true;
     deepspeed_version_ok := true;
     glob := fun _ => [];
     load_checkpoint := fun _ => None;
     deepcopy_depth := 300;
     json_depth_limit := 900 |}.

(** The same, with a checkpoint directory the engine fails to load. *)
Definition env_broken_checkpoint : Env :=
  {| argv := ["train.py"];
     files := fun _ => FsMissing;
     deepspeed_importable := true;
     deepspeed_version_ok := true;
     glob := fun pattern => ["ckpt/global_step10"];
     load_checkpoint := fun _ => None;
     deepcopy_depth := 300;
     json_depth_limit := 900 |}.

(** A command line [--deepspeed ds_config.json], the file holding
    [{"zero_optimization": {"stage": 3}}]. *)
Definition env_zero3_file : Env :=
  {| argv := ["train.py"; "--deepspeed"; "ds_config.json"];
     files := fun path =>
                if String.eqb path "ds_config.json"
                then FsFile (Some (JDict [("zero_optimization",
                                           JDict [("stage", JInt 3)])]))
                else FsMissing;
     deepspeed_importable := true;
     deepspeed_version_ok := true;
     glob := fun _ => [];
     load_checkpoint := fun _ => None;
     deepcopy_depth := 300;
     json_depth_limit := 900 |}.

(** The same command line, the file missing. *)
Definition env_zero3_no_file : Env :=
  {| argv := ["train.py"; "--deepspeed"; "ds_config.json"];
     files := fun _ => FsMissing;
     deepspeed_importable := true;
     deepspeed_version_ok := true;
     glob := fun _ => [];
     load_checkpoint := fun _ => None;
     deepcopy_depth := 300;
     json_depth_limit := 900 |}.

Definition world_of (h : gmap loc obj) : world :=
  {| heap := h; _is_deepspeed_zero3_enabled := None; trace := [] |}.

(** The user's dict [{}] at location 1. *)
Definition heap_empty_config : gmap loc obj := {[ 1%positive := ODict [] ]}.

(** The user's dict [{"train_batch_size": 16}]. *)
Definition heap_batch_config : gmap loc obj :=
  {[ 1%positive := ODict [("train_batch_size", VInt 16)] ]}.

(** The user's dict
    [{"optimizer": {"type": "AdamW", "params": {"lr": 0.0}},
      "scheduler": {"type": "WarmupDecayLR", "params": {"warmup_num_steps": 0}},
      "zero_optimization": {"stage": 3, "reduce_bucket_size": 0}}]. *)
Definition heap_nested_config : gmap loc obj :=
  <[ 1%positive := ODict [("optimizer", VRef 2); ("scheduler", VRef 4);
                          ("zero_optimization", VRef 6)] ]>
  (<[ 2%positive := ODict [("type", VStr "AdamW"); ("params", VRef 3)] ]>
   (<[ 3%positive := ODict [("lr", VFloat (S754_zero false))] ]>
    (<[ 4%positive := ODict [("type", VStr "WarmupDecayLR"); ("params", VRef 5)] ]>
     (<[ 5%positive := ODict [("warmup_num_steps", VInt 0)] ]>
      (<[ 6%positive := ODict [("stage", VInt 3); ("reduce_bucket_size", VInt 0)] ]>
       ∅))))).

(** A trainer with batch size 8 and gradient accumulation 2, given the
    dict at location 1. *)
Definition trainer_8_2 : Trainer :=
  {| args :=
       {| deepspeed := VRef 1;
          per_device_train_batch_size := 8;
          gradient_accumulation_steps := 2;
          max_grad_norm := float_of_Z 1;
          learning_rate := float_of_Z 0;
          adam_beta1 := float_of_Z 0;
          adam_beta2 := float_of_Z 1;
          adam_epsilon := float_of_Z 0;
          weight_decay := float_of_Z 0;
          warmup_steps := 100;
          fp16_opt_level := "O1";
          ort := false |};
     fp16_backend := Some "amp";
     hidden_size := 1024;
     original_module_hidden_size := 1024 |}.

End Examples.

(** ** The inputs of the examples on the Ray search *)

Module RayInputs.
Import Ray.

(** A trainer with a TensorBoard callback, a model and one GPU, that
    evaluates during training or does not. *)
Definition trainer_with (do_eval : bool) : Trainer :=
  {| has_tensorboard_callback := true;
     has_model := true;
     n_gpu := 1;
     _n_gpu := 1;
     do_eval := do_eval;
     evaluation_strategy := STEPS;
     use_tune_checkpoints := false;
     hp_space := Ok (KwObject "hp_space") |}.

(** The trial the analysis reports as the best. *)
Definition best_trial : Trial :=
  {| trial_id := "7";
     last_result := [("objective", float_of_Z 1)];
     config := [("seed", VInt 42)] |}.

(** A Ray that runs the search and reports [best_trial]. *)
Definition ray_reporting : RayTune :=
  {| with_parameters := Ok tt;
     run := fun _ _ _ => Ok {| get_best_trial := fun _ _ => Ok (Some best_trial) |} |}.

(** A Ray whose search fails. *)
Definition ray_failing : RayTune :=
  {| with_parameters := Ok tt;
     run := fun _ _ _ => Raise (RuntimeError "Trials did not complete") |}.

End RayInputs.

(** ** The hooks over a training run *)

Module Hooks.

(** The [Trainer] calls a hook once per logging step, each time with the
    state and the logs of that step; the callback object is the one the
    previous call left. *)
Fixpoint run {S : Type}
    (hook : S -> TrainerState -> list (string * value) -> S * list event)
    (s : S) (calls : list (TrainerState * list (string * value)))
  : S * list event :=
  match calls with
  | [] => (s, [])
  | (state, logs) :: rest =>
      let '(s1, tr1) := hook s state logs in
      let '(s2, tr2) := run hook s1 rest in
      (s2, (tr1 ++ tr2)%list)
  end.

(** The events that create the backing object: the TensorBoard writer,
    the W&B run, the MLflow run. *)
Definition is_setup (e : event) : bool :=
  match e with
  | TbNewWriter _ | WandbSetup | MlflowSetup => true
  | _ => false
  end.

Definition setups (tr : list event) : list event := List.filter is_setup tr.

End Hooks.

(** ** [AzureMLCallback.on_init_end] *)

Module AzureMLInit.

(** [self.azureml_run = Run.get_context()], on the main process and only
    when no run was given; the result tells whether [Run.get_context]
    was called. *)
Definition on_init_end (s : AzureML.self) (state : TrainerState)
  : AzureML.self * bool :=
  if negb (AzureML.azureml_run s) && is_world_process_zero state
  then ({| AzureML.azureml_run := true |}, true)
  else (s, false).

End AzureMLInit.

(** ** The availability probes *)

Module Probes.

(** What the probes observe.  [ENV_VARS_TRUE_VALUES] is defined in
    [file_utils], which is not among the sources, and [str.upper] is
    Python's: both are taken as given.  [_has_comet] is the module-level
    variable, computed when the module is imported. *)
Record Env := {
  find_spec : string -> bool;        (* [importlib.util.find_spec(name) is not None] *)
  getenv : string -> option string;  (* [os.environ] *)
  upper : string -> string;          (* [str.upper] *)
  ENV_VARS_TRUE_VALUES : list string;
  _has_comet : bool
}.

(** [os.getenv(name, default)] *)
Definition os_getenv (env : Env) (name default : string) : string :=
  match getenv env name with
  | Some v => v
  | None => default
  end.

Definition wandb_disabled_warning : string :=
  "Using the `WAND_DISABLED` environment variable is deprecated and will be removed in v5. Use the --report_to flag to control the integrations used for logging result (for instance --report_to none).".

(** The result and the warnings logged. *)
Definition is_wandb_available (env : Env) : bool * list string :=
  if existsb (String.eqb (upper env (os_getenv env "WANDB_DISABLED" "")))
       (ENV_VARS_TRUE_VALUES env)
  then (false, [wandb_disabled_warning])
  else (find_spec env "wandb", []).

Definition is_comet_available (env : Env) : bool := _has_comet env.

Definition is_tensorboard_available (env : Env) : bool :=
  find_spec env "tensorboard" || find_spec env "tensorboardX".

Definition is_optuna_available (env : Env) : bool := find_spec env "optuna".

Definition is_ray_available (env : Env) : bool := find_spec env "ray".

Definition is_ray_tune_available (env : Env) : bool :=
  if negb (is_ray_available env) then false
  else find_spec env "ray.tune".

Definition is_azureml_available (env : Env) : bool :=
  if negb (find_spec env "azureml") then false
  else if negb (find_spec env "azureml.core") then false
  else find_spec env "azureml.core.run".

Definition is_mlflow_available (env : Env) : bool := find_spec env "mlflow".

Definition is_fairscale_available (env : Env) : bool := find_spec env "fairscale".

Definition is_deepspeed_available (env : Env) : bool := find_spec env "deepspeed".

(** [integrations.append(name)] under its test *)
Definition append_if (b : bool) (name : string) (integrations : list string)
  : list string :=
  if b then (integrations ++ [name])%list else integrations.

(** The list, and the warnings logged on the way. *)
Definition get_available_reporting_integrations (env : Env)
  : list string * list string :=
  let integrations := [] in
  let integrations := append_if (is_azureml_available env) "azure_ml" integrations in
  let integrations := append_if (is_comet_available env) "comet_ml" integrations in
  let integrations := append_if (is_mlflow_available env) "mlflow" integrations in
  let integrations :=
    append_if (is_tensorboard_available env) "tensorboard" integrations in
  let '(wandb, warnings) := is_wandb_available env in
  let integrations := append_if wandb "wandb" integrations in
  (integrations, warnings).

(** The argument of [hp_params]: an [optuna.Trial] with its [params], a
    dict, or an object of another class. *)
Inductive trial :=
  | OptunaTrial (params : list (string * value))
  | DictTrial (d : list (string * value))
  | OtherTrial (class_repr : string).

(** [f"{trial.__class__}"] *)
Definition class_repr_of (t : trial) : string :=
  match t with
  | OptunaTrial _ => "<class 'optuna.trial._trial.Trial'>"
  | DictTrial _ => "<class 'dict'>"
  | OtherTrial c => c
  end.

Definition hp_params (env : Env) (t : trial) : res (list (string * value)) :=
  match (if is_optuna_available env
         then match t with OptunaTrial params => Some params | _ => None end
         else None) with
  | Some params => Ok params
  | None =>
      match (if is_ray_tune_available env
             then match t with DictTrial d => Some d | _ => None end
             else None) with
      | Some d => Ok d
      | None => Raise (RuntimeError ("Unknown type for trial " ++ class_repr_of t))
      end
  end.

(** [None] when neither backend is installed. *)
Definition default_hp_search_backend (env : Env) : option string :=
  if is_optuna_available env then Some "optuna"
  else if is_ray_tune_available env then Some "ray"
  else None.

End Probes.

(** ** [MLflowCallback.setup]: the parameters *)

Module MLflowSetup.

(** The two limits the constructor reads from [mlflow.utils.validation]. *)
Record Limits := {
  _MAX_PARAM_VAL_LENGTH : Z;
  _MAX_PARAMS_TAGS_PER_BATCH : Z
}.

Section Params.

(** The values of the parameters are any Python objects; the code
    looks at [len(str(value))] only. *)
Context {V : Type} (str_len : V -> nat).

Inductive event :=
  | StartRun
  | ParamWarning (name : string) (value : V)
  | LogParams (batch : list (string * V)).

(** [{**model_config, **combined_dict}] *)
Definition merge_dicts (model_config combined_dict : list (string * V))
  : list (string * V) :=
  fold_left (fun d '(k, v) => PyDict.set k v d) combined_dict model_config.

(** [del d[name]]; [None] is Python's [KeyError]. *)
Fixpoint del (name : string) (d : list (string * V)) : option (list (string * V)) :=
  match d with
  | [] => None
  | (k, v) :: rest =>
      if String.eqb name k then Some rest
      else match del name rest with
           | Some rest' => Some ((k, v) :: rest')
           | None => None
           end
  end.

(** The loop over [list(combined_dict.items())] that removes the
    values that are too long; the warnings are collected. *)
Fixpoint drop_long (limits : Limits) (snapshot : list (string * V))
    (combined_dict : list (string * V))
  : res (list (string * V)) * list event :=
  match snapshot with
  | [] => (Ok combined_dict, [])
  | (name, value) :: rest =>
      if Z.ltb (_MAX_PARAM_VAL_LENGTH limits) (Z.of_nat (str_len value))
      then
        match del name combined_dict with
        | None => (Raise (KeyError name), [ParamWarning name value])
        | Some d =>
            let '(r, warnings) := drop_long limits rest d in
            (r, ParamWarning name value :: warnings)
        end
      else drop_long limits rest combined_dict
  end.

(** [range(i, n, step)] for [step > 0]; no more than [fuel] elements. *)
Fixpoint range_from (fuel i n step : nat) : list nat :=
  match fuel with
  | O => []
  | S fuel' => if Nat.ltb i n then i :: range_from fuel' (i + step) n step else []
  end.

(** [range(0, n, step)] *)
Definition range0 (n : nat) (step : Z) : res (list nat) :=
  if Z.eqb step 0 then Raise (ValueError "range() arg 3 must not be zero")
  else if Z.ltb step 0 then Ok []
  else Ok (range_from n 0 n (Z.to_nat step)).

(** [items[i : i + size]] for [0 <= i] and [0 < size] *)
Definition slice (items : list (string * V)) (i : nat) (size : Z)
  : list (string * V) :=
  firstn (Z.to_nat size) (skipn i items).

(** The loop that logs the parameters batch by batch. *)
Definition log_in_batches (limits : Limits) (combined_dict : list (string * V))
  : res unit * list event :=
  let combined_dict_items := combined_dict in
  match range0 (length combined_dict_items) (_MAX_PARAMS_TAGS_PER_BATCH limits) with
  | Raise e => (Raise e, [])
  | Ok starts =>
      (Ok tt,
       map (fun i => LogParams
                       (PyDict.of_pairs
                          (slice combined_dict_items i
                             (_MAX_PARAMS_TAGS_PER_BATCH limits))))
           starts)
  end.

(** [setup]: [args_dict] is [args.to_dict()], [model_config] is
    [model.config.to_dict()] when the model has a config.  The result
    carries the callback as the call leaves it, also when it raises. *)
Definition setup (limits : Limits) (s : MLflow.self) (log_artifacts_env : bool)
    (state : TrainerState) (args_dict : list (string * V))
    (model_config : option (list (string * V)))
  : res unit * MLflow.self * list event :=
  let s1 := {| MLflow._initialized := MLflow._initialized s;
               MLflow._log_artifacts :=
                 if log_artifacts_env then true else MLflow._log_artifacts s |} in
  let done := {| MLflow._initialized := true;
                 MLflow._log_artifacts := MLflow._log_artifacts s1 |} in
  if is_world_process_zero state
  then
    let combined_dict := args_dict in
    let combined_dict :=
      match model_config with
      | Some model_config => merge_dicts model_config combined_dict
      | None => combined_dict
      end in
    match drop_long limits combined_dict combined_dict with
    | (Raise e, warnings) => (Raise e, s1, StartRun :: warnings)
    | (Ok combined_dict, warnings) =>
        match log_in_batches limits combined_dict with
        | (Raise e, logged) => (Raise e, s1, (StartRun :: warnings ++ logged)%list)
        | (Ok _, logged) => (Ok tt, done, (StartRun :: warnings ++ logged)%list)
        end
    end
  else (Ok tt, done, []).

(** What [setup] hands to [log_params], batch after batch. *)
Definition logged_params (tr : list event) : list (string * V) :=
  flat_map (fun e => match e with LogParams batch => batch | _ => [] end) tr.

(** The parameters [setup] warns about. *)
Definition warned_params (tr : list event) : list (string * V) :=
  flat_map (fun e => match e with ParamWarning name value => [(name, value)] | _ => [] end)
    tr.

Definition batches_of (tr : list event) : list (list (string * V)) :=
  flat_map (fun e => match e with LogParams batch => [batch] | _ => [] end) tr.

Definition short_enough (limits : Limits) (kv : string * V) : bool :=
  negb (Z.ltb (_MAX_PARAM_VAL_LENGTH limits) (Z.of_nat (str_len (snd kv)))).

(** [combined_dict] before the long values are removed. *)
Definition combined (args_dict : list (string * V))
    (model_config : option (list (string * V))) : list (string * V) :=
  match model_config with
  | Some model_config => merge_dicts model_config args_dict
  | None => args_dict
  end.

End Params.

End MLflowSetup.

(** ** Hyper-parameter search with Optuna, and the objective of a trial *)

Module Optuna.




Inductive event :=
  | CreateStudy (direction : string) (kwargs : list (string * value))
  | Optimize (n_trials : Z) (timeout n_jobs : value).


(** The first lines of [_objective], the same in the Optuna and in the
    Ray search: the checkpoint the trial resumes from.
    [PREFIX_CHECKPOINT_DIR] is defined in [trainer_utils], which is not
    among the sources, and [os.path.join] and [os.listdir] are the
    system's: they are taken as given. *)
Definition find_checkpoint (PREFIX_CHECKPOINT_DIR : string)
    (path_join : string -> string -> string) (listdir : string -> res (list string))
    (checkpoint_dir : option string) : res (option string) :=
  match checkpoint_dir with
  | None => Ok None
  | Some dir =>
      if String.eqb dir "" then Ok None
      else
        match listdir dir with
        | Raise e => Raise e
        | Ok subdirs =>
            Ok (fold_left
                  (fun checkpoint subdir =>
                     if PyStr.startswith subdir PREFIX_CHECKPOINT_DIR
                     then Some (path_join dir subdir)
                     else checkpoint)
                  subdirs None)
        end
  end.

End Optuna.

(** ** [deepspeed_init]: what the merge steps write *)

Module Frame.
Import DS.
Local Open Scope py_scope.

(** What [deepspeed_init] does once the batch size, the gradient
    accumulation and the gradient clipping are merged. *)
Definition init_tail (env : Env) (t : Trainer) (num_training_steps : Z)
    (resume_from_checkpoint : option string) (config : value) : M Engine :=
  optimizer <- merge_optimizer (args t) config ;;
  lr_scheduler <- merge_scheduler (args t) num_training_steps config ;;
  merge_fp16 t config ;;
  merge_zero t config ;;
  emit (Initialize config optimizer lr_scheduler) ;;
  resume env resume_from_checkpoint ;;
  ret {| engine_config := config;
         trainer_optimizer := optimizer;
         trainer_lr_scheduler := lr_scheduler |}.

(** The keys a config must not have. *)
Definition refused_keys : list string :=
  ["train_batch_size"; "train_micro_batch_size_per_gpu"; "gradient_accumulation_steps"].

(** The keys the first merge step writes. *)
Definition batch_keys : list string :=
  ["train_micro_batch_size_per_gpu"; "gradient_accumulation_steps"; "gradient_clipping"].

(** The keys the later steps write, in the config or in a section. *)
Definition tail_keys : list string :=
  ["lr"; "betas"; "eps"; "weight_decay"; "zero_allow_untested_optimizer";
   "total_num_steps"; "warmup_max_lr"; "warmup_num_steps";
   "amp"; "fp16";
   "reduce_bucket_size"; "stage3_prefetch_bucket_size";
   "stage3_param_persistence_threshold"].

(** The same keys, step by step: what [merge_optimizer], what
    [merge_scheduler], what [merge_fp16] and what [merge_zero] write. *)
Definition optimizer_keys : list string :=
  ["lr"; "betas"; "eps"; "weight_decay"; "zero_allow_untested_optimizer"].

Definition scheduler_keys : list string :=
  ["total_num_steps"; "warmup_max_lr"; "warmup_num_steps"].

Definition fp16_keys : list string := ["amp"; "fp16"].

Definition zero_keys : list string :=
  ["reduce_bucket_size"; "stage3_prefetch_bucket_size";
   "stage3_param_persistence_threshold"].

(** The dict at [c] has [k] with the value [v]. *)
Definition entry (c : loc) (k : string) (v : value) (w : world) : Prop :=
  exists items, heap w !! c = Some (ODict items) /\ PyDict.get k items = Some v.

(** The dict at [c] has no key [k]. *)
Definition lacks (c : loc) (k : string) (w : world) : Prop :=
  exists items, heap w !! c = Some (ODict items) /\ PyDict.mem k items = false.

(** The dict at [c] has the key [k]. *)
Definition has (c : loc) (k : string) (w : world) : Prop :=
  exists items, heap w !! c = Some (ODict items) /\ PyDict.mem k items = true.

(** The dict at [c] has the key [k], or not, as [b] says. *)
Definition key_is (c : loc) (k : string) (b : bool) (w : world) : Prop :=
  exists items, heap w !! c = Some (ODict items) /\ PyDict.mem k items = b.

(** [c.get(k)] on the dict at [c] gives [v]. *)
Definition dict_get (c : loc) (k : string) (v : value) (w : world) : Prop :=
  exists items,
    heap w !! c = Some (ODict items)
    /\ match PyDict.get k items with Some v' => v' | None => VNone end = v.

(** The dict at [c] has the value [ov] at [k], or no key [k] when [ov]
    is [None]. *)
Definition slot (c : loc) (k : string) (ov : option value) (w : world) : Prop :=
  exists items, heap w !! c = Some (ODict items) /\ PyDict.get k items = ov.

(** [hidden_size], as [merge_zero] reads it. *)
Definition model_hidden_size (t : Trainer) : Z :=
  if ort (args t) then original_module_hidden_size t else hidden_size t.

(** What [merge_zero] assigns to each size that is [0]:
    [hidden_size * hidden_size], [0.9 * hidden_size * hidden_size] and
    [10 * hidden_size]. *)
Definition bucket_defaults (t : Trainer) : list (string * value) :=
  [ ("reduce_bucket_size", VInt (model_hidden_size t * model_hidden_size t));
    ("stage3_prefetch_bucket_size",
     VFloat (SFmul prec emax
               (SFmul prec emax float_0_9 (float_of_Z (model_hidden_size t)))
               (float_of_Z (model_hidden_size t))));
    ("stage3_param_persistence_threshold", VInt (10 * model_hidden_size t)) ].

(** A key after [if d.get(k) == 0: d[k] = f]. *)
Definition filled (ov : option value) (f : value) : option value :=
  match ov with
  | Some v => if py_eq_int v 0 then Some f else Some v
  | None => None
  end.

(** [dict(warmup_max_lr=args.learning_rate, warmup_num_steps=args.warmup_steps)] *)
Definition scheduler_overrides (a : TrainingArguments) : list (string * value) :=
  [ ("warmup_max_lr", VFloat (learning_rate a));
    ("warmup_num_steps", VInt (warmup_steps a)) ].

(** A key after [if k in d: d[k] = v]. *)
Definition overridden (ov : option value) (v : value) : option value :=
  match ov with
  | Some _ => Some v
  | None => None
  end.

(** The keys the statements on the ZeRO section and on the scheduler
    section speak of. *)
Definition zero_section_keys : list string := "zero_optimization" :: zero_keys.

Definition scheduler_section_keys : list string :=
  ["scheduler"; "type"; "params"; "total_num_steps"; "warmup_max_lr"; "warmup_num_steps"].

(** The scheduler section [s] of the config [y], of type [ty], and its
    params [p] with the three keys [merge_scheduler] may write. *)
Definition scheduler_params (y s p : loc) (ty : value) (o0 o1 o2 : option value)
    (w : world) : Prop :=
  slot y "scheduler" (Some (VRef s)) w
  /\ slot s "type" (Some ty) w
  /\ slot s "params" (Some (VRef p)) w
  /\ slot p "total_num_steps" o0 w
  /\ slot p "warmup_max_lr" o1 w
  /\ slot p "warmup_num_steps" o2 w.

(** A key one of the later steps writes. *)
Definition written (k : string) : Prop := In k tail_keys.

(** [I] survives a write of a key in [K] into any dict, and the
    creation of an object. *)
Definition stable (K : string -> Prop) (I : world -> Prop) : Prop :=
  (forall w l items k v,
      I w -> heap w !! l = Some (ODict items) -> K k ->
      I (with_heap (<[l := ODict (PyDict.set k v items)]> (heap w)) w))
  /\ (forall w o, I w -> I (with_heap (<[fresh (dom (heap w)) := o]> (heap w)) w)).

(** [I] survives a call out of the module. *)
Definition emit_stable (I : world -> Prop) : Prop :=
  forall w e, I w -> I (snd (emit e w)).

(** [I] survives an assignment to the ZeRO-3 flag. *)
Definition flag_stable (I : world -> Prop) : Prop :=
  forall w f, I w -> I (snd (set_flag f w)).

End Frame.

(** ** The config file of the command line *)

Module ConfigFile.
Import DS.

(** [j == z] for a value read from JSON and an int literal *)
Definition json_eq_int (j : json) (z : Z) : bool :=
  match j with
  | JInt z' => Z.eqb z' z
  | JBool b => Z.eqb (Z.b2z b) z
  | JFloat f => SFeqb f (float_of_Z z)
  | JNull | JStr _ | JList _ | JDict _ => false
  end.

(** Whether the [zero_optimization] object [zero] of a config file says
    stage 3.  Of several entries with one key, [json.load] keeps the
    last. *)
Definition stage_is_3 (zero : list (string * json)) : bool :=
  match PyDict.get "stage" (PyDict.of_pairs zero) with
  | Some j => json_eq_int j 3
  | None => false
  end.

End ConfigFile.

(** ** More configs for the examples *)

Module Configs.
Import DS.

(** The user's dict [{"gradient_clipping": 5.0}]. *)
Definition heap_clipping_config : gmap loc obj :=
  {[ 1%positive := ODict [("gradient_clipping", VFloat (float_of_Z 5))] ]}.

(** The user's dict [{"optimizer": {"type": "AdamW", "params": {"lr": 0.0}}}]. *)
Definition heap_optimizer_config : gmap loc obj :=
  <[ 1%positive := ODict [("optimizer", VRef 2)] ]>
  (<[ 2%positive := ODict [("type", VStr "AdamW"); ("params", VRef 3)] ]>
   (<[ 3%positive := ODict [("lr", VFloat (S754_zero false))] ]> ∅)).

(** The user's dict [{"zero_optimization": {"stage": 2, "cpu_offload": True}}]. *)
Definition heap_offload_config : gmap loc obj :=
  <[ 1%positive := ODict [("zero_optimization", VRef 2)] ]>
  (<[ 2%positive := ODict [("stage", VInt 2); ("cpu_offload", VBool true)] ]> ∅).

(** A trainer as [trainer_8_2], given the path of a config file. *)
Definition trainer_with_file : Trainer :=
  {| args :=
       {| deepspeed := VStr "ds_config.json";
          per_device_train_batch_size := 8;
          gradient_accumulation_steps := 2;
          max_grad_norm := float_of_Z 1;
          learning_rate := float_of_Z 0;
          adam_beta1 := float_of_Z 0;
          adam_beta2 := float_of_Z 1;
          adam_epsilon := float_of_Z 0;
          weight_decay := float_of_Z 0;
          warmup_steps := 100;
          fp16_opt_level := "O1";
          ort := false |};
     fp16_backend := Some "amp";
     hidden_size := 1024;
     original_module_hidden_size := 1024 |}.

(** The file [ds_config.json] holding [{}]. *)
Definition env_empty_file : Env :=
  {| argv := ["train.py"];
     files := fun path =>
                if String.eqb path "ds_config.json"
                then FsFile (Some (JDict []))
                else FsMissing;
     deepspeed_importable := true;
     deepspeed_version_ok := true;
     glob := fun _ => [];
     load_checkpoint := fun _ => None;
     deepcopy_depth := 300;
     json_depth_limit := 900 |}.


End Configs.

(** * Proofs *)

Set Warnings "-clear-no-such-hyp".

(** * Strings and dicts *)

Section StringFacts.

Lemma startswith_app p r : PyStr.startswith (p ++ r) p = true.
Proof.
  unfold PyStr.startswith. induction p as [|a p IH]; simpl.
  - destruct r; reflexivity.
  - destruct (ascii_dec a a); [exact IH | congruence].
Qed.

Lemma startswith_inv p k :
  PyStr.startswith k p = true -> k = p ++ PyStr.slice_from (String.length p) k.
Proof.
  unfold PyStr.startswith. revert k.
  induction p as [|a p IH]; intros k H.
  - reflexivity.
  - destruct k as [|b k]; simpl in H; [discriminate|].
    destruct (ascii_dec a b) as [->|]; [|discriminate].
    change (String b k = String b (p ++ PyStr.slice_from (String.length p) k)).
    f_equal. apply IH, H.
Qed.

Lemma slice_from_app p r : PyStr.slice_from (String.length p) (p ++ r) = r.
Proof. induction p; simpl; auto. Qed.

Lemma app_inj_l (p a b : string) : p ++ a = p ++ b -> a = b.
Proof. induction p; simpl; intros H; [assumption | injection H; auto]. Qed.

End StringFacts.

Section DictFacts.
Context {V : Type}.
Implicit Types (d : list (string * V)) (k : string) (v : V).

Lemma get_None_not_in k d : PyDict.get k d = None <-> ~ In k (PyDict.keys d).
Proof.
  induction d as [|[k' v'] d IH]; simpl.
  - tauto.
  - destruct (String.eqb_spec k k') as [->|Hne].
    + split; [discriminate | intros H; exfalso; apply H; auto].
    + rewrite IH. split; [intros H [E|I]; [congruence | tauto] | tauto].
Qed.

Lemma mem_true_iff k d : PyDict.mem k d = true <-> In k (PyDict.keys d).
Proof.
  unfold PyDict.mem. destruct (PyDict.get k d) eqn:E.
  - split; [|reflexivity]. intros _.
    destruct (in_dec string_dec k (PyDict.keys d)) as [|N]; auto.
    apply get_None_not_in in N. congruence.
  - apply get_None_not_in in E. split; [discriminate | tauto].
Qed.

End DictFacts.

Lemma wfb_wf {V} (d : list (string * V)) : PyDict.wfb d = true -> PyDict.wf d.
Proof. unfold PyDict.wfb, PyDict.wf. apply bool_decide_eq_true_1. Qed.

Section DictUpdates.
Context {V : Type}.
Implicit Types (d : list (string * V)) (k : string) (v : V).

Lemma set_fresh k v d :
  ~ In k (PyDict.keys d) -> PyDict.set k v d = (d ++ [(k, v)])%list.
Proof.
  induction d as [|[k' v'] d IH]; simpl; intros H; [reflexivity|].
  destruct (String.eqb_spec k k') as [->|Hne]; [tauto|].
  rewrite IH; tauto.
Qed.

Lemma keys_set k v d :
  PyDict.keys (PyDict.set k v d) =
  if PyDict.mem k d then PyDict.keys d else (PyDict.keys d ++ [k])%list.
Proof.
  unfold PyDict.mem.
  induction d as [|[k' v'] d IH]; simpl; [reflexivity|].
  destruct (String.eqb_spec k k') as [->|Hne]; simpl; [reflexivity|].
  rewrite IH. destruct (PyDict.get k d); reflexivity.
Qed.

Lemma get_set_eq k v d : PyDict.get k (PyDict.set k v d) = Some v.
Proof.
  induction d as [|[k' v'] d IH]; simpl.
  - rewrite String.eqb_refl. reflexivity.
  - destruct (String.eqb_spec k k') as [->|Hne]; simpl.
    + rewrite String.eqb_refl. reflexivity.
    + destruct (String.eqb_spec k k'); [contradiction | exact IH].
Qed.

Lemma get_set_ne k k' v d :
  k <> k' -> PyDict.get k' (PyDict.set k v d) = PyDict.get k' d.
Proof.
  intros Hne. induction d as [|[k0 v0] d IH]; simpl.
  - destruct (String.eqb_spec k' k); [congruence | reflexivity].
  - destruct (String.eqb_spec k k0) as [->|Hne0]; simpl.
    + destruct (String.eqb_spec k' k0); [congruence | reflexivity].
    + destruct (String.eqb_spec k' k0); [reflexivity | exact IH].
Qed.

Lemma mem_set k k' v d :
  PyDict.mem k' (PyDict.set k v d) = String.eqb k' k || PyDict.mem k' d.
Proof.
  unfold PyDict.mem. destruct (String.eqb_spec k' k) as [->|Hne]; simpl.
  - rewrite get_set_eq. reflexivity.
  - rewrite get_set_ne by congruence. reflexivity.
Qed.

Lemma wf_set k v d : PyDict.wf d -> PyDict.wf (PyDict.set k v d).
Proof.
  unfold PyDict.wf. rewrite keys_set. intros H.
  destruct (PyDict.mem k d) eqn:E; [assumption|].
  apply NoDup_app. split; [assumption|]. split.
  - intros x Hx Hin. apply list_elem_of_In in Hin. simpl in Hin. destruct Hin as [->|[]].
    assert (PyDict.mem x d = true) by (apply mem_true_iff, list_elem_of_In, Hx).
    congruence.
  - apply NoDup_singleton.
Qed.

Lemma get_In k v d : PyDict.get k d = Some v -> In (k, v) d.
Proof.
  induction d as [|[k' v'] d IH]; simpl; [discriminate|].
  destruct (String.eqb_spec k k') as [->|Hne]; intros H.
  - left. congruence.
  - right. auto.
Qed.

Lemma In_get k v d : PyDict.wf d -> In (k, v) d -> PyDict.get k d = Some v.
Proof.
  unfold PyDict.wf. induction d as [|[k' v'] d IH]; simpl; [tauto|].
  intros Hnd [E|Hin].
  - injection E as -> ->. rewrite String.eqb_refl. reflexivity.
  - apply NoDup_cons in Hnd as [Hk' Hnd].
    destruct (String.eqb_spec k k') as [->|Hne]; [|auto].
    exfalso. apply Hk'. apply list_elem_of_In. apply (in_map fst) in Hin. exact Hin.
Qed.

End DictUpdates.

(** * [rewrite_logs] *)

Section RewriteLogsFacts.
Context {V : Type}.
Implicit Types (d : list (string * V)) (k : string) (v : V).

Lemma rewrite_key_eval rest : rewrite_key ("eval_" ++ rest) = "eval/" ++ rest.
Proof.
  unfold rewrite_key, eval_prefix_len, eval_prefix.
  rewrite startswith_app, slice_from_app. reflexivity.
Qed.

Lemma rewrite_key_train k :
  (forall rest, k <> "eval_" ++ rest) -> rewrite_key k = "train/" ++ k.
Proof.
  intros H. unfold rewrite_key.
  destruct (PyStr.startswith k eval_prefix) eqn:E; [|reflexivity].
  apply startswith_inv in E. exfalso. exact (H _ E).
Qed.

(** A key is either [eval_<rest>] or has no such prefix. *)
Lemma key_cases k :
  (exists rest, k = "eval_" ++ rest /\ rewrite_key k = "eval/" ++ rest)
  \/ ((forall rest, k <> "eval_" ++ rest) /\ rewrite_key k = "train/" ++ k).
Proof.
  destruct (PyStr.startswith k eval_prefix) eqn:E.
  - left. apply startswith_inv in E. eexists. split; [exact E|].
    rewrite E at 1. apply rewrite_key_eval.
  - right. assert (H : forall rest, k <> "eval_" ++ rest).
    { intros rest ->. change "eval_" with eval_prefix in E.
      rewrite startswith_app in E. discriminate. }
    split; [exact H | apply rewrite_key_train, H].
Qed.

Lemma rewrite_key_inj a b : rewrite_key a = rewrite_key b -> a = b.
Proof.
  destruct (key_cases a) as [(ra & -> & ->)|[Ha ->]],
           (key_cases b) as [(rb & -> & ->)|[Hb ->]]; intros H.
  - f_equal. exact (app_inj_l "eval/" _ _ H).
  - discriminate.
  - discriminate.
  - exact (app_inj_l "train/" _ _ H).
Qed.

Lemma rewrite_logs_fold d : forall acc,
  NoDup (PyDict.keys acc ++ map rewrite_key (PyDict.keys d)) ->
  fold_left
    (fun new_d '(k, v) =>
       if PyStr.startswith k eval_prefix
       then PyDict.set ("eval/" ++ PyStr.slice_from eval_prefix_len k) v new_d
       else PyDict.set ("train/" ++ k) v new_d)
    d acc
  = (acc ++ map rewrite_entry d)%list.
Proof.
  induction d as [|[k v] d IH]; intros acc Hnd; cbn [fold_left map].
  - rewrite app_nil_r. reflexivity.
  - cbn [PyDict.keys map fst] in Hnd.
    assert (Hfresh : ~ In (rewrite_key k) (PyDict.keys acc)).
    { apply NoDup_app in Hnd as (_ & Hdisj & _). intros Hin.
      apply (Hdisj (rewrite_key k)); [apply list_elem_of_In, Hin | left]. }
    assert (Hstep :
      (if PyStr.startswith k eval_prefix
       then PyDict.set ("eval/" ++ PyStr.slice_from eval_prefix_len k) v acc
       else PyDict.set ("train/" ++ k) v acc)
      = (acc ++ [(rewrite_key k, v)])%list).
    { rewrite <- (set_fresh _ _ _ Hfresh). unfold rewrite_key.
      destruct (PyStr.startswith k eval_prefix); reflexivity. }
    rewrite Hstep, IH.
    + rewrite <- app_assoc. reflexivity.
    + unfold PyDict.keys in *. rewrite map_app, <- app_assoc. exact Hnd.
Qed.

Lemma NoDup_rewrite_keys (ks : list string) :
  NoDup ks -> NoDup (map rewrite_key ks).
Proof.
  induction 1 as [|k ks Hk Hnd IH]; simpl; constructor; [|exact IH].
  intros Hin. apply list_elem_of_In, in_map_iff in Hin as (k' & E & Hin').
  apply rewrite_key_inj in E as ->. apply Hk, list_elem_of_In, Hin'.
Qed.

(** On a dict, the loop never overwrites: each entry is rewritten in
    place and the order is kept. *)
Lemma rewrite_logs_map d :
  PyDict.wf d -> rewrite_logs d = map rewrite_entry d.
Proof.
  intros Hwf. unfold rewrite_logs. rewrite rewrite_logs_fold; [reflexivity|].
  simpl. apply NoDup_rewrite_keys, Hwf.
Qed.

Lemma get_rewrite_entries k d :
  PyDict.get (rewrite_key k) (map rewrite_entry d) = PyDict.get k d.
Proof.
  induction d as [|[k' v'] d IH]; simpl; [reflexivity|].
  destruct (String.eqb_spec k k') as [->|Hne].
  - rewrite String.eqb_refl. reflexivity.
  - destruct (String.eqb_spec (rewrite_key k) (rewrite_key k')) as [E|_]; [|exact IH].
    apply rewrite_key_inj in E. contradiction.
Qed.

Lemma get_rewrite_entries_inv k' v d :
  PyDict.get k' (map rewrite_entry d) = Some v ->
  exists k, k' = rewrite_key k /\ PyDict.get k d = Some v.
Proof.
  induction d as [|[k0 v0] d IH]; simpl; [discriminate|].
  destruct (String.eqb_spec k' (rewrite_key k0)) as [->|Hne]; intros H.
  - exists k0. rewrite String.eqb_refl. split; [reflexivity | exact H].
  - destruct (IH H) as (k & -> & Hk). exists k. split; [reflexivity|].
    destruct (String.eqb_spec k k0) as [->|]; [contradiction | exact Hk].
Qed.

(** C1. For every dict [d], [rewrite_logs d] holds, for each key
    [eval_<rest>] of [d], the key [eval/<rest>], and for every other key
    [k] of [d] the key [train/<k>], each with the value [d[k]] unchanged;
    it has no other key, and as many entries as [d]. *)
Theorem rewrite_logs_spec d :
  PyDict.wf d ->
  (forall k v, PyDict.get k d = Some v ->
     (forall rest, k = "eval_" ++ rest ->
        PyDict.get ("eval/" ++ rest) (rewrite_logs d) = Some v)
     /\ ((forall rest, k <> "eval_" ++ rest) ->
        PyDict.get ("train/" ++ k) (rewrite_logs d) = Some v))
  /\ (forall k' v, PyDict.get k' (rewrite_logs d) = Some v ->
        exists k, PyDict.get k d = Some v
          /\ ((exists rest, k = "eval_" ++ rest /\ k' = "eval/" ++ rest)
              \/ ((forall rest, k <> "eval_" ++ rest) /\ k' = "train/" ++ k)))
  /\ PyDict.wf (rewrite_logs d)
  /\ length (rewrite_logs d) = length d.
Proof.
  intros Hwf. rewrite (rewrite_logs_map d Hwf). repeat split.
  - intros rest ->. rewrite <- rewrite_key_eval, get_rewrite_entries. assumption.
  - intros Hk. rewrite <- (rewrite_key_train k Hk), get_rewrite_entries. assumption.
  - intros k' v H. apply get_rewrite_entries_inv in H as (k & -> & Hk).
    exists k. split; [exact Hk|].
    destruct (key_cases k) as [(rest & E1 & E2)|[E1 E2]]; [left | right]; eauto.
  - unfold PyDict.wf, PyDict.keys. rewrite map_map. simpl.
    rewrite <- (map_map fst rewrite_key). apply NoDup_rewrite_keys, Hwf.
  - apply length_map.
Qed.

End RewriteLogsFacts.

Example rewrite_logs_example :
  rewrite_logs [("eval_loss", VInt 1); ("loss", VInt 2); ("eval_", VInt 3); ("eval", VInt 4)]
  = [("eval/loss", VInt 1); ("train/loss", VInt 2); ("eval/", VInt 3); ("train/eval", VInt 4)].
Proof. reflexivity. Qed.

Lemma rewrite_logs_spec_witness :
  PyDict.get "eval/loss" (rewrite_logs [("eval_loss", VInt 1); ("loss", VInt 2)]) = Some (VInt 1)
  /\ PyDict.get "train/loss" (rewrite_logs [("eval_loss", VInt 1); ("loss", VInt 2)]) = Some (VInt 2).
Proof.
  assert (Hwf : PyDict.wf [("eval_loss", VInt 1%Z); ("loss", VInt 2%Z)]).
  { apply wfb_wf. reflexivity. }
  destruct (rewrite_logs_spec _ Hwf) as (H & _).
  split.
  - apply (proj1 (H "eval_loss" (VInt 1%Z) eq_refl) "loss" eq_refl).
  - apply (proj2 (H "loss" (VInt 2%Z) eq_refl)). intros rest E. discriminate E.
Defined.

(** * The registry of reporting integrations *)

Section Registry.

Lemma valid_names_keys : PyDict.keys INTEGRATION_TO_CALLBACK = valid_names.
Proof. reflexivity. Qed.

Lemma registry_mem name :
  PyDict.mem name INTEGRATION_TO_CALLBACK = true <-> In name valid_names.
Proof. rewrite mem_true_iff. reflexivity. Qed.

Lemma check_integrations_ok report_to :
  Forall (fun name => In name valid_names) report_to ->
  check_integrations report_to = Ok tt.
Proof.
  induction 1 as [|name rest Hname _ IH]; cbn [check_integrations]; [reflexivity|].
  apply registry_mem in Hname. rewrite Hname. exact IH.
Qed.

Lemma lookup_integrations_ok report_to :
  Forall (fun name => In name valid_names) report_to ->
  exists cbs, lookup_integrations report_to = Ok cbs
    /\ Forall2 (fun name cb => In (name, cb) INTEGRATION_TO_CALLBACK) report_to cbs.
Proof.
  induction 1 as [|name rest Hname _ (cbs & Hcbs & Hall)]; cbn [lookup_integrations].
  - exists []. split; [reflexivity | constructor].
  - apply registry_mem in Hname. unfold PyDict.mem in Hname.
    destruct (PyDict.get name INTEGRATION_TO_CALLBACK) as [cb|] eqn:E; [|discriminate].
    rewrite Hcbs. exists (cb :: cbs). split; [reflexivity|].
    constructor; [apply get_In, E | exact Hall].
Qed.

(** C2. When every requested name is one of the five integrations, the
    result is the list of their callback classes, one per name and in the
    order of the request; [["wandb"; "mlflow"]] gives
    [[WandbCallback; MLflowCallback]]. *)
Theorem get_reporting_integration_callbacks_valid report_to :
  Forall (fun name => In name ["azure_ml"; "comet_ml"; "mlflow"; "tensorboard"; "wandb"])
         report_to ->
  (exists cbs,
      get_reporting_integration_callbacks report_to = Ok cbs
      /\ Forall2 (fun name cb => In (name, cb) INTEGRATION_TO_CALLBACK) report_to cbs)
  /\ get_reporting_integration_callbacks ["wandb"; "mlflow"]
     = Ok [WandbCallback; MLflowCallback].
Proof.
  intros Hall. split; [|reflexivity].
  unfold get_reporting_integration_callbacks.
  rewrite (check_integrations_ok _ Hall).
  apply lookup_integrations_ok, Hall.
Qed.

Lemma check_integrations_bad report_to :
  Exists (fun name => ~ In name valid_names) report_to ->
  exists before bad after,
    report_to = (before ++ bad :: after)%list
    /\ Forall (fun name => In name valid_names) before
    /\ ~ In bad valid_names
    /\ check_integrations report_to = Raise (ValueError
                (bad ++ " is not supported, only azure_ml, comet_ml, mlflow, tensorboard, wandb are supported.")).
Proof.
  induction report_to as [|name rest IH]; intros Hex; [inversion Hex|].
  cbn [check_integrations].
  destruct (PyDict.mem name INTEGRATION_TO_CALLBACK) eqn:E; cbn [negb].
  - apply registry_mem in E.
    assert (Hrest : Exists (fun name => ~ In name valid_names) rest).
    { inversion Hex; subst; [contradiction | assumption]. }
    destruct (IH Hrest) as (before & bad & after & -> & Hb & Hbad & Hres).
    exists (name :: before), bad, after. repeat split; auto.
  - exists [], name, rest. repeat split; auto.
    intros Hin. apply registry_mem in Hin. congruence.
Qed.

(** C3. When some requested name is not one of the five integrations,
    the call raises a [ValueError] and returns no list; the message names
    the first such entry and lists the five valid names. *)
Theorem get_reporting_integration_callbacks_invalid report_to :
  Exists (fun name => ~ In name ["azure_ml"; "comet_ml"; "mlflow"; "tensorboard"; "wandb"])
         report_to ->
  exists before bad after,
    report_to = (before ++ bad :: after)%list
    /\ Forall (fun name => In name ["azure_ml"; "comet_ml"; "mlflow"; "tensorboard"; "wandb"])
              before
    /\ ~ In bad ["azure_ml"; "comet_ml"; "mlflow"; "tensorboard"; "wandb"]
    /\ get_reporting_integration_callbacks report_to
       = Raise (ValueError
                  (bad ++ " is not supported, only azure_ml, comet_ml, mlflow, tensorboard, wandb are supported.")).
Proof.
  intros Hex.
  destruct (check_integrations_bad _ Hex) as (before & bad & after & E & Hb & Hbad & Hres).
  exists before, bad, after. repeat split; auto.
  unfold get_reporting_integration_callbacks. rewrite Hres. reflexivity.
Qed.

End Registry.

Example get_reporting_integration_callbacks_bogus :
  get_reporting_integration_callbacks ["bogus"]
  = Raise (ValueError
             "bogus is not supported, only azure_ml, comet_ml, mlflow, tensorboard, wandb are supported.").
Proof. reflexivity. Qed.

Lemma get_reporting_integration_callbacks_valid_witness :
  exists cbs,
    get_reporting_integration_callbacks ["tensorboard"; "azure_ml"] = Ok cbs
    /\ Forall2 (fun name cb => In (name, cb) INTEGRATION_TO_CALLBACK)
               ["tensorboard"; "azure_ml"] cbs.
Proof.
  apply (get_reporting_integration_callbacks_valid ["tensorboard"; "azure_ml"]).
  repeat constructor; simpl; tauto.
Defined.

Lemma get_reporting_integration_callbacks_invalid_witness :
  exists before bad after,
    ["wandb"; "bogus"] = (before ++ bad :: after)%list
    /\ Forall (fun name => In name ["azure_ml"; "comet_ml"; "mlflow"; "tensorboard"; "wandb"])
              before
    /\ ~ In bad ["azure_ml"; "comet_ml"; "mlflow"; "tensorboard"; "wandb"]
    /\ get_reporting_integration_callbacks ["wandb"; "bogus"]
       = Raise (ValueError
                  (bad ++ " is not supported, only azure_ml, comet_ml, mlflow, tensorboard, wandb are supported.")).
Proof.
  apply (get_reporting_integration_callbacks_invalid ["wandb"; "bogus"]).
  apply Exists_cons_tl, Exists_cons_hd. simpl. intros H.
  repeat (destruct H as [H|H]; [discriminate H|]). exact H.
Defined.

(** * The [on_log] hooks *)

Section OnLog.
Implicit Types (logs : list (string * value)) (tr : list event).

Lemma forwarded_by_app tr1 tr2 :
  forwarded_by (tr1 ++ tr2) = (forwarded_by tr1 ++ forwarded_by tr2)%list.
Proof. apply flat_map_app. Qed.

Lemma warnings_of_app tr1 tr2 :
  warnings_of (tr1 ++ tr2) = (warnings_of tr1 ++ warnings_of tr2)%list.
Proof. apply flat_map_app. Qed.





Lemma azure_loop_forwarded logs :
  forwarded_by (AzureML.log_entries logs) = List.filter numeric_entry logs.
Proof.
  induction logs as [|[k v] logs IH]; [reflexivity|].
  unfold numeric_entry in *. cbn [AzureML.log_entries flat_map List.filter snd].
  rewrite forwarded_by_app. fold (AzureML.log_entries logs). rewrite IH.
  destruct (is_int_or_float v); reflexivity.
Qed.

Lemma azure_loop_warnings logs : warnings_of (AzureML.log_entries logs) = [].
Proof.
  induction logs as [|[k v] logs IH]; [reflexivity|].
  cbn [AzureML.log_entries flat_map]. rewrite warnings_of_app.
  fold (AzureML.log_entries logs). rewrite IH.
  destruct (is_int_or_float v); reflexivity.
Qed.





Lemma wandb_trace s state logs :
  Wandb._wandb s = true ->
  is_world_process_zero state = true ->
  exists tr1,
    snd (Wandb.on_log s state logs)
    = (tr1 ++ [WandbLog (PyDict.set "train/global_step" (VInt (global_step state))
                                    (rewrite_logs logs))])%list
    /\ forwarded_by tr1 = [] /\ warnings_of tr1 = [].
Proof.
  intros Hw Hz. unfold Wandb.on_log, Wandb.setup. rewrite Hw, Hz. cbn [negb].
  destruct (Wandb._initialized s); cbn [negb snd].
  - exists []. repeat split.
  - eexists [_]. repeat split.
Qed.



End OnLog.

(** One logs mapping, a loss and a string, through the four hooks. *)
Example on_log_traces :
  let state := {| is_world_process_zero := true; global_step := 7 |} in
  let logs := [("loss", VInt 2); ("note", VStr "diverged")] in
  on_log (OfTensorBoard {| TensorBoard._SummaryWriter := true;
                           TensorBoard.tb_writer := Some "runs" |}
                        {| logging_dir := "runs" |}) state logs
  = [TbAddScalar "train/loss" (VInt 2) 7; LoggerWarning "train/note" (VStr "diverged"); TbFlush]
  /\ on_log (OfMLflow {| MLflow._initialized := true; MLflow._log_artifacts := false |} false)
            state logs
     = [MlflowLogMetric "loss" (VInt 2) 7; LoggerWarning "note" (VStr "diverged")]
  /\ on_log (OfAzureML {| AzureML.azureml_run := true |}) state logs
     = [AzureRunLog "loss" (VInt 2) "loss"]
  /\ on_log (OfWandb {| Wandb._wandb := true; Wandb._initialized := true |}) state logs
     = [WandbLog [("train/loss", VInt 2); ("train/note", VStr "diverged");
                  ("train/global_step", VInt 7)]].
Proof. cbv zeta. repeat split; reflexivity. Qed.



(** * [run_hp_search_ray] *)

Section RaySearch.
Import Ray.
Implicit Types (trainer : Trainer) (kwargs : list (string * kwvalue)).


Lemma keep_checkpoints_step_eval trainer kwargs :
  do_eval (snd (keep_checkpoints_step trainer kwargs)) = do_eval trainer
  /\ evaluation_strategy (snd (keep_checkpoints_step trainer kwargs))
     = evaluation_strategy trainer.
Proof.
  unfold keep_checkpoints_step.
  destruct (PyDict.get "keep_checkpoints_num" kwargs) as [k|]; [|split; reflexivity].
  destruct (gt_int k 0) as [[]|]; try (split; reflexivity).
  destruct (gt_int k 1) as [[]|]; try (split; reflexivity).
  destruct (PyDict.get "keep_checkpoint_num" kwargs); split; reflexivity.
Qed.


(** C7, at the input on which the code departs from it: with
    [keep_checkpoints_num=2] the text of the warning reads the key
    [keep_checkpoint_num], which is absent, and the call raises a
    [KeyError] before the scheduler is looked at. *)
Theorem run_hp_search_ray_misspelt_key ray trainer n_trials direction sched :
  fst (fst (run_hp_search_ray ray trainer n_trials direction
              [("scheduler", KwScheduler sched); ("keep_checkpoints_num", KwInt 2)]))
  = Raise (KeyError "keep_checkpoint_num")
  /\ snd (run_hp_search_ray ray trainer n_trials direction
            [("scheduler", KwScheduler sched); ("keep_checkpoints_num", KwInt 2)])
     = [].
Proof.
  unfold run_hp_search_ray, default_resources. cbn.
  destruct (Z.ltb 0 (n_gpu trainer)); split; reflexivity.
Qed.

End RaySearch.


(** * [copy.deepcopy] *)

(** Split a conjunction, and nothing else. *)
Ltac conjs := repeat match goal with |- _ /\ _ => split end.

Section DeepCopy.
Import DS.

Lemma copy_val_mono m m' v v' : m ⊆ m' -> copy_val m v v' -> copy_val m' v v'.
Proof.
  intros Hsub. destruct v; simpl; auto.
  intros (y & Hy & ->). exists y. split; [|reflexivity].
  eapply lookup_weaken; eassumption.
Qed.

Lemma copy_vals_mono m m' vs vs' :
  m ⊆ m' -> Forall2 (copy_val m) vs vs' -> Forall2 (copy_val m') vs vs'.
Proof.
  intros Hsub H. eapply Forall2_impl; [exact H|].
  intros v v'. apply copy_val_mono, Hsub.
Qed.

Lemma copy_obj_mono m m' o o' : m ⊆ m' -> copy_obj m o o' -> copy_obj m' o o'.
Proof.
  intros Hsub. destruct o, o'; simpl; try tauto.
  - intros [Hk Hv]. split; [exact Hk | eapply copy_vals_mono; eassumption].
  - apply copy_vals_mono, Hsub.
Qed.

(** The values of a copy refer to copies only. *)
Lemma copy_vals_new (h0 : gmap loc obj) (m : gmap loc loc) vs vs' :
  (forall l y, m !! l = Some y -> y ∉ dom h0) ->
  Forall2 (copy_val m) vs vs' -> Forall (new_val h0) vs'.
Proof.
  intros Hm. induction 1 as [|v v' vs vs' Hv _ IH]; constructor; [|exact IH].
  destruct v; simpl in Hv; subst; simpl; auto.
  destruct Hv as (y & Hy & ->). simpl. eapply Hm, Hy.
Qed.

Lemma copy_obj_new (h0 : gmap loc obj) (m : gmap loc loc) o o' :
  (forall l y, m !! l = Some y -> y ∉ dom h0) ->
  copy_obj m o o' -> Forall (new_val h0) (obj_values o').
Proof.
  intros Hm. destruct o, o'; simpl; try tauto.
  - intros [_ Hv]. eapply copy_vals_new; eassumption.
  - apply copy_vals_new, Hm.
Qed.

Section Loop.
Context (h0 : gmap loc obj) (S : gset loc) (n : nat).
Context (IHn : forall x st P,
            copy_inv h0 S P st -> val_in S x -> size (S ∖ dom (snd st)) < n ->
            exists v' st',
              deepcopy_fuel n x st = Ok (v', st')
              /\ copy_inv h0 S P st'
              /\ snd st ⊆ snd st' /\ fst st ⊆ fst st'
              /\ copy_val (snd st') x v').
Context {A B : Type} (val : A -> value) (put : A -> value -> obj -> obj).
Context (wrap : list B -> obj) (mk : A -> value -> B).
Context (all : list A) (y ly : loc) (P : gset loc).
Context (Hput : forall pre x post vs v',
            all = (pre ++ x :: post)%list -> length vs = length pre ->
            put x v' (wrap (zip_with mk pre vs))
            = wrap (zip_with mk (pre ++ [x]) (vs ++ [v']))).
Context (Hy0 : y ∉ dom h0) (HlyP : ly ∈ P).

Lemma copy_inv_alter f st :
  copy_inv h0 S P st -> snd st !! ly = Some y ->
  copy_inv h0 S P (alter f y (fst st), snd st).
Proof.
  intros [Hold Hmemo Hinj Hdone Hnew] Hly. split; cbn [fst snd].
  - apply map_subseteq_spec. intros l o Hl.
    rewrite lookup_alter_ne.
    + eapply lookup_weaken; eassumption.
    + intros ->. apply Hy0. apply elem_of_dom. eauto.
  - intros l y' Hl. destruct (Hmemo l y' Hl) as (H1 & H2 & H3).
    split; [exact H1|]. split; [exact H2|]. rewrite dom_alter_L. exact H3.
  - exact Hinj.
  - intros l y' Hl HlP. destruct (Hdone l y' Hl HlP) as (o & o' & Ho & Ho' & Hc).
    exists o, o'. repeat split; auto.
    rewrite lookup_alter_ne; [exact Ho'|].
    intros ->. apply HlP. rewrite <- (Hinj _ _ _ Hly Hl). exact HlyP.
  - intros y'. rewrite dom_alter_L. apply Hnew.
Qed.

Lemma copy_elems_correct rest : forall done vs st,
  all = (done ++ rest)%list ->
  copy_inv h0 S P st ->
  snd st !! ly = Some y ->
  fst st !! y = Some (wrap (zip_with mk done vs)) ->
  length vs = length done ->
  Forall2 (copy_val (snd st)) (map val done) vs ->
  Forall (val_in S) (map val rest) ->
  size (S ∖ dom (snd st)) < n ->
  exists st' vs',
    copy_elems (deepcopy_fuel n) y val put rest st = Ok st'
    /\ copy_inv h0 S P st'
    /\ snd st ⊆ snd st'
    /\ (forall l o, l <> y -> fst st !! l = Some o -> fst st' !! l = Some o)
    /\ fst st' !! y = Some (wrap (zip_with mk all vs'))
    /\ length vs' = length all
    /\ Forall2 (copy_val (snd st')) (map val all) vs'.
Proof.
  induction rest as [|x rest IH]; intros done vs st Hall Hinv Hly Hy Hlen Hvs Hrest Hsize.
  - rewrite app_nil_r in Hall. subst done.
    exists st, vs. cbn [copy_elems]. conjs; auto.
  - cbn [copy_elems].
    apply Forall_cons in Hrest as [Hx Hrest].
    destruct (IHn (val x) st P Hinv Hx Hsize) as (v' & [h1 m1] & -> & Hinv1 & Hm & Hh & Hv').
    cbn [fst snd] in *.
    assert (Hly1 : m1 !! ly = Some y) by (eapply lookup_weaken; eassumption).
    assert (Hy1 : h1 !! y = Some (wrap (zip_with mk done vs)))
      by (eapply lookup_weaken; eassumption).
    pose proof (copy_inv_alter (put x v') (h1, m1) Hinv1 Hly1) as Hinv2.
    cbn [fst snd] in Hinv2.
    destruct (IH (done ++ [x])%list (vs ++ [v'])%list (alter (put x v') y h1, m1))
      as (st' & vs' & Hrun & Hinv' & Hm' & Hframe & Hy' & Hlen' & Hvs').
    + rewrite <- app_assoc. exact Hall.
    + exact Hinv2.
    + exact Hly1.
    + cbn [fst]. rewrite lookup_alter_eq, Hy1. cbn.
      f_equal. eapply Hput; eassumption.
    + rewrite !length_app, Hlen. reflexivity.
    + cbn [snd]. rewrite map_app. apply Forall2_app.
      * eapply copy_vals_mono; eassumption.
      * repeat constructor. exact Hv'.
    + exact Hrest.
    + cbn [snd]. eapply Nat.le_lt_trans; [|exact Hsize].
      apply subseteq_size. apply difference_mono_l, subseteq_dom, Hm.
    + exists st', vs'. conjs; auto.
      * etransitivity; eassumption.
      * intros l o Hne Hl. apply Hframe; [exact Hne|]. cbn [fst].
        rewrite lookup_alter_ne by congruence.
        eapply lookup_weaken; eassumption.
Qed.

End Loop.

Lemma zip_with_snoc {X Y Z : Type} (f : X -> Y -> Z) xs ys x y :
  length ys = length xs ->
  zip_with f (xs ++ [x]) (ys ++ [y]) = (zip_with f xs ys ++ [f x y])%list.
Proof.
  revert ys. induction xs as [|x0 xs IH]; intros [|y0 ys] Hlen; simpl in *;
    try discriminate; [reflexivity|].
  f_equal. apply IH. congruence.
Qed.

Lemma keys_zip_entries (items : list (string * value)) vs :
  length vs = length items ->
  PyDict.keys (zip_with dict_entry items vs) = PyDict.keys items.
Proof.
  revert vs. induction items as [|[k v] items IH]; intros [|v' vs] Hlen; simpl in *;
    try discriminate; [reflexivity|].
  f_equal. apply IH. congruence.
Qed.

Lemma values_zip_entries (items : list (string * value)) vs :
  length vs = length items ->
  PyDict.values (zip_with dict_entry items vs) = vs.
Proof.
  revert vs. induction items as [|[k v] items IH]; intros [|v' vs] Hlen; simpl in *;
    try discriminate; [reflexivity|].
  f_equal. apply IH. congruence.
Qed.

Lemma zip_with_second (elems vs : list value) :
  length vs = length elems -> zip_with (fun _ v' => v') elems vs = vs.
Proof.
  revert vs. induction elems as [|e elems IH]; intros [|v' vs] Hlen; simpl in *;
    try discriminate; [reflexivity|].
  f_equal. apply IH. congruence.
Qed.

(** On a dict, storing the copies one by one appends them. *)
Lemma dict_store_appends (items : list (string * value)) :
  PyDict.wf items ->
  forall pre x post vs v',
    items = (pre ++ x :: post)%list -> length vs = length pre ->
    dict_store x v' (ODict (zip_with dict_entry pre vs))
    = ODict (zip_with dict_entry (pre ++ [x]) (vs ++ [v'])).
Proof.
  intros Hwf pre x post vs v' -> Hlen. cbn [dict_store]. f_equal.
  rewrite zip_with_snoc by exact Hlen. apply set_fresh.
  rewrite keys_zip_entries by exact Hlen.
  unfold PyDict.wf, PyDict.keys in Hwf. rewrite map_app in Hwf.
  apply NoDup_app in Hwf as (_ & Hdisj & _).
  intros Hin. apply (Hdisj (fst x)); [apply list_elem_of_In, Hin | left].
Qed.

Lemma list_append_appends (elems : list value) :
  forall pre (x : value) post vs v',
    elems = (pre ++ x :: post)%list -> length vs = length pre ->
    list_append x v' (OList (zip_with (fun _ v' => v') pre vs))
    = OList (zip_with (fun _ v' => v') (pre ++ [x]) (vs ++ [v'])).
Proof.
  intros pre x post vs v' _ Hlen. cbn [list_append].
  rewrite zip_with_snoc by exact Hlen. reflexivity.
Qed.

(** Entering a new, empty copy keeps the invariant, the original being
    in progress from then on. *)
Lemma copy_inv_enter h0 S P h m l (o0 : obj) :
  copy_inv h0 S P (h, m) -> l ∈ S -> m !! l = None ->
  copy_inv h0 S ({[l]} ∪ P) (<[fresh (dom h) := o0]> h, <[l := fresh (dom h)]> m).
Proof.
  intros [Hold Hmemo Hinj Hdone Hnew] HlS Hl. cbn [fst snd] in *.
  pose proof (is_fresh (dom h)) as Hfresh.
  set (y := fresh (dom h)) in *.
  assert (Hy0 : y ∉ dom h0).
  { intros Hin. apply Hfresh. eapply subseteq_dom; eassumption. }
  assert (Hhy : h !! y = None) by (apply not_elem_of_dom, Hfresh).
  split; cbn [fst snd].
  - etransitivity; [exact Hold|]. apply insert_subseteq, Hhy.
  - intros l' y'. rewrite lookup_insert. case_decide as E.
    + intros [= <-]. subst l'. conjs; auto. rewrite dom_insert_L. set_solver.
    + intros Hl'. destruct (Hmemo l' y' Hl') as (H1 & H2 & H3).
      conjs; auto. rewrite dom_insert_L. set_solver.
  - intros l1 l2 y'. rewrite !lookup_insert.
    repeat case_decide; subst; try congruence.
    + intros [= <-] H2. exfalso. apply Hfresh. apply (Hmemo l2 y H2).
    + intros H1 [= <-]. exfalso. apply Hfresh. apply (Hmemo l1 y H1).
    + apply Hinj.
  - intros l' y' Hl' HP.
    assert (Hne : l <> l') by set_solver.
    rewrite lookup_insert_ne in Hl' by exact Hne.
    destruct (Hdone l' y' Hl') as (o & o' & Ho & Ho' & Hc); [set_solver|].
    exists o, o'. conjs; auto.
    + rewrite lookup_insert_ne; [exact Ho'|].
      intros <-. rewrite Hhy in Ho'. discriminate.
    + eapply copy_obj_mono; [|exact Hc]. apply insert_subseteq, Hl.
  - intros y'. rewrite dom_insert_L, elem_of_union, elem_of_singleton.
    intros [->|Hy'].
    + right. exists l. apply lookup_insert_eq.
    + destruct (Hnew y' Hy') as [?|[l' Hl']]; [left; assumption|].
      right. exists l'. rewrite lookup_insert_ne; [exact Hl'|]. congruence.
Qed.

(** Once a copy is filled, its original is no longer in progress. *)
Lemma copy_inv_leave h0 S P st l y o o' :
  copy_inv h0 S ({[l]} ∪ P) st ->
  snd st !! l = Some y -> h0 !! l = Some o -> fst st !! y = Some o' ->
  copy_obj (snd st) o o' ->
  copy_inv h0 S P st.
Proof.
  intros [Hold Hmemo Hinj Hdone Hnew] Hl Ho Ho' Hc. split; auto.
  intros l' y' Hl' HP. destruct (decide (l' = l)) as [->|Hne].
  - rewrite Hl in Hl'. injection Hl' as <-. eauto.
  - apply Hdone; [exact Hl' | set_solver].
Qed.

Lemma deepcopy_fuel_correct (h0 : gmap loc obj) (S : gset loc) :
  region_closed h0 S ->
  forall n x st P,
    copy_inv h0 S P st -> val_in S x -> size (S ∖ dom (snd st)) < n ->
    exists v' st',
      deepcopy_fuel n x st = Ok (v', st')
      /\ copy_inv h0 S P st'
      /\ snd st ⊆ snd st' /\ fst st ⊆ fst st'
      /\ copy_val (snd st') x v'.
Proof.
  intros Hclosed. induction n as [|n IHn]; intros x [h m] P Hinv Hx Hsize.
  - lia.
  - destruct x as [| | | | |l];
      try (eexists _, (h, m); cbn [deepcopy_fuel]; conjs;
           [reflexivity | exact Hinv | reflexivity | reflexivity | reflexivity]).
    cbn [deepcopy_fuel fst snd] in *.
    destruct (m !! l) as [y|] eqn:Hl.
    { exists (VRef y), (h, m). conjs; auto. simpl. eauto. }
    destruct (Hclosed l Hx) as (o & Ho & Hwf & Hrefs).
    assert (Hho : h !! l = Some o).
    { eapply lookup_weaken; [exact Ho | apply (inv_old _ _ _ _ Hinv)]. }
    rewrite Hho.
    pose proof (is_fresh (dom h)) as Hfresh.
    assert (Hy0 : fresh (dom h) ∉ dom h0).
    { intros Hin. apply Hfresh. eapply subseteq_dom; [apply (inv_old _ _ _ _ Hinv)|exact Hin]. }
    assert (Hhy : h !! fresh (dom h) = None) by (apply not_elem_of_dom, Hfresh).
    assert (Hsize' : size (S ∖ dom (<[l := fresh (dom h)]> m)) < n).
    { assert (size (S ∖ dom (<[l := fresh (dom h)]> m)) < size (S ∖ dom m)); [|lia].
      apply subset_size. rewrite dom_insert_L.
      assert (l ∉ dom m) by (apply not_elem_of_dom, Hl). set_solver. }
    assert (Hframe0 : forall (o0 : obj) l' o', h !! l' = Some o' ->
                        l' <> fresh (dom h) /\ <[fresh (dom h) := o0]> h !! l' = Some o').
    { intros o0 l' o' Hl'. assert (l' <> fresh (dom h)) by (intros ->; congruence).
      split; [assumption|]. rewrite lookup_insert_ne by congruence. exact Hl'. }
    destruct o as [items|elems].
    + pose proof (copy_inv_enter h0 S P h m l (ODict []) Hinv Hx Hl) as Hinv1.
      destruct (copy_elems_correct h0 S n IHn snd dict_store ODict dict_entry
                  items (fresh (dom h)) l ({[l]} ∪ P)
                  (dict_store_appends items Hwf) Hy0 ltac:(set_solver)
                  items [] []
                  (<[fresh (dom h) := ODict []]> h, <[l := fresh (dom h)]> m))
        as ([h' m'] & vs' & -> & Hinv' & Hm & Hframe & Hy' & Hlen & Hvs');
        cbn [fst snd] in *; auto.
      * apply lookup_insert_eq.
      * apply lookup_insert_eq.
      * apply Forall_forall. intros v Hv. destruct v; simpl; auto.
        apply Hrefs. simpl. apply list_elem_of_In, Hv.
      * assert (Hl' : m' !! l = Some (fresh (dom h))).
        { eapply lookup_weaken; [apply lookup_insert_eq | exact Hm]. }
        exists (VRef (fresh (dom h))), (h', m'). cbn [fst snd]. conjs.
        -- reflexivity.
        -- eapply copy_inv_leave; [exact Hinv' | exact Hl' | exact Ho | exact Hy' |].
           cbn [fst snd copy_obj]. rewrite keys_zip_entries, values_zip_entries by exact Hlen.
           split; [reflexivity | exact Hvs'].
        -- etransitivity; [|exact Hm]. apply insert_subseteq, Hl.
        -- apply map_subseteq_spec. intros l0 o0 Hl0.
           destruct (Hframe0 (ODict []) l0 o0 Hl0). apply Hframe; assumption.
        -- simpl. eauto.
    + pose proof (copy_inv_enter h0 S P h m l (OList []) Hinv Hx Hl) as Hinv1.
      destruct (copy_elems_correct h0 S n IHn id list_append OList (fun _ v' => v')
                  elems (fresh (dom h)) l ({[l]} ∪ P)
                  (list_append_appends elems) Hy0 ltac:(set_solver)
                  elems [] []
                  (<[fresh (dom h) := OList []]> h, <[l := fresh (dom h)]> m))
        as ([h' m'] & vs' & -> & Hinv' & Hm & Hframe & Hy' & Hlen & Hvs');
        cbn [fst snd] in *; auto.
      * apply lookup_insert_eq.
      * apply lookup_insert_eq.
      * rewrite map_id. apply Forall_forall. intros v Hv. destruct v; simpl; auto.
        apply Hrefs. simpl. apply list_elem_of_In, Hv.
      * assert (Hl' : m' !! l = Some (fresh (dom h))).
        { eapply lookup_weaken; [apply lookup_insert_eq | exact Hm]. }
        exists (VRef (fresh (dom h))), (h', m'). cbn [fst snd]. conjs.
        -- reflexivity.
        -- eapply copy_inv_leave; [exact Hinv' | exact Hl' | exact Ho | exact Hy' |].
           cbn [fst snd copy_obj]. rewrite zip_with_second by exact Hlen.
           rewrite map_id in Hvs'. exact Hvs'.
        -- etransitivity; [|exact Hm]. apply insert_subseteq, Hl.
        -- apply map_subseteq_spec. intros l0 o0 Hl0.
           destruct (Hframe0 (OList []) l0 o0 Hl0). apply Hframe; assumption.
        -- simpl. eauto.
Qed.

Lemma region_closed_dom h S : region_closed h S -> S ⊆ dom h.
Proof.
  intros Hc l Hl. destruct (Hc l Hl) as (o & Ho & _). apply elem_of_dom. eauto.
Qed.

Lemma region_closed_mono h h' S : h ⊆ h' -> region_closed h S -> region_closed h' S.
Proof.
  intros Hsub Hc l Hl. destruct (Hc l Hl) as (o & Ho & Hrest).
  exists o. split; [eapply lookup_weaken; eassumption | exact Hrest].
Qed.

Lemma copy_inv_init h : forall S, copy_inv h S ∅ (h, ∅).
Proof.
  intros S. split; cbn [fst snd].
  - reflexivity.
  - intros l y Hl. rewrite lookup_empty in Hl. discriminate.
  - intros l1 l2 y Hl. rewrite lookup_empty in Hl. discriminate.
  - intros l y Hl. rewrite lookup_empty in Hl. discriminate.
  - intros y Hy. left. exact Hy.
Qed.

(** [deepcopy] on a closed region: it returns, the store only grows,
    the result is a deep copy, and what is new refers to what is new. *)
(** With fewer objects in the region than the recursion may enter,
    [deepcopy] returns a deep copy. *)
Lemma deepcopy_correct w x S depth :
  region_closed (heap w) S -> val_in S x -> size S < depth ->
  exists v' h',
    deepcopy depth x w = (Ok v', with_heap h' w)
    /\ heap w ⊆ h'
    /\ deep_copy (heap w) h' x v'
    /\ new_val (heap w) v'
    /\ (forall y o, h' !! y = Some o -> y ∉ dom (heap w) ->
          Forall (new_val (heap w)) (obj_values o)).
Proof.
  intros Hc Hx Hsize.
  destruct (deepcopy_fuel_correct (heap w) S Hc depth x
              (heap w, ∅) ∅ (copy_inv_init _ _) Hx)
    as (v' & [h' m'] & Hrun & Hinv & _ & Hh & Hv).
  { cbn [snd]. eapply Nat.le_lt_trans; [|exact Hsize].
    apply subseteq_size. set_solver. }
  cbn [fst snd] in *. destruct Hinv as [Hold Hmemo Hinj Hdone Hnew]. cbn [fst snd] in *.
  assert (Hfresh : forall l y, m' !! l = Some y -> y ∉ dom (heap w)).
  { intros l y Hl. apply (Hmemo l y Hl). }
  exists v', h'. unfold deepcopy. rewrite Hrun. conjs.
  - reflexivity.
  - exact Hh.
  - exists m'. split; [exact Hv|]. split; [exact Hinj|].
    intros l y Hl. split; [eapply Hfresh, Hl|].
    apply Hdone; [exact Hl | set_solver].
  - destruct x; simpl in Hv; subst; simpl; auto.
    destruct Hv as (y & Hy & ->). simpl. eapply Hfresh, Hy.
  - intros y o Hy Hynew.
    destruct (Hnew y) as [Hin|[l Hl]]; [apply elem_of_dom; eauto | contradiction |].
    destruct (Hdone l y Hl) as (o1 & o1' & _ & Ho1' & Hcopy); [set_solver|].
    rewrite Hy in Ho1'. injection Ho1' as <-.
    eapply copy_obj_new; eassumption.
Qed.

(** *** The recursion limit *)

Lemma copy_elems_mono {A} (rec rec' : value -> copy_state -> res (value * copy_state))
    y (val : A -> value) put xs :
  (forall x st r, rec x st = Ok r -> rec' x st = Ok r) ->
  forall st st',
    copy_elems rec y val put xs st = Ok st' -> copy_elems rec' y val put xs st = Ok st'.
Proof.
  intros Hrec. induction xs as [|a xs IH]; intros st st' H; cbn [copy_elems] in *;
    [exact H|].
  destruct (rec (val a) st) as [[v' [h m]]|e] eqn:E; [|discriminate].
  rewrite (Hrec _ _ _ E). apply IH, H.
Qed.

(** A copy that succeeds is the same under any larger limit. *)
Lemma deepcopy_fuel_mono n : forall m x st r,
  n <= m -> deepcopy_fuel n x st = Ok r -> deepcopy_fuel m x st = Ok r.
Proof.
  induction n as [|n IH]; intros m x st r Hle H.
  - destruct x; destruct m; cbn [deepcopy_fuel] in *; try exact H;
      destruct (snd st !! l); solve [exact H | discriminate].
  - destruct m as [|m]; [lia|].
    destruct x; cbn [deepcopy_fuel] in *; try exact H.
    destruct (snd st !! l); [exact H|].
    destruct (fst st !! l) as [[items|elems]|]; [| |exact H].
    + destruct (copy_elems (deepcopy_fuel n) _ snd dict_store items _) as [st'|e] eqn:E;
        [|discriminate].
      erewrite copy_elems_mono; [exact H | | exact E].
      intros x0 st0 r0. apply IH. lia.
    + destruct (copy_elems (deepcopy_fuel n) _ id list_append elems _) as [st'|e] eqn:E;
        [|discriminate].
      erewrite copy_elems_mono; [exact H | | exact E].
      intros x0 st0 r0. apply IH. lia.
Qed.

(** Whatever the limit: when [deepcopy] returns, it returns a deep
    copy; when it raises, the state is as before. *)
Lemma deepcopy_returns w x S depth v' w1 :
  region_closed (heap w) S -> val_in S x ->
  deepcopy depth x w = (Ok v', w1) ->
  exists h',
    w1 = with_heap h' w
    /\ heap w ⊆ h'
    /\ deep_copy (heap w) h' x v'
    /\ new_val (heap w) v'
    /\ (forall y o, h' !! y = Some o -> y ∉ dom (heap w) ->
          Forall (new_val (heap w)) (obj_values o)).
Proof.
  intros Hc Hx Hrun. unfold deepcopy in Hrun.
  destruct (deepcopy_fuel depth x (heap w, ∅)) as [[v [h m]]|e] eqn:E; [|discriminate].
  injection Hrun as <- <-.
  set (big := Nat.max depth (Datatypes.S (size S))).
  pose proof (deepcopy_fuel_mono depth big x _ _ ltac:(lia) E) as Ebig.
  destruct (deepcopy_correct w x S big Hc Hx ltac:(lia)) as (v2 & h2 & Hrun2 & Hrest).
  unfold deepcopy in Hrun2. rewrite Ebig in Hrun2. injection Hrun2 as <- Hw.
  exists h. split; [reflexivity|].
  subst h2. exact Hrest.
Qed.

Lemma deepcopy_raises_state depth x w e w1 :
  deepcopy depth x w = (Raise e, w1) -> w1 = w.
Proof.
  unfold deepcopy. destruct (deepcopy_fuel depth x (heap w, ∅)) as [[v [h m]]|e'];
    [discriminate | congruence].
Qed.

End DeepCopy.

(** * The monad *)

Section Monad.
Import DS.
Local Open Scope py_scope.

Lemma bind_ok {A B} (c : M A) (k : A -> M B) w a w' :
  c w = (Ok a, w') -> bind c k w = k a w'.
Proof. intros H. unfold bind. rewrite H. reflexivity. Qed.

Lemma bind_raise {A B} (c : M A) (k : A -> M B) w e w' :
  c w = (Raise e, w') -> bind c k w = (Raise e, w').
Proof. intros H. unfold bind. rewrite H. reflexivity. Qed.

Lemma hoare_ret {A} (P : world -> Prop) (a : A) (Q : A -> world -> Prop) E :
  (forall w, P w -> Q a w) -> hoare P (ret a) Q E.
Proof. intros H w Hw. apply H, Hw. Qed.

Lemma hoare_raise {A} (P : world -> Prop) e (Q : A -> world -> Prop) (E : world -> Prop) :
  (forall w, P w -> E w) -> hoare P (raise e) Q E.
Proof. intros H w Hw. apply H, Hw. Qed.

Lemma hoare_bind {A B} P (c : M A) (k : A -> M B) Q R E :
  hoare P c Q E -> (forall a, hoare (Q a) (k a) R E) -> hoare P (bind c k) R E.
Proof.
  intros Hc Hk w Hw. specialize (Hc w Hw). unfold bind.
  destruct (c w) as [[a|e] w']; [apply Hk, Hc | exact Hc].
Qed.

Lemma hoare_weaken {A} (P P' : world -> Prop) (c : M A) (Q Q' : A -> world -> Prop)
    (E E' : world -> Prop) :
  hoare P c Q E ->
  (forall w, P' w -> P w) -> (forall a w, Q a w -> Q' a w) -> (forall w, E w -> E' w) ->
  hoare P' c Q' E'.
Proof.
  intros Hc HP HQ HE w Hw. specialize (Hc w (HP w Hw)).
  destruct (c w) as [[a|e] w']; auto.
Qed.

Section Keeps.
Context (I : world -> Prop).

Lemma keeps_ret {A} (a : A) (Q : A -> Prop) : Q a -> keeps I (ret a) Q.
Proof. intros H w Hw. split; assumption. Qed.

Lemma keeps_raise {A} e (Q : A -> Prop) : keeps I (raise e) Q.
Proof. intros w Hw. exact Hw. Qed.

Lemma keeps_bind {A B} (c : M A) (k : A -> M B) (Q : A -> Prop) (R : B -> Prop) :
  keeps I c Q -> (forall a, Q a -> keeps I (k a) R) -> keeps I (bind c k) R.
Proof.
  intros Hc Hk w Hw. specialize (Hc w Hw). unfold bind.
  destruct (c w) as [[a|e] w']; [|exact Hc].
  destruct Hc as [Hw' Ha]. apply (Hk a Ha w' Hw').
Qed.

Lemma keeps_weaken {A} (c : M A) (Q Q' : A -> Prop) :
  keeps I c Q -> (forall a, Q a -> Q' a) -> keeps I c Q'.
Proof.
  intros Hc HQ w Hw. specialize (Hc w Hw).
  destruct (c w) as [[a|e] w']; [|exact Hc]. destruct Hc. auto.
Qed.

Lemma keeps_for_each {A} (xs : list A) (body : A -> M unit) :
  (forall x, In x xs -> keeps I (body x) (fun _ => True)) ->
  keeps I (for_each xs body) (fun _ => True).
Proof.
  induction xs as [|x xs IH]; intros H; cbn [for_each].
  - apply keeps_ret. exact Logic.I.
  - eapply keeps_bind; [apply H; left; reflexivity|].
    intros _ _. apply IH. intros x' Hx'. apply H. right. exact Hx'.
Qed.

(** What a computation that leaves the state alone keeps. *)
Lemma keeps_pure {A} (c : M A) (Q : A -> Prop) :
  (forall w, snd (c w) = w) ->
  (forall w a, I w -> fst (c w) = Ok a -> Q a) ->
  keeps I c Q.
Proof.
  intros Hs HQ w Hw. specialize (Hs w). specialize (HQ w).
  destruct (c w) as [[a|e] w']; cbn [fst snd] in *; subst w'; auto.
Qed.

End Keeps.

(** The state is left alone by every read. *)

Lemma load_state l w : snd (load l w) = w.
Proof. unfold load, bind, get_heap. destruct (heap w !! l); reflexivity. Qed.

Lemma load_ok l w o : fst (load l w) = Ok o -> heap w !! l = Some o.
Proof.
  unfold load, bind, get_heap. destruct (heap w !! l); cbn; [congruence | discriminate].
Qed.

Lemma load_eq l w o : heap w !! l = Some o -> load l w = (Ok o, w).
Proof. intros H. unfold load, bind, get_heap. rewrite H. reflexivity. Qed.

Lemma contains_state c k w : snd (contains c k w) = w.
Proof.
  destruct c; try reflexivity. unfold contains, bind.
  pose proof (load_state l w). destruct (load l w) as [[[]|] ?]; assumption.
Qed.

Lemma getitem_state c k w : snd (getitem c k w) = w.
Proof.
  destruct c; try reflexivity. unfold getitem, bind.
  pose proof (load_state l w). destruct (load l w) as [[[items|]|] ?]; try assumption.
  destruct (PyDict.get k items); assumption.
Qed.

Lemma get_state c k w : snd (get c k w) = w.
Proof.
  destruct c; try reflexivity. unfold get, bind.
  pose proof (load_state l w). destruct (load l w) as [[[]|] ?]; assumption.
Qed.

Lemma in_keys_state k c w : snd (in_keys k c w) = w.
Proof.
  destruct c; try reflexivity. unfold in_keys, bind.
  pose proof (load_state l w). destruct (load l w) as [[[]|] ?]; assumption.
Qed.

Lemma getitem_ok c k w v :
  fst (getitem c k w) = Ok v ->
  exists l items, c = VRef l /\ heap w !! l = Some (ODict items)
                  /\ PyDict.get k items = Some v.
Proof.
  destruct c; try discriminate. unfold getitem, bind.
  pose proof (load_ok l w) as Hl.
  destruct (load l w) as [[[items|]|] ?]; cbn [fst] in *; try discriminate.
  destruct (PyDict.get k items) as [v'|] eqn:E; cbn; [|discriminate].
  intros [= ->]. exists l, items. auto.
Qed.

Lemma get_ok c k w v :
  fst (get c k w) = Ok v ->
  exists l items, c = VRef l /\ heap w !! l = Some (ODict items)
                  /\ (PyDict.get k items = Some v
                      \/ (PyDict.get k items = None /\ v = VNone)).
Proof.
  destruct c; try discriminate. unfold get, bind.
  pose proof (load_ok l w) as Hl.
  destruct (load l w) as [[[items|]|] ?]; cbn [fst] in *; try discriminate.
  intros [= <-]. exists l, items. conjs; auto.
  destruct (PyDict.get k items); auto.
Qed.

(** The evaluation of the operations on a dict. *)

Lemma in_keys_dict k l items w :
  heap w !! l = Some (ODict items) ->
  in_keys k (VRef l) w = (Ok (PyDict.mem k items), w).
Proof. intros H. unfold in_keys. rewrite (bind_ok _ _ _ _ _ (load_eq _ _ _ H)). reflexivity. Qed.

Lemma contains_dict k l items w :
  heap w !! l = Some (ODict items) ->
  contains (VRef l) k w = (Ok (PyDict.mem k items), w).
Proof. intros H. unfold contains. rewrite (bind_ok _ _ _ _ _ (load_eq _ _ _ H)). reflexivity. Qed.

Lemma setitem_dict k v l items w :
  heap w !! l = Some (ODict items) ->
  setitem (VRef l) k v w
  = (Ok tt, with_heap (<[l := ODict (PyDict.set k v items)]> (heap w)) w).
Proof. intros H. unfold setitem. rewrite (bind_ok _ _ _ _ _ (load_eq _ _ _ H)). reflexivity. Qed.

Lemma setitem_cases c k v w :
  (exists l items, c = VRef l /\ heap w !! l = Some (ODict items)
      /\ setitem c k v w
         = (Ok tt, with_heap (<[l := ODict (PyDict.set k v items)]> (heap w)) w))
  \/ (exists e, setitem c k v w = (Raise e, w)).
Proof.
  destruct c; try (right; eexists; reflexivity).
  destruct (heap w !! l) as [[items|elems]|] eqn:H.
  - left. exists l, items. conjs; auto. apply setitem_dict, H.
  - right. unfold setitem. rewrite (bind_ok _ _ _ _ _ (load_eq _ _ _ H)). eexists. reflexivity.
  - right. unfold setitem, bind, load, bind, get_heap. rewrite H. eexists. reflexivity.
Qed.

End Monad.

(** * The merge of the trainer's arguments into the config *)

Section Merged.
Import DS.
Local Open Scope py_scope.
Context (h0 : gmap loc obj) (a : TrainingArguments) (c : loc).

Lemma values_set_Forall (P : value -> Prop) k v (items : list (string * value)) :
  Forall P (PyDict.values items) -> P v -> Forall P (PyDict.values (PyDict.set k v items)).
Proof.
  intros H Hv. induction items as [|[k' v'] items IH]; cbn.
  - repeat constructor. exact Hv.
  - apply Forall_cons in H as [H1 H2].
    destruct (String.eqb k k'); cbn; constructor; auto.
Qed.

Lemma get_In_values k v (items : list (string * value)) :
  PyDict.get k items = Some v -> In v (PyDict.values items).
Proof. intros H. apply get_In in H. apply (in_map snd) in H. exact H. Qed.

Lemma good_dom w : good h0 w -> dom h0 ⊆ dom (heap w).
Proof.
  intros [H _] l Hl. apply elem_of_dom in Hl as [o Ho].
  apply elem_of_dom. eauto.
Qed.

Lemma good_lookup_new w l items k v :
  good h0 w -> l ∉ dom h0 -> heap w !! l = Some (ODict items) ->
  PyDict.get k items = Some v -> new_val h0 v.
Proof.
  intros [_ H] Hl Hitems Hk. specialize (H l _ Hitems Hl). cbn in H.
  rewrite Forall_forall in H. apply H, list_elem_of_In, get_In_values with k, Hk.
Qed.

(** A store into a new dict, under a key other than the two batch keys. *)
Lemma merged_setitem w l items k v :
  merged h0 a c w -> l ∉ dom h0 -> heap w !! l = Some (ODict items) ->
  new_val h0 v ->
  k <> "train_micro_batch_size_per_gpu" -> k <> "gradient_accumulation_steps" ->
  merged h0 a c (with_heap (<[l := ODict (PyDict.set k v items)]> (heap w)) w).
Proof.
  intros [[Hold Hnew] (its & Hc & H1 & H2)] Hl Hitems Hv Hk1 Hk2.
  unfold merged, good, batch_args_set. split; [split|]; cbn [heap with_heap].
  - intros l0 o Ho. rewrite lookup_insert_ne; [auto|].
    intros ->. apply Hl, elem_of_dom. eauto.
  - intros l0 o. rewrite lookup_insert. case_decide as E.
    + intros [= <-] _. cbn. apply values_set_Forall; [|exact Hv].
      apply (Hnew l _ Hitems Hl).
    + apply Hnew.
  - destruct (decide (l = c)) as [->|Hne].
    + rewrite Hitems in Hc. injection Hc as <-.
      exists (PyDict.set k v items). rewrite lookup_insert_eq.
      rewrite !get_set_ne by congruence. auto.
    + exists its. rewrite lookup_insert_ne by exact Hne. auto.
Qed.

Lemma merged_alloc w o :
  merged h0 a c w -> Forall (new_val h0) (obj_values o) ->
  merged h0 a c (with_heap (<[fresh (dom (heap w)) := o]> (heap w)) w)
  /\ fresh (dom (heap w)) ∉ dom h0.
Proof.
  intros [Hgood (its & Hc & H1 & H2)] Ho.
  pose proof (is_fresh (dom (heap w))) as Hfresh.
  pose proof (good_dom w Hgood) as Hdom.
  destruct Hgood as [Hold Hnew].
  assert (Hy0 : fresh (dom (heap w)) ∉ dom h0) by set_solver.
  split; [|exact Hy0].
  unfold merged, good, batch_args_set. split; [split|]; cbn [heap with_heap].
  - intros l0 o0 Ho0. rewrite lookup_insert_ne; [auto|].
    intros <-. apply Hy0, elem_of_dom. eauto.
  - intros l0 o0. rewrite lookup_insert. case_decide as E.
    + intros [= <-] _. exact Ho.
    + apply Hnew.
  - exists its. rewrite lookup_insert_ne; [auto|].
    intros E. apply Hfresh. rewrite E. apply elem_of_dom. eauto.
Qed.

Lemma keeps_contains x k : keeps (merged h0 a c) (contains x k) (fun _ => True).
Proof. apply keeps_pure; [apply contains_state | auto]. Qed.

Lemma keeps_getitem x k : new_val h0 x -> keeps (merged h0 a c) (getitem x k) (new_val h0).
Proof.
  intros Hx. apply keeps_pure; [apply getitem_state|].
  intros w v [Hgood _] Hv. apply getitem_ok in Hv as (l & items & -> & Hl & Hk).
  eapply good_lookup_new; eassumption.
Qed.

Lemma keeps_get x k : new_val h0 x -> keeps (merged h0 a c) (get x k) (new_val h0).
Proof.
  intros Hx. apply keeps_pure; [apply get_state|].
  intros w v [Hgood _] Hv. apply get_ok in Hv as (l & items & -> & Hl & [Hk|[_ ->]]).
  - eapply good_lookup_new; eassumption.
  - exact Logic.I.
Qed.

Lemma keeps_setitem x k v :
  new_val h0 x -> new_val h0 v ->
  k <> "train_micro_batch_size_per_gpu" -> k <> "gradient_accumulation_steps" ->
  keeps (merged h0 a c) (setitem x k v) (fun _ => True).
Proof.
  intros Hx Hv Hk1 Hk2 w Hw.
  destruct (setitem_cases x k v w) as [(l & items & -> & Hl & ->)|[e ->]]; [|exact Hw].
  split; [|exact Logic.I]. apply merged_setitem; assumption.
Qed.

Lemma keeps_alloc o :
  Forall (new_val h0) (obj_values o) -> keeps (merged h0 a c) (alloc o) (new_val h0).
Proof.
  intros Ho w Hw. unfold alloc. destruct (merged_alloc w o Hw Ho) as [H1 H2].
  split; assumption.
Qed.

Lemma keeps_emit e : keeps (merged h0 a c) (emit e) (fun _ => True).
Proof. intros w Hw. split; [exact Hw | exact Logic.I]. Qed.

Lemma keeps_set_flag v : keeps (merged h0 a c) (set_flag v) (fun _ => True).
Proof. intros w Hw. split; [exact Hw | exact Logic.I]. Qed.

Lemma keeps_float_of_int z : keeps (merged h0 a c) (float_of_int z) (fun _ => True).
Proof.
  unfold float_of_int.
  destruct (float_of_Z z); first [apply keeps_raise | apply keeps_ret; exact Logic.I].
Qed.

(** One step of a sequence: a known operation, then the rest. *)
Ltac keeps_prim :=
  first [ apply keeps_contains
        | apply keeps_getitem; assumption
        | apply keeps_get; assumption
        | apply keeps_setitem; [assumption | first [assumption | exact Logic.I]
                                | discriminate | discriminate]
        | apply keeps_emit
        | apply keeps_set_flag
        | apply keeps_float_of_int ].

Ltac keeps_go :=
  repeat match goal with
    | |- keeps _ (ret _) _ => apply keeps_ret; exact Logic.I
    | |- keeps _ (raise _) _ => apply keeps_raise
    | |- keeps _ (bind _ _) _ => eapply keeps_bind; [keeps_prim | intros]
    | |- keeps _ (if ?b then _ else _) _ => destruct b
    | |- keeps _ _ _ => keeps_prim
    end.

Lemma keeps_override_params config section params :
  new_val h0 config ->
  Forall (fun kv => new_val h0 (snd kv)
                    /\ fst kv <> "train_micro_batch_size_per_gpu"
                    /\ fst kv <> "gradient_accumulation_steps") params ->
  keeps (merged h0 a c) (override_params config section params) (fun _ => True).
Proof.
  intros Hc Hp. unfold override_params. apply keeps_for_each.
  intros [k v] Hin. rewrite Forall_forall in Hp.
  destruct (Hp (k, v) (proj2 (list_elem_of_In _ _) Hin)) as (Hv & Hk1 & Hk2). cbn [fst snd] in *.
  eapply keeps_bind; [apply keeps_getitem, Hc|]. intros sec Hsec.
  eapply keeps_bind; [apply keeps_getitem, Hsec|]. intros p Hp'.
  eapply keeps_bind; [apply keeps_contains|]. intros [] _; [|apply keeps_ret; exact Logic.I].
  eapply keeps_bind; [apply keeps_getitem, Hc|]. intros sec2 Hsec2.
  eapply keeps_bind; [apply keeps_getitem, Hsec2|]. intros p2 Hp2.
  apply keeps_setitem; assumption.
Qed.

Lemma keeps_merge_optimizer a' config :
  new_val h0 config -> keeps (merged h0 a c) (merge_optimizer a' config) (fun _ => True).
Proof.
  intros Hc. unfold merge_optimizer.
  eapply keeps_bind; [apply keeps_contains|]. intros [] _.
  - eapply keeps_bind; [apply keeps_alloc; repeat constructor|]. intros betas Hb.
    eapply keeps_bind; [|intros; apply keeps_ret; exact Logic.I].
    apply keeps_override_params; [exact Hc|].
    repeat constructor; cbn; try exact Hb; discriminate.
  - eapply keeps_bind; [apply keeps_contains|]. intros has_zero _.
    eapply keeps_bind with (Q := fun _ => True).
    { destruct has_zero; [|apply keeps_ret; exact Logic.I].
      eapply keeps_bind; [apply keeps_getitem, Hc|]. intros zero Hz.
      eapply keeps_bind; [apply keeps_contains|]. intros [] _; [|apply keeps_ret; exact Logic.I].
      eapply keeps_bind; [apply keeps_getitem, Hc|]. intros zero2 Hz2.
      eapply keeps_bind; [apply keeps_getitem, Hz2|]. intros v Hv.
      apply keeps_ret; exact Logic.I. }
    intros [] _; keeps_go.
Qed.

Lemma keeps_merge_scheduler a' n config :
  new_val h0 config -> keeps (merged h0 a c) (merge_scheduler a' n config) (fun _ => True).
Proof.
  intros Hc. unfold merge_scheduler.
  eapply keeps_bind; [apply keeps_contains|]. intros [] _.
  - eapply keeps_bind; [apply keeps_getitem, Hc|]. intros sched Hs.
    eapply keeps_bind; [apply keeps_getitem, Hs|]. intros ty Hty.
    eapply keeps_bind with (Q := fun _ => True).
    { destruct (py_eq_str ty "WarmupDecayLR"); [|apply keeps_ret; exact Logic.I].
      eapply keeps_bind; [apply keeps_getitem, Hc|]. intros sched2 Hs2.
      eapply keeps_bind; [apply keeps_getitem, Hs2|]. intros p Hp.
      apply keeps_setitem; [assumption | exact Logic.I | discriminate | discriminate]. }
    intros _ _.
    eapply keeps_bind; [|intros; apply keeps_ret; exact Logic.I].
    apply keeps_override_params; [exact Hc|].
    repeat constructor; cbn; discriminate.
  - keeps_go.
Qed.

Lemma keeps_merge_fp16 t config :
  new_val h0 config -> keeps (merged h0 a c) (merge_fp16 t config) (fun _ => True).
Proof.
  intros Hc. unfold merge_fp16.
  destruct (fp16_backend t) as [backend|]; [|apply keeps_ret; exact Logic.I].
  destruct (String.eqb backend "apex"); [|destruct (String.eqb backend "amp")].
  - eapply keeps_bind; [apply keeps_contains|]. intros [] _; [apply keeps_ret; exact Logic.I|].
    eapply keeps_bind; [apply keeps_alloc; repeat constructor|]. intros d Hd.
    apply keeps_setitem; [assumption | assumption | discriminate | discriminate].
  - eapply keeps_bind; [apply keeps_contains|]. intros [] _; [apply keeps_ret; exact Logic.I|].
    eapply keeps_bind; [apply keeps_alloc; repeat constructor|]. intros d Hd.
    apply keeps_setitem; [assumption | assumption | discriminate | discriminate].
  - apply keeps_ret; exact Logic.I.
Qed.

Lemma keeps_merge_zero t config :
  new_val h0 config -> keeps (merged h0 a c) (merge_zero t config) (fun _ => True).
Proof.
  intros Hc. unfold merge_zero, deepspeed_zero3_enable.
  eapply keeps_bind; [apply keeps_contains|]. intros [] _; [|apply keeps_ret; exact Logic.I].
  eapply keeps_bind; [apply keeps_getitem, Hc|]. intros zero Hz.
  eapply keeps_bind; [apply keeps_get, Hz|]. intros stage _.
  eapply keeps_bind; [apply keeps_set_flag|]. intros _ _.
  eapply keeps_bind; [apply keeps_get, Hz|]. intros v1 _.
  eapply keeps_bind with (Q := fun _ => True); [keeps_go|]. intros _ _.
  eapply keeps_bind; [apply keeps_get, Hz|]. intros v2 _.
  eapply keeps_bind with (Q := fun _ => True); [keeps_go|]. intros _ _.
  eapply keeps_bind; [apply keeps_get, Hz|]. intros v3 _.
  keeps_go.
Qed.

Lemma keeps_resume env r : keeps (merged h0 a c) (resume env r) (fun _ => True).
Proof.
  unfold resume. destruct r as [path|]; [|apply keeps_ret; exact Logic.I].
  destruct (Nat.ltb 0 _); [|apply keeps_ret; exact Logic.I].
  eapply keeps_bind; [apply keeps_emit|]. intros _ _.
  destruct (load_checkpoint env path); [apply keeps_ret; exact Logic.I | apply keeps_raise].
Qed.

End Merged.

(** * [deepspeed_parse_config] and [deepspeed_init] *)

Section Init.
Import DS.
Local Open Scope py_scope.

Lemma is_dict_eq v w :
  is_dict v w
  = (Ok (match v with
         | VRef l => match heap w !! l with Some (ODict _) => true | _ => false end
         | _ => false
         end), w).
Proof. reflexivity. Qed.

(** On a dict, [deepspeed_parse_config] is the copy. *)
Lemma deepspeed_parse_config_copy env w l items :
  heap w !! l = Some (ODict items) ->
  deepspeed_version_ok env = true ->
  deepspeed_parse_config env (VRef l) w = deepcopy (deepcopy_depth env) (VRef l) w.
Proof.
  intros Hitems Hv. unfold deepspeed_parse_config, dep_version_check. rewrite Hv.
  unfold bind at 1. cbn [ret].
  unfold bind. rewrite is_dict_eq, Hitems. reflexivity.
Qed.

(** On a dict of a closed region, what [deepspeed_parse_config] returns
    is a deep copy at a new location, with the keys of the original. *)
Lemma deepspeed_parse_config_dict_returns env w S l items c w1 :
  region_closed (heap w) S -> l ∈ S -> heap w !! l = Some (ODict items) ->
  deepspeed_version_ok env = true ->
  deepspeed_parse_config env (VRef l) w = (Ok c, w1) ->
  exists y h' items',
    c = VRef y /\ w1 = with_heap h' w
    /\ heap w ⊆ h'
    /\ (y ∉ dom (heap w))
    /\ h' !! y = Some (ODict items')
    /\ PyDict.keys items' = PyDict.keys items
    /\ deep_copy (heap w) h' (VRef l) (VRef y)
    /\ (forall y' o, h' !! y' = Some o -> y' ∉ dom (heap w) ->
          Forall (new_val (heap w)) (obj_values o)).
Proof.
  intros Hc Hl Hitems Hv Hrun.
  rewrite (deepspeed_parse_config_copy env w l items Hitems Hv) in Hrun.
  destruct (deepcopy_returns w (VRef l) S _ c w1 Hc Hl Hrun)
    as (h' & -> & Hsub & Hcopy & Hnew & Hobjs).
  pose proof Hcopy as (m & (y & Hy & ->) & _ & Hm).
  destruct (Hm l y Hy) as (Hy0 & o & o' & Ho & Ho' & Hco).
  rewrite Hitems in Ho. injection Ho as <-.
  destruct o' as [items'|]; [|contradiction]. destruct Hco as [Hk _].
  exists y, h', items'. conjs; auto.
Qed.

(** It does return when the region has fewer objects than the copy may
    nest. *)
Lemma deepspeed_parse_config_dict env w S l items :
  region_closed (heap w) S -> l ∈ S -> heap w !! l = Some (ODict items) ->
  deepspeed_version_ok env = true ->
  size S < deepcopy_depth env ->
  exists y h' items',
    deepspeed_parse_config env (VRef l) w = (Ok (VRef y), with_heap h' w)
    /\ heap w ⊆ h'
    /\ (y ∉ dom (heap w))
    /\ h' !! y = Some (ODict items')
    /\ PyDict.keys items' = PyDict.keys items
    /\ deep_copy (heap w) h' (VRef l) (VRef y)
    /\ (forall y' o, h' !! y' = Some o -> y' ∉ dom (heap w) ->
          Forall (new_val (heap w)) (obj_values o)).
Proof.
  intros Hc Hl Hitems Hv Hsize.
  destruct (deepcopy_correct w (VRef l) S _ Hc Hl Hsize) as (v' & h0 & Hrun & _).
  rewrite <- (deepspeed_parse_config_copy env w l items Hitems Hv) in Hrun.
  destruct (deepspeed_parse_config_dict_returns env w S l items _ _ Hc Hl Hitems Hv Hrun)
    as (y & h' & items' & -> & Hw & Hrest).
  exists y, h', items'. split; [|exact Hrest]. rewrite Hrun, Hw. reflexivity.
Qed.

(** When it raises on a dict, the state is as before. *)
Lemma deepspeed_parse_config_dict_raises env w l items e w1 :
  heap w !! l = Some (ODict items) ->
  deepspeed_parse_config env (VRef l) w = (Raise e, w1) -> w1 = w.
Proof.
  intros Hitems Hrun. destruct (deepspeed_version_ok env) eqn:Hv.
  - rewrite (deepspeed_parse_config_copy env w l items Hitems Hv) in Hrun.
    eapply deepcopy_raises_state, Hrun.
  - unfold deepspeed_parse_config, dep_version_check in Hrun. rewrite Hv in Hrun.
    cbn in Hrun. congruence.
Qed.

Lemma deepspeed_parse_config_version env ds w :
  deepspeed_version_ok env = false ->
  deepspeed_parse_config env ds w = (Raise ImportError, w).
Proof. intros H. unfold deepspeed_parse_config, dep_version_check. rewrite H. reflexivity. Qed.

Lemma present_keys_dict xs l items w :
  heap w !! l = Some (ODict items) ->
  present_keys xs (VRef l) w = (Ok (List.filter (fun x => PyDict.mem x items) xs), w).
Proof.
  intros H. induction xs as [|x xs IH]; cbn [present_keys List.filter]; [reflexivity|].
  rewrite (bind_ok _ _ _ _ _ (in_keys_dict x _ _ _ H)).
  rewrite (bind_ok _ _ _ _ _ IH).
  destruct (PyDict.mem x items); reflexivity.
Qed.

(** The two checks, on a dict. *)
Lemma check_batch_keys_dict l items w :
  heap w !! l = Some (ODict items) ->
  check_batch_keys (VRef l) w
  = (if PyDict.mem "train_batch_size" items
        || PyDict.mem "train_micro_batch_size_per_gpu" items
     then Raise (ValueError batch_keys_message)
     else if PyDict.mem "gradient_accumulation_steps" items
          then Raise (ValueError accumulation_message)
          else Ok tt,
     w).
Proof.
  intros H. unfold check_batch_keys.
  rewrite (bind_ok _ _ _ _ _ (present_keys_dict bs_keys _ _ _ H)).
  cbn [bs_keys List.filter].
  destruct (PyDict.mem "train_batch_size" items),
           (PyDict.mem "train_micro_batch_size_per_gpu" items); cbn [orb]; try reflexivity.
  cbn [length Nat.eqb negb].
  rewrite (bind_ok _ _ _ _ _ (in_keys_dict _ _ _ _ H)).
  destruct (PyDict.mem "gradient_accumulation_steps" items); reflexivity.
Qed.

Lemma with_heap_heap h w : heap (with_heap h w) = h.
Proof. reflexivity. Qed.

Lemma with_heap_twice h h' w : with_heap h (with_heap h' w) = with_heap h w.
Proof. reflexivity. Qed.

(** The merge of the batch arguments, on a dict: it returns, and the
    dict has the two entries (and a gradient clipping). *)
Lemma merge_batch_args_dict a l items w :
  heap w !! l = Some (ODict items) ->
  exists items',
    merge_batch_args a (VRef l) w
    = (Ok tt, with_heap (<[l := ODict items']> (heap w)) w)
    /\ PyDict.get "train_micro_batch_size_per_gpu" items'
       = Some (VInt (per_device_train_batch_size a))
    /\ PyDict.get "gradient_accumulation_steps" items'
       = Some (VInt (gradient_accumulation_steps a))
    /\ (forall P : value -> Prop,
          (forall v, is_int_or_float v = true -> P v) ->
          Forall P (PyDict.values items) -> Forall P (PyDict.values items')).
Proof.
  intros H. unfold merge_batch_args.
  set (items1 := PyDict.set "train_micro_batch_size_per_gpu"
                   (VInt (per_device_train_batch_size a)) items).
  set (items2 := PyDict.set "gradient_accumulation_steps"
                   (VInt (gradient_accumulation_steps a)) items1).
  rewrite (bind_ok _ _ _ _ _ (setitem_dict _ _ _ _ _ H)). fold items1.
  assert (H1 : heap (with_heap (<[l := ODict items1]> (heap w)) w) !! l = Some (ODict items1))
    by apply lookup_insert_eq.
  rewrite (bind_ok _ _ _ _ _ (setitem_dict _ _ _ _ _ H1)). fold items2.
  rewrite with_heap_heap, with_heap_twice, insert_insert_eq.
  assert (H2 : heap (with_heap (<[l := ODict items2]> (heap w)) w) !! l = Some (ODict items2))
    by apply lookup_insert_eq.
  rewrite (bind_ok _ _ _ _ _ (contains_dict _ _ _ _ H2)).
  assert (Hk1 : PyDict.get "train_micro_batch_size_per_gpu" items2
                = Some (VInt (per_device_train_batch_size a))).
  { unfold items2. rewrite get_set_ne by discriminate. apply get_set_eq. }
  assert (Hk2 : PyDict.get "gradient_accumulation_steps" items2
                = Some (VInt (gradient_accumulation_steps a))) by apply get_set_eq.
  assert (HP : forall P : value -> Prop,
             (forall v, is_int_or_float v = true -> P v) ->
             Forall P (PyDict.values items) -> Forall P (PyDict.values items2)).
  { intros P HPn HPv. repeat apply values_set_Forall; auto. }
  destruct (PyDict.mem "gradient_clipping" items2).
  - exists items2. conjs; auto.
  - rewrite (setitem_dict _ _ _ _ _ H2).
    rewrite with_heap_heap, with_heap_twice, insert_insert_eq.
    eexists. conjs; [reflexivity | | |].
    + rewrite get_set_ne by discriminate. exact Hk1.
    + rewrite get_set_ne by discriminate. exact Hk2.
    + intros P HPn HPv. apply values_set_Forall; auto.
Qed.

(** What follows the merge of the batch arguments, as one computation. *)
Lemma keeps_init_tail h0 (env : Env) (t : Trainer) n r y :
  y ∉ dom h0 ->
  keeps (merged h0 (args t) y)
    (optimizer <- merge_optimizer (args t) (VRef y) ;;
     lr_scheduler <- merge_scheduler (args t) n (VRef y) ;;
     merge_fp16 t (VRef y) ;;
     merge_zero t (VRef y) ;;
     emit (Initialize (VRef y) optimizer lr_scheduler) ;;
     resume env r ;;
     ret {| engine_config := VRef y;
            trainer_optimizer := optimizer;
            trainer_lr_scheduler := lr_scheduler |})
    (fun eng => engine_config eng = VRef y).
Proof.
  intros Hy.
  eapply keeps_bind; [apply keeps_merge_optimizer, Hy|]. intros optimizer _.
  eapply keeps_bind; [apply keeps_merge_scheduler, Hy|]. intros lr_scheduler _.
  eapply keeps_bind; [apply keeps_merge_fp16, Hy|]. intros _ _.
  eapply keeps_bind; [apply keeps_merge_zero, Hy|]. intros _ _.
  eapply keeps_bind; [apply keeps_emit|]. intros _ _.
  eapply keeps_bind; [apply keeps_resume|]. intros _ _.
  apply keeps_ret. reflexivity.
Qed.

(** [deepspeed_init] on a dict of a closed region of [h0]: whatever
    happens, the objects of [h0] are left as they are; and if the call
    returns, the config the engine was given is a new dict that has the
    batch size and the gradient accumulation of the trainer. *)
Lemma deepspeed_init_dict h0 S env t n r l items :
  region_closed h0 S -> l ∈ S -> h0 !! l = Some (ODict items) ->
  deepspeed (args t) = VRef l ->
  hoare (good h0) (deepspeed_init env t n r)
    (fun eng w' =>
       good h0 w'
       /\ exists y, engine_config eng = VRef y /\ (y ∉ dom h0)
                    /\ batch_args_set (args t) y w')
    (good h0).
Proof.
  intros Hc Hl Hitems Hds w Hw. unfold deepspeed_init. rewrite Hds.
  destruct (deepspeed_importable env); [|exact Hw].
  unfold bind at 1. cbn [ret].
  destruct (deepspeed_version_ok env) eqn:Hv;
    [|rewrite (bind_raise _ _ _ _ _ (deepspeed_parse_config_version _ _ _ Hv)); exact Hw].
  pose proof Hw as [Hold Hnew].
  assert (Hsub : h0 ⊆ heap w) by (apply map_subseteq_spec; exact Hold).
  assert (Hitems' : heap w !! l = Some (ODict items)) by (apply Hold, Hitems).
  destruct (deepspeed_parse_config env (VRef l) w) as [[c|e] w1] eqn:Hrun.
  2:{ rewrite (bind_raise _ _ _ _ _ Hrun).
      rewrite (deepspeed_parse_config_dict_raises env w l items e w1 Hitems' Hrun).
      exact Hw. }
  destruct (deepspeed_parse_config_dict_returns env w S l items c w1)
    as (y & h' & items' & -> & -> & Hh & Hy & Hy' & Hkeys & _ & Hobjs); auto.
  { eapply region_closed_mono; eassumption. }
  rewrite (bind_ok _ _ _ _ _ Hrun).
  assert (Hy0 : y ∉ dom h0).
  { intros Hin. apply Hy. eapply subseteq_dom; eassumption. }
  assert (Hfresh : forall v, new_val (heap w) v -> new_val h0 v).
  { intros [] Hv'; simpl in *; auto. intros Hin. apply Hv'.
    eapply subseteq_dom; eassumption. }
  assert (Hw1 : good h0 (with_heap h' w)).
  { split; cbn [heap with_heap].
    - intros l0 o Ho. eapply lookup_weaken; [|exact Hh]. auto.
    - intros l0 o Ho Hl0. destruct (heap w !! l0) as [o0|] eqn:E.
      + rewrite (lookup_weaken _ _ _ _ E Hh) in Ho. injection Ho as <-.
        eapply Hnew; eassumption.
      + eapply Forall_impl; [|exact Hfresh]. eapply Hobjs; [exact Ho|].
        apply not_elem_of_dom, E. }
  assert (Hy1 : heap (with_heap h' w) !! y = Some (ODict items')) by exact Hy'.
  unfold bind at 1. rewrite (check_batch_keys_dict _ _ _ Hy1).
  destruct (_ || _); [exact Hw1|].
  destruct (PyDict.mem "gradient_accumulation_steps" items'); [exact Hw1|].
  destruct (merge_batch_args_dict (args t) y items' _ Hy1) as (items2 & Hm & Hk1 & Hk2 & HP).
  rewrite (bind_ok _ _ _ _ _ Hm). rewrite with_heap_heap, with_heap_twice.
  assert (Hw2 : merged h0 (args t) y (with_heap (<[y := ODict items2]> h') w)).
  { unfold merged, good, batch_args_set. split; [split|]; cbn [heap with_heap].
    - intros l0 o Ho. rewrite lookup_insert_ne.
      + apply (proj1 Hw1 l0 o Ho).
      + intros <-. apply Hy0, elem_of_dom. eauto.
    - intros l0 o. rewrite lookup_insert. case_decide as E.
      + intros [= <-] _. cbn. apply HP.
        * intros [] Hn; simpl in *; auto; discriminate.
        * apply (proj2 Hw1 y _ Hy1 Hy0).
      + apply (proj2 Hw1).
    - exists items2. rewrite lookup_insert_eq. auto. }
  pose proof (keeps_init_tail h0 env t n r y Hy0 _ Hw2) as Htail.
  match goal with
  | H : match ?c with _ => _ end |- match ?c' with _ => _ end =>
      change c' with c; destruct c as [[eng|e] w']
  end.
  - destruct Htail as [[Hg Hb] He]. split; [exact Hg|]. eauto.
  - exact (proj1 Htail).
Qed.

End Init.

(** * The claims on DeepSpeed *)

Section ConfigKeys.
Import DS.
Local Open Scope py_scope.

Lemma mem_keys_eq {V W} (d1 : list (string * V)) (d2 : list (string * W)) k :
  PyDict.keys d1 = PyDict.keys d2 -> PyDict.mem k d1 = PyDict.mem k d2.
Proof.
  intros H.
  destruct (PyDict.mem k d1) eqn:E1, (PyDict.mem k d2) eqn:E2; try reflexivity.
  - apply mem_true_iff in E1. rewrite H in E1. apply mem_true_iff in E1. congruence.
  - apply mem_true_iff in E2. rewrite <- H in E2. apply mem_true_iff in E2. congruence.
Qed.

Lemma mem_fold_set {V} (pairs acc : list (string * V)) k :
  PyDict.mem k (fold_left (fun d '(k, v) => PyDict.set k v d) pairs acc)
  = PyDict.mem k acc || PyDict.mem k pairs.
Proof.
  revert acc. induction pairs as [|[k' v'] pairs IH]; intros acc; cbn [fold_left].
  - unfold PyDict.mem at 3. cbn. rewrite orb_false_r. reflexivity.
  - rewrite IH, mem_set. unfold PyDict.mem at 4. cbn [PyDict.get].
    fold (PyDict.mem k pairs).
    destruct (String.eqb k k'), (PyDict.mem k acc); reflexivity.
Qed.

Lemma mem_of_pairs {V} (pairs : list (string * V)) k :
  PyDict.mem k (PyDict.of_pairs pairs) = PyDict.mem k pairs.
Proof. unfold PyDict.of_pairs. rewrite mem_fold_set. reflexivity. Qed.

Lemma alloc_pairs_keys rec pairs h :
  PyDict.keys (fst (alloc_pairs rec pairs h)) = PyDict.keys pairs.
Proof.
  revert h. induction pairs as [|[k j] pairs IH]; intros h; cbn; [reflexivity|].
  destruct (rec j h) as [v h1]. specialize (IH h1).
  destruct (alloc_pairs rec pairs h1) as [kvs h2]. cbn in *. f_equal. exact IH.
Qed.

(** Loading a file that holds a JSON object gives a dict with its
    keys, when the text is not nested deeper than [json.load] can
    parse. *)
Lemma json_load_dict env path pairs w :
  files env path = FsFile (Some (JDict pairs)) ->
  json_depth (JDict pairs) <= json_depth_limit env ->
  exists y h' items',
    json_load env path w = (Ok (VRef y), with_heap h' w)
    /\ h' !! y = Some (ODict items')
    /\ forall k, PyDict.mem k items' = PyDict.mem k pairs.
Proof.
  intros H Hd. unfold json_load. rewrite H.
  destruct (Nat.ltb_spec (json_depth_limit env) (json_depth (JDict pairs))) as [Hlt|_];
    [lia|].
  unfold bind, get_heap, put_heap, ret.
  cbn [alloc_json].
  pose proof (alloc_pairs_keys alloc_json pairs (heap w)) as Hk.
  destruct (alloc_pairs alloc_json pairs (heap w)) as [kvs h1]. cbn [fst] in Hk.
  eexists _, _, _. conjs; [reflexivity | apply lookup_insert_eq |].
  intros k. rewrite mem_of_pairs. apply mem_keys_eq, Hk.
Qed.

(** Deeper than that, it raises [RecursionError]. *)
Lemma json_load_too_deep env path j w :
  files env path = FsFile (Some j) ->
  json_depth_limit env < json_depth j ->
  json_load env path w = (Raise RecursionError, w).
Proof.
  intros H Hd. unfold json_load. rewrite H.
  destruct (Nat.ltb_spec (json_depth_limit env) (json_depth j)) as [_|Hle]; [|lia].
  reflexivity.
Qed.

Lemma json_load_raises_state env path w e w1 :
  json_load env path w = (Raise e, w1) -> w1 = w.
Proof.
  unfold json_load. destruct (files env path) as [| |[j|]];
    try (unfold raise; congruence).
  destruct (Nat.ltb (json_depth_limit env) (json_depth j));
    [unfold raise; congruence|].
  unfold bind, get_heap, put_heap, ret. destruct (alloc_json j (heap w)). discriminate.
Qed.

(** When [deepspeed_parse_config] raises, the state is as before. *)
Lemma deepspeed_parse_config_raises_state env v w e w1 :
  deepspeed_parse_config env v w = (Raise e, w1) -> w1 = w.
Proof.
  unfold deepspeed_parse_config, dep_version_check.
  destruct (deepspeed_version_ok env); [|unfold bind, raise; congruence].
  unfold bind at 1. cbn [ret]. unfold bind. rewrite is_dict_eq.
  match goal with |- context [if ?b then _ else _] => destruct b end.
  - apply deepcopy_raises_state.
  - destruct v; try (unfold raise; congruence). apply json_load_raises_state.
Qed.

Lemma heap_wf_region h : heap_wf h -> region_closed h (dom h).
Proof. exact id. Qed.

(** C5. A config mapping, given as a dict or as a JSON file, that has
    one of the keys [train_batch_size], [train_micro_batch_size_per_gpu],
    [gradient_accumulation_steps] makes [deepspeed_init] raise, before
    any call that initializes (the trace and the flag are as they were);
    when DeepSpeed is importable in a supported version and the mapping
    is within what the recursion limit lets the function read, the error
    is the [ValueError] that names the offending entries. *)
Theorem deepspeed_init_rejects_batch_keys env t n r w k :
  In k ["train_batch_size"; "train_micro_batch_size_per_gpu";
        "gradient_accumulation_steps"] ->
  config_has_key env w (deepspeed (args t)) k ->
  heap_wf (heap w) ->
  exists e w',
    deepspeed_init env t n r w = (Raise e, w')
    /\ trace w' = trace w
    /\ _is_deepspeed_zero3_enabled w' = _is_deepspeed_zero3_enabled w
    /\ (deepspeed_importable env = true -> deepspeed_version_ok env = true ->
        config_within_limits env w (deepspeed (args t)) ->
        e = ValueError batch_keys_message \/ e = ValueError accumulation_message).
Proof.
  intros Hk Hcfg Hwf. unfold deepspeed_init.
  destruct (deepspeed_importable env);
    [|exists ImportError, w; conjs; auto; discriminate].
  unfold bind at 1. cbn [ret].
  destruct (deepspeed_version_ok env) eqn:Hv;
    [|rewrite (bind_raise _ _ _ _ _ (deepspeed_parse_config_version _ _ _ Hv));
      exists ImportError, w; conjs; auto; discriminate].
  assert (Hparse :
            (exists e, deepspeed_parse_config env (deepspeed (args t)) w = (Raise e, w)
                       /\ ~ config_within_limits env w (deepspeed (args t)))
            \/ exists y h' items',
                 deepspeed_parse_config env (deepspeed (args t)) w
                 = (Ok (VRef y), with_heap h' w)
                 /\ h' !! y = Some (ODict items') /\ PyDict.mem k items' = true).
  { destruct (deepspeed (args t)) as [| | | |path|l]; try contradiction.
    - destruct Hcfg as (pairs & Hf & Hm).
      assert (Hrun : deepspeed_parse_config env (VStr path) w = json_load env path w).
      { unfold deepspeed_parse_config, dep_version_check. rewrite Hv.
        unfold bind at 1. cbn [ret]. unfold bind. rewrite is_dict_eq. reflexivity. }
      rewrite Hrun.
      destruct (Nat.le_gt_cases (json_depth (JDict pairs)) (json_depth_limit env))
        as [Hd|Hd].
      + right.
        destruct (json_load_dict env path pairs w Hf Hd)
          as (y & h' & items' & Hload & Hy & Hkeys).
        exists y, h', items'. conjs; auto. rewrite Hkeys. exact Hm.
      + left. exists RecursionError. split; [apply (json_load_too_deep _ _ _ _ Hf Hd)|].
        intros Hlim. specialize (Hlim _ Hf). lia.
    - destruct Hcfg as (items & Hl & Hm).
      assert (HlS : l ∈ dom (heap w)) by (apply elem_of_dom; eauto).
      destruct (deepspeed_parse_config env (VRef l) w) as [[c|e] w1] eqn:Hrun.
      + right.
        destruct (deepspeed_parse_config_dict_returns env w (dom (heap w)) l items c w1
                    Hwf HlS Hl Hv Hrun)
          as (y & h' & items' & -> & -> & _ & _ & Hy & Hkeys & _).
        exists y, h', items'. conjs; auto.
        rewrite (mem_keys_eq items' items k Hkeys). exact Hm.
      + left. exists e.
        rewrite (deepspeed_parse_config_dict_raises env w l items e w1 Hl Hrun) in *.
        split; [reflexivity|]. intros Hlim. cbn [config_within_limits] in Hlim.
        destruct (deepspeed_parse_config_dict env w (dom (heap w)) l items Hwf HlS Hl Hv)
          as (y & h' & items' & Hok & _).
        { rewrite size_dom. exact Hlim. }
        congruence. }
  destruct Hparse as [(e & Hrun & Hno) | (y & h' & items' & Hrun & Hy & Hm)].
  { rewrite (bind_raise _ _ _ _ _ Hrun). exists e, w. conjs; auto.
    intros _ _ Hlim. contradiction. }
  rewrite (bind_ok _ _ _ _ _ Hrun).
  assert (Hy1 : heap (with_heap h' w) !! y = Some (ODict items')) by exact Hy.
  unfold bind at 1. rewrite (check_batch_keys_dict _ _ _ Hy1).
  cbn [In] in Hk. destruct Hk as [<-|[<-|[<-|[]]]]; rewrite ?Hm, ?orb_true_r; cbn [orb].
  - eexists _, _. conjs; [reflexivity| | |]; auto.
  - eexists _, _. conjs; [reflexivity| | |]; auto.
  - destruct (_ || _); eexists _, _; (conjs; [reflexivity| | |]); auto.
Qed.

End ConfigKeys.

Section WellFormedCheck.
Import DS.

Lemma obj_wfb_wf h o :
  obj_wfb h o = true ->
  obj_wf o /\ forall r, In (VRef r) (obj_values o) -> r ∈ dom h.
Proof.
  unfold obj_wfb. intros H. apply andb_true_iff in H as [H1 H2]. split.
  - destruct o; [apply wfb_wf, H1 | exact Logic.I].
  - intros r Hr. rewrite forallb_forall in H2. specialize (H2 _ Hr).
    cbn in H2. apply bool_decide_eq_true_1 in H2. exact H2.
Qed.

Lemma heap_wfb_wf h : heap_wfb h = true -> heap_wf h.
Proof.
  unfold heap_wfb. intros H l Hl. apply elem_of_dom in Hl as [o Ho].
  rewrite forallb_forall in H.
  assert (Hin : In (l, o) (map_to_list h)).
  { apply list_elem_of_In, elem_of_map_to_list, Ho. }
  destruct (obj_wfb_wf h o (H _ Hin)) as [H1 H2]. eauto.
Qed.

End WellFormedCheck.

Section BatchArgs.
Import DS.
Local Open Scope py_scope.

Lemma good_refl w : good (heap w) w.
Proof.
  split; [auto|]. intros l o Ho Hl. exfalso. apply Hl, elem_of_dom. eauto.
Qed.

(** C6. On a config mapping that has none of the three keys, the checks
    pass and the merge step leaves the config with
    [train_micro_batch_size_per_gpu] equal to the per-device train batch
    size and [gradient_accumulation_steps] equal to the trainer's
    gradient accumulation; and when [deepspeed_init], given a dict,
    returns, the config the engine was initialized with has both. *)
Theorem deepspeed_init_merges_batch_args env t n r w l items :
  heap_wf (heap w) ->
  heap w !! l = Some (ODict items) ->
  PyDict.mem "train_batch_size" items = false ->
  PyDict.mem "train_micro_batch_size_per_gpu" items = false ->
  PyDict.mem "gradient_accumulation_steps" items = false ->
  (exists w',
      (check_batch_keys (VRef l) ;; merge_batch_args (args t) (VRef l)) w = (Ok tt, w')
      /\ batch_args_set (args t) l w')
  /\ (deepspeed (args t) = VRef l ->
      forall eng w', deepspeed_init env t n r w = (Ok eng, w') ->
        exists y, engine_config eng = VRef y /\ batch_args_set (args t) y w').
Proof.
  intros Hwf Hl H1 H2 H3. split.
  - unfold bind. rewrite (check_batch_keys_dict _ _ _ Hl), H1, H2, H3. cbn [orb].
    destruct (merge_batch_args_dict (args t) l items w Hl) as (items' & -> & Hk1 & Hk2 & _).
    eexists. split; [reflexivity|]. exists items'. cbn [heap with_heap].
    rewrite lookup_insert_eq. auto.
  - intros Hds eng w' Hrun.
    pose proof (good_refl w) as Hgood.
    pose proof (deepspeed_init_dict (heap w) (dom (heap w)) env t n r l items
                  Hwf ltac:(apply elem_of_dom; eauto) Hl Hds w Hgood) as H.
    rewrite Hrun in H. destruct H as (_ & y & Hy & _ & Hb). eauto.
Qed.

End BatchArgs.

Section Resume.
Import DS.
Local Open Scope py_scope.

(** The attempt to resume is the last step: a call with a path is the
    call without one, followed by [resume]. *)
Lemma deepspeed_init_resume env t n r w :
  deepspeed_init env t n r w
  = match deepspeed_init env t n None w with
    | (Ok eng, w1) =>
        match resume env r w1 with
        | (Ok _, w2) => (Ok eng, w2)
        | (Raise e, w2) => (Raise e, w2)
        end
    | (Raise e, w1) => (Raise e, w1)
    end.
Proof.
  unfold deepspeed_init, bind. cbn [resume]. unfold ret.
  repeat match goal with
         | |- context [match ?c ?s with pair _ _ => _ end] =>
             destruct (c s) as [[?|?] ?]
         end; reflexivity.
Qed.

Lemma resume_no_checkpoint env path w :
  glob env (path ++ "/global_step*") = [] -> resume env (Some path) w = (Ok tt, w).
Proof. intros H. unfold resume. rewrite H. reflexivity. Qed.

Lemma resume_load env path w :
  glob env (path ++ "/global_step*") <> [] ->
  resume env (Some path) w
  = (match load_checkpoint env path with
     | None => Raise (ValueError ("[deepspeed] failed to resume from checkpoint " ++ path))
     | Some _ => Ok tt
     end,
     snd (emit (LoadCheckpoint path) w)).
Proof.
  intros H. unfold resume. destruct (glob env _); [congruence|].
  cbn [length Nat.ltb Nat.leb]. unfold bind. cbn [emit].
  destruct (load_checkpoint env path); reflexivity.
Qed.

(** C8, as the code has it.  A path with no [global_step*] entry is not
    an error: the call does what it does without a path.  A path with
    such an entry is loaded by the engine, and only if the engine reports
    no load path does the call raise, with a [ValueError] that names the
    path. *)
Theorem deepspeed_init_resume_behaviour env t n path w :
  (glob env (path ++ "/global_step*") = [] ->
     deepspeed_init env t n (Some path) w = deepspeed_init env t n None w)
  /\ (glob env (path ++ "/global_step*") <> [] ->
      forall eng w1, deepspeed_init env t n None w = (Ok eng, w1) ->
        deepspeed_init env t n (Some path) w
        = (match load_checkpoint env path with
           | None => Raise (ValueError
                              ("[deepspeed] failed to resume from checkpoint " ++ path))
           | Some _ => Ok eng
           end,
           snd (emit (LoadCheckpoint path) w1))).
Proof.
  split.
  - intros H. rewrite (deepspeed_init_resume env t n (Some path) w).
    destruct (deepspeed_init env t n None w) as [[eng|e] w1]; [|reflexivity].
    rewrite (resume_no_checkpoint _ _ _ H). reflexivity.
  - intros H eng w1 Hrun. rewrite (deepspeed_init_resume env t n (Some path) w), Hrun.
    rewrite (resume_load _ _ _ H).
    destruct (load_checkpoint env path); reflexivity.
Qed.

End Resume.

Section Zero3Flag.
Import DS.
Local Open Scope py_scope.

Lemma deepspeed_parse_config_flag env v w :
  _is_deepspeed_zero3_enabled (snd (deepspeed_parse_config env v w))
  = _is_deepspeed_zero3_enabled w.
Proof.
  unfold deepspeed_parse_config, dep_version_check.
  destruct (deepspeed_version_ok env); [|reflexivity].
  unfold bind at 1. cbn [ret]. unfold bind. rewrite is_dict_eq.
  match goal with |- context [if ?b then _ else _] => destruct b end.
  - unfold deepcopy. destruct (deepcopy_fuel _ _ _) as [[v' [h' m']]|e]; reflexivity.
  - destruct v; try reflexivity. unfold json_load.
    destruct (files env s) as [| |[j|]]; try reflexivity.
    destruct (Nat.ltb _ _); [reflexivity|].
    unfold bind, get_heap, put_heap, ret.
    destruct (alloc_json j (heap w)); reflexivity.
Qed.

Lemma keeps_flag_parse env v : keeps flag_set (deepspeed_parse_config env v) (fun _ => True).
Proof.
  intros w Hw. pose proof (deepspeed_parse_config_flag env v w) as H.
  destruct (deepspeed_parse_config env v w) as [[c|e] w']; cbn [snd] in H;
    unfold flag_set; rewrite H; auto.
Qed.

Lemma keeps_flag_discover env : keeps flag_set (discover_zero3 env) (fun _ => True).
Proof.
  unfold discover_zero3.
  destruct (existsb _ _); [|apply keeps_ret; exact Logic.I].
  destruct (nth_error _ _) as [ds_config|]; [|apply keeps_raise].
  destruct (negb _); [apply keeps_raise|].
  eapply keeps_bind; [apply keeps_flag_parse|]. intros config _.
  eapply keeps_bind with (Q := fun _ => True);
    [apply keeps_pure; [apply contains_state | auto]|].
  intros [] _; [|apply keeps_ret; exact Logic.I].
  eapply keeps_bind with (Q := fun _ => True);
    [apply keeps_pure; [apply getitem_state | auto]|]. intros zero _.
  eapply keeps_bind with (Q := fun _ => True);
    [apply keeps_pure; [apply contains_state | auto]|].
  intros [] _; [|apply keeps_ret; exact Logic.I].
  eapply keeps_bind with (Q := fun _ => True);
    [apply keeps_pure; [apply getitem_state | auto]|]. intros zero2 _.
  eapply keeps_bind with (Q := fun _ => True);
    [apply keeps_pure; [apply getitem_state | auto]|]. intros stage _.
  destruct (py_eq_int stage 3); [|apply keeps_ret; exact Logic.I].
  intros w _. split; [|exact Logic.I]. unfold flag_set. cbn. eauto.
Qed.

(** Once the flag is set, a call returns it and changes nothing,
    whatever the command line and the files are by then. *)
Lemma is_deepspeed_zero3_enabled_cached env w b :
  _is_deepspeed_zero3_enabled w = Some b ->
  is_deepspeed_zero3_enabled env w = (Ok (Some b), w).
Proof.
  intros H. unfold is_deepspeed_zero3_enabled, bind, get_flag. rewrite H. cbn.
  rewrite H. reflexivity.
Qed.

Lemma repeated_calls_cached envs w b :
  _is_deepspeed_zero3_enabled w = Some b ->
  repeated_calls envs w = (Ok (map (fun _ => Some b) envs), w).
Proof.
  intros H. induction envs as [|env envs IH]; cbn [repeated_calls map]; [reflexivity|].
  rewrite (bind_ok _ _ _ _ _ (is_deepspeed_zero3_enabled_cached env w b H)).
  rewrite (bind_ok _ _ _ _ _ IH). reflexivity.
Qed.

(** The first call sets the flag, also when the discovery raises. *)
Lemma is_deepspeed_zero3_enabled_first env w :
  _is_deepspeed_zero3_enabled w = None ->
  exists b,
    _is_deepspeed_zero3_enabled (snd (is_deepspeed_zero3_enabled env w)) = Some b
    /\ forall r, fst (is_deepspeed_zero3_enabled env w) = Ok r -> r = Some b.
Proof.
  intros H.
  assert (Hrun : is_deepspeed_zero3_enabled env w
                 = match discover_zero3 env (snd (set_flag (Some false) w)) with
                   | (Ok _, w1) => (Ok (_is_deepspeed_zero3_enabled w1), w1)
                   | (Raise e, w1) => (Raise e, w1)
                   end).
  { unfold is_deepspeed_zero3_enabled, bind, get_flag. rewrite H. cbn [set_flag snd].
    destruct (discover_zero3 env _) as [[[]|e] w1]; reflexivity. }
  rewrite Hrun.
  assert (Hw0 : flag_set (snd (set_flag (Some false) w))) by (unfold flag_set; cbn; eauto).
  pose proof (keeps_flag_discover env _ Hw0) as Hd.
  destruct (discover_zero3 env (snd (set_flag (Some false) w))) as [[[]|e] w1].
  - destruct Hd as [[b Hb] _]. exists b. cbn [fst snd].
    split; [exact Hb|]. intros r [= <-]. exact Hb.
  - destruct Hd as [b Hb]. exists b. cbn [fst snd]. split; [exact Hb | discriminate].
Qed.

End Zero3Flag.

Section UserDict.
Import DS.
Local Open Scope py_scope.

(** C10. Given a dict, what [deepspeed_parse_config] returns is a deep
    copy of it, and it does return one when the store has fewer objects
    than the copy may nest; neither that call nor the whole of
    [deepspeed_init], with its updates in place, changes any object the
    caller had, whether they return or raise; and when the dict has none
    of the three refused keys, it passes the checks again in the state
    [deepspeed_init] leaves. *)
Theorem deepspeed_init_keeps_user_dict env t n r w l items :
  heap_wf (heap w) ->
  heap w !! l = Some (ODict items) ->
  deepspeed (args t) = VRef l ->
  (forall c w1,
      deepspeed_parse_config env (VRef l) w = (Ok c, w1) ->
      deep_copy (heap w) (heap w1) (VRef l) c)
  /\ (deepspeed_version_ok env = true ->
      size (heap w) < deepcopy_depth env ->
      exists c w1,
        deepspeed_parse_config env (VRef l) w = (Ok c, w1)
        /\ deep_copy (heap w) (heap w1) (VRef l) c)
  /\ (forall l' o, heap w !! l' = Some o ->
        heap (snd (deepspeed_parse_config env (VRef l) w)) !! l' = Some o)
  /\ (forall l' o, heap w !! l' = Some o ->
        heap (snd (deepspeed_init env t n r w)) !! l' = Some o)
  /\ (PyDict.mem "train_batch_size" items = false ->
      PyDict.mem "train_micro_batch_size_per_gpu" items = false ->
      PyDict.mem "gradient_accumulation_steps" items = false ->
      forall env', deepspeed_version_ok env' = true ->
        size (heap w) < deepcopy_depth env' ->
        exists w2,
          (config <- deepspeed_parse_config env' (VRef l) ;; check_batch_keys config)
            (snd (deepspeed_init env t n r w))
          = (Ok tt, w2)).
Proof.
  intros Hwf Hl Hds.
  assert (HlS : l ∈ dom (heap w)) by (apply elem_of_dom; eauto).
  assert (Hinit : good (heap w) (snd (deepspeed_init env t n r w))).
  { pose proof (deepspeed_init_dict (heap w) (dom (heap w)) env t n r l items
                  Hwf HlS Hl Hds w (good_refl w)) as H.
    destruct (deepspeed_init env t n r w) as [[eng|e] w']; [apply H | exact H]. }
  assert (Hret : forall c w1,
             deepspeed_parse_config env (VRef l) w = (Ok c, w1) ->
             heap w ⊆ heap w1 /\ deep_copy (heap w) (heap w1) (VRef l) c).
  { intros c w1 Hrun. destruct (deepspeed_version_ok env) eqn:Hv.
    - destruct (deepspeed_parse_config_dict_returns env w (dom (heap w)) l items c w1
                  Hwf HlS Hl Hv Hrun)
        as (y & h' & items' & -> & -> & Hsub & _ & _ & _ & Hcopy & _).
      split; [exact Hsub | exact Hcopy].
    - rewrite (deepspeed_parse_config_version _ _ _ Hv) in Hrun. discriminate. }
  conjs.
  - intros c w1 Hrun. apply (Hret c w1 Hrun).
  - intros Hv Hsize.
    destruct (deepspeed_parse_config_dict env w (dom (heap w)) l items Hwf HlS Hl Hv)
      as (y & h' & items' & Hrun & _ & _ & _ & _ & Hcopy & _).
    { rewrite size_dom. exact Hsize. }
    exists (VRef y), (with_heap h' w). split; [exact Hrun | exact Hcopy].
  - intros l' o Ho.
    destruct (deepspeed_parse_config env (VRef l) w) as [[c|e] w1] eqn:Hrun.
    + cbn [snd]. eapply lookup_weaken; [exact Ho | apply (Hret c w1 eq_refl)].
    + cbn [snd]. rewrite (deepspeed_parse_config_raises_state _ _ _ _ _ Hrun). exact Ho.
  - intros l' o Ho. apply (proj1 Hinit), Ho.
  - intros H1 H2 H3 env' Hv' Hsize.
    set (w' := snd (deepspeed_init env t n r w)) in *.
    assert (Hsub : heap w ⊆ heap w') by (apply map_subseteq_spec; exact (proj1 Hinit)).
    destruct (deepspeed_parse_config_dict env' w' (dom (heap w)) l items)
      as (y & h' & items' & Hrun & _ & _ & Hy & Hkeys & _); auto.
    { eapply region_closed_mono; eassumption. }
    { eapply lookup_weaken; eassumption. }
    { rewrite size_dom. exact Hsize. }
    rewrite (bind_ok _ _ _ _ _ Hrun).
    assert (Hy1 : heap (with_heap h' w') !! y = Some (ODict items')) by exact Hy.
    rewrite (check_batch_keys_dict _ _ _ Hy1).
    rewrite !(mem_keys_eq items' items _ Hkeys), H1, H2, H3. eexists. reflexivity.
Qed.

End UserDict.

(** * The claims at concrete inputs *)

Section Instances.
Import DS Examples.
Local Open Scope py_scope.

Lemma deepspeed_init_rejects_batch_keys_witness :
  exists e w',
    deepspeed_init env_plain trainer_8_2 1000 None (world_of heap_batch_config)
    = (Raise e, w')
    /\ trace w' = []
    /\ _is_deepspeed_zero3_enabled w' = None
    /\ (e = ValueError batch_keys_message \/ e = ValueError accumulation_message).
Proof.
  destruct (deepspeed_init_rejects_batch_keys env_plain trainer_8_2 1000 None
              (world_of heap_batch_config) "train_batch_size")
    as (e & w' & Hrun & Htrace & Hflag & Herr).
  - simpl. auto.
  - exists [("train_batch_size", VInt 16)]. split; vm_compute; reflexivity.
  - apply heap_wfb_wf. vm_compute. reflexivity.
  - exists e, w'. split; [exact Hrun|]. split; [exact Htrace|]. split; [exact Hflag|].
    apply Herr; [reflexivity | reflexivity |].
    unfold config_within_limits. cbn [deepspeed args trainer_8_2].
    vm_compute. lia.
Defined.

(** The config [{}] with batch size 8 and accumulation 2: the merge
    step, and the whole call. *)
Lemma deepspeed_init_merges_batch_args_witness :
  (exists w',
      (check_batch_keys (VRef 1) ;; merge_batch_args (args trainer_8_2) (VRef 1))
        (world_of heap_empty_config)
      = (Ok tt, w')
      /\ exists items,
           heap w' !! 1%positive = Some (ODict items)
           /\ PyDict.get "train_micro_batch_size_per_gpu" items = Some (VInt 8)
           /\ PyDict.get "gradient_accumulation_steps" items = Some (VInt 2))
  /\ (exists eng w' y items,
        deepspeed_init env_plain trainer_8_2 1000 None (world_of heap_empty_config)
        = (Ok eng, w')
        /\ engine_config eng = VRef y
        /\ heap w' !! y = Some (ODict items)
        /\ PyDict.get "train_micro_batch_size_per_gpu" items = Some (VInt 8)
        /\ PyDict.get "gradient_accumulation_steps" items = Some (VInt 2)).
Proof.
  assert (Hwf : heap_wf (heap (world_of heap_empty_config)))
    by (apply heap_wfb_wf; vm_compute; reflexivity).
  assert (Hl : heap (world_of heap_empty_config) !! 1%positive = Some (ODict []))
    by (vm_compute; reflexivity).
  destruct (deepspeed_init_merges_batch_args env_plain trainer_8_2 1000 None
              (world_of heap_empty_config) 1%positive [] Hwf Hl eq_refl eq_refl eq_refl)
    as [Hstep Hrun].
  split; [exact Hstep|].
  destruct (deepspeed_init env_plain trainer_8_2 1000 None (world_of heap_empty_config))
    as [[eng|e] w'] eqn:E; [|vm_compute in E; discriminate E].
  destruct (Hrun eq_refl eng w' eq_refl) as (y & Hy & items & Hi & H1 & H2).
  exists eng, w', y, items. conjs; auto.
Defined.

(** C8, as stated, fails: a path without any [global_step*] entry lacks
    the checkpoint state, and [deepspeed_init] returns. *)
Lemma deepspeed_init_resume_counterexample :
  ~ resume_must_raise env_plain trainer_8_2 1000 "ckpt" (world_of heap_empty_config).
Proof.
  intros H.
  assert (Hlacks : lacks_checkpoint_state env_plain "ckpt") by (left; reflexivity).
  specialize (H Hlacks). vm_compute in H. discriminate H.
Defined.

Lemma deepspeed_init_resume_behaviour_witness :
  deepspeed_init env_plain trainer_8_2 1000 (Some "ckpt") (world_of heap_empty_config)
  = deepspeed_init env_plain trainer_8_2 1000 None (world_of heap_empty_config)
  /\ exists w',
       deepspeed_init env_broken_checkpoint trainer_8_2 1000 (Some "ckpt")
         (world_of heap_empty_config)
       = (Raise (ValueError "[deepspeed] failed to resume from checkpoint ckpt"), w').
Proof.
  split.
  - apply (deepspeed_init_resume_behaviour env_plain trainer_8_2 1000 "ckpt"
             (world_of heap_empty_config)).
    reflexivity.
  - destruct (deepspeed_init env_broken_checkpoint trainer_8_2 1000 None
                (world_of heap_empty_config)) as [[eng|e] w1] eqn:Hrun;
      [|vm_compute in Hrun; discriminate Hrun].
    eexists.
    apply (proj2 (deepspeed_init_resume_behaviour env_broken_checkpoint trainer_8_2 1000
                    "ckpt" (world_of heap_empty_config))
             ltac:(discriminate) eng w1 Hrun).
Defined.

(** The discovery from the command line: stage 3 in the file gives
    [True]; a missing file raises and leaves [False] behind. *)
Example is_deepspeed_zero3_enabled_runs :
  fst (is_deepspeed_zero3_enabled env_zero3_file (world_of ∅)) = Ok (Some true)
  /\ fst (is_deepspeed_zero3_enabled env_zero3_no_file (world_of ∅))
     = Raise (ValueError "--deepspeed requires a valid path to a config file")
  /\ fst (is_deepspeed_zero3_enabled env_zero3_file
            (snd (is_deepspeed_zero3_enabled env_zero3_no_file (world_of ∅))))
     = Ok (Some false).
Proof. vm_compute. conjs; reflexivity. Qed.

(** The nested config: [deepspeed_parse_config] returns a deep copy of
    it, and the user's [zero_optimization] dict still has
    [reduce_bucket_size] 0 after [deepspeed_init], which set it in the
    copy. *)
Lemma deepspeed_init_keeps_user_dict_witness :
  (exists c w1,
      deepspeed_parse_config env_plain (VRef 1) (world_of heap_nested_config) = (Ok c, w1)
      /\ deep_copy heap_nested_config (heap w1) (VRef 1) c)
  /\ heap (snd (deepspeed_init env_plain trainer_8_2 1000 None
                  (world_of heap_nested_config)))
       !! 6%positive
     = Some (ODict [("stage", VInt 3); ("reduce_bucket_size", VInt 0)]).
Proof.
  destruct (deepspeed_init_keeps_user_dict env_plain trainer_8_2 1000 None
              (world_of heap_nested_config) 1%positive
              [("optimizer", VRef 2); ("scheduler", VRef 4); ("zero_optimization", VRef 6)])
    as (_ & Hcopy & _ & Hinit & _).
  - apply heap_wfb_wf. vm_compute. reflexivity.
  - vm_compute. reflexivity.
  - reflexivity.
  - split.
    + apply Hcopy; [reflexivity|]. vm_compute. lia.
    + apply Hinit. vm_compute. reflexivity.
Defined.

(** The same run, evaluated: the engine gets a copy at a new location,
    updated in place, and the six objects of the user are as before. *)
Example deepspeed_init_nested_run :
  exists w',
    deepspeed_init env_plain trainer_8_2 1000 None (world_of heap_nested_config)
    = (Ok {| engine_config := VRef 7; trainer_optimizer := false;
             trainer_lr_scheduler := false |}, w')
    /\ heap w' !! 1%positive = heap_nested_config !! 1%positive
    /\ heap w' !! 6%positive = heap_nested_config !! 6%positive
    /\ _is_deepspeed_zero3_enabled w' = Some true
    /\ trace w' = [Initialize (VRef 7) false false].
Proof. eexists. vm_compute. conjs; reflexivity. Qed.

End Instances.

(** * Further properties of the log rewriting and of the hooks *)

Section RewriteOrder.
Context {V : Type}.

(** X1. [rewrite_logs] keeps the order of the entries: the keys of the
    result are the rewritten keys of [d] in the order of [d], and the
    values are those of [d] in the same order. *)
Theorem rewrite_logs_keeps_order (d : list (string * V)) :
  PyDict.wf d ->
  PyDict.keys (rewrite_logs d) = map rewrite_key (PyDict.keys d)
  /\ PyDict.values (rewrite_logs d) = PyDict.values d.
Proof.
  intros Hwf. rewrite (rewrite_logs_map d Hwf).
  unfold PyDict.keys, PyDict.values. rewrite !map_map. split; reflexivity.
Qed.

End RewriteOrder.

Lemma rewrite_logs_keeps_order_witness :
  PyDict.keys (rewrite_logs [("loss", VInt 2); ("eval_loss", VInt 1); ("epoch", VInt 3)])
  = ["train/loss"; "eval/loss"; "train/epoch"]
  /\ PyDict.values (rewrite_logs [("loss", VInt 2); ("eval_loss", VInt 1); ("epoch", VInt 3)])
     = [VInt 2; VInt 1; VInt 3].
Proof.
  apply (rewrite_logs_keeps_order
           [("loss", VInt 2%Z); ("eval_loss", VInt 1%Z); ("epoch", VInt 3%Z)]).
  apply wfb_wf. reflexivity.
Defined.

Section HookRuns.
Implicit Types (logs : list (string * value)) (tr : list event)
               (calls : list (TrainerState * list (string * value))).

Lemma setups_app tr1 tr2 :
  Hooks.setups (tr1 ++ tr2) = (Hooks.setups tr1 ++ Hooks.setups tr2)%list.
Proof. apply List.filter_app. Qed.

Lemma setups_tb_loop state logs :
  Hooks.setups (map (TensorBoard.log_entry state) logs) = [].
Proof.
  induction logs as [|[k v] logs IH]; [reflexivity|].
  cbn [map]. unfold Hooks.setups in *. cbn [List.filter]. rewrite IH.
  unfold TensorBoard.log_entry. destruct (is_int_or_float v); reflexivity.
Qed.

Lemma setups_mlflow_loop state logs :
  Hooks.setups (map (MLflow.log_entry state) logs) = [].
Proof.
  induction logs as [|[k v] logs IH]; [reflexivity|].
  cbn [map]. unfold Hooks.setups in *. cbn [List.filter]. rewrite IH.
  unfold MLflow.log_entry. destruct (is_int_or_float v); reflexivity.
Qed.

(** A hook that is set up stays so and creates nothing. *)
Lemma tensorboard_ready s args state logs :
  TensorBoard.tb_writer s <> None ->
  fst (TensorBoard.on_log s args state logs) = s
  /\ Hooks.setups (snd (TensorBoard.on_log s args state logs)) = [].
Proof.
  intros Hw. unfold TensorBoard.on_log.
  destruct (is_world_process_zero state); cbn [negb]; [|split; reflexivity].
  destruct s as [sw [w|]]; [|cbn in Hw; congruence]. cbn [TensorBoard.tb_writer fst snd].
  split; [reflexivity|]. cbn [app]. rewrite setups_app, setups_tb_loop. reflexivity.
Qed.

Lemma tensorboard_run_ready args s calls :
  TensorBoard.tb_writer s <> None ->
  Hooks.setups (snd (Hooks.run (fun s => TensorBoard.on_log s args) s calls)) = [].
Proof.
  revert s. induction calls as [|[state logs] calls IH]; intros s Hw; [reflexivity|].
  cbn [Hooks.run]. destruct (tensorboard_ready s args state logs Hw) as [Hs Ht].
  destruct (TensorBoard.on_log s args state logs) as [s1 tr1]. cbn [fst snd] in *. subst s1.
  specialize (IH s Hw).
  destruct (Hooks.run _ s calls) as [s2 tr2]. cbn [snd] in *.
  rewrite setups_app, Ht, IH. reflexivity.
Qed.

Lemma wandb_ready s state logs :
  Wandb._wandb s = false \/ Wandb._initialized s = true ->
  fst (Wandb.on_log s state logs) = s
  /\ Hooks.setups (snd (Wandb.on_log s state logs)) = [].
Proof.
  intros H. unfold Wandb.on_log.
  destruct (Wandb._wandb s) eqn:Ew; cbn [negb]; [|split; reflexivity].
  destruct H as [H|H]; [discriminate|]. rewrite H. cbn [negb].
  destruct (is_world_process_zero state); split; reflexivity.
Qed.

Lemma wandb_run_ready s calls :
  Wandb._wandb s = false \/ Wandb._initialized s = true ->
  Hooks.setups (snd (Hooks.run Wandb.on_log s calls)) = [].
Proof.
  revert s. induction calls as [|[state logs] calls IH]; intros s Hw; [reflexivity|].
  cbn [Hooks.run]. destruct (wandb_ready s state logs Hw) as [Hs Ht].
  destruct (Wandb.on_log s state logs) as [s1 tr1]. cbn [fst snd] in *. subst s1.
  specialize (IH s Hw).
  destruct (Hooks.run _ s calls) as [s2 tr2]. cbn [snd] in *.
  rewrite setups_app, Ht, IH. reflexivity.
Qed.

Lemma mlflow_ready s e state logs :
  MLflow._initialized s = true ->
  fst (MLflow.on_log s e state logs) = s
  /\ Hooks.setups (snd (MLflow.on_log s e state logs)) = [].
Proof.
  intros H. unfold MLflow.on_log. rewrite H. cbn [negb].
  destruct (is_world_process_zero state); cbn [fst snd]; split; try reflexivity.
  cbn [app]. apply setups_mlflow_loop.
Qed.

Lemma mlflow_run_ready e s calls :
  MLflow._initialized s = true ->
  Hooks.setups (snd (Hooks.run (fun s => MLflow.on_log s e) s calls)) = [].
Proof.
  revert s. induction calls as [|[state logs] calls IH]; intros s Hw; [reflexivity|].
  cbn [Hooks.run]. destruct (mlflow_ready s e state logs Hw) as [Hs Ht].
  destruct (MLflow.on_log s e state logs) as [s1 tr1]. cbn [fst snd] in *. subst s1.
  specialize (IH s Hw).
  destruct (Hooks.run _ s calls) as [s2 tr2]. cbn [snd] in *.
  rewrite setups_app, Ht, IH. reflexivity.
Qed.

(** X2. Over a whole run, each of the three lazily initialised hooks
    creates its backing object at most once: at most one TensorBoard
    writer, one W&B setup, one MLflow setup, however many times [on_log]
    is called and whatever the states and logs are. *)
Theorem setup_at_most_once calls :
  (forall s args,
      length (Hooks.setups
                (snd (Hooks.run (fun s => TensorBoard.on_log s args) s calls))) <= 1)
  /\ (forall s, length (Hooks.setups (snd (Hooks.run Wandb.on_log s calls))) <= 1)
  /\ (forall s e,
        length (Hooks.setups
                  (snd (Hooks.run (fun s => MLflow.on_log s e) s calls))) <= 1).
Proof.
  split; [|split].
  - intros s args. revert s.
    induction calls as [|[state logs] calls IH]; intros s; [cbn; lia|].
    destruct (TensorBoard.tb_writer s) as [w|] eqn:Ew.
    { rewrite tensorboard_run_ready; [cbn; lia | congruence]. }
    cbn [Hooks.run]. unfold TensorBoard.on_log at 1. rewrite Ew.
    destruct (is_world_process_zero state); cbn [negb].
    + unfold TensorBoard._init_summary_writer.
      destruct (TensorBoard._SummaryWriter s) eqn:Es; cbn [TensorBoard.tb_writer].
      * match goal with
        | |- context [Hooks.run ?h ?s1 calls] =>
            pose proof (tensorboard_run_ready args s1 calls ltac:(discriminate)) as Hr;
            destruct (Hooks.run h s1 calls) as [s2 tr2] eqn:Er; rewrite ?Er in Hr
        end.
        cbn [snd] in *. rewrite !setups_app, setups_tb_loop, Hr.
        cbn. lia.
      * rewrite Ew. specialize (IH s).
        destruct (Hooks.run _ s calls) as [s2 tr2]. exact IH.
    + specialize (IH s). destruct (Hooks.run _ s calls) as [s2 tr2]. exact IH.
  - intros s.
    destruct (Wandb._wandb s) eqn:Ew; [|rewrite wandb_run_ready; [cbn; lia | auto]].
    destruct (Wandb._initialized s) eqn:Ei; [rewrite wandb_run_ready; [cbn; lia | auto]|].
    destruct calls as [|[state logs] calls]; [cbn; lia|].
    cbn [Hooks.run]. unfold Wandb.on_log at 1. unfold Wandb.setup. rewrite Ew, Ei. cbn [negb].
    destruct (is_world_process_zero state);
      match goal with
      | |- context [Hooks.run ?h ?s1 calls] =>
          pose proof (wandb_run_ready s1 calls (or_intror eq_refl)) as Hr;
          destruct (Hooks.run h s1 calls) as [s2 tr2] eqn:Er; rewrite ?Er in Hr
      end;
      cbn [snd] in *; rewrite ?setups_app, Hr; cbn; lia.
  - intros s e.
    destruct (MLflow._initialized s) eqn:Ei; [rewrite mlflow_run_ready; [cbn; lia | auto]|].
    destruct calls as [|[state logs] calls]; [cbn; lia|].
    cbn [Hooks.run]. unfold MLflow.on_log at 1. unfold MLflow.setup. rewrite Ei. cbn [negb].
    destruct (is_world_process_zero state);
      match goal with
      | |- context [Hooks.run ?h ?s1 calls] =>
          pose proof (mlflow_run_ready e s1 calls eq_refl) as Hr;
          destruct (Hooks.run h s1 calls) as [s2 tr2] eqn:Er; rewrite ?Er in Hr
      end;
      cbn [snd] in *; rewrite ?setups_app, ?setups_mlflow_loop, Hr;
      cbn; lia.
Qed.

(** X3. On a process that is not the main one, the hooks of TensorBoard,
    W&B and MLflow are silent over the whole run: no call into the
    service, no warning, no setup. *)
Theorem on_log_silent_off_main_process calls :
  Forall (fun c => is_world_process_zero (fst c) = false) calls ->
  (forall s args, Hooks.run (fun s => TensorBoard.on_log s args) s calls = (s, []))
  /\ (forall s, snd (Hooks.run Wandb.on_log s calls) = [])
  /\ (forall s e, snd (Hooks.run (fun s => MLflow.on_log s e) s calls) = []).
Proof.
  induction 1 as [|[state logs] calls Hz _ IH]; [repeat split|].
  cbn [fst] in Hz. destruct IH as (IHt & IHw & IHm). split; [|split].
  - intros s args. cbn [Hooks.run]. unfold TensorBoard.on_log at 1. rewrite Hz. cbn [negb].
    rewrite IHt. reflexivity.
  - intros s. cbn [Hooks.run]. unfold Wandb.on_log at 1. unfold Wandb.setup. rewrite Hz.
    destruct (Wandb._wandb s), (Wandb._initialized s); cbn [negb];
      match goal with
      | |- context [Hooks.run ?h ?s1 calls] =>
          specialize (IHw s1); destruct (Hooks.run h s1 calls) as [s2 tr2] eqn:Er;
          rewrite ?Er in IHw
      end; cbn [snd] in *; subst; reflexivity.
  - intros s e. cbn [Hooks.run]. unfold MLflow.on_log at 1. unfold MLflow.setup. rewrite Hz.
    destruct (MLflow._initialized s); cbn [negb];
      match goal with
      | |- context [Hooks.run ?h ?s1 calls] =>
          specialize (IHm s1 e); destruct (Hooks.run h s1 calls) as [s2 tr2] eqn:Er;
          rewrite ?Er in IHm
      end; cbn [snd] in *; subst; reflexivity.
Qed.

End HookRuns.

Lemma on_log_silent_off_main_process_witness :
  snd (Hooks.run Wandb.on_log {| Wandb._wandb := true; Wandb._initialized := false |}
         [({| is_world_process_zero := false; global_step := 1 |}, [("loss", VInt 2)]);
          ({| is_world_process_zero := false; global_step := 2 |}, [("loss", VInt 1)])])
  = [].
Proof.
  apply (on_log_silent_off_main_process
           [({| is_world_process_zero := false; global_step := 1 |}, [("loss", VInt 2%Z)]);
            ({| is_world_process_zero := false; global_step := 2 |}, [("loss", VInt 1%Z)])]).
  repeat constructor.
Defined.

Section WandbPayload.

(** X4. On the main process [WandbCallback.on_log] makes one call of
    [wandb.log].  Its payload always has [train/global_step], equal to
    the step counter of the state, also when the logs have an entry
    [global_step] of their own; every other entry of the logs is in it
    under its rewritten key with its value; the keys are in the order
    of the logs, the step last when the logs had none. *)
Theorem wandb_log_payload s state logs :
  Wandb._wandb s = true ->
  is_world_process_zero state = true ->
  PyDict.wf logs ->
  exists tr1 payload,
    snd (Wandb.on_log s state logs) = (tr1 ++ [WandbLog payload])%list
    /\ forwarded_by tr1 = []
    /\ PyDict.wf payload
    /\ PyDict.get "train/global_step" payload = Some (VInt (global_step state))
    /\ (forall k, k <> "global_step" ->
          PyDict.get (rewrite_key k) payload = PyDict.get k logs)
    /\ PyDict.keys payload
       = if PyDict.mem "global_step" logs
         then map rewrite_key (PyDict.keys logs)
         else (map rewrite_key (PyDict.keys logs) ++ ["train/global_step"])%list.
Proof.
  intros Hw Hz Hwf.
  destruct (wandb_trace s state logs Hw Hz) as (tr1 & Htr & Hf & _).
  exists tr1. eexists. split; [exact Htr|]. split; [exact Hf|].
  rewrite (rewrite_logs_map logs Hwf).
  assert (Hkeys : PyDict.keys (map rewrite_entry logs)
                  = map rewrite_key (PyDict.keys logs)).
  { unfold PyDict.keys. rewrite !map_map. reflexivity. }
  split; [|split; [|split]].
  - apply wf_set. unfold PyDict.wf. rewrite Hkeys. apply NoDup_rewrite_keys, Hwf.
  - apply get_set_eq.
  - intros k Hk. rewrite get_set_ne; [apply get_rewrite_entries|].
    intros E. apply Hk. apply rewrite_key_inj. symmetry. exact E.
  - rewrite keys_set, Hkeys. unfold PyDict.mem.
    change "train/global_step" with (rewrite_key "global_step").
    rewrite get_rewrite_entries. reflexivity.
Qed.

End WandbPayload.

Lemma wandb_log_payload_witness :
  exists tr1 payload,
    snd (Wandb.on_log {| Wandb._wandb := true; Wandb._initialized := false |}
           {| is_world_process_zero := true; global_step := 7 |}
           [("global_step", VInt 0); ("eval_loss", VStr "nan")])
    = (tr1 ++ [WandbLog payload])%list
    /\ PyDict.get "train/global_step" payload = Some (VInt 7)
    /\ PyDict.get "eval/loss" payload = Some (VStr "nan")
    /\ PyDict.keys payload = ["train/global_step"; "eval/loss"].
Proof.
  assert (Hwf : PyDict.wf [("global_step", VInt 0%Z); ("eval_loss", VStr "nan")]).
  { apply wfb_wf. reflexivity. }
  destruct (wandb_log_payload {| Wandb._wandb := true; Wandb._initialized := false |}
              {| is_world_process_zero := true; global_step := 7 |}
              [("global_step", VInt 0%Z); ("eval_loss", VStr "nan")]
              eq_refl eq_refl Hwf)
    as (tr1 & payload & Htr & _ & _ & Hstep & Hget & Hkeys).
  exists tr1, payload. split; [exact Htr|]. split; [exact Hstep|]. split; [|exact Hkeys].
  apply (Hget "eval_loss"). discriminate.
Defined.

Section AzureMLRun.

(** X5. [AzureMLCallback]: after [on_init_end], [on_log] forwards
    exactly the int and float entries of the logs, in their order, when
    a run was given to the constructor or the process is the main one,
    and forwards nothing otherwise; it never warns.  So a run that was
    given is used on every process, and without one only the main
    process logs. *)
Theorem azureml_logs_after_init s state logs :
  forwarded_by (snd (AzureML.on_log (fst (AzureMLInit.on_init_end s state)) logs))
  = (if AzureML.azureml_run s || is_world_process_zero state
     then List.filter numeric_entry logs else [])
  /\ warnings_of (snd (AzureML.on_log (fst (AzureMLInit.on_init_end s state)) logs)) = [].
Proof.
  unfold AzureMLInit.on_init_end, AzureML.on_log.
  destruct s as [[]], (is_world_process_zero state);
    cbn [negb andb orb fst snd AzureML.azureml_run];
    rewrite ?azure_loop_forwarded, ?azure_loop_warnings;
    split; reflexivity.
Qed.

End AzureMLRun.

(** * Further properties of [run_hp_search_ray] *)

Section RayCall.
Import Ray.
Implicit Types (trainer : Trainer) (kwargs : list (string * kwvalue)).

(** The keyword arguments after the two defaults are filled in. *)
Lemma default_kwargs_spec trainer kwargs :
  let kw := default_progress_reporter (default_resources trainer kwargs) in
  PyDict.mem "resources_per_trial" kw = true
  /\ PyDict.mem "progress_reporter" kw = true
  /\ (forall k v, PyDict.get k kwargs = Some v -> PyDict.get k kw = Some v)
  /\ (forall k, k <> "resources_per_trial" -> k <> "progress_reporter" ->
        PyDict.get k kw = PyDict.get k kwargs).
Proof.
  cbv zeta. unfold default_progress_reporter, default_resources.
  destruct (PyDict.mem "resources_per_trial" kwargs) eqn:Er.
  - destruct (PyDict.mem "progress_reporter" kwargs) eqn:Ep.
    + auto.
    + rewrite !mem_set, Er. cbn [String.eqb Ascii.eqb Bool.eqb orb].
      repeat split; try reflexivity.
      * intros k v Hk. destruct (String.eqb_spec "progress_reporter" k) as [<-|Hne].
        -- unfold PyDict.mem in Ep. rewrite Hk in Ep. discriminate.
        -- rewrite get_set_ne by exact Hne. exact Hk.
      * intros k _ Hk. apply get_set_ne. congruence.
  - rewrite (mem_set "resources_per_trial" "progress_reporter").
    cbn [String.eqb Ascii.eqb Bool.eqb orb].
    destruct (PyDict.mem "progress_reporter" kwargs) eqn:Ep.
    + rewrite !mem_set, Ep. cbn [String.eqb Ascii.eqb Bool.eqb orb].
      repeat split; try reflexivity.
      * intros k v Hk. destruct (String.eqb_spec "resources_per_trial" k) as [<-|Hne].
        -- unfold PyDict.mem in Er. rewrite Hk in Er. discriminate.
        -- rewrite get_set_ne by exact Hne. exact Hk.
      * intros k Hk _. apply get_set_ne. congruence.
    + rewrite !mem_set. cbn [String.eqb Ascii.eqb Bool.eqb orb].
      repeat split; try reflexivity.
      * intros k v Hk.
        destruct (String.eqb_spec "resources_per_trial" k) as [<-|Hne].
        { unfold PyDict.mem in Er. rewrite Hk in Er. discriminate. }
        destruct (String.eqb_spec "progress_reporter" k) as [<-|Hne'].
        { unfold PyDict.mem in Ep. rewrite Hk in Ep. discriminate. }
        rewrite !get_set_ne by assumption. exact Hk.
      * intros k H1 H2. rewrite !get_set_ne by congruence. reflexivity.
Qed.

Lemma keep_checkpoints_step_fields trainer kwargs :
  has_tensorboard_callback (snd (keep_checkpoints_step trainer kwargs))
  = has_tensorboard_callback trainer
  /\ has_model (snd (keep_checkpoints_step trainer kwargs)) = has_model trainer
  /\ n_gpu (snd (keep_checkpoints_step trainer kwargs)) = n_gpu trainer
  /\ _n_gpu (snd (keep_checkpoints_step trainer kwargs)) = _n_gpu trainer.
Proof.
  unfold keep_checkpoints_step.
  destruct (PyDict.get "keep_checkpoints_num" kwargs) as [k|]; [|repeat split].
  destruct (gt_int k 0) as [[]|]; try (repeat split; reflexivity).
  destruct (gt_int k 1) as [[]|]; try (repeat split; reflexivity).
  destruct (PyDict.get "keep_checkpoint_num" kwargs); repeat split.
Qed.

(** What [tune_step] does to the trainer: nothing but the callback, which
    is put back exactly when it returns. *)
Lemma tune_step_trainer ray tb trainer n_trials direction kwargs :
  has_model (snd (fst (tune_step ray tb trainer n_trials direction kwargs))) = has_model trainer
  /\ _n_gpu (snd (fst (tune_step ray tb trainer n_trials direction kwargs))) = _n_gpu trainer
  /\ has_tensorboard_callback (snd (fst (tune_step ray tb trainer n_trials direction kwargs)))
     = if raises (fst (fst (tune_step ray tb trainer n_trials direction kwargs)))
       then has_tensorboard_callback trainer
       else tb.
Proof.
  unfold tune_step.
  destruct (with_parameters ray) as [u|e]; [|conjs; reflexivity].
  destruct (hp_space trainer) as [space|e]; [|conjs; reflexivity].
  destruct (PyDict.mem "config" kwargs || PyDict.mem "num_samples" kwargs);
    [conjs; reflexivity|].
  destruct (run ray space n_trials kwargs) as [analysis|e]; [|conjs; reflexivity].
  destruct (get_best_trial analysis _ _) as [[trial|]|e]; try (conjs; reflexivity).
  destruct (PyDict.get "objective" (last_result trial)); conjs; reflexivity.
Qed.

(** The calls of [tune_step], case by case. *)
Lemma tune_step_cases ray tb trainer n_trials direction kwargs :
  (exists e,
      tune_step ray tb trainer n_trials direction kwargs = (Raise e, trainer, [WithParameters])
      /\ (with_parameters ray = Raise e
          \/ hp_space trainer = Raise e
          \/ (e = TypeError
              /\ PyDict.mem "config" kwargs || PyDict.mem "num_samples" kwargs = true)))
  \/ (exists u space,
        with_parameters ray = Ok u
        /\ hp_space trainer = Ok space
        /\ PyDict.mem "config" kwargs || PyDict.mem "num_samples" kwargs = false
        /\ ((exists e,
                run ray space n_trials kwargs = Raise e
                /\ tune_step ray tb trainer n_trials direction kwargs
                   = (Raise e, trainer,
                      [WithParameters; RayTuneRun space n_trials kwargs]))
            \/ (exists analysis,
                  run ray space n_trials kwargs = Ok analysis
                  /\ ((exists e,
                          tune_step ray tb trainer n_trials direction kwargs
                          = (Raise e, trainer,
                             [WithParameters; RayTuneRun space n_trials kwargs;
                              GetBestTrial "objective" (String.substring 0 3 direction)])
                          /\ (get_best_trial analysis "objective"
                                (String.substring 0 3 direction) = Raise e
                              \/ (get_best_trial analysis "objective"
                                    (String.substring 0 3 direction) = Ok None
                                  /\ e = AttributeError)
                              \/ (exists trial,
                                    get_best_trial analysis "objective"
                                      (String.substring 0 3 direction) = Ok (Some trial)
                                    /\ PyDict.get "objective" (last_result trial) = None
                                    /\ e = KeyError "objective")))
                      \/ (exists trial obj,
                            get_best_trial analysis "objective"
                              (String.substring 0 3 direction) = Ok (Some trial)
                            /\ PyDict.get "objective" (last_result trial) = Some obj
                            /\ tune_step ray tb trainer n_trials direction kwargs
                               = (Ok {| run_id := trial_id trial;
                                        objective := obj;
                                        hyperparameters := config trial |},
                                  reattach tb trainer,
                                  [WithParameters; RayTuneRun space n_trials kwargs;
                                   GetBestTrial "objective"
                                     (String.substring 0 3 direction)])))))).
Proof.
  unfold tune_step.
  destruct (with_parameters ray) as [u|e] eqn:Ew; [|left; eauto].
  destruct (hp_space trainer) as [space|e] eqn:Eh; [|left; eauto].
  destruct (PyDict.mem "config" kwargs || PyDict.mem "num_samples" kwargs) eqn:Ed;
    [left; eauto 6|].
  right. exists u, space. split; [reflexivity|]. split; [reflexivity|].
  split; [reflexivity|].
  destruct (run ray space n_trials kwargs) as [analysis|e] eqn:Er; [|left; eauto].
  right. exists analysis. split; [reflexivity|]. cbn [app].
  destruct (get_best_trial analysis "objective" (String.substring 0 3 direction))
    as [[trial|]|e] eqn:Eg.
  - destruct (PyDict.get "objective" (last_result trial)) as [obj|] eqn:Eo.
    + right. exists trial, obj. auto.
    + left. exists (KeyError "objective"). split; [reflexivity|].
      right; right. exists trial. auto.
  - left. exists AttributeError. split; [reflexivity|]. right; left. auto.
  - left. exists e. split; [reflexivity|]. left. reflexivity.
Qed.

(** The steps before [tune_step]: an error there, or [tune_step] on the completed
    keyword arguments. *)
Lemma run_hp_search_ray_steps ray trainer n_trials direction kwargs :
  (exists e trainer',
      run_hp_search_ray ray trainer n_trials direction kwargs = (Raise e, trainer', []))
  \/ (exists trainer',
        run_hp_search_ray ray trainer n_trials direction kwargs
        = tune_step ray (has_tensorboard_callback trainer) trainer' n_trials direction
            (completed_kwargs trainer kwargs)
        /\ hp_space trainer' = hp_space trainer
        /\ has_tensorboard_callback trainer' = false).
Proof.
  unfold run_hp_search_ray. cbv zeta.
  change (default_progress_reporter (default_resources (detach trainer) kwargs))
    with (completed_kwargs trainer kwargs).
  destruct (PyDict.get "resources_per_trial" (default_resources (detach trainer) kwargs))
    as [[| | |r|]|]; try (left; do 2 eexists; reflexivity).
  set (t0 := set_n_gpu _ (detach trainer)).
  set (kw := completed_kwargs trainer kwargs).
  pose proof (keep_checkpoints_step_fields t0 kw) as (Hc & _).
  assert (Hh : hp_space (snd (keep_checkpoints_step t0 kw)) = hp_space trainer).
  { unfold keep_checkpoints_step.
    destruct (PyDict.get "keep_checkpoints_num" kw) as [k|]; [|reflexivity].
    destruct (gt_int k 0) as [[]|]; try reflexivity.
    destruct (gt_int k 1) as [[]|]; try reflexivity.
    destruct (PyDict.get "keep_checkpoint_num" kw); reflexivity. }
  destruct (keep_checkpoints_step t0 kw) as [[[]|e] t1]; cbn [fst snd] in *;
    [|left; do 2 eexists; reflexivity].
  destruct (scheduler_step t1 kw) as [[]|e]; [|left; do 2 eexists; reflexivity].
  right. exists t1. split; [reflexivity|]. split; [exact Hh | exact Hc].
Qed.

(** X6. The calls into Ray.  [ray.tune.run] is called at most once,
    after [with_parameters] and the evaluation of [trainer.hp_space],
    with [config] the space, [num_samples] the number of trials and the
    caller's keyword arguments, to which only [resources_per_trial] and
    [progress_reporter] are added; it is not called when the caller gave
    [config] or [num_samples], which is a [TypeError].  When it raises,
    the call raises the same.  When it returns, [get_best_trial] is
    called with the metric [objective] and the mode [direction[:3]], and
    the call returns the run made of that trial, or raises when there is
    no such trial or the trial has reported no [objective]. *)
Theorem run_hp_search_ray_call ray trainer n_trials direction kwargs :
  (PyDict.mem "resources_per_trial" (completed_kwargs trainer kwargs) = true
   /\ PyDict.mem "progress_reporter" (completed_kwargs trainer kwargs) = true
   /\ (forall k v, PyDict.get k kwargs = Some v ->
         PyDict.get k (completed_kwargs trainer kwargs) = Some v)
   /\ (forall k, k <> "resources_per_trial" -> k <> "progress_reporter" ->
         PyDict.get k (completed_kwargs trainer kwargs) = PyDict.get k kwargs))
  /\ ((exists e trainer',
          run_hp_search_ray ray trainer n_trials direction kwargs = (Raise e, trainer', []))
      \/ (exists e trainer',
            run_hp_search_ray ray trainer n_trials direction kwargs
            = (Raise e, trainer', [WithParameters])
            /\ (with_parameters ray = Raise e
                \/ hp_space trainer = Raise e
                \/ (e = TypeError
                    /\ PyDict.mem "config" kwargs || PyDict.mem "num_samples" kwargs
                       = true)))
      \/ (exists u space,
            with_parameters ray = Ok u
            /\ hp_space trainer = Ok space
            /\ PyDict.mem "config" kwargs = false
            /\ PyDict.mem "num_samples" kwargs = false
            /\ ((exists e trainer',
                    run ray space n_trials (completed_kwargs trainer kwargs) = Raise e
                    /\ run_hp_search_ray ray trainer n_trials direction kwargs
                       = (Raise e, trainer',
                          [WithParameters;
                           RayTuneRun space n_trials (completed_kwargs trainer kwargs)]))
                \/ (exists analysis,
                      run ray space n_trials (completed_kwargs trainer kwargs)
                      = Ok analysis
                      /\ ((exists e trainer',
                              run_hp_search_ray ray trainer n_trials direction kwargs
                              = (Raise e, trainer',
                                 [WithParameters;
                                  RayTuneRun space n_trials
                                    (completed_kwargs trainer kwargs);
                                  GetBestTrial "objective"
                                    (String.substring 0 3 direction)])
                              /\ (get_best_trial analysis "objective"
                                    (String.substring 0 3 direction) = Raise e
                                  \/ (get_best_trial analysis "objective"
                                        (String.substring 0 3 direction) = Ok None
                                      /\ e = AttributeError)
                                  \/ (exists trial,
                                        get_best_trial analysis "objective"
                                          (String.substring 0 3 direction)
                                        = Ok (Some trial)
                                        /\ PyDict.get "objective" (last_result trial)
                                           = None
                                        /\ e = KeyError "objective")))
                          \/ (exists trial obj trainer',
                                get_best_trial analysis "objective"
                                  (String.substring 0 3 direction) = Ok (Some trial)
                                /\ PyDict.get "objective" (last_result trial) = Some obj
                                /\ run_hp_search_ray ray trainer n_trials direction kwargs
                                   = (Ok {| run_id := trial_id trial;
                                            objective := obj;
                                            hyperparameters := config trial |},
                                      trainer',
                                      [WithParameters;
                                       RayTuneRun space n_trials
                                         (completed_kwargs trainer kwargs);
                                       GetBestTrial "objective"
                                         (String.substring 0 3 direction)]))))))).
Proof.
  pose proof (default_kwargs_spec trainer kwargs) as Hkw. cbv zeta in Hkw.
  fold (completed_kwargs trainer kwargs) in Hkw.
  split; [exact Hkw|].
  destruct Hkw as (_ & _ & _ & Hget).
  assert (Hdup : PyDict.mem "config" (completed_kwargs trainer kwargs)
                 || PyDict.mem "num_samples" (completed_kwargs trainer kwargs)
                 = PyDict.mem "config" kwargs || PyDict.mem "num_samples" kwargs).
  { unfold PyDict.mem. rewrite !Hget by discriminate. reflexivity. }
  destruct (run_hp_search_ray_steps ray trainer n_trials direction kwargs)
    as [Hearly | (t1 & -> & Hh & _)]; [left; exact Hearly|].
  right.
  destruct (tune_step_cases ray (has_tensorboard_callback trainer) t1 n_trials direction
              (completed_kwargs trainer kwargs))
    as [(e & -> & Hwhy)
       | (u & space & Hw & Hs & Hd
          & [(e & Hr & ->) | (analysis & Hr & [(e & -> & Hwhy) | (trial & obj & Hg & Ho & ->)])])].
  - left. exists e, t1. split; [reflexivity|]. rewrite Hh, Hdup in Hwhy. exact Hwhy.
  - right. rewrite Hh in Hs. rewrite Hdup in Hd. apply orb_false_iff in Hd as [Hd1 Hd2].
    exists u, space. do 4 (split; [assumption|]). left. eauto.
  - right. rewrite Hh in Hs. rewrite Hdup in Hd. apply orb_false_iff in Hd as [Hd1 Hd2].
    exists u, space. do 4 (split; [assumption|]). right. exists analysis.
    split; [exact Hr|]. left. eauto.
  - right. rewrite Hh in Hs. rewrite Hdup in Hd. apply orb_false_iff in Hd as [Hd1 Hd2].
    exists u, space. do 4 (split; [assumption|]). right. exists analysis.
    split; [exact Hr|]. right. eauto 6.
Qed.

(** X7. The number of GPUs each trial may use: [trainer.args._n_gpu]
    is left at the [gpu] entry of the caller's [resources_per_trial]
    (0 when it has none), and without such an argument at 1 on a
    machine with a GPU and at 0 otherwise; this holds whether the call
    then returns or raises.  A [resources_per_trial] that is not a
    mapping makes the call raise before anything else is set. *)
Theorem run_hp_search_ray_n_gpu ray trainer n_trials direction kwargs :
  match PyDict.get "resources_per_trial" kwargs with
  | None =>
      _n_gpu (snd (fst (run_hp_search_ray ray trainer n_trials direction kwargs)))
      = if Z.ltb 0 (n_gpu trainer) then 1%Z else 0%Z
  | Some (KwResources r) =>
      _n_gpu (snd (fst (run_hp_search_ray ray trainer n_trials direction kwargs)))
      = match PyDict.get "gpu" r with Some g => g | None => 0%Z end
  | Some _ =>
      run_hp_search_ray ray trainer n_trials direction kwargs
      = (Raise AttributeError, detach trainer, [])
  end.
Proof.
  unfold run_hp_search_ray. cbv zeta.
  assert (Hd : default_resources (detach trainer) kwargs
               = match PyDict.get "resources_per_trial" kwargs with
                 | Some _ => kwargs
                 | None => PyDict.set "resources_per_trial"
                             (KwResources (if Z.ltb 0 (n_gpu trainer)
                                           then [("cpu", 1%Z); ("gpu", 1%Z)]
                                           else [("cpu", 1%Z)])) kwargs
                 end).
  { unfold default_resources, PyDict.mem.
    destruct (PyDict.get "resources_per_trial" kwargs); reflexivity. }
  rewrite Hd. clear Hd.
  destruct (PyDict.get "resources_per_trial" kwargs) as [v|] eqn:Er.
  - rewrite Er.
    destruct v as [| | |r|]; try reflexivity.
    match goal with
    | |- context [keep_checkpoints_step ?t ?kw] =>
        destruct (keep_checkpoints_step_fields t kw) as (_ & _ & _ & Hn);
        destruct (keep_checkpoints_step t kw) as [[[]|e] t1]
    end; cbn [fst snd] in *; [|exact Hn].
    destruct (scheduler_step _ _); [|exact Hn].
    rewrite (proj1 (proj2 (tune_step_trainer _ _ _ _ _ _))). exact Hn.
  - rewrite get_set_eq.
    match goal with
    | |- context [keep_checkpoints_step ?t ?kw] =>
        destruct (keep_checkpoints_step_fields t kw) as (_ & _ & _ & Hn);
        destruct (keep_checkpoints_step t kw) as [[[]|e] t1]
    end; cbn [fst snd] in *.
    + destruct (scheduler_step _ _);
        [rewrite (proj1 (proj2 (tune_step_trainer _ _ _ _ _ _)))|cbn [fst snd]];
        rewrite Hn; cbn [set_n_gpu _n_gpu detach n_gpu];
        destruct (Z.ltb 0 (n_gpu trainer)); reflexivity.
    + rewrite Hn. cbn [set_n_gpu _n_gpu detach n_gpu].
      destruct (Z.ltb 0 (n_gpu trainer)); reflexivity.
Qed.

(** X8. What the call leaves of the trainer: the model is removed and
    never put back; the TensorBoard callback is put back only when the
    call returns, so a call that raises after the first lines leaves the
    trainer without it. *)
Theorem run_hp_search_ray_trainer_left ray trainer n_trials direction kwargs :
  has_model (snd (fst (run_hp_search_ray ray trainer n_trials direction kwargs))) = false
  /\ has_tensorboard_callback
       (snd (fst (run_hp_search_ray ray trainer n_trials direction kwargs)))
     = negb (raises (fst (fst (run_hp_search_ray ray trainer n_trials direction kwargs))))
       && has_tensorboard_callback trainer.
Proof.
  unfold run_hp_search_ray. cbv zeta.
  destruct (PyDict.get "resources_per_trial" _) as [[| | |r|]|];
    try (split; reflexivity).
  match goal with
  | |- context [keep_checkpoints_step ?t ?kw] =>
      destruct (keep_checkpoints_step_fields t kw) as (Hc & Hm & _ & _);
      destruct (keep_checkpoints_step t kw) as [[[]|e] t1]
  end; cbn [fst snd set_n_gpu detach has_model has_tensorboard_callback] in *;
    [|split; assumption].
  destruct (scheduler_step _ _); [|split; assumption].
  destruct (tune_step_trainer ray (has_tensorboard_callback trainer) t1 n_trials direction
              (default_progress_reporter (default_resources (detach trainer) kwargs)))
    as (Hm' & _ & Hc').
  split; [rewrite Hm'; exact Hm|].
  rewrite Hc', Hc.
  destruct (raises _); cbn [negb andb]; reflexivity.
Qed.

(** X9. When the call returns.  With [resources_per_trial] absent or a
    mapping, [keep_checkpoints_num] absent or an int not above 1, a
    scheduler that needs intermediate reports only together with
    evaluation during training, no [config] and no [num_samples] among
    the keyword arguments, and a Ray whose [with_parameters] and search
    return and whose analysis has a best trial that reported an
    [objective]: the call returns the run made of that trial, after the
    three calls into Ray, with the TensorBoard callback back on the
    trainer. *)
Theorem run_hp_search_ray_returns ray trainer n_trials direction kwargs
    u space analysis trial obj :
  (PyDict.get "resources_per_trial" kwargs = None
   \/ exists r, PyDict.get "resources_per_trial" kwargs = Some (KwResources r)) ->
  (PyDict.get "keep_checkpoints_num" kwargs = None
   \/ exists k, PyDict.get "keep_checkpoints_num" kwargs = Some (KwInt k) /\ (k <= 1)%Z) ->
  (forall sched, PyDict.get "scheduler" kwargs = Some sched ->
     needs_intermediate_reporting sched = true ->
     do_eval trainer = true /\ evaluation_strategy trainer <> NO) ->
  PyDict.mem "config" kwargs = false ->
  PyDict.mem "num_samples" kwargs = false ->
  with_parameters ray = Ok u ->
  hp_space trainer = Ok space ->
  run ray space n_trials (completed_kwargs trainer kwargs) = Ok analysis ->
  get_best_trial analysis "objective" (String.substring 0 3 direction) = Ok (Some trial) ->
  PyDict.get "objective" (last_result trial) = Some obj ->
  exists trainer',
    run_hp_search_ray ray trainer n_trials direction kwargs
    = (Ok {| run_id := trial_id trial;
             objective := obj;
             hyperparameters := config trial |},
       trainer',
       [WithParameters;
        RayTuneRun space n_trials (completed_kwargs trainer kwargs);
        GetBestTrial "objective" (String.substring 0 3 direction)])
    /\ has_tensorboard_callback trainer' = has_tensorboard_callback trainer.
Proof.
  intros Hr Hk Hs Hc Hn Hw Hh Hrun Hbest Hobj.
  unfold run_hp_search_ray. cbv zeta.
  set (t0 := detach trainer).
  assert (Hres : exists r, PyDict.get "resources_per_trial" (default_resources t0 kwargs)
                           = Some (KwResources r)).
  { unfold default_resources, PyDict.mem.
    destruct Hr as [Hr | [r Hr]]; rewrite Hr; [rewrite get_set_eq|]; eauto. }
  destruct Hres as [r ->].
  destruct (default_kwargs_spec t0 kwargs) as (_ & _ & _ & Hget). cbv zeta in Hget.
  change (default_progress_reporter (default_resources t0 kwargs))
    with (completed_kwargs trainer kwargs) in *.
  set (kw := completed_kwargs trainer kwargs) in *.
  match goal with
  | |- context [keep_checkpoints_step ?t kw] => set (t1 := t)
  end.
  assert (Hkeep : fst (keep_checkpoints_step t1 kw) = Ok tt).
  { unfold keep_checkpoints_step. rewrite Hget by discriminate.
    destruct Hk as [-> | (k & -> & Hle)]; [reflexivity|].
    cbn [gt_int]. destruct (Z.ltb_spec 0 k); [|reflexivity].
    destruct (Z.ltb_spec 1 k); [lia | reflexivity]. }
  destruct (keep_checkpoints_step_eval t1 kw) as [Hd Hev].
  destruct (keep_checkpoints_step_fields t1 kw) as (Htb & _).
  assert (Hspace : hp_space (snd (keep_checkpoints_step t1 kw)) = Ok space).
  { rewrite <- Hh. unfold keep_checkpoints_step.
    destruct (PyDict.get "keep_checkpoints_num" kw) as [k|]; [|reflexivity].
    destruct (gt_int k 0) as [[]|]; try reflexivity.
    destruct (gt_int k 1) as [[]|]; try reflexivity.
    destruct (PyDict.get "keep_checkpoint_num" kw); reflexivity. }
  destruct (keep_checkpoints_step t1 kw) as [res t2]. cbn [fst snd] in *. subst res.
  assert (Hsched : scheduler_step t2 kw = Ok tt).
  { unfold scheduler_step. rewrite Hget by discriminate.
    destruct (PyDict.get "scheduler" kwargs) as [sched|] eqn:Es; [|reflexivity].
    destruct (needs_intermediate_reporting sched) eqn:En; [|reflexivity].
    destruct (Hs sched eq_refl En) as [He Hne].
    rewrite Hd, Hev. cbn [t1 set_n_gpu t0 detach do_eval evaluation_strategy].
    rewrite He. destruct (evaluation_strategy trainer); [congruence | reflexivity..]. }
  rewrite Hsched. unfold tune_step. rewrite Hw, Hspace.
  assert (Hdup : PyDict.mem "config" kw || PyDict.mem "num_samples" kw = false).
  { unfold PyDict.mem in *. rewrite !Hget by discriminate.
    rewrite Hc, Hn. reflexivity. }
  rewrite Hdup, Hrun, Hbest, Hobj. cbn [app].
  eexists. split; [reflexivity|]. reflexivity.
Qed.

End RayCall.

Section RayInstances.
Import Ray RayInputs.

(** A search under ASHA with evaluation during training and one
    checkpoint kept per trial, on a Ray that reports [best_trial]. *)
Lemma run_hp_search_ray_returns_witness :
  exists trainer',
    run_hp_search_ray ray_reporting (trainer_with true) 10 "minimize"
      [("scheduler", KwScheduler ASHAScheduler); ("keep_checkpoints_num", KwInt 1)]
    = (Ok {| run_id := "7"; objective := float_of_Z 1;
             hyperparameters := [("seed", VInt 42)] |},
       trainer',
       [WithParameters;
        RayTuneRun (KwObject "hp_space") 10
          [("scheduler", KwScheduler ASHAScheduler); ("keep_checkpoints_num", KwInt 1);
           ("resources_per_trial", KwResources [("cpu", 1%Z); ("gpu", 1%Z)]);
           ("progress_reporter", KwObject "CLIReporter")];
        GetBestTrial "objective" "min"])
    /\ has_tensorboard_callback trainer' = true.
Proof.
  apply (run_hp_search_ray_returns ray_reporting (trainer_with true) 10 "minimize"
           [("scheduler", KwScheduler ASHAScheduler); ("keep_checkpoints_num", KwInt 1)]
           tt (KwObject "hp_space")
           {| get_best_trial := fun _ _ => Ok (Some best_trial) |} best_trial
           (float_of_Z 1)).
  - left. reflexivity.
  - right. exists 1%Z. split; [reflexivity | lia].
  - intros sched _ _. split; [reflexivity | discriminate].
  - reflexivity.
  - reflexivity.
  - reflexivity.
  - reflexivity.
  - reflexivity.
  - reflexivity.
  - reflexivity.
Defined.

End RayInstances.

(** * [deepspeed_init]: the steps after the copy *)

Section StableKeeps.
Import DS Frame.
Local Open Scope py_scope.

Context (K : string -> Prop) (I : world -> Prop).
Hypothesis HI : stable K I.

Lemma stable_contains c k : keeps I (contains c k) (fun _ => True).
Proof. apply keeps_pure; [apply contains_state | auto]. Qed.

Lemma stable_getitem c k : keeps I (getitem c k) (fun _ => True).
Proof. apply keeps_pure; [apply getitem_state | auto]. Qed.

Lemma stable_get c k : keeps I (get c k) (fun _ => True).
Proof. apply keeps_pure; [apply get_state | auto]. Qed.

Lemma stable_setitem c k v : K k -> keeps I (setitem c k v) (fun _ => True).
Proof.
  intros Hk w Hw.
  destruct (setitem_cases c k v w) as [(l & items & -> & Hl & ->)|[e ->]]; [|exact Hw].
  split; [|exact Logic.I]. apply (proj1 HI); assumption.
Qed.

Lemma stable_alloc o : keeps I (alloc o) (fun _ => True).
Proof. intros w Hw. unfold alloc. split; [|exact Logic.I]. apply (proj2 HI), Hw. Qed.

Lemma stable_float_of_int z : keeps I (float_of_int z) (fun _ => True).
Proof.
  unfold float_of_int.
  destruct (float_of_Z z); first [apply keeps_raise | apply keeps_ret; exact Logic.I].
Qed.

Lemma stable_override_params config section params :
  Forall (fun kv => K (fst kv)) params ->
  keeps I (override_params config section params) (fun _ => True).
Proof.
  intros Hp. unfold override_params. apply keeps_for_each.
  intros [k v] Hin. rewrite Forall_forall in Hp.
  pose proof (Hp (k, v) (proj2 (list_elem_of_In _ _) Hin)) as Hk. cbn [fst] in Hk.
  eapply keeps_bind; [apply stable_getitem|]. intros sec _.
  eapply keeps_bind; [apply stable_getitem|]. intros p _.
  eapply keeps_bind; [apply stable_contains|]. intros [] _; [|apply keeps_ret; exact Logic.I].
  eapply keeps_bind; [apply stable_getitem|]. intros sec2 _.
  eapply keeps_bind; [apply stable_getitem|]. intros p2 _.
  apply stable_setitem, Hk.
Qed.

Hypothesis HKo : forall k, In k optimizer_keys -> K k.
Hypothesis HKs : forall k, In k scheduler_keys -> K k.
Hypothesis HKf : forall k, In k fp16_keys -> K k.
Hypothesis HKz : forall k, In k zero_keys -> K k.

Ltac tail_key :=
  first [ apply HKo; unfold optimizer_keys; cbn [In]; tauto
        | apply HKs; unfold scheduler_keys; cbn [In]; tauto
        | apply HKf; unfold fp16_keys; cbn [In]; tauto
        | apply HKz; unfold zero_keys; cbn [In]; tauto ].

(** The bucket sizes of [merge_zero], from the first read on. *)
Lemma stable_zero_buckets (hidden_size : Z) zero :
  keeps I
    (v <- get zero "reduce_bucket_size" ;;
     (if py_eq_int v 0
      then setitem zero "reduce_bucket_size" (VInt (hidden_size * hidden_size))
      else ret tt) ;;
     v <- get zero "stage3_prefetch_bucket_size" ;;
     (if py_eq_int v 0
      then
        f <- float_of_int hidden_size ;;
        let x := SFmul prec emax float_0_9 f in
        f <- float_of_int hidden_size ;;
        setitem zero "stage3_prefetch_bucket_size" (VFloat (SFmul prec emax x f))
      else ret tt) ;;
     v <- get zero "stage3_param_persistence_threshold" ;;
     (if py_eq_int v 0
      then setitem zero "stage3_param_persistence_threshold" (VInt (10 * hidden_size))
      else ret tt))
    (fun _ => True).
Proof.
  eapply keeps_bind; [apply stable_get|]. intros v1 _.
  eapply keeps_bind with (Q := fun _ => True).
  { destruct (py_eq_int v1 0); [apply stable_setitem; tail_key | apply keeps_ret; exact Logic.I]. }
  intros _ _.
  eapply keeps_bind; [apply stable_get|]. intros v2 _.
  eapply keeps_bind with (Q := fun _ => True).
  { destruct (py_eq_int v2 0); [|apply keeps_ret; exact Logic.I].
    eapply keeps_bind; [apply stable_float_of_int|]. intros f1 _. cbv zeta.
    eapply keeps_bind; [apply stable_float_of_int|]. intros f2 _.
    apply stable_setitem; tail_key. }
  intros _ _.
  eapply keeps_bind; [apply stable_get|]. intros v3 _.
  destruct (py_eq_int v3 0); [apply stable_setitem; tail_key | apply keeps_ret; exact Logic.I].
Qed.

Lemma stable_merge_fp16 t config : keeps I (merge_fp16 t config) (fun _ => True).
Proof.
  unfold merge_fp16.
  destruct (fp16_backend t) as [backend|]; [|apply keeps_ret; exact Logic.I].
  destruct (String.eqb backend "apex"); [|destruct (String.eqb backend "amp")].
  - eapply keeps_bind; [apply stable_contains|]. intros [] _; [apply keeps_ret; exact Logic.I|].
    eapply keeps_bind; [apply stable_alloc|]. intros d _.
    apply stable_setitem; tail_key.
  - eapply keeps_bind; [apply stable_contains|]. intros [] _; [apply keeps_ret; exact Logic.I|].
    eapply keeps_bind; [apply stable_alloc|]. intros d _.
    apply stable_setitem; tail_key.
  - apply keeps_ret; exact Logic.I.
Qed.

(** The branch of [merge_optimizer] for a config with an [optimizer]. *)
Lemma stable_optimizer_section a config :
  keeps I
    (betas <- alloc (OList [VFloat (adam_beta1 a); VFloat (adam_beta2 a)]) ;;
     override_params config "optimizer"
       [ ("lr", VFloat (learning_rate a));
         ("betas", betas);
         ("eps", VFloat (adam_epsilon a));
         ("weight_decay", VFloat (weight_decay a)) ] ;;
     ret false)
    (fun b => b = false).
Proof.
  eapply keeps_bind; [apply stable_alloc|]. intros betas _.
  eapply keeps_bind; [|intros; apply keeps_ret; reflexivity].
  apply stable_override_params. repeat constructor; cbn [fst]; tail_key.
Qed.

(** The branch of [merge_scheduler] for a config with a [scheduler]. *)
Lemma stable_scheduler_section a n config :
  keeps I
    (sched <- getitem config "scheduler" ;;
     ty <- getitem sched "type" ;;
     (if py_eq_str ty "WarmupDecayLR"
      then
        sched <- getitem config "scheduler" ;;
        p <- getitem sched "params" ;;
        setitem p "total_num_steps" (VInt n)
      else ret tt) ;;
     override_params config "scheduler"
       [ ("warmup_max_lr", VFloat (learning_rate a));
         ("warmup_num_steps", VInt (warmup_steps a)) ] ;;
     ret false)
    (fun b => b = false).
Proof.
  eapply keeps_bind; [apply stable_getitem|]. intros sched _.
  eapply keeps_bind; [apply stable_getitem|]. intros ty _.
  eapply keeps_bind with (Q := fun _ => True).
  { destruct (py_eq_str ty "WarmupDecayLR"); [|apply keeps_ret; exact Logic.I].
    eapply keeps_bind; [apply stable_getitem|]. intros sched2 _.
    eapply keeps_bind; [apply stable_getitem|]. intros p _.
    apply stable_setitem; tail_key. }
  intros _ _.
  eapply keeps_bind; [|intros; apply keeps_ret; reflexivity].
  apply stable_override_params. repeat constructor; cbn [fst]; tail_key.
Qed.

Hypothesis HE : emit_stable I.

Lemma stable_emit e : keeps I (emit e) (fun _ => True).
Proof. intros w Hw. split; [apply (HE w e Hw) | exact Logic.I]. Qed.

Lemma stable_merge_optimizer a config : keeps I (merge_optimizer a config) (fun _ => True).
Proof.
  unfold merge_optimizer.
  eapply keeps_bind; [apply stable_contains|]. intros [] _.
  - eapply keeps_weaken; [apply stable_optimizer_section | auto].
  - eapply keeps_bind; [apply stable_contains|]. intros has_zero _.
    eapply keeps_bind with (Q := fun _ => True).
    { destruct has_zero; [|apply keeps_ret; exact Logic.I].
      eapply keeps_bind; [apply stable_getitem|]. intros zero _.
      eapply keeps_bind; [apply stable_contains|]. intros [] _; [|apply keeps_ret; exact Logic.I].
      eapply keeps_bind; [apply stable_getitem|]. intros zero2 _.
      eapply keeps_bind; [apply stable_getitem|]. intros v _.
      apply keeps_ret; exact Logic.I. }
    intros [] _; [apply keeps_raise|].
    eapply keeps_bind; [apply stable_emit|]. intros _ _.
    eapply keeps_bind; [apply stable_setitem; tail_key|]. intros _ _.
    apply keeps_ret; exact Logic.I.
Qed.

Lemma stable_merge_scheduler a n config :
  keeps I (merge_scheduler a n config) (fun _ => True).
Proof.
  unfold merge_scheduler.
  eapply keeps_bind; [apply stable_contains|]. intros [] _.
  - eapply keeps_weaken; [apply stable_scheduler_section | auto].
  - eapply keeps_bind; [apply stable_contains|]. intros [] _; [apply keeps_raise|].
    eapply keeps_bind; [apply stable_emit|]. intros _ _.
    apply keeps_ret; exact Logic.I.
Qed.

Lemma stable_resume env r : keeps I (resume env r) (fun _ => True).
Proof.
  unfold resume. destruct r as [path|]; [|apply keeps_ret; exact Logic.I].
  destruct (Nat.ltb 0 _); [|apply keeps_ret; exact Logic.I].
  eapply keeps_bind; [apply stable_emit|]. intros _ _.
  destruct (load_checkpoint env path); [apply keeps_ret; exact Logic.I | apply keeps_raise].
Qed.

Hypothesis HF : flag_stable I.

Lemma stable_merge_zero t config : keeps I (merge_zero t config) (fun _ => True).
Proof.
  unfold merge_zero, deepspeed_zero3_enable.
  eapply keeps_bind; [apply stable_contains|]. intros [] _; [|apply keeps_ret; exact Logic.I].
  eapply keeps_bind; [apply stable_getitem|]. intros zero _.
  eapply keeps_bind; [apply stable_get|]. intros stage _.
  eapply keeps_bind with (Q := fun _ => True).
  { intros w Hw. split; [apply (HF w _ Hw) | exact Logic.I]. }
  intros _ _. apply stable_zero_buckets.
Qed.

End StableKeeps.

Section Prefix.
Import DS Frame.
Local Open Scope py_scope.

Lemma copy_get memo (items items' : list (string * value)) k v :
  PyDict.keys items' = PyDict.keys items ->
  Forall2 (copy_val memo) (PyDict.values items) (PyDict.values items') ->
  PyDict.get k items = Some v ->
  exists v', PyDict.get k items' = Some v' /\ copy_val memo v v'.
Proof.
  revert items'. induction items as [|[k0 v0] items IH];
    intros [|[k0' v0'] items'] Hk Hv Hg; simpl in *; try discriminate.
  injection Hk as -> Hk. inversion Hv; subst.
  destruct (String.eqb k k0).
  - injection Hg as <-. eauto.
  - eapply IH; eauto.
Qed.

(** What the first merge step does to a dict: the three keys get their
    values, a gradient clipping that is there is kept, and every other
    entry is as before. *)
Lemma merge_batch_args_effect a l items w :
  heap w !! l = Some (ODict items) ->
  exists items',
    merge_batch_args a (VRef l) w
    = (Ok tt, with_heap (<[l := ODict items']> (heap w)) w)
    /\ PyDict.get "train_micro_batch_size_per_gpu" items'
       = Some (VInt (per_device_train_batch_size a))
    /\ PyDict.get "gradient_accumulation_steps" items'
       = Some (VInt (gradient_accumulation_steps a))
    /\ PyDict.get "gradient_clipping" items'
       = Some (match PyDict.get "gradient_clipping" items with
               | Some v => v
               | None => VFloat (max_grad_norm a)
               end)
    /\ (forall k, ~ In k batch_keys -> PyDict.get k items' = PyDict.get k items).
Proof.
  intros H. unfold merge_batch_args.
  set (items1 := PyDict.set "train_micro_batch_size_per_gpu"
                   (VInt (per_device_train_batch_size a)) items).
  set (items2 := PyDict.set "gradient_accumulation_steps"
                   (VInt (gradient_accumulation_steps a)) items1).
  rewrite (bind_ok _ _ _ _ _ (setitem_dict _ _ _ _ _ H)). fold items1.
  assert (H1 : heap (with_heap (<[l := ODict items1]> (heap w)) w) !! l = Some (ODict items1))
    by apply lookup_insert_eq.
  rewrite (bind_ok _ _ _ _ _ (setitem_dict _ _ _ _ _ H1)). fold items2.
  rewrite with_heap_heap, with_heap_twice, insert_insert_eq.
  assert (H2 : heap (with_heap (<[l := ODict items2]> (heap w)) w) !! l = Some (ODict items2))
    by apply lookup_insert_eq.
  rewrite (bind_ok _ _ _ _ _ (contains_dict _ _ _ _ H2)).
  assert (Hk1 : PyDict.get "train_micro_batch_size_per_gpu" items2
                = Some (VInt (per_device_train_batch_size a))).
  { unfold items2. rewrite get_set_ne by discriminate. apply get_set_eq. }
  assert (Hk2 : PyDict.get "gradient_accumulation_steps" items2
                = Some (VInt (gradient_accumulation_steps a))) by apply get_set_eq.
  assert (Hgc : PyDict.get "gradient_clipping" items2 = PyDict.get "gradient_clipping" items).
  { unfold items2, items1. rewrite !get_set_ne by discriminate. reflexivity. }
  assert (Hother : forall k, ~ In k batch_keys -> PyDict.get k items2 = PyDict.get k items).
  { intros k Hk. unfold items2, items1.
    rewrite !get_set_ne; [reflexivity | |]; intros <-; apply Hk; cbn; tauto. }
  unfold PyDict.mem. rewrite Hgc.
  destruct (PyDict.get "gradient_clipping" items) as [gc|] eqn:Eg.
  - exists items2. conjs; auto.
  - rewrite (setitem_dict _ _ _ _ _ H2).
    rewrite with_heap_heap, with_heap_twice, insert_insert_eq.
    eexists. conjs; [reflexivity | | | |].
    + rewrite get_set_ne by discriminate. exact Hk1.
    + rewrite get_set_ne by discriminate. exact Hk2.
    + apply get_set_eq.
    + intros k Hk. rewrite get_set_ne; [apply Hother, Hk|].
      intros <-. apply Hk. cbn. tauto.
Qed.

(** [deepspeed_init] on a dict, up to the first merge step: either an
    early error (DeepSpeed missing or too old, a refused key, or a store
    of more objects than the copy can nest at the recursion limit), with
    no call made and the flag untouched, or the rest
    of the function on a copy [y] of the dict in which only the three
    keys of the first step differ.  The copy is described through the
    renaming [memo] of the objects the dict reaches. *)
Lemma deepspeed_init_prefix env t n r w l items :
  heap_wf (heap w) ->
  heap w !! l = Some (ODict items) ->
  deepspeed (args t) = VRef l ->
  (exists e w',
      deepspeed_init env t n r w = (Raise e, w')
      /\ trace w' = trace w
      /\ _is_deepspeed_zero3_enabled w' = _is_deepspeed_zero3_enabled w
      /\ (deepspeed_importable env = false
          \/ deepspeed_version_ok env = false
          \/ (exists k, In k refused_keys /\ PyDict.mem k items = true)
          \/ deepcopy_depth env <= size (heap w)))
  \/ (exists y h2 memo,
        deepspeed_init env t n r w = init_tail env t n r (VRef y) (with_heap h2 w)
        /\ memo !! l = Some y
        /\ (forall z z' zitems,
              memo !! z = Some z' -> heap w !! z = Some (ODict zitems) ->
              exists zitems',
                h2 !! z' = Some (ODict zitems')
                /\ (forall k, ~ In k batch_keys ->
                      PyDict.mem k zitems' = PyDict.mem k zitems)
                /\ (forall k v, ~ In k batch_keys -> PyDict.get k zitems = Some v ->
                      exists v', PyDict.get k zitems' = Some v' /\ copy_val memo v v'))
        /\ (exists gc,
              entry y "gradient_clipping" gc (with_heap h2 w)
              /\ match PyDict.get "gradient_clipping" items with
                 | Some v => copy_val memo v gc
                 | None => gc = VFloat (max_grad_norm (args t))
                 end)
        /\ deepspeed_importable env = true
        /\ deepspeed_version_ok env = true
        /\ (forall k, In k refused_keys -> PyDict.mem k items = false)).
Proof.
  intros Hwf Hitems Hds.
  remember (deepspeed_init env t n r w) as res eqn:Hres.
  change (deepspeed_init env t n r)
    with ((if deepspeed_importable env then ret tt else raise ImportError) ;;
          config <- deepspeed_parse_config env (deepspeed (args t)) ;;
          check_batch_keys config ;;
          merge_batch_args (args t) config ;;
          init_tail env t n r config) in Hres.
  rewrite Hds in Hres.
  destruct (deepspeed_importable env) eqn:Himp;
    [|left; exists ImportError, w; conjs; auto].
  unfold bind at 1 in Hres. cbn [ret] in Hres.
  destruct (deepspeed_version_ok env) eqn:Hv.
  2:{ left. exists ImportError, w.
      rewrite (bind_raise _ _ _ _ _ (deepspeed_parse_config_version _ _ _ Hv)) in Hres.
      conjs; auto. }
  assert (HlS : l ∈ dom (heap w)) by (apply elem_of_dom; eauto).
  destruct (deepspeed_parse_config env (VRef l) w) as [[c|e] w1] eqn:Hrun.
  2:{ left. exists e, w.
      rewrite (bind_raise _ _ _ _ _ Hrun) in Hres.
      rewrite (deepspeed_parse_config_dict_raises env w l items e w1 Hitems Hrun) in Hres.
      conjs; auto. right; right; right.
      destruct (Nat.le_gt_cases (deepcopy_depth env) (size (heap w))) as [Hle|Hgt];
        [exact Hle|].
      destruct (deepspeed_parse_config_dict env w (dom (heap w)) l items Hwf HlS Hitems Hv)
        as (y & h' & items' & Hok & _); [rewrite size_dom; exact Hgt|].
      congruence. }
  destruct (deepspeed_parse_config_dict_returns env w (dom (heap w)) l items c w1
              Hwf HlS Hitems Hv Hrun)
    as (y & h' & items' & -> & -> & Hh & Hy & Hy' & Hkeys
        & (memo & Hcv & Hinj & Hmemo) & _).
  rewrite (bind_ok _ _ _ _ _ Hrun) in Hres.
  assert (Hy1 : heap (with_heap h' w) !! y = Some (ODict items')) by exact Hy'.
  unfold bind at 1 in Hres. rewrite (check_batch_keys_dict _ _ _ Hy1) in Hres.
  rewrite !(mem_keys_eq items' items) in Hres by exact Hkeys.
  destruct (PyDict.mem "train_batch_size" items) eqn:E1.
  { left. do 2 eexists. split; [exact Hres|]. conjs; auto.
    right; right; left. exists "train_batch_size". split; [cbn; tauto | exact E1]. }
  destruct (PyDict.mem "train_micro_batch_size_per_gpu" items) eqn:E2.
  { left. do 2 eexists. split; [exact Hres|]. conjs; auto.
    right; right; left. exists "train_micro_batch_size_per_gpu". split; [cbn; tauto | exact E2]. }
  cbn [orb] in Hres.
  destruct (PyDict.mem "gradient_accumulation_steps" items) eqn:E3.
  { left. do 2 eexists. split; [exact Hres|]. conjs; auto.
    right; right; left. exists "gradient_accumulation_steps". split; [cbn; tauto | exact E3]. }
  right. cbv beta iota in Hres.
  destruct (merge_batch_args_effect (args t) y items' _ Hy1)
    as (items2 & Hm & _ & _ & Hgc & Hother).
  rewrite (bind_ok _ _ _ _ _ Hm) in Hres. rewrite with_heap_heap, with_heap_twice in Hres.
  destruct Hcv as (y0 & Hly & [= <-]).
  exists y, (<[y := ODict items2]> h'), memo.
  split; [exact Hres|]. split; [exact Hly|]. split.
  - intros z z' zitems Hz Hzi.
    destruct (Hmemo z z' Hz) as (_ & o & o' & Ho & Ho' & Hco).
    rewrite Hzi in Ho. injection Ho as <-.
    destruct o' as [zitems'|]; [|contradiction]. destruct Hco as [Hk Hvals].
    destruct (decide (z' = y)) as [->|Hne].
    + rewrite Hy' in Ho'. injection Ho' as <-.
      exists items2. rewrite lookup_insert_eq. split; [reflexivity|]. split.
      * intros k Hk'. unfold PyDict.mem. rewrite (Hother k Hk').
        apply (mem_keys_eq items' zitems), Hk.
      * intros k v Hk' Hg. rewrite (Hother k Hk'). eapply copy_get; eassumption.
    + exists zitems'. rewrite lookup_insert_ne by congruence.
      split; [exact Ho'|]. split.
      * intros k _. apply mem_keys_eq, Hk.
      * intros k v _ Hg. eapply copy_get; eassumption.
  - split.
    { eexists. split.
      - exists items2. cbn [heap with_heap]. rewrite lookup_insert_eq.
        split; [reflexivity | exact Hgc].
      - destruct (Hmemo l y Hly) as (_ & o & o' & Ho & Ho' & Hco).
        rewrite Hitems in Ho. injection Ho as <-. rewrite Hy' in Ho'. injection Ho' as <-.
        destruct Hco as [Hk Hvals].
        destruct (PyDict.get "gradient_clipping" items) as [v|] eqn:Eg.
        + destruct (copy_get memo items items' "gradient_clipping" v Hk Hvals Eg)
            as (v' & -> & Hcv). exact Hcv.
        + pose proof (mem_keys_eq items' items "gradient_clipping" Hk) as Hm'.
          unfold PyDict.mem in Hm'. rewrite Eg in Hm'.
          destruct (PyDict.get "gradient_clipping" items'); [discriminate | reflexivity]. }
    conjs; auto. intros k [<-|[<-|[<-|[]]]]; assumption.
Qed.

End Prefix.

(** * [deepspeed_init]: optimizer, scheduler and ZeRO sections *)

Section Invariants.
Import DS Frame.
Local Open Scope py_scope.

Lemma stable_and K (I J : world -> Prop) :
  stable K I -> stable K J -> stable K (fun w => I w /\ J w).
Proof.
  intros [I1 I2] [J1 J2]. split.
  - intros w l items k v [HI HJ] Hl Hk. split; [eapply I1 | eapply J1]; eassumption.
  - intros w o [HI HJ]. split; [apply I2 | apply J2]; assumption.
Qed.

Lemma emit_stable_and (I J : world -> Prop) :
  emit_stable I -> emit_stable J -> emit_stable (fun w => I w /\ J w).
Proof. intros HI HJ w e [H1 H2]. split; [apply HI | apply HJ]; assumption. Qed.

Lemma stable_trace K tr : stable K (fun w => trace w = tr).
Proof. split; intros; assumption. Qed.

Lemma stable_flag K f : stable K (fun w => _is_deepspeed_zero3_enabled w = f).
Proof. split; intros; assumption. Qed.

Lemma emit_stable_flag f : emit_stable (fun w => _is_deepspeed_zero3_enabled w = f).
Proof. intros w e H. exact H. Qed.

Lemma fresh_lookup (h : gmap loc obj) c o : h !! c = Some o -> fresh (dom h) <> c.
Proof.
  intros H E. apply (is_fresh (dom h)). rewrite E. apply elem_of_dom. eauto.
Qed.

Lemma stable_has c k0 K : stable K (has c k0).
Proof.
  split.
  - intros w l items k v (it & Hc & Hm) Hl _. unfold has. cbn [heap with_heap].
    destruct (decide (l = c)) as [->|Hne].
    + rewrite lookup_insert_eq. eexists. split; [reflexivity|].
      rewrite Hc in Hl. injection Hl as <-. rewrite mem_set, Hm. apply orb_true_r.
    + rewrite lookup_insert_ne by exact Hne. eauto.
  - intros w o (it & Hc & Hm). unfold has. cbn [heap with_heap].
    rewrite lookup_insert_ne by (eapply fresh_lookup; eassumption). eauto.
Qed.

Lemma stable_lacks c k0 : ~ written k0 -> stable written (lacks c k0).
Proof.
  intros Hk0. split.
  - intros w l items k v (it & Hc & Hm) Hl Hk. unfold lacks. cbn [heap with_heap].
    destruct (decide (l = c)) as [->|Hne].
    + rewrite lookup_insert_eq. eexists. split; [reflexivity|].
      rewrite Hc in Hl. injection Hl as <-. rewrite mem_set, Hm, orb_false_r.
      apply String.eqb_neq. intros ->. contradiction.
    + rewrite lookup_insert_ne by exact Hne. eauto.
  - intros w o (it & Hc & Hm). unfold lacks. cbn [heap with_heap].
    rewrite lookup_insert_ne by (eapply fresh_lookup; eassumption). eauto.
Qed.

Lemma stable_entry c k0 v0 : ~ written k0 -> stable written (entry c k0 v0).
Proof.
  intros Hk0. split.
  - intros w l items k v (it & Hc & Hm) Hl Hk. unfold entry. cbn [heap with_heap].
    destruct (decide (l = c)) as [->|Hne].
    + rewrite lookup_insert_eq. eexists. split; [reflexivity|].
      rewrite Hc in Hl. injection Hl as <-. rewrite get_set_ne; [exact Hm|].
      intros ->. contradiction.
    + rewrite lookup_insert_ne by exact Hne. eauto.
  - intros w o (it & Hc & Hm). unfold entry. cbn [heap with_heap].
    rewrite lookup_insert_ne by (eapply fresh_lookup; eassumption). eauto.
Qed.

Lemma stable_dict_get c k0 v0 : ~ written k0 -> stable written (dict_get c k0 v0).
Proof.
  intros Hk0. split.
  - intros w l items k v (it & Hc & Hm) Hl Hk. unfold dict_get. cbn [heap with_heap].
    destruct (decide (l = c)) as [->|Hne].
    + rewrite lookup_insert_eq. eexists. split; [reflexivity|].
      rewrite Hc in Hl. injection Hl as <-. rewrite get_set_ne; [exact Hm|].
      intros ->. contradiction.
    + rewrite lookup_insert_ne by exact Hne. eauto.
  - intros w o (it & Hc & Hm). unfold dict_get. cbn [heap with_heap].
    rewrite lookup_insert_ne by (eapply fresh_lookup; eassumption). eauto.
Qed.

Lemma emit_stable_dict_get c k v : emit_stable (dict_get c k v).
Proof. intros w e H. exact H. Qed.

Lemma emit_stable_has c k : emit_stable (has c k).
Proof. intros w e H. exact H. Qed.

Lemma emit_stable_lacks c k : emit_stable (lacks c k).
Proof. intros w e H. exact H. Qed.

Lemma emit_stable_entry c k v : emit_stable (entry c k v).
Proof. intros w e H. exact H. Qed.

Lemma written_optimizer k : In k optimizer_keys -> written k.
Proof. unfold written, optimizer_keys, tail_keys. cbn [In]. tauto. Qed.

Lemma written_scheduler k : In k scheduler_keys -> written k.
Proof. unfold written, scheduler_keys, tail_keys. cbn [In]. tauto. Qed.

Lemma written_fp16 k : In k fp16_keys -> written k.
Proof. unfold written, fp16_keys, tail_keys. cbn [In]. tauto. Qed.

Lemma written_zero k : In k zero_keys -> written k.
Proof. unfold written, zero_keys, tail_keys. cbn [In]. tauto. Qed.

(** *** The branches, once the keys of the config are known *)

Lemma merge_optimizer_present a y w :
  has y "optimizer" w ->
  merge_optimizer a (VRef y) w
  = (betas <- alloc (OList [VFloat (adam_beta1 a); VFloat (adam_beta2 a)]) ;;
     override_params (VRef y) "optimizer"
       [ ("lr", VFloat (learning_rate a));
         ("betas", betas);
         ("eps", VFloat (adam_epsilon a));
         ("weight_decay", VFloat (weight_decay a)) ] ;;
     ret false) w.
Proof.
  intros (it & Hy & Hm). unfold merge_optimizer.
  rewrite (bind_ok _ _ _ _ _ (contains_dict _ _ _ _ Hy)), Hm. reflexivity.
Qed.

Lemma merge_scheduler_absent a n y w :
  lacks y "scheduler" w ->
  merge_scheduler a n (VRef y) w
  = (has_opt <- contains (VRef y) "optimizer" ;;
     if has_opt
     then raise (ValueError
                   "At the moment HF scheduler + DeepSpeed optimizer combination is not possible")
     else emit (CreateScheduler n) ;; ret true) w.
Proof.
  intros (it & Hy & Hm). unfold merge_scheduler.
  rewrite (bind_ok _ _ _ _ _ (contains_dict _ _ _ _ Hy)), Hm. reflexivity.
Qed.

Lemma merge_zero_absent t y w :
  lacks y "zero_optimization" w -> merge_zero t (VRef y) w = (Ok tt, w).
Proof.
  intros (it & Hy & Hm). unfold merge_zero.
  rewrite (bind_ok _ _ _ _ _ (contains_dict _ _ _ _ Hy)), Hm. reflexivity.
Qed.

Lemma getitem_dict l items k v w :
  heap w !! l = Some (ODict items) -> PyDict.get k items = Some v ->
  getitem (VRef l) k w = (Ok v, w).
Proof.
  intros H Hk. unfold getitem. rewrite (bind_ok _ _ _ _ _ (load_eq _ _ _ H)), Hk.
  reflexivity.
Qed.

Lemma get_dict l items k w :
  heap w !! l = Some (ODict items) ->
  get (VRef l) k w
  = (Ok (match PyDict.get k items with Some v => v | None => VNone end), w).
Proof. intros H. unfold get. rewrite (bind_ok _ _ _ _ _ (load_eq _ _ _ H)). reflexivity. Qed.

Lemma get_mem {V} k (d : list (string * V)) v :
  PyDict.get k d = Some v -> PyDict.mem k d = true.
Proof. intros H. unfold PyDict.mem. rewrite H. reflexivity. Qed.

(** The test for ZeRO Offload, on a config without [optimizer]. *)
Lemma merge_optimizer_offload a y z w v :
  lacks y "optimizer" w ->
  entry y "zero_optimization" (VRef z) w ->
  entry z "cpu_offload" v w ->
  merge_optimizer a (VRef y) w
  = (if py_is_True v
     then raise (ValueError "ZeRO Offload can only work with DeepSpeed optimizers")
     else
       emit CreateOptimizer ;;
       setitem (VRef y) "zero_allow_untested_optimizer" (VBool true) ;;
       ret true) w.
Proof.
  intros (it & Hy & Hm) (it' & Hy' & Hz) (zit & Hzl & Hv).
  rewrite Hy in Hy'. injection Hy' as <-.
  unfold merge_optimizer.
  rewrite (bind_ok _ _ _ _ _ (contains_dict _ _ _ _ Hy)), Hm.
  rewrite (bind_ok _ _ _ _ _ (contains_dict _ _ _ _ Hy)), (get_mem _ _ _ Hz).
  unfold bind at 1. unfold bind at 1.
  rewrite (getitem_dict _ _ _ _ _ Hy Hz).
  unfold bind at 1. rewrite (contains_dict _ _ _ _ Hzl), (get_mem _ _ _ Hv).
  unfold bind at 1. rewrite (getitem_dict _ _ _ _ _ Hy Hz).
  unfold bind at 1. rewrite (getitem_dict _ _ _ _ _ Hzl Hv).
  reflexivity.
Qed.

Lemma keeps_hoare_bind {A B} (I : world -> Prop) (c : M A) (k : A -> M B) Q R :
  keeps I c Q ->
  (forall a, Q a -> hoare I (k a) R (fun _ => True)) ->
  hoare I (bind c k) R (fun _ => True).
Proof.
  intros Hc Hk w Hw. specialize (Hc w Hw). unfold bind.
  destruct (c w) as [[a|e] w1]; [|exact Logic.I].
  destruct Hc as [Hw1 Ha]. apply (Hk a Ha w1 Hw1).
Qed.

Lemma copy_val_eq_int memo v v' z : copy_val memo v v' -> py_eq_int v' z = py_eq_int v z.
Proof. destruct v; cbn; try (intros ->; reflexivity). intros (y & _ & ->). reflexivity. Qed.

(** [merge_zero] on a config with a ZeRO section: the flag becomes
    whether the stage is 3, and stays so. *)
Lemma merge_zero_flag t y z sv :
  hoare (fun w => entry y "zero_optimization" (VRef z) w /\ dict_get z "stage" sv w)
    (merge_zero t (VRef y))
    (fun _ w => _is_deepspeed_zero3_enabled w = Some (py_eq_int sv 3))
    (fun _ => True).
Proof.
  intros w [(it & Hy & Hz) (zit & Hzl & Hs)]. unfold merge_zero.
  rewrite (bind_ok _ _ _ _ _ (contains_dict _ _ _ _ Hy)), (get_mem _ _ _ Hz).
  rewrite (bind_ok _ _ _ _ _ (getitem_dict _ _ _ _ _ Hy Hz)).
  rewrite (bind_ok _ _ _ _ _ (get_dict _ _ _ _ Hzl)), Hs.
  unfold deepspeed_zero3_enable. unfold bind at 1. cbn [set_flag].
  match goal with
  | |- match ?c ?w1 with _ => _ end =>
      pose proof (stable_zero_buckets (fun _ => True)
                    (fun w0 => _is_deepspeed_zero3_enabled w0 = Some (py_eq_int sv 3))
                    (stable_flag _ _) (fun _ _ => Logic.I)
                    (if ort (args t) then original_module_hidden_size t else hidden_size t)
                    (VRef z) w1 eq_refl) as Hb;
      destruct (c w1) as [[[]|e] w2]
  end; [apply Hb | exact Logic.I].
Qed.

End Invariants.

Ltac not_a_key :=
  let H := fresh in
  intros H; unfold Frame.written, Frame.tail_keys, Frame.batch_keys, Frame.refused_keys in H;
  cbn [In] in H; intuition discriminate.

Section Combinations.
Import DS Frame.
Local Open Scope py_scope.

(** X11. A config dict with an [optimizer] section and no [scheduler]
    section (a DeepSpeed optimizer with the trainer's scheduler) is
    refused: [deepspeed_init] raises, and it has called neither
    [create_scheduler] nor [deepspeed.initialize], nor touched the
    ZeRO-3 flag. *)
Theorem deepspeed_init_refuses_hf_scheduler env t n r w l items :
  heap_wf (heap w) ->
  heap w !! l = Some (ODict items) ->
  deepspeed (args t) = VRef l ->
  PyDict.mem "optimizer" items = true ->
  PyDict.mem "scheduler" items = false ->
  exists e w',
    deepspeed_init env t n r w = (Raise e, w')
    /\ trace w' = trace w
    /\ _is_deepspeed_zero3_enabled w' = _is_deepspeed_zero3_enabled w.
Proof.
  intros Hwf Hl Hds Ho Hs.
  destruct (deepspeed_init_prefix env t n r w l items Hwf Hl Hds)
    as [(e & w' & -> & Ht & Hf & _) | (y & h2 & memo & -> & Hly & Hcopy & _)]; [eauto|].
  destruct (Hcopy l y items Hly Hl) as (items2 & Hy2 & Hmem & _).
  set (I := fun w0 : world =>
              (has y "optimizer" w0 /\ lacks y "scheduler" w0)
              /\ (trace w0 = trace w
                  /\ _is_deepspeed_zero3_enabled w0 = _is_deepspeed_zero3_enabled w)).
  assert (HI : stable written I).
  { repeat apply stable_and;
      [apply stable_has | apply stable_lacks; not_a_key
       | apply stable_trace | apply stable_flag]. }
  assert (Hw2 : I (with_heap h2 w)).
  { split; [split|split; reflexivity]; exists items2; (split; [exact Hy2|]);
      rewrite Hmem by not_a_key; assumption. }
  unfold init_tail. unfold bind at 1.
  rewrite merge_optimizer_present by apply Hw2.
  pose proof (stable_optimizer_section written I HI written_optimizer (args t) (VRef y) _ Hw2)
    as Hstep.
  match type of Hstep with
  | match ?c with _ => _ end => destruct c as [[b|e] w3]
  end.
  - destruct Hstep as [Hw3 ->]. unfold bind at 1.
    rewrite merge_scheduler_absent by apply Hw3.
    destruct Hw3 as [[(it & Hy3 & Hm3) _] [Ht Hf]].
    rewrite (bind_ok _ _ _ _ _ (contains_dict _ _ _ _ Hy3)), Hm3.
    do 2 eexists. split; [reflexivity|]. auto.
  - do 2 eexists. split; [reflexivity|]. apply Hstep.
Qed.

(** X12. ZeRO Offload needs a DeepSpeed optimizer: a config dict
    without [optimizer] whose [zero_optimization] section has
    [cpu_offload] set to [True] makes [deepspeed_init] raise, before the
    trainer's optimizer is created or the engine initialized; when
    nothing earlier fails (DeepSpeed importable in a supported version,
    none of the refused keys, a store of fewer objects than the copy
    of the config may nest), the error is the [ValueError] of the
    offload check. *)
Theorem deepspeed_init_offload_needs_ds_optimizer env t n r w l items z zitems :
  heap_wf (heap w) ->
  heap w !! l = Some (ODict items) ->
  deepspeed (args t) = VRef l ->
  PyDict.mem "optimizer" items = false ->
  PyDict.get "zero_optimization" items = Some (VRef z) ->
  heap w !! z = Some (ODict zitems) ->
  PyDict.get "cpu_offload" zitems = Some (VBool true) ->
  exists e w',
    deepspeed_init env t n r w = (Raise e, w')
    /\ trace w' = trace w
    /\ (deepspeed_importable env = true -> deepspeed_version_ok env = true ->
        (forall k, In k refused_keys -> PyDict.mem k items = false) ->
        size (heap w) < deepcopy_depth env ->
        e = ValueError "ZeRO Offload can only work with DeepSpeed optimizers").
Proof.
  intros Hwf Hl Hds Ho Hzo Hz Hoff.
  destruct (deepspeed_init_prefix env t n r w l items Hwf Hl Hds)
    as [(e & w' & -> & Ht & Hf & Hwhy) | (y & h2 & memo & -> & Hly & Hcopy & _)].
  { exists e, w'. split; [reflexivity|]. split; [exact Ht|]. intros Hi Hv Hk Hsize.
    destruct Hwhy as [Hwhy|[Hwhy|[(k & Hin & Hk')|Hdeep]]]; try congruence; [|lia].
    rewrite (Hk k Hin) in Hk'. discriminate. }
  destruct (Hcopy l y items Hly Hl) as (items2 & Hy2 & Hmem & Hget).
  destruct (Hget "zero_optimization" (VRef z)) as (v' & Hzo2 & z' & Hzz' & ->);
    [not_a_key | exact Hzo |].
  destruct (Hcopy z z' zitems Hzz' Hz) as (zitems2 & Hz2 & _ & Hzget).
  destruct (Hzget "cpu_offload" (VBool true)) as (v' & Hoff2 & Hcv);
    [not_a_key | exact Hoff |]. cbn in Hcv. subst v'.
  assert (Hopt : merge_optimizer (args t) (VRef y) (with_heap h2 w)
                 = (Raise (ValueError "ZeRO Offload can only work with DeepSpeed optimizers"),
                    with_heap h2 w)).
  { rewrite (merge_optimizer_offload (args t) y z' _ (VBool true)); [reflexivity | | |].
    - exists items2. split; [exact Hy2|]. rewrite Hmem by not_a_key. exact Ho.
    - exists items2. split; [exact Hy2 | exact Hzo2].
    - exists zitems2. split; [exact Hz2 | exact Hoff2]. }
  unfold init_tail. rewrite (bind_raise _ _ _ _ _ Hopt).
  do 2 eexists. split; [reflexivity|]. split; [reflexivity|]. reflexivity.
Qed.

(** The steps between the first merge and [merge_zero]. *)
Lemma hoare_before_zero (I : world -> Prop) env t n r y R :
  stable written I -> emit_stable I ->
  (forall optimizer lr_scheduler,
      hoare I
        (merge_zero t (VRef y) ;;
         emit (Initialize (VRef y) optimizer lr_scheduler) ;;
         resume env r ;;
         ret {| engine_config := VRef y;
                trainer_optimizer := optimizer;
                trainer_lr_scheduler := lr_scheduler |})
        R (fun _ => True)) ->
  hoare I (init_tail env t n r (VRef y)) R (fun _ => True).
Proof.
  intros HI HE Hrest. unfold init_tail.
  eapply keeps_hoare_bind;
    [apply (stable_merge_optimizer written I HI written_optimizer HE)|].
  intros optimizer _.
  eapply keeps_hoare_bind;
    [apply (stable_merge_scheduler written I HI written_scheduler HE)|].
  intros lr_scheduler _.
  eapply keeps_hoare_bind; [apply (stable_merge_fp16 written I HI written_fp16)|].
  intros _ _. apply Hrest.
Qed.

(** X13. When [deepspeed_init] returns on a config dict that has a
    [zero_optimization] section, the ZeRO-3 flag of the module is set,
    and it is [True] exactly when the [stage] entry of that section
    equals 3 (a section without [stage] gives [False]). *)
Theorem deepspeed_init_sets_zero3_flag env t n r w l items z zitems :
  heap_wf (heap w) ->
  heap w !! l = Some (ODict items) ->
  deepspeed (args t) = VRef l ->
  PyDict.get "zero_optimization" items = Some (VRef z) ->
  heap w !! z = Some (ODict zitems) ->
  forall eng w',
    deepspeed_init env t n r w = (Ok eng, w') ->
    _is_deepspeed_zero3_enabled w'
    = Some (py_eq_int (match PyDict.get "stage" zitems with
                       | Some v => v
                       | None => VNone
                       end) 3).
Proof.
  intros Hwf Hl Hds Hzo Hz eng w' Hrun.
  destruct (deepspeed_init_prefix env t n r w l items Hwf Hl Hds)
    as [(e & w1 & He & _) | (y & h2 & memo & Htail & Hly & Hcopy & _)]; [congruence|].
  rewrite Htail in Hrun. clear Htail.
  destruct (Hcopy l y items Hly Hl) as (items2 & Hy2 & Hmem & Hget).
  destruct (Hget "zero_optimization" (VRef z)) as (v' & Hzo2 & z' & Hzz' & ->);
    [not_a_key | exact Hzo |].
  destruct (Hcopy z z' zitems Hzz' Hz) as (zitems2 & Hz2 & Hzmem & Hzget).
  set (sv := match PyDict.get "stage" zitems with Some v => v | None => VNone end).
  assert (Hsv : exists sv', dict_get z' "stage" sv' (with_heap h2 w)
                            /\ py_eq_int sv' 3 = py_eq_int sv 3).
  { unfold sv. destruct (PyDict.get "stage" zitems) as [v|] eqn:Es.
    - destruct (Hzget "stage" v) as (v' & Hs2 & Hcv); [not_a_key | exact Es |].
      exists v'. split; [|eapply copy_val_eq_int; exact Hcv].
      exists zitems2. split; [exact Hz2|]. rewrite Hs2. reflexivity.
    - exists VNone. split; [|reflexivity]. exists zitems2. split; [exact Hz2|].
      pose proof (Hzmem "stage" ltac:(not_a_key)) as Hm. unfold PyDict.mem in Hm.
      rewrite Es in Hm. destruct (PyDict.get "stage" zitems2); [discriminate | reflexivity]. }
  destruct Hsv as (sv' & Hsv' & Heq). rewrite <- Heq. clear Heq.
  set (I := fun w0 : world =>
              entry y "zero_optimization" (VRef z') w0 /\ dict_get z' "stage" sv' w0).
  set (J := fun w0 : world => _is_deepspeed_zero3_enabled w0 = Some (py_eq_int sv' 3)).
  assert (H : hoare I (init_tail env t n r (VRef y)) (fun _ w0 => J w0) (fun _ => True)).
  { apply hoare_before_zero.
    - apply stable_and; [apply stable_entry | apply stable_dict_get]; not_a_key.
    - apply emit_stable_and; [apply emit_stable_entry | apply emit_stable_dict_get].
    - intros optimizer lr_scheduler.
      eapply hoare_bind; [apply merge_zero_flag|]. intros u. cbn beta.
      eapply keeps_hoare_bind;
        [apply (stable_emit J (emit_stable_flag _))|]. intros _ _.
      eapply keeps_hoare_bind;
        [apply (stable_resume J (emit_stable_flag _))|]. intros _ _.
      apply hoare_ret. auto. }
  assert (Hw2 : I (with_heap h2 w)).
  { split; [exists items2; split; [exact Hy2 | exact Hzo2] | exact Hsv']. }
  specialize (H _ Hw2). rewrite Hrun in H. exact H.
Qed.

(** X14. On a config dict without a [zero_optimization] section,
    [deepspeed_init] leaves the ZeRO-3 flag of the module as it was,
    whether it returns or raises. *)
Theorem deepspeed_init_flag_untouched env t n r w l items :
  heap_wf (heap w) ->
  heap w !! l = Some (ODict items) ->
  deepspeed (args t) = VRef l ->
  PyDict.mem "zero_optimization" items = false ->
  _is_deepspeed_zero3_enabled (snd (deepspeed_init env t n r w))
  = _is_deepspeed_zero3_enabled w.
Proof.
  intros Hwf Hl Hds Hzo.
  destruct (deepspeed_init_prefix env t n r w l items Hwf Hl Hds)
    as [(e & w1 & -> & _ & Hf & _) | (y & h2 & memo & -> & Hly & Hcopy & _)];
    [exact Hf|].
  destruct (Hcopy l y items Hly Hl) as (items2 & Hy2 & Hmem & _).
  set (I := fun w0 : world =>
              lacks y "zero_optimization" w0
              /\ _is_deepspeed_zero3_enabled w0 = _is_deepspeed_zero3_enabled w).
  assert (HI : stable written I).
  { apply stable_and; [apply stable_lacks; not_a_key | apply stable_flag]. }
  assert (HE : emit_stable I).
  { apply emit_stable_and; [apply emit_stable_lacks | apply emit_stable_flag]. }
  assert (H : keeps I (init_tail env t n r (VRef y)) (fun _ => True)).
  { unfold init_tail.
    eapply keeps_bind; [apply (stable_merge_optimizer written I HI written_optimizer HE)|].
    intros optimizer _.
    eapply keeps_bind; [apply (stable_merge_scheduler written I HI written_scheduler HE)|].
    intros lr_scheduler _.
    eapply keeps_bind; [apply (stable_merge_fp16 written I HI written_fp16)|].
    intros _ _.
    eapply keeps_bind with (Q := fun _ => True).
    { intros w0 Hw0. rewrite merge_zero_absent by apply Hw0. split; [exact Hw0 | exact Logic.I]. }
    intros _ _.
    eapply keeps_bind; [apply (stable_emit I HE)|]. intros _ _.
    eapply keeps_bind; [apply (stable_resume I HE)|]. intros _ _.
    apply keeps_ret. exact Logic.I. }
  assert (Hw2 : I (with_heap h2 w)).
  { split; [|reflexivity]. exists items2. split; [exact Hy2|].
    rewrite Hmem by not_a_key. exact Hzo. }
  specialize (H _ Hw2).
  destruct (init_tail env t n r (VRef y) (with_heap h2 w)) as [[eng|e] w']; apply H.
Qed.

End Combinations.

(** * [deepspeed_init]: the calls it makes *)

Section Calls.
Import DS Frame.
Local Open Scope py_scope.

Lemma stable_key_is c k0 b : ~ written k0 -> stable written (key_is c k0 b).
Proof.
  intros Hk0. split.
  - intros w l items k v (it & Hc & Hm) Hl Hk. unfold key_is. cbn [heap with_heap].
    destruct (decide (l = c)) as [->|Hne].
    + rewrite lookup_insert_eq. eexists. split; [reflexivity|].
      rewrite Hc in Hl. injection Hl as <-. rewrite mem_set, Hm.
      destruct (String.eqb_spec k0 k) as [->|]; [contradiction | reflexivity].
    + rewrite lookup_insert_ne by exact Hne. eauto.
  - intros w o (it & Hc & Hm). unfold key_is. cbn [heap with_heap].
    rewrite lookup_insert_ne by (eapply fresh_lookup; eassumption). eauto.
Qed.

Lemma keeps_hoare {A} (I : world -> Prop) (c : M A) (Q : A -> Prop) :
  keeps I c Q -> hoare I c (fun a w => I w /\ Q a) (fun _ => True).
Proof. intros H. eapply hoare_weaken; [exact H | auto..]. Qed.

Lemma merge_scheduler_present a n y w :
  has y "scheduler" w ->
  merge_scheduler a n (VRef y) w
  = (sched <- getitem (VRef y) "scheduler" ;;
     ty <- getitem sched "type" ;;
     (if py_eq_str ty "WarmupDecayLR"
      then
        sched <- getitem (VRef y) "scheduler" ;;
        p <- getitem sched "params" ;;
        setitem p "total_num_steps" (VInt n)
      else ret tt) ;;
     override_params (VRef y) "scheduler"
       [ ("warmup_max_lr", VFloat (learning_rate a));
         ("warmup_num_steps", VInt (warmup_steps a)) ] ;;
     ret false) w.
Proof.
  intros (it & Hy & Hm). unfold merge_scheduler.
  rewrite (bind_ok _ _ _ _ _ (contains_dict _ _ _ _ Hy)), Hm. reflexivity.
Qed.

Section WithInvariant.
Context (I : world -> Prop).
Hypothesis HI : stable written I.
Hypothesis HE : emit_stable I.

Lemma emit_calls e tr :
  hoare (fun w => I w /\ trace w = tr) (emit e)
    (fun _ w => I w /\ trace w = (tr ++ [e])%list) (fun _ => True).
Proof. intros w [Hw Ht]. split; [apply (HE w e Hw) | cbn; rewrite Ht; reflexivity]. Qed.

Lemma stable_with_trace tr : stable written (fun w => I w /\ trace w = tr).
Proof. apply stable_and; [exact HI | apply stable_trace]. Qed.

Lemma merge_optimizer_calls a y mo tr :
  (forall w, I w -> key_is y "optimizer" mo w) ->
  hoare (fun w => I w /\ trace w = tr) (merge_optimizer a (VRef y))
    (fun b w => b = negb mo
                /\ I w
                /\ trace w = (tr ++ if mo then [] else [CreateOptimizer])%list)
    (fun _ => True).
Proof.
  intros Hkey w [Hw Ht]. pose proof (Hkey w Hw) as Hk. destruct mo.
  - rewrite merge_optimizer_present by exact Hk.
    pose proof (stable_optimizer_section written _ (stable_with_trace tr) written_optimizer
                  a (VRef y) w (conj Hw Ht)) as H.
    match type of H with
    | match ?c with _ => _ end => destruct c as [[b|e] w1]
    end; [|exact Logic.I].
    destruct H as [[H1 H2] ->]. rewrite app_nil_r. auto.
  - destruct Hk as (it & Hy & Hm). unfold merge_optimizer.
    rewrite (bind_ok _ _ _ _ _ (contains_dict _ _ _ _ Hy)), Hm.
    match goal with
    | |- match ?c w with _ => _ end =>
        assert (H : hoare (fun w => I w /\ trace w = tr) c
                      (fun b w => b = negb false /\ I w
                                  /\ trace w = (tr ++ [CreateOptimizer])%list)
                      (fun _ => True)); [|exact (H w (conj Hw Ht))]
    end.
    eapply hoare_bind.
    { apply keeps_hoare. apply (stable_contains (fun w => I w /\ trace w = tr)). }
    intros has_zero. cbn beta.
    eapply hoare_bind with (Q := fun _ w => I w /\ trace w = tr).
    { eapply hoare_weaken with (P := fun w => I w /\ trace w = tr)
                               (Q := fun _ w => (I w /\ trace w = tr) /\ True);
        [apply keeps_hoare | tauto | tauto | auto].
      destruct has_zero; [|apply keeps_ret; exact Logic.I].
      eapply keeps_bind; [apply stable_getitem|]. intros zero _.
      eapply keeps_bind; [apply stable_contains|].
      intros [] _; [|apply keeps_ret; exact Logic.I].
      eapply keeps_bind; [apply stable_getitem|]. intros zero2 _.
      eapply keeps_bind; [apply stable_getitem|]. intros v _.
      apply keeps_ret; exact Logic.I. }
    intros []; [apply hoare_raise; auto|].
    eapply hoare_bind; [apply emit_calls|]. intros u. cbn beta.
    eapply hoare_bind.
    { apply keeps_hoare.
      apply (stable_setitem written _ (stable_with_trace (tr ++ [CreateOptimizer]))).
      unfold written, tail_keys. cbn [In]. tauto. }
    intros u'. cbn beta. apply hoare_ret. intros w1 [[H1 H2] _]. auto.
Qed.

Lemma merge_scheduler_calls a n y ms tr :
  (forall w, I w -> key_is y "scheduler" ms w) ->
  hoare (fun w => I w /\ trace w = tr) (merge_scheduler a n (VRef y))
    (fun b w => b = negb ms
                /\ I w
                /\ trace w = (tr ++ if ms then [] else [CreateScheduler n])%list)
    (fun _ => True).
Proof.
  intros Hkey w [Hw Ht]. pose proof (Hkey w Hw) as Hk. destruct ms.
  - rewrite merge_scheduler_present by exact Hk.
    pose proof (stable_scheduler_section written _ (stable_with_trace tr) written_scheduler
                  a n (VRef y) w (conj Hw Ht)) as H.
    match type of H with
    | match ?c with _ => _ end => destruct c as [[b|e] w1]
    end; [|exact Logic.I].
    destruct H as [[H1 H2] ->]. rewrite app_nil_r. auto.
  - rewrite merge_scheduler_absent by exact Hk.
    match goal with
    | |- match ?c w with _ => _ end =>
        assert (H : hoare (fun w => I w /\ trace w = tr) c
                      (fun b w => b = negb false /\ I w
                                  /\ trace w = (tr ++ [CreateScheduler n])%list)
                      (fun _ => True)); [|exact (H w (conj Hw Ht))]
    end.
    eapply hoare_bind.
    { apply keeps_hoare. apply (stable_contains (fun w => I w /\ trace w = tr)). }
    intros []; cbn beta; [apply hoare_raise; auto|].
    eapply hoare_bind.
    { eapply hoare_weaken;
        [apply emit_calls | intros w0 [H0 _]; exact H0 | intros b w0 H0; exact H0 | auto]. }
    intros u. cbn beta. apply hoare_ret. intros w1 [H1 H2]. auto.
Qed.

Lemma resume_calls env r tr :
  hoare (fun w => I w /\ trace w = tr) (resume env r)
    (fun _ w => I w
                /\ exists tr', trace w = (tr ++ tr')%list
                     /\ (tr' = [] \/ exists path, r = Some path
                                                  /\ tr' = [LoadCheckpoint path]))
    (fun _ => True).
Proof.
  intros w [Hw Ht]. unfold resume. destruct r as [path|].
  2:{ split; [exact Hw|]. exists []. rewrite app_nil_r. auto. }
  destruct (Nat.ltb 0 _).
  2:{ split; [exact Hw|]. exists []. rewrite app_nil_r. auto. }
  unfold bind. cbn [emit].
  destruct (load_checkpoint env path); [|exact Logic.I].
  split; [apply (HE w (LoadCheckpoint path) Hw)|].
  exists [LoadCheckpoint path]. cbn [trace]. rewrite Ht. eauto.
Qed.

Hypothesis HF : flag_stable I.

Lemma flag_stable_with_trace tr : flag_stable (fun w => I w /\ trace w = tr).
Proof. intros w f [Hw Ht]. split; [apply (HF w f Hw) | exact Ht]. Qed.

(** The calls of the steps after the first merge, in their order. *)
Lemma init_tail_calls env t n r y mo ms tr :
  (forall w, I w -> key_is y "optimizer" mo w) ->
  (forall w, I w -> key_is y "scheduler" ms w) ->
  hoare (fun w => I w /\ trace w = tr) (init_tail env t n r (VRef y))
    (fun eng w =>
       eng = {| engine_config := VRef y;
                trainer_optimizer := negb mo;
                trainer_lr_scheduler := negb ms |}
       /\ I w
       /\ exists tr',
            trace w
            = (tr ++ (if mo then [] else [CreateOptimizer])
                  ++ (if ms then [] else [CreateScheduler n])
                  ++ [Initialize (VRef y) (negb mo) (negb ms)] ++ tr')%list
            /\ (tr' = [] \/ exists path, r = Some path /\ tr' = [LoadCheckpoint path]))
    (fun _ => True).
Proof.
  intros Ho Hs. unfold init_tail.
  eapply hoare_bind; [apply merge_optimizer_calls, Ho|].
  intros optimizer. cbn beta.
  set (tr2 := (tr ++ (if mo then [] else [CreateOptimizer]))%list).
  set (tr3 := (tr2 ++ (if ms then [] else [CreateScheduler n]))%list).
  eapply hoare_bind with
    (Q := fun b w => optimizer = negb mo /\ b = negb ms /\ I w /\ trace w = tr3).
  { intros w0 (-> & Hw0 & Ht0).
    pose proof (merge_scheduler_calls (args t) n y ms _ Hs w0 (conj Hw0 Ht0)) as H.
    destruct (merge_scheduler _ _ _ w0) as [[b|e] w1]; [|exact Logic.I].
    split; [reflexivity | exact H]. }
  intros lr_scheduler. cbn beta.
  eapply hoare_bind with
    (Q := fun _ w => optimizer = negb mo /\ lr_scheduler = negb ms
                     /\ I w /\ trace w = tr3).
  { intros w0 (-> & -> & Hw0 & Ht0).
    pose proof (stable_merge_fp16 written _ (stable_with_trace tr3) written_fp16
                  t (VRef y) w0 (conj Hw0 Ht0)) as H.
    destruct (merge_fp16 _ _ w0) as [[[]|e] w1]; [|exact Logic.I].
    destruct H as [[H1 H2] _]. auto. }
  intros u1. cbn beta.
  eapply hoare_bind with
    (Q := fun _ w => optimizer = negb mo /\ lr_scheduler = negb ms
                     /\ I w /\ trace w = tr3).
  { intros w0 (-> & -> & Hw0 & Ht0).
    pose proof (stable_merge_zero written _ (stable_with_trace tr3) written_zero
                  (flag_stable_with_trace tr3) t (VRef y) w0 (conj Hw0 Ht0)) as H.
    destruct (merge_zero _ _ w0) as [[[]|e] w1]; [|exact Logic.I].
    destruct H as [[H1 H2] _]. auto. }
  intros u2. cbn beta.
  eapply hoare_bind with
    (Q := fun _ w => optimizer = negb mo /\ lr_scheduler = negb ms
                     /\ I w
                     /\ trace w = (tr3 ++ [Initialize (VRef y) (negb mo) (negb ms)])%list).
  { intros w0 (-> & -> & Hw0 & Ht0).
    pose proof (emit_calls (Initialize (VRef y) (negb mo) (negb ms)) tr3 w0
                  (conj Hw0 Ht0)) as H.
    cbn [emit] in *. destruct H as [H1 H2]. auto. }
  intros u3. cbn beta.
  eapply hoare_bind with
    (Q := fun _ w => optimizer = negb mo /\ lr_scheduler = negb ms
                     /\ I w
                     /\ exists tr',
                          trace w
                          = ((tr3 ++ [Initialize (VRef y) (negb mo) (negb ms)]) ++ tr')%list
                          /\ (tr' = [] \/ exists path, r = Some path
                                                       /\ tr' = [LoadCheckpoint path])).
  { intros w0 (-> & -> & Hw0 & Ht0).
    pose proof (resume_calls env r _ w0 (conj Hw0 Ht0)) as H.
    destruct (resume env r w0) as [[[]|e] w1]; [|exact Logic.I].
    destruct H as [H1 H2]. auto. }
  intros u4. cbn beta. apply hoare_ret.
  intros w0 (-> & -> & Hw0 & tr' & Ht0 & Hr).
  split; [reflexivity|]. split; [exact Hw0|]. exists tr'. split; [|exact Hr].
  rewrite Ht0. unfold tr3, tr2. rewrite <- !app_assoc. reflexivity.
Qed.

End WithInvariant.

Lemma flag_stable_key_is c k b : flag_stable (key_is c k b).
Proof. intros w f H. exact H. Qed.

Lemma emit_stable_key_is c k b : emit_stable (key_is c k b).
Proof. intros w e H. exact H. Qed.

(** X15. The calls [deepspeed_init] has made when it returns on a
    config dict, in their order: [create_optimizer] exactly when the
    config has no [optimizer] section, then [create_scheduler] exactly
    when it has no [scheduler] section, then one [deepspeed.initialize],
    which is given the trainer's optimizer and scheduler exactly in
    those cases, then at most the [load_checkpoint] of the path to
    resume from. *)
Theorem deepspeed_init_calls env t n r w l items eng w' :
  heap_wf (heap w) ->
  heap w !! l = Some (ODict items) ->
  deepspeed (args t) = VRef l ->
  deepspeed_init env t n r w = (Ok eng, w') ->
  trainer_optimizer eng = negb (PyDict.mem "optimizer" items)
  /\ trainer_lr_scheduler eng = negb (PyDict.mem "scheduler" items)
  /\ exists tr',
       trace w'
       = (trace w
            ++ (if PyDict.mem "optimizer" items then [] else [CreateOptimizer])
            ++ (if PyDict.mem "scheduler" items then [] else [CreateScheduler n])
            ++ [Initialize (engine_config eng) (trainer_optimizer eng)
                  (trainer_lr_scheduler eng)]
            ++ tr')%list
       /\ (tr' = [] \/ exists path, r = Some path /\ tr' = [LoadCheckpoint path]).
Proof.
  intros Hwf Hl Hds Hrun.
  destruct (deepspeed_init_prefix env t n r w l items Hwf Hl Hds)
    as [(e & w1 & He & _) | (y & h2 & memo & Htail & Hly & Hcopy & _)]; [congruence|].
  rewrite Htail in Hrun. clear Htail.
  destruct (Hcopy l y items Hly Hl) as (items2 & Hy2 & Hmem & _).
  set (mo := PyDict.mem "optimizer" items) in *.
  set (ms := PyDict.mem "scheduler" items) in *.
  set (I := fun w0 : world => key_is y "optimizer" mo w0 /\ key_is y "scheduler" ms w0).
  assert (HI : stable written I).
  { apply stable_and; apply stable_key_is; not_a_key. }
  assert (HE : emit_stable I).
  { apply emit_stable_and; apply emit_stable_key_is. }
  assert (HF : flag_stable I).
  { intros w0 f [H1 H2]. split; assumption. }
  pose proof (init_tail_calls I HI HE HF env t n r y mo ms (trace w)
                (fun _ H => proj1 H) (fun _ H => proj2 H) (with_heap h2 w)) as H.
  rewrite Hrun in H.
  destruct H as (-> & _ & tr' & Ht & Hr).
  - split; [|reflexivity].
    split; exists items2; (split; [exact Hy2|]); apply Hmem; not_a_key.
  - cbn [trainer_optimizer trainer_lr_scheduler engine_config]. eauto.
Qed.

(** X16. The gradient clipping the engine is configured with: when
    [deepspeed_init] returns on a config dict, the config given to
    [deepspeed.initialize] has the [gradient_clipping] of the user's
    dict if that has one, whatever [max_grad_norm] is, and
    [max_grad_norm] otherwise. *)
Theorem deepspeed_init_gradient_clipping env t n r w l items eng w' :
  heap_wf (heap w) ->
  heap w !! l = Some (ODict items) ->
  deepspeed (args t) = VRef l ->
  (forall z, PyDict.get "gradient_clipping" items <> Some (VRef z)) ->
  deepspeed_init env t n r w = (Ok eng, w') ->
  exists y,
    engine_config eng = VRef y
    /\ entry y "gradient_clipping"
         (match PyDict.get "gradient_clipping" items with
          | Some v => v
          | None => VFloat (max_grad_norm (args t))
          end) w'.
Proof.
  intros Hwf Hl Hds Hnoref Hrun.
  destruct (deepspeed_init_prefix env t n r w l items Hwf Hl Hds)
    as [(e & w1 & He & _) | (y & h2 & memo & Htail & Hly & Hcopy & (gc & Hgc & Hrel) & _)];
    [congruence|].
  rewrite Htail in Hrun. clear Htail.
  destruct (Hcopy l y items Hly Hl) as (items2 & Hy2 & Hmem & _).
  assert (Hgc' : gc = match PyDict.get "gradient_clipping" items with
                      | Some v => v
                      | None => VFloat (max_grad_norm (args t))
                      end).
  { destruct (PyDict.get "gradient_clipping" items) as [v|]; [|exact Hrel].
    destruct v; cbn in Hrel; try exact Hrel. exfalso. eapply Hnoref. reflexivity. }
  rewrite <- Hgc'. clear Hgc' Hrel.
  set (mo := PyDict.mem "optimizer" items) in *.
  set (ms := PyDict.mem "scheduler" items) in *.
  set (I := fun w0 : world =>
              entry y "gradient_clipping" gc w0
              /\ (key_is y "optimizer" mo w0 /\ key_is y "scheduler" ms w0)).
  assert (HI : stable written I).
  { repeat apply stable_and;
      [apply stable_entry | apply stable_key_is | apply stable_key_is]; not_a_key. }
  assert (HE : emit_stable I).
  { repeat apply emit_stable_and;
      [apply emit_stable_entry | apply emit_stable_key_is | apply emit_stable_key_is]. }
  assert (HF : flag_stable I).
  { intros w0 f H. exact H. }
  pose proof (init_tail_calls I HI HE HF env t n r y mo ms (trace w)
                (fun _ H => proj1 (proj2 H)) (fun _ H => proj2 (proj2 H))
                (with_heap h2 w)) as H.
  rewrite Hrun in H.
  destruct H as (-> & Hw' & _).
  - split; [|reflexivity]. split; [exact Hgc|].
    split; exists items2; (split; [exact Hy2|]); apply Hmem; not_a_key.
  - exists y. split; [reflexivity | apply Hw'].
Qed.

(** *** A config that leaves everything to the trainer *)








End Calls.

(** * The properties of [deepspeed_init] at concrete configs *)

Section MoreInstances.
Import DS Frame Examples Configs.
Local Open Scope py_scope.

Lemma deepspeed_init_gradient_clipping_witness :
  exists eng w' y,
    deepspeed_init env_plain trainer_8_2 1000 None (world_of heap_clipping_config)
    = (Ok eng, w')
    /\ engine_config eng = VRef y
    /\ entry y "gradient_clipping" (VFloat (float_of_Z 5)) w'.
Proof.
  destruct (deepspeed_init env_plain trainer_8_2 1000 None (world_of heap_clipping_config))
    as [[eng|e] w'] eqn:E; [|vm_compute in E; discriminate E].
  destruct (deepspeed_init_gradient_clipping env_plain trainer_8_2 1000 None
              (world_of heap_clipping_config) 1%positive
              [("gradient_clipping", VFloat (float_of_Z 5))] eng w'
              ltac:(apply heap_wfb_wf; vm_compute; reflexivity)
              ltac:(vm_compute; reflexivity) eq_refl
              ltac:(intros z Hz; discriminate Hz) E)
    as (y & Hy & Hgc).
  exists eng, w', y. split; [reflexivity|]. split; [exact Hy | exact Hgc].
Defined.

Lemma deepspeed_init_refuses_hf_scheduler_witness :
  exists e w',
    deepspeed_init env_plain trainer_8_2 1000 None (world_of heap_optimizer_config)
    = (Raise e, w')
    /\ trace w' = []
    /\ _is_deepspeed_zero3_enabled w' = None.
Proof.
  apply (deepspeed_init_refuses_hf_scheduler env_plain trainer_8_2 1000 None
           (world_of heap_optimizer_config) 1%positive [("optimizer", VRef 2)]).
  - apply heap_wfb_wf. vm_compute. reflexivity.
  - vm_compute. reflexivity.
  - reflexivity.
  - reflexivity.
  - reflexivity.
Defined.

Lemma deepspeed_init_offload_needs_ds_optimizer_witness :
  exists w',
    deepspeed_init env_plain trainer_8_2 1000 None (world_of heap_offload_config)
    = (Raise (ValueError "ZeRO Offload can only work with DeepSpeed optimizers"), w')
    /\ trace w' = [].
Proof.
  destruct (deepspeed_init_offload_needs_ds_optimizer env_plain trainer_8_2 1000 None
              (world_of heap_offload_config) 1%positive [("zero_optimization", VRef 2)]
              2%positive [("stage", VInt 2); ("cpu_offload", VBool true)])
    as (e & w' & Hrun & Ht & He).
  - apply heap_wfb_wf. vm_compute. reflexivity.
  - vm_compute. reflexivity.
  - reflexivity.
  - reflexivity.
  - reflexivity.
  - vm_compute. reflexivity.
  - reflexivity.
  - exists w'. split; [|exact Ht]. rewrite Hrun. f_equal. f_equal.
    apply He; [reflexivity | reflexivity | | vm_compute; lia].
    intros k [<-|[<-|[<-|[]]]]; reflexivity.
Defined.

Lemma deepspeed_init_sets_zero3_flag_witness :
  exists eng w',
    deepspeed_init env_plain trainer_8_2 1000 None (world_of heap_nested_config)
    = (Ok eng, w')
    /\ _is_deepspeed_zero3_enabled w' = Some true.
Proof.
  destruct (deepspeed_init env_plain trainer_8_2 1000 None (world_of heap_nested_config))
    as [[eng|e] w'] eqn:E; [|vm_compute in E; discriminate E].
  exists eng, w'. split; [reflexivity|].
  apply (deepspeed_init_sets_zero3_flag env_plain trainer_8_2 1000 None
           (world_of heap_nested_config) 1%positive
           [("optimizer", VRef 2); ("scheduler", VRef 4); ("zero_optimization", VRef 6)]
           6%positive [("stage", VInt 3); ("reduce_bucket_size", VInt 0)]
           ltac:(apply heap_wfb_wf; vm_compute; reflexivity)
           ltac:(vm_compute; reflexivity) eq_refl eq_refl
           ltac:(vm_compute; reflexivity) eng w' E).
Defined.

Lemma deepspeed_init_flag_untouched_witness :
  _is_deepspeed_zero3_enabled
    (snd (deepspeed_init env_plain trainer_8_2 1000 None (world_of heap_optimizer_config)))
  = None.
Proof.
  apply (deepspeed_init_flag_untouched env_plain trainer_8_2 1000 None
           (world_of heap_optimizer_config) 1%positive [("optimizer", VRef 2)]).
  - apply heap_wfb_wf. vm_compute. reflexivity.
  - vm_compute. reflexivity.
  - reflexivity.
  - reflexivity.
Defined.

Lemma deepspeed_init_calls_witness :
  exists eng w',
    deepspeed_init env_plain trainer_8_2 1000 None (world_of heap_nested_config)
    = (Ok eng, w')
    /\ trainer_optimizer eng = false
    /\ trainer_lr_scheduler eng = false
    /\ trace w' = [Initialize (engine_config eng) false false].
Proof.
  destruct (deepspeed_init env_plain trainer_8_2 1000 None (world_of heap_nested_config))
    as [[eng|e] w'] eqn:E; [|vm_compute in E; discriminate E].
  destruct (deepspeed_init_calls env_plain trainer_8_2 1000 None
              (world_of heap_nested_config) 1%positive
              [("optimizer", VRef 2); ("scheduler", VRef 4); ("zero_optimization", VRef 6)]
              eng w'
              ltac:(apply heap_wfb_wf; vm_compute; reflexivity)
              ltac:(vm_compute; reflexivity) eq_refl E)
    as (Ho & Hs & tr' & Ht & [-> | (path & Hr & _)]); [|discriminate Hr].
  exists eng, w'. split; [reflexivity|]. split; [exact Ho|]. split; [exact Hs|].
  rewrite Ht, Ho, Hs. reflexivity.
Defined.


End MoreInstances.

(** * The discovery of ZeRO-3 from the command line *)

Section DiscoveryFacts.
Import DS Frame.
Local Open Scope py_scope.

Lemma existsb_eqb_In x (l : list string) :
  existsb (String.eqb x) l = true <-> In x l.
Proof.
  rewrite existsb_exists. split.
  - intros (y & Hy & E). apply String.eqb_eq in E. subst. exact Hy.
  - intros H. exists x. split; [exact H | apply String.eqb_refl].
Qed.

Lemma index_of_app x pre rest :
  ~ In x pre -> index_of x (pre ++ x :: rest) = length pre.
Proof.
  induction pre as [|y pre IH]; intros H; cbn.
  - rewrite String.eqb_refl. reflexivity.
  - destruct (String.eqb_spec y x) as [->|Hne]; [exfalso; apply H; left; reflexivity|].
    f_equal. apply IH. intros Hin. apply H. right. exact Hin.
Qed.

Lemma nth_error_after (pre rest : list string) x :
  nth_error (pre ++ x :: rest) (length pre + 1) = nth_error rest 0.
Proof.
  induction pre as [|y pre IH]; [reflexivity|]. cbn. exact IH.
Qed.

(** The first call, up to the reading of the config file. *)
Lemma is_deepspeed_zero3_enabled_start env w :
  _is_deepspeed_zero3_enabled w = None ->
  is_deepspeed_zero3_enabled env w
  = (discover_zero3 env ;; get_flag) (snd (set_flag (Some false) w)).
Proof.
  intros Hf. unfold is_deepspeed_zero3_enabled, bind. cbn [get_flag]. rewrite Hf.
  cbn [set_flag snd]. reflexivity.
Qed.

(** X18. The first call of [is_deepspeed_zero3_enabled] when the
    command line says nothing usable.  Without [--deepspeed] it returns
    [False] and reads no file.  With [--deepspeed] as the last argument
    it raises [IndexError], and with a path that does not exist the
    [ValueError] that asks for a valid path.  In each case the flag is
    left at [False], so that every later call returns [False]. *)
Theorem zero3_discovery_without_config env w :
  _is_deepspeed_zero3_enabled w = None ->
  (~ In "--deepspeed" (argv env) ->
     is_deepspeed_zero3_enabled env w = (Ok (Some false), snd (set_flag (Some false) w)))
  /\ (forall pre, argv env = (pre ++ ["--deepspeed"])%list -> ~ In "--deepspeed" pre ->
        is_deepspeed_zero3_enabled env w
        = (Raise IndexError, snd (set_flag (Some false) w)))
  /\ (forall pre path post,
        argv env = (pre ++ "--deepspeed" :: path :: post)%list ->
        ~ In "--deepspeed" pre ->
        path_exists env path = false ->
        is_deepspeed_zero3_enabled env w
        = (Raise (ValueError "--deepspeed requires a valid path to a config file"),
           snd (set_flag (Some false) w))).
Proof.
  intros Hf. rewrite (is_deepspeed_zero3_enabled_start env w Hf).
  split; [|split].
  - intros Hno. unfold discover_zero3.
    destruct (existsb (String.eqb "--deepspeed") (argv env)) eqn:E.
    + apply existsb_eqb_In in E. contradiction.
    + reflexivity.
  - intros pre Hargv Hpre. unfold discover_zero3.
    assert (E : existsb (String.eqb "--deepspeed") (argv env) = true).
    { apply existsb_eqb_In. rewrite Hargv. apply in_or_app. right. left. reflexivity. }
    rewrite E, Hargv, (index_of_app _ _ _ Hpre), nth_error_after. reflexivity.
  - intros pre path post Hargv Hpre Hex. unfold discover_zero3.
    assert (E : existsb (String.eqb "--deepspeed") (argv env) = true).
    { apply existsb_eqb_In. rewrite Hargv. apply in_or_app. right. left. reflexivity. }
    rewrite E, Hargv, (index_of_app _ _ _ Hpre), nth_error_after. cbn [nth_error].
    rewrite Hex. reflexivity.
Qed.

End DiscoveryFacts.

Section JsonLoad.
Import DS Frame ConfigFile.
Local Open Scope py_scope.

Lemma insert_fresh_subseteq (h : gmap loc obj) o : h ⊆ <[fresh (dom h) := o]> h.
Proof. apply insert_subseteq, not_elem_of_dom, is_fresh. Qed.

Lemma alloc_elems_mono rec (elems : list json) :
  (forall j h, In j elems -> h ⊆ snd (rec j h)) ->
  forall h, h ⊆ snd (alloc_elems rec elems h).
Proof.
  induction elems as [|j elems IH]; intros Hrec h; cbn [alloc_elems]; [reflexivity|].
  pose proof (Hrec j h (or_introl eq_refl)) as Hj.
  destruct (rec j h) as [v h1]. cbn [snd] in Hj.
  specialize (IH (fun j' h' Hin => Hrec j' h' (or_intror Hin)) h1).
  destruct (alloc_elems rec elems h1) as [vs h2]. cbn [snd] in *.
  etransitivity; eassumption.
Qed.

Lemma alloc_pairs_mono rec (pairs : list (string * json)) :
  (forall k j h, In (k, j) pairs -> h ⊆ snd (rec j h)) ->
  forall h, h ⊆ snd (alloc_pairs rec pairs h).
Proof.
  induction pairs as [|[k j] pairs IH]; intros Hrec h; cbn [alloc_pairs]; [reflexivity|].
  pose proof (Hrec k j h (or_introl eq_refl)) as Hj.
  destruct (rec j h) as [v h1]. cbn [snd] in Hj.
  specialize (IH (fun k' j' h' Hin => Hrec k' j' h' (or_intror Hin)) h1).
  destruct (alloc_pairs rec pairs h1) as [kvs h2]. cbn [snd] in *.
  etransitivity; eassumption.
Qed.

(** [json.load] only adds objects. *)
Lemma alloc_json_mono : forall j h, h ⊆ snd (alloc_json j h).
Proof.
  fix IH 1. intros [| | | | |elems|pairs] h; cbn [alloc_json]; try reflexivity.
  - assert (He : forall h0, h0 ⊆ snd (alloc_elems alloc_json elems h0)).
    { clear h. induction elems as [|j elems IHe]; intros h0; cbn [alloc_elems];
        [reflexivity|].
      pose proof (IH j h0) as Hj. destruct (alloc_json j h0) as [v h1]. cbn [snd] in Hj.
      specialize (IHe h1). destruct (alloc_elems alloc_json elems h1) as [vs h2].
      cbn [snd] in *. etransitivity; eassumption. }
    specialize (He h). destruct (alloc_elems alloc_json elems h) as [vs h1].
    cbn [snd] in *. etransitivity; [exact He | apply insert_fresh_subseteq].
  - assert (He : forall h0, h0 ⊆ snd (alloc_pairs alloc_json pairs h0)).
    { clear h. induction pairs as [|[k j] pairs IHe]; intros h0; cbn [alloc_pairs];
        [reflexivity|].
      pose proof (IH j h0) as Hj. destruct (alloc_json j h0) as [v h1]. cbn [snd] in Hj.
      specialize (IHe h1). destruct (alloc_pairs alloc_json pairs h1) as [vs h2].
      cbn [snd] in *. etransitivity; eassumption. }
    specialize (He h). destruct (alloc_pairs alloc_json pairs h) as [vs h1].
    cbn [snd] in *. etransitivity; [exact He | apply insert_fresh_subseteq].
Qed.

Section Related.
Context {A B : Type} (R : A -> B -> Prop).

(** Two dicts with the same keys and related values stay so under
    the same assignment. *)
Lemma related_set (d1 : list (string * A)) (d2 : list (string * B)) k a b :
  (forall k', match PyDict.get k' d1, PyDict.get k' d2 with
              | Some a, Some b => R a b
              | None, None => True
              | _, _ => False
              end) ->
  R a b ->
  forall k', match PyDict.get k' (PyDict.set k a d1), PyDict.get k' (PyDict.set k b d2) with
             | Some a, Some b => R a b
             | None, None => True
             | _, _ => False
             end.
Proof.
  intros Hd Hab k'. destruct (String.eqb_spec k k') as [<-|Hne].
  - rewrite !get_set_eq. exact Hab.
  - rewrite !get_set_ne by exact Hne. apply Hd.
Qed.

Lemma of_pairs_related ps qs :
  Forall2 (fun p q => fst q = fst p /\ R (snd p) (snd q)) ps qs ->
  forall k, match PyDict.get k (PyDict.of_pairs ps), PyDict.get k (PyDict.of_pairs qs) with
            | Some a, Some b => R a b
            | None, None => True
            | _, _ => False
            end.
Proof.
  unfold PyDict.of_pairs. intros H.
  assert (Hacc : forall k, match PyDict.get k (@nil (string * A)),
                                 PyDict.get k (@nil (string * B)) with
                           | Some a, Some b => R a b
                           | None, None => True
                           | _, _ => False
                           end) by (intros k; exact Logic.I).
  revert Hacc. generalize (@nil (string * A)) (@nil (string * B)).
  induction H as [|[k a] [k' b] ps qs [Hk Hab] _ IH]; intros d1 d2 Hd; [exact Hd|].
  cbn [fold_left fst snd] in *. subst k'. apply IH, related_set; assumption.
Qed.

End Related.

Lemma alloc_pairs_related pairs : forall h,
  Forall2 (fun p q =>
             fst q = fst p
             /\ exists ha, fst (alloc_json (snd p) ha) = snd q
                           /\ snd (alloc_json (snd p) ha)
                              ⊆ snd (alloc_pairs alloc_json pairs h))
    pairs (fst (alloc_pairs alloc_json pairs h)).
Proof.
  induction pairs as [|[k j] pairs IH]; intros h; cbn [alloc_pairs]; [constructor|].
  pose proof (alloc_json_mono j h) as Hj.
  destruct (alloc_json j h) as [v h1] eqn:Ej. cbn [snd] in Hj.
  specialize (IH h1).
  pose proof (alloc_pairs_mono alloc_json pairs (fun _ j' h' _ => alloc_json_mono j' h') h1)
    as Hmono.
  destruct (alloc_pairs alloc_json pairs h1) as [kvs h2]. cbn [fst snd] in *.
  constructor.
  - cbn [fst snd]. split; [reflexivity|]. exists h. rewrite Ej. cbn [fst snd].
    split; [reflexivity | exact Hmono].
  - exact IH.
Qed.

Lemma json_eq_int_alloc j h z :
  py_eq_int (fst (alloc_json j h)) z = json_eq_int j z.
Proof.
  destruct j; cbn [alloc_json]; try reflexivity.
  - destruct (alloc_elems alloc_json elems h). reflexivity.
  - destruct (alloc_pairs alloc_json pairs h). reflexivity.
Qed.

(** The object [json.load] builds for a JSON object. *)
Lemma alloc_json_dict pairs h :
  exists l kvs h1,
    alloc_json (JDict pairs) h = (VRef l, <[l := ODict (PyDict.of_pairs kvs)]> h1)
    /\ alloc_pairs alloc_json pairs h = (kvs, h1)
    /\ h1 !! l = None.
Proof.
  cbn [alloc_json]. destruct (alloc_pairs alloc_json pairs h) as [kvs h1].
  exists (fresh (dom h1)), kvs, h1. split; [reflexivity|]. split; [reflexivity|].
  apply not_elem_of_dom, is_fresh.
Qed.

Lemma parse_config_path env path w :
  deepspeed_version_ok env = true ->
  deepspeed_parse_config env (VStr path) w = json_load env path w.
Proof.
  intros Hver. unfold deepspeed_parse_config, dep_version_check. rewrite Hver.
  unfold bind at 1. cbn [ret]. rewrite (bind_ok _ _ _ _ _ (is_dict_eq _ _)).
  reflexivity.
Qed.

Lemma parse_config_file env path j w :
  files env path = FsFile (Some j) ->
  deepspeed_version_ok env = true ->
  json_depth j <= json_depth_limit env ->
  deepspeed_parse_config env (VStr path) w
  = (Ok (fst (alloc_json j (heap w))), with_heap (snd (alloc_json j (heap w))) w).
Proof.
  intros Hfile Hver Hd. rewrite (parse_config_path env path w Hver).
  unfold json_load. rewrite Hfile.
  destruct (Nat.ltb_spec (json_depth_limit env) (json_depth j)) as [Hlt|_]; [lia|].
  unfold bind, get_heap, put_heap, ret.
  destruct (alloc_json j (heap w)) as [v h']. reflexivity.
Qed.

Lemma parse_config_file_too_deep env path j w :
  files env path = FsFile (Some j) ->
  deepspeed_version_ok env = true ->
  json_depth_limit env < json_depth j ->
  deepspeed_parse_config env (VStr path) w = (Raise RecursionError, w).
Proof.
  intros Hfile Hver Hd. rewrite (parse_config_path env path w Hver).
  apply (json_load_too_deep env path j w Hfile Hd).
Qed.

(** The part of the discovery that reads the config, on the dict
    [json.load] built for the file. *)
Lemma discover_on_loaded pairs (w : world) :
  let config := fst (alloc_json (JDict pairs) (heap w)) in
  let w1 := with_heap (snd (alloc_json (JDict pairs) (heap w))) w in
  (PyDict.get "zero_optimization" (PyDict.of_pairs pairs) = None ->
     contains config "zero_optimization" w1 = (Ok false, w1))
  /\ (forall zero,
        PyDict.get "zero_optimization" (PyDict.of_pairs pairs) = Some (JDict zero) ->
        exists lz zitems,
          contains config "zero_optimization" w1 = (Ok true, w1)
          /\ getitem config "zero_optimization" w1 = (Ok (VRef lz), w1)
          /\ config <> VRef lz
          /\ heap w1 !! lz = Some (ODict zitems)
          /\ match PyDict.get "stage" (PyDict.of_pairs zero), PyDict.get "stage" zitems with
             | Some js, Some vs => py_eq_int vs 3 = json_eq_int js 3
             | None, None => True
             | _, _ => False
             end).
Proof.
  cbv zeta.
  destruct (alloc_json_dict pairs (heap w)) as (l & kvs & h1 & -> & Hkvs & Hl).
  cbn [fst snd].
  assert (Hcfg : heap (with_heap (<[l := ODict (PyDict.of_pairs kvs)]> h1) w) !! l
                 = Some (ODict (PyDict.of_pairs kvs))) by apply lookup_insert_eq.
  pose proof (alloc_pairs_related pairs (heap w)) as Hrel. rewrite Hkvs in Hrel.
  cbn [fst snd] in Hrel.
  pose proof (of_pairs_related
                (fun j v => exists ha, fst (alloc_json j ha) = v
                                       /\ snd (alloc_json j ha) ⊆ h1)
                pairs kvs Hrel "zero_optimization") as Hzo.
  split.
  - intros Hnone. rewrite Hnone in Hzo.
    rewrite (contains_dict _ _ _ _ Hcfg). unfold PyDict.mem.
    destruct (PyDict.get "zero_optimization" (PyDict.of_pairs kvs)); [contradiction|].
    reflexivity.
  - intros zero Hsome. rewrite Hsome in Hzo.
    destruct (PyDict.get "zero_optimization" (PyDict.of_pairs kvs)) as [vz|] eqn:Ez;
      [|contradiction].
    destruct Hzo as (ha & Hvz & Hsub).
    destruct (alloc_json_dict zero ha) as (lz & zkvs & hz1 & Halloc & Hzkvs & Hlz).
    rewrite Halloc in Hvz, Hsub. cbn [fst snd] in Hvz, Hsub. subst vz.
    assert (H1 : h1 !! lz = Some (ODict (PyDict.of_pairs zkvs))).
    { eapply lookup_weaken; [apply lookup_insert_eq | exact Hsub]. }
    assert (Hne : l <> lz) by (intros ->; congruence).
    exists lz, (PyDict.of_pairs zkvs).
    split; [rewrite (contains_dict _ _ _ _ Hcfg); unfold PyDict.mem; rewrite Ez; reflexivity|].
    split; [apply (getitem_dict _ _ _ _ _ Hcfg Ez)|].
    split; [congruence|].
    split; [cbn [heap with_heap]; rewrite lookup_insert_ne by exact Hne; exact H1|].
    pose proof (alloc_pairs_related zero ha) as Hzrel. rewrite Hzkvs in Hzrel.
    cbn [fst snd] in Hzrel.
    pose proof (of_pairs_related
                  (fun j v => exists hb, fst (alloc_json j hb) = v
                                         /\ snd (alloc_json j hb) ⊆ hz1)
                  zero zkvs Hzrel "stage") as Hst.
    destruct (PyDict.get "stage" (PyDict.of_pairs zero)) as [js|],
             (PyDict.get "stage" (PyDict.of_pairs zkvs)) as [vs|]; try exact Hst.
    destruct Hst as (hb & <- & _). apply json_eq_int_alloc.
Qed.

(** The first call, on a command line that names a file holding a JSON
    object that [json.load] can parse. *)
Lemma first_call_from_file env w pre path post pairs :
  _is_deepspeed_zero3_enabled w = None ->
  argv env = (pre ++ "--deepspeed" :: path :: post)%list ->
  ~ In "--deepspeed" pre ->
  files env path = FsFile (Some (JDict pairs)) ->
  deepspeed_version_ok env = true ->
  json_depth (JDict pairs) <= json_depth_limit env ->
  (PyDict.get "zero_optimization" (PyDict.of_pairs pairs) = None ->
     exists w',
       is_deepspeed_zero3_enabled env w = (Ok (Some false), w')
       /\ _is_deepspeed_zero3_enabled w' = Some false)
  /\ (forall zero,
        PyDict.get "zero_optimization" (PyDict.of_pairs pairs) = Some (JDict zero) ->
        exists w',
          is_deepspeed_zero3_enabled env w = (Ok (Some (stage_is_3 zero)), w')
          /\ _is_deepspeed_zero3_enabled w' = Some (stage_is_3 zero)).
Proof.
  intros Hf Hargv Hpre Hfile Hver Hdepth.
  remember (is_deepspeed_zero3_enabled env w) as res eqn:Hres.
  rewrite (is_deepspeed_zero3_enabled_start env w Hf) in Hres.
  set (w0 := snd (set_flag (Some false) w)) in Hres.
  assert (E : existsb (String.eqb "--deepspeed") (argv env) = true).
  { apply existsb_eqb_In. rewrite Hargv. apply in_or_app. right. left. reflexivity. }
  assert (Hex : path_exists env path = true) by (unfold path_exists; rewrite Hfile; reflexivity).
  unfold discover_zero3 in Hres.
  rewrite E, Hargv, (index_of_app _ _ _ Hpre), nth_error_after in Hres.
  cbn [nth_error] in Hres. rewrite Hex in Hres. cbn [negb] in Hres.
  unfold bind at 1 in Hres.
  rewrite (bind_ok _ _ _ _ _ (parse_config_file env path _ w0 Hfile Hver Hdepth)) in Hres.
  destruct (discover_on_loaded pairs w0) as [Hnone Hsome]. cbv zeta in Hnone, Hsome.
  set (config := fst (alloc_json (JDict pairs) (heap w0))) in *.
  set (w1 := with_heap (snd (alloc_json (JDict pairs) (heap w0))) w0) in *.
  split.
  - intros Hzo. rewrite (bind_ok _ _ _ _ _ (Hnone Hzo)) in Hres.
    exists w1. split; [exact Hres | reflexivity].
  - intros zero Hzo.
    destruct (Hsome zero Hzo) as (lz & zitems & Hc & Hg & _ & Hlz & Hst).
    rewrite (bind_ok _ _ _ _ _ Hc) in Hres.
    rewrite (bind_ok _ _ _ _ _ Hg) in Hres.
    rewrite (bind_ok _ _ _ _ _ (contains_dict _ _ _ _ Hlz)) in Hres.
    unfold stage_is_3. unfold PyDict.mem in Hres.
    destruct (PyDict.get "stage" (PyDict.of_pairs zero)) as [js|],
             (PyDict.get "stage" zitems) as [vs|] eqn:Evs; try contradiction.
    + rewrite (bind_ok _ _ _ _ _ Hg) in Hres.
      rewrite (bind_ok _ _ _ _ _ (getitem_dict _ _ _ _ _ Hlz Evs)) in Hres.
      rewrite Hst in Hres.
      destruct (json_eq_int js 3).
      * eexists. split; [exact Hres | reflexivity].
      * exists w1. split; [exact Hres | reflexivity].
    + exists w1. split; [exact Hres | reflexivity].
Qed.

(** X19. The discovery itself.  On a first call with
    [--deepspeed <path>] on the command line, [<path>] holding a JSON
    object and DeepSpeed in a supported version: when the object is not
    nested deeper than [json.load] can parse,
    [is_deepspeed_zero3_enabled] returns [False] when the object has no
    [zero_optimization] entry, and, when that entry is an object,
    whether its [stage] equals 3 ([False] without a [stage]), and the
    answer is stored in the flag; when it is nested deeper, the call
    raises [RecursionError] and leaves the flag at [False]. *)
Theorem zero3_discovery_from_file env w pre path post pairs :
  _is_deepspeed_zero3_enabled w = None ->
  argv env = (pre ++ "--deepspeed" :: path :: post)%list ->
  ~ In "--deepspeed" pre ->
  files env path = FsFile (Some (JDict pairs)) ->
  deepspeed_version_ok env = true ->
  (json_depth (JDict pairs) <= json_depth_limit env ->
     (PyDict.get "zero_optimization" (PyDict.of_pairs pairs) = None ->
        exists w',
          is_deepspeed_zero3_enabled env w = (Ok (Some false), w')
          /\ _is_deepspeed_zero3_enabled w' = Some false)
     /\ (forall zero,
           PyDict.get "zero_optimization" (PyDict.of_pairs pairs) = Some (JDict zero) ->
           exists w',
             is_deepspeed_zero3_enabled env w = (Ok (Some (stage_is_3 zero)), w')
             /\ _is_deepspeed_zero3_enabled w' = Some (stage_is_3 zero)))
  /\ (json_depth_limit env < json_depth (JDict pairs) ->
      is_deepspeed_zero3_enabled env w
      = (Raise RecursionError, snd (set_flag (Some false) w))).
Proof.
  intros Hf Hargv Hpre Hfile Hver. split.
  - intros Hdepth.
    apply (first_call_from_file env w pre path post pairs Hf Hargv Hpre Hfile Hver Hdepth).
  - intros Hdeep.
    rewrite (is_deepspeed_zero3_enabled_start env w Hf).
    assert (E : existsb (String.eqb "--deepspeed") (argv env) = true).
    { apply existsb_eqb_In. rewrite Hargv. apply in_or_app. right. left. reflexivity. }
    assert (Hex : path_exists env path = true)
      by (unfold path_exists; rewrite Hfile; reflexivity).
    unfold discover_zero3.
    rewrite E, Hargv, (index_of_app _ _ _ Hpre), nth_error_after.
    cbn [nth_error]. rewrite Hex. cbn [negb].
    unfold bind at 1.
    rewrite (bind_raise _ _ _ _ _
               (parse_config_file_too_deep env path _ _ Hfile Hver Hdeep)).
    reflexivity.
Qed.

End JsonLoad.

Section Zero3Flag.
Import DS Frame ConfigFile.
Local Open Scope py_scope.

(** C9. A first call of [is_deepspeed_zero3_enabled] computes the flag
    from the command line: [False] without [--deepspeed], and with
    [--deepspeed <path>], [<path>] holding a JSON object, [False] when
    the object has no [zero_optimization] entry and, when that entry is
    an object, whether its [stage] equals 3.  Whatever the first call computes, and also when it
    raises, it stores a bool in the flag; from then on every call,
    whatever the command line and the files have become, returns the
    stored value and changes nothing, until [deepspeed_zero3_enable e]
    stores [e], which every later call returns. *)
Theorem zero3_flag_computed_once env envs w :
  (_is_deepspeed_zero3_enabled w = None ->
     (~ In "--deepspeed" (argv env) ->
        is_deepspeed_zero3_enabled env w
        = (Ok (Some false), snd (set_flag (Some false) w)))
     /\ (forall pre path post pairs,
           argv env = (pre ++ "--deepspeed" :: path :: post)%list ->
           ~ In "--deepspeed" pre ->
           files env path = FsFile (Some (JDict pairs)) ->
           deepspeed_version_ok env = true ->
           json_depth (JDict pairs) <= json_depth_limit env ->
           match PyDict.get "zero_optimization" (PyDict.of_pairs pairs) with
           | None => fst (is_deepspeed_zero3_enabled env w) = Ok (Some false)
           | Some (JDict zero) =>
               fst (is_deepspeed_zero3_enabled env w) = Ok (Some (stage_is_3 zero))
           | Some _ => True
           end)
     /\ exists b,
          _is_deepspeed_zero3_enabled (snd (is_deepspeed_zero3_enabled env w)) = Some b
          /\ (forall r, fst (is_deepspeed_zero3_enabled env w) = Ok r -> r = Some b)
          /\ repeated_calls envs (snd (is_deepspeed_zero3_enabled env w))
             = (Ok (map (fun _ => Some b) envs),
                snd (is_deepspeed_zero3_enabled env w)))
  /\ (forall b, _is_deepspeed_zero3_enabled w = Some b ->
        repeated_calls (env :: envs) w = (Ok (map (fun _ => Some b) (env :: envs)), w))
  /\ (forall e,
        repeated_calls (env :: envs) (snd (deepspeed_zero3_enable e w))
        = (Ok (map (fun _ => Some e) (env :: envs)), snd (deepspeed_zero3_enable e w))).
Proof.
  split; [|split].
  - intros H. split; [|split].
    + intros Hno. rewrite (is_deepspeed_zero3_enabled_start env w H).
      unfold discover_zero3.
      destruct (existsb (String.eqb "--deepspeed") (argv env)) eqn:E; [|reflexivity].
      apply existsb_eqb_In in E. contradiction.
    + intros pre path post pairs Hargv Hpre Hfile Hver Hdepth.
      destruct (first_call_from_file env w pre path post pairs
                  H Hargv Hpre Hfile Hver Hdepth) as [Hnone Hsome].
      destruct (PyDict.get "zero_optimization" (PyDict.of_pairs pairs))
        as [[| | | | | |zero]|]; try exact Logic.I.
      * destruct (Hsome zero eq_refl) as (w' & -> & _). reflexivity.
      * destruct (Hnone eq_refl) as (w' & -> & _). reflexivity.
    + destruct (is_deepspeed_zero3_enabled_first env w H) as (b & Hb & Hr).
      exists b. split; [exact Hb|]. split; [exact Hr|].
      apply repeated_calls_cached, Hb.
  - intros b H. apply repeated_calls_cached, H.
  - intros e. apply repeated_calls_cached. reflexivity.
Qed.

End Zero3Flag.

Section DiscoveryInstances.
Import DS Frame ConfigFile Examples.

Lemma zero3_discovery_without_config_witness :
  is_deepspeed_zero3_enabled env_plain (world_of ∅)
  = (Ok (Some false), snd (set_flag (Some false) (world_of ∅)))
  /\ is_deepspeed_zero3_enabled env_zero3_no_file (world_of ∅)
     = (Raise (ValueError "--deepspeed requires a valid path to a config file"),
        snd (set_flag (Some false) (world_of ∅))).
Proof.
  split.
  - apply (proj1 (zero3_discovery_without_config env_plain (world_of ∅) eq_refl)).
    cbn. intuition discriminate.
  - apply (proj2 (proj2 (zero3_discovery_without_config env_zero3_no_file (world_of ∅)
                           eq_refl))
             ["train.py"] "ds_config.json" []).
    + reflexivity.
    + cbn. intuition discriminate.
    + reflexivity.
Defined.

Lemma zero3_discovery_from_file_witness :
  exists w',
    is_deepspeed_zero3_enabled env_zero3_file (world_of ∅) = (Ok (Some true), w')
    /\ _is_deepspeed_zero3_enabled w' = Some true.
Proof.
  apply (proj2 (proj1 (zero3_discovery_from_file env_zero3_file (world_of ∅)
                         ["train.py"] "ds_config.json" []
                         [("zero_optimization", JDict [("stage", JInt 3)])]
                         eq_refl eq_refl ltac:(cbn; intuition discriminate)
                         eq_refl eq_refl)
                  ltac:(vm_compute; lia))
           [("stage", JInt 3)]).
  reflexivity.
Defined.

(** The command line [--deepspeed ds_config.json], the file saying
    stage 3: the first call answers [True]; the calls after it answer
    [True] on another command line and with the file gone; after
    [deepspeed_zero3_enable(False)] the answer is [False], on the first
    command line too. *)
Lemma zero3_flag_computed_once_witness :
  exists w1,
    is_deepspeed_zero3_enabled env_zero3_file (world_of ∅) = (Ok (Some true), w1)
    /\ repeated_calls [env_plain; env_zero3_no_file] w1 = (Ok [Some true; Some true], w1)
    /\ repeated_calls [env_zero3_file; env_plain] (snd (deepspeed_zero3_enable false w1))
       = (Ok [Some false; Some false], snd (deepspeed_zero3_enable false w1)).
Proof.
  destruct (zero3_flag_computed_once env_zero3_file [env_plain; env_zero3_no_file]
              (world_of ∅)) as (Hfirst & _ & _).
  destruct (Hfirst eq_refl) as (_ & Hfile & b & Hb & Hr & Hrep).
  specialize (Hfile ["train.py"] "ds_config.json" []
                [("zero_optimization", JDict [("stage", JInt 3)])]
                eq_refl ltac:(cbn; intuition discriminate) eq_refl eq_refl
                ltac:(vm_compute; lia)).
  change (fst (is_deepspeed_zero3_enabled env_zero3_file (world_of ∅)) = Ok (Some true))
    in Hfile.
  pose proof (Hr _ Hfile) as Eb. injection Eb as Eb. subst b.
  exists (snd (is_deepspeed_zero3_enabled env_zero3_file (world_of ∅))).
  split; [|split].
  - destruct (is_deepspeed_zero3_enabled env_zero3_file (world_of ∅)) as [res w1].
    cbn [fst snd] in *. rewrite Hfile. reflexivity.
  - exact Hrep.
  - apply (proj2 (proj2 (zero3_flag_computed_once env_zero3_file [env_plain]
                           (snd (is_deepspeed_zero3_enabled env_zero3_file (world_of ∅)))))
             false).
Defined.

End DiscoveryInstances.

(** * The availability probes and the registry *)

Section AvailableIntegrations.
Import Probes.

(** X20. The names [get_available_reporting_integrations] returns are
    names of the registry, without repetition and in the order of the
    registry, whatever is installed; so
    [get_reporting_integration_callbacks] never refuses them and returns
    one callback class for each. *)
Theorem available_integrations_are_accepted env :
  sublist (fst (get_available_reporting_integrations env)) valid_names
  /\ exists cbs,
       get_reporting_integration_callbacks (fst (get_available_reporting_integrations env))
       = Ok cbs
       /\ Forall2 (fun name cb => In (name, cb) INTEGRATION_TO_CALLBACK)
            (fst (get_available_reporting_integrations env)) cbs.
Proof.
  assert (Hsub : sublist (fst (get_available_reporting_integrations env)) valid_names).
  { unfold get_available_reporting_integrations. cbv zeta.
    destruct (is_wandb_available env) as [wandb warnings]. cbn [fst].
    unfold append_if, valid_names.
    destruct (is_azureml_available env), (is_comet_available env),
             (is_mlflow_available env), (is_tensorboard_available env), wandb;
      cbn [app];
      repeat first [apply sublist_nil | apply sublist_skip | apply sublist_cons]. }
  split; [exact Hsub|].
  assert (Hall : Forall (fun name => In name valid_names)
                   (fst (get_available_reporting_integrations env))).
  { apply Forall_forall. intros name Hin. apply list_elem_of_In.
    eapply elem_of_sublist; [exact Hin | exact Hsub]. }
  unfold get_reporting_integration_callbacks.
  rewrite (check_integrations_ok _ Hall). apply lookup_integrations_ok, Hall.
Qed.

(** X21. [hp_params] gives the hyperparameters of a trial only for a
    trial of an installed backend: the [params] of an [optuna.Trial]
    when Optuna is installed, a dict itself when Ray Tune is.  With no
    backend installed, that is when [default_hp_search_backend] returns
    [None], it raises a [RuntimeError] for every trial. *)
Theorem hp_params_needs_backend env t :
  (default_hp_search_backend env = None ->
     hp_params env t = Raise (RuntimeError ("Unknown type for trial " ++ class_repr_of t)))
  /\ (forall d, hp_params env t = Ok d ->
        (t = OptunaTrial d /\ default_hp_search_backend env = Some "optuna")
        \/ (t = DictTrial d /\ is_ray_tune_available env = true
            /\ default_hp_search_backend env <> None)).
Proof.
  unfold hp_params, default_hp_search_backend.
  destruct (is_optuna_available env), (is_ray_tune_available env), t;
    split; try discriminate; try reflexivity; intros d0; try discriminate;
    intros [= <-]; first [left; split; reflexivity
                         | right; repeat split; reflexivity || discriminate].
Qed.

End AvailableIntegrations.

(** * [MLflowCallback.setup]: the parameters *)

Section MLflowParams.
Import MLflowSetup.
Context {V : Type} (str_len : V -> nat).
Implicit Types (d kept rest model_config args_dict : list (string * V))
               (k : string) (v : V).

Lemma of_pairs_acc d acc :
  PyDict.wf (acc ++ d) ->
  fold_left (fun d '(k, v) => PyDict.set k v d) d acc = (acc ++ d)%list.
Proof.
  revert acc. induction d as [|[k v] d IH]; intros acc Hwf; cbn [fold_left].
  - rewrite app_nil_r. reflexivity.
  - assert (Hk : ~ In k (PyDict.keys acc)).
    { unfold PyDict.wf, PyDict.keys in Hwf. rewrite map_app in Hwf. cbn [map fst] in Hwf.
      apply NoDup_app in Hwf as (_ & Hdis & _). intros Hin.
      apply (Hdis k); [apply list_elem_of_In, Hin | left]. }
    rewrite (set_fresh _ _ _ Hk). rewrite IH; rewrite <- app_assoc; [reflexivity|exact Hwf].
Qed.

(** [dict(items)] of items with distinct keys is these items. *)
Lemma of_pairs_wf d : PyDict.wf d -> PyDict.of_pairs d = d.
Proof. intros H. unfold PyDict.of_pairs. apply (of_pairs_acc d []). exact H. Qed.

Lemma merge_dicts_get model_config args_dict k :
  PyDict.wf args_dict ->
  PyDict.get k (merge_dicts model_config args_dict)
  = match PyDict.get k args_dict with
    | Some v => Some v
    | None => PyDict.get k model_config
    end.
Proof.
  unfold merge_dicts. revert model_config.
  induction args_dict as [|[k0 v0] rest IH]; intros mc Hwf; cbn [fold_left PyDict.get].
  - reflexivity.
  - assert (Hrest : PyDict.wf rest) by (inversion Hwf; assumption).
    rewrite (IH _ Hrest). destruct (String.eqb_spec k k0) as [->|Hne].
    + assert (Hno : PyDict.get k0 rest = None).
      { apply get_None_not_in. inversion Hwf as [|? ? Hk0 ?]; subst.
        intros Hin. apply Hk0, list_elem_of_In, Hin. }
      rewrite Hno. apply get_set_eq.
    + rewrite get_set_ne by congruence. reflexivity.
Qed.

Lemma merge_dicts_wf model_config args_dict :
  PyDict.wf model_config -> PyDict.wf (merge_dicts model_config args_dict).
Proof.
  unfold merge_dicts. revert model_config.
  induction args_dict as [|[k0 v0] rest IH]; intros mc Hwf; cbn [fold_left];
    [exact Hwf|]. apply IH, wf_set, Hwf.
Qed.

(** X22. [{**model_config, **args}], the dict both the MLflow and the
    W&B setup build: an entry of the training arguments overrides the
    entry of the model config with the same key, every other entry of
    the two dicts is in the result, and nothing else is. *)
Theorem merge_dicts_precedence model_config args_dict k :
  PyDict.wf args_dict ->
  PyDict.wf model_config ->
  PyDict.get k (merge_dicts model_config args_dict)
  = match PyDict.get k args_dict with
    | Some v => Some v
    | None => PyDict.get k model_config
    end
  /\ PyDict.wf (merge_dicts model_config args_dict).
Proof.
  intros Ha Hm. split; [apply merge_dicts_get, Ha | apply merge_dicts_wf, Hm].
Qed.

(** *** The removal of the long values *)

Lemma del_app kept name v rest :
  ~ In name (PyDict.keys kept) ->
  del name (kept ++ (name, v) :: rest) = Some (kept ++ rest)%list.
Proof.
  induction kept as [|[k0 v0] kept IH]; intros Hk; cbn [app del].
  - rewrite String.eqb_refl. reflexivity.
  - destruct (String.eqb_spec name k0) as [->|Hne].
    + exfalso. apply Hk. left. reflexivity.
    + rewrite IH; [reflexivity|]. intros Hin. apply Hk. right. exact Hin.
Qed.

Lemma wf_app_l d1 d2 : PyDict.wf (d1 ++ d2) -> PyDict.wf d1.
Proof.
  unfold PyDict.wf, PyDict.keys. rewrite map_app. intros H.
  apply NoDup_app in H as (H & _). exact H.
Qed.

Lemma wf_app_r d1 d2 : PyDict.wf (d1 ++ d2) -> PyDict.wf d2.
Proof.
  unfold PyDict.wf, PyDict.keys. rewrite map_app. intros H.
  apply NoDup_app in H as (_ & _ & H). exact H.
Qed.

Lemma wf_remove_middle kept x rest :
  PyDict.wf (kept ++ x :: rest) -> PyDict.wf (kept ++ rest).
Proof.
  unfold PyDict.wf, PyDict.keys. rewrite !map_app. cbn [map]. intros H.
  apply NoDup_app in H as (H1 & Hdis & H2). apply NoDup_app.
  split; [exact H1|]. split.
  - intros k Hk Hin. apply (Hdis k Hk). right. exact Hin.
  - inversion H2; assumption.
Qed.

Lemma wf_middle_fresh kept k v rest :
  PyDict.wf (kept ++ (k, v) :: rest) -> ~ In k (PyDict.keys kept).
Proof.
  unfold PyDict.wf, PyDict.keys. rewrite !map_app. cbn [map fst]. intros H Hin.
  apply NoDup_app in H as (_ & Hdis & _).
  apply (Hdis k); [apply list_elem_of_In, Hin | left].
Qed.

(** The loop, with [kept] the entries already seen and left in. *)
Lemma drop_long_spec limits rest : forall kept,
  PyDict.wf (kept ++ rest) ->
  drop_long str_len limits rest (kept ++ rest)
  = (Ok (kept ++ List.filter (short_enough str_len limits) rest)%list,
     map (fun kv => ParamWarning (fst kv) (snd kv))
       (List.filter (fun kv => negb (short_enough str_len limits kv)) rest)).
Proof.
  induction rest as [|[name value] rest IH]; intros kept Hwf;
    cbn [drop_long List.filter map].
  - reflexivity.
  - assert (Hs : short_enough str_len limits (name, value)
                 = negb (Z.ltb (_MAX_PARAM_VAL_LENGTH limits) (Z.of_nat (str_len value))))
      by reflexivity.
    rewrite Hs.
    destruct (Z.ltb (_MAX_PARAM_VAL_LENGTH limits) (Z.of_nat (str_len value))) eqn:E;
      cbn [negb map fst snd].
    + rewrite (del_app _ _ _ _ (wf_middle_fresh _ _ _ _ Hwf)).
      rewrite (IH kept (wf_remove_middle _ _ _ Hwf)). reflexivity.
    + specialize (IH (kept ++ [(name, value)])%list).
      rewrite <- !app_assoc in IH. cbn [app] in IH. apply IH, Hwf.
Qed.

(** *** The batches *)

Lemma range_batches (items : list (string * V)) step fuel : forall i,
  0 < step ->
  length items - i <= fuel ->
  concat (map (fun i => firstn step (skipn i items))
            (range_from fuel i (length items) step))
  = skipn i items
  /\ Forall (fun i => i < length items) (range_from fuel i (length items) step).
Proof.
  induction fuel as [|fuel IH]; intros i Hstep Hfuel; cbn [range_from].
  - split; [|constructor]. cbn. symmetry. apply skipn_all2. lia.
  - destruct (Nat.ltb_spec i (length items)) as [Hlt|Hge].
    + destruct (IH (i + step)) as [Hc Hall]; [exact Hstep | lia |].
      split; [|constructor; assumption].
      cbn [map concat]. rewrite Hc.
      replace (i + step) with (step + i) by lia.
      rewrite <- skipn_skipn. apply firstn_skipn.
    + split; [|constructor]. cbn. symmetry. apply skipn_all2. lia.
Qed.

Lemma wf_firstn_skipn d i n : PyDict.wf d -> PyDict.wf (firstn n (skipn i d)).
Proof.
  intros Hwf. rewrite <- (firstn_skipn i d) in Hwf. apply wf_app_r in Hwf.
  rewrite <- (firstn_skipn n (skipn i d)) in Hwf. apply wf_app_l in Hwf. exact Hwf.
Qed.

Lemma logged_params_app (tr1 tr2 : list (@event V)) :
  logged_params (tr1 ++ tr2) = (logged_params tr1 ++ logged_params tr2)%list.
Proof. apply flat_map_app. Qed.

Lemma warned_params_app (tr1 tr2 : list (@event V)) :
  warned_params (tr1 ++ tr2) = (warned_params tr1 ++ warned_params tr2)%list.
Proof. apply flat_map_app. Qed.

Lemma batches_of_app (tr1 tr2 : list (@event V)) :
  batches_of (tr1 ++ tr2) = (batches_of tr1 ++ batches_of tr2)%list.
Proof. apply flat_map_app. Qed.

Lemma warnings_only (l : list (string * V)) :
  logged_params (map (fun kv => ParamWarning (fst kv) (snd kv)) l) = []
  /\ batches_of (map (fun kv => ParamWarning (fst kv) (snd kv)) l) = []
  /\ warned_params (map (fun kv => ParamWarning (fst kv) (snd kv)) l) = l.
Proof.
  induction l as [|[k v] l (IH1 & IH2 & IH3)]; [repeat split|].
  cbn [map]. unfold logged_params, batches_of, warned_params in *. cbn [flat_map app fst snd].
  rewrite IH1, IH2, IH3. repeat split.
Qed.

(** The batches [log_in_batches] sends, for a positive batch size. *)
Lemma log_in_batches_spec limits d :
  (0 < _MAX_PARAMS_TAGS_PER_BATCH limits)%Z ->
  PyDict.wf d ->
  exists tr,
    log_in_batches limits d = (Ok tt, tr)
    /\ logged_params tr = d
    /\ warned_params tr = []
    /\ Forall (fun batch => 0 < length batch
                            /\ (Z.of_nat (length batch)
                                <= _MAX_PARAMS_TAGS_PER_BATCH limits)%Z)
         (batches_of tr).
Proof.
  intros HB Hwf. unfold log_in_batches, range0. cbv zeta.
  destruct (Z.eqb_spec (_MAX_PARAMS_TAGS_PER_BATCH limits) 0) as [E|_]; [lia|].
  destruct (Z.ltb_spec (_MAX_PARAMS_TAGS_PER_BATCH limits) 0) as [E|_]; [lia|].
  set (B := Z.to_nat (_MAX_PARAMS_TAGS_PER_BATCH limits)).
  assert (HBpos : 0 < B) by (unfold B; lia).
  destruct (range_batches d B (length d) 0 HBpos ltac:(lia)) as [Hc Hall].
  eexists. split; [reflexivity|].
  revert Hc Hall. generalize (range_from (length d) 0 (length d) B). intros starts.
  cbn [skipn]. intros Hc Hall. unfold slice. fold B.
  assert (Hgen : forall starts,
             Forall (fun i => i < length d) starts ->
             logged_params (map (fun i => LogParams (PyDict.of_pairs
                                                       (firstn B (skipn i d)))) starts)
             = concat (map (fun i => firstn B (skipn i d)) starts)
             /\ warned_params (map (fun i => LogParams (PyDict.of_pairs
                                                          (firstn B (skipn i d)))) starts)
                = []
             /\ Forall (fun batch => 0 < length batch
                                     /\ (Z.of_nat (length batch)
                                         <= _MAX_PARAMS_TAGS_PER_BATCH limits)%Z)
                  (batches_of (map (fun i => LogParams (PyDict.of_pairs
                                                          (firstn B (skipn i d)))) starts))).
  { clear starts Hc Hall. induction 1 as [|i starts Hi _ (IH1 & IH2 & IH3)];
      [repeat split; constructor|].
    cbn [map concat]. unfold logged_params, warned_params, batches_of in *.
    cbn [flat_map app]. rewrite IH1, IH2.
    rewrite (of_pairs_wf _ (wf_firstn_skipn d i B Hwf)).
    split; [reflexivity|]. split; [reflexivity|]. constructor; [|exact IH3].
    rewrite length_firstn, length_skipn. unfold B in *. lia. }
  destruct (Hgen starts Hall) as (H1 & H2 & H3).
  split; [rewrite H1; exact Hc|]. split; [exact H2 | exact H3].
Qed.

Lemma wf_filter (f : string * V -> bool) d : PyDict.wf d -> PyDict.wf (List.filter f d).
Proof.
  unfold PyDict.wf, PyDict.keys. induction d as [|[k v] d IH]; cbn [List.filter map fst];
    intros H; [exact H|].
  inversion H as [|? ? Hk Hd]; subst. destruct (f (k, v)); [|apply IH, Hd].
  cbn [map fst]. constructor; [|apply IH, Hd].
  intros Hin. apply Hk. apply list_elem_of_In in Hin. apply list_elem_of_In.
  apply in_map_iff in Hin as ([k' v'] & E & Hin). cbn in E. subst k'.
  apply filter_In in Hin as [Hin _]. apply in_map_iff. exists (k, v'). auto.
Qed.

(** X23. [MLflowCallback.setup] on the main process, with a positive
    batch limit: it returns and marks the callback initialized, after
    [start_run]; the batches given to [log_params], put end to end, are
    exactly the entries of the combined dict whose value is not too
    long, each once and in the order of the dict; every batch has at
    least one and at most [MAX_PARAMS_TAGS_PER_BATCH] entries; and each
    entry that is too long is warned about and is in no batch. *)
Theorem mlflow_setup_logs_each_parameter_once limits s e state args_dict
    (model_config : option (list (string * V))) :
  is_world_process_zero state = true ->
  (0 < _MAX_PARAMS_TAGS_PER_BATCH limits)%Z ->
  PyDict.wf args_dict ->
  match model_config with Some mc => PyDict.wf mc | None => True end ->
  exists s' tr,
    setup str_len limits s e state args_dict model_config = (Ok tt, s', StartRun :: tr)
    /\ MLflow._initialized s' = true
    /\ logged_params tr
       = List.filter (short_enough str_len limits) (combined args_dict model_config)
    /\ warned_params tr
       = List.filter (fun kv => negb (short_enough str_len limits kv))
           (combined args_dict model_config)
    /\ Forall (fun batch => 0 < length batch
                            /\ (Z.of_nat (length batch)
                                <= _MAX_PARAMS_TAGS_PER_BATCH limits)%Z)
         (batches_of tr).
Proof.
  intros Hz HB Ha Hm. unfold setup. cbv zeta. rewrite Hz.
  fold (combined args_dict model_config).
  assert (Hwf : PyDict.wf (combined args_dict model_config)).
  { unfold combined. destruct model_config as [mc|]; [apply merge_dicts_wf, Hm | exact Ha]. }
  pose proof (drop_long_spec limits (combined args_dict model_config) [] Hwf) as Hdrop.
  cbn [app] in Hdrop. rewrite Hdrop.
  destruct (log_in_batches_spec limits
              (List.filter (short_enough str_len limits) (combined args_dict model_config))
              HB (wf_filter _ _ Hwf)) as (tr & -> & Hl & Hw & Hb).
  destruct (warnings_only
              (List.filter (fun kv => negb (short_enough str_len limits kv))
                 (combined args_dict model_config))) as (W1 & W2 & W3).
  do 2 eexists. split; [reflexivity|]. split; [reflexivity|].
  rewrite logged_params_app, warned_params_app, batches_of_app.
  rewrite W1, W2, W3, Hl, Hw, app_nil_r. cbn [app]. auto.
Qed.

End MLflowParams.

Lemma merge_dicts_precedence_witness :
  PyDict.get "seed"
    (MLflowSetup.merge_dicts [("hidden_size", VInt 768); ("seed", VInt 0)]
       [("seed", VInt 42); ("fp16", VBool true)])
  = Some (VInt 42)
  /\ PyDict.wf
       (MLflowSetup.merge_dicts [("hidden_size", VInt 768); ("seed", VInt 0)]
          [("seed", VInt 42); ("fp16", VBool true)]).
Proof.
  apply (merge_dicts_precedence [("hidden_size", VInt 768%Z); ("seed", VInt 0%Z)]
           [("seed", VInt 42%Z); ("fp16", VBool true)] "seed").
  - apply wfb_wf. reflexivity.
  - apply wfb_wf. reflexivity.
Defined.

(** Three parameters, one too long, batches of at most two. *)
Lemma mlflow_setup_logs_each_parameter_once_witness :
  exists s' tr,
    MLflowSetup.setup (fun v => match v with VStr s => String.length s | _ => 1 end)
      {| MLflowSetup._MAX_PARAM_VAL_LENGTH := 3; MLflowSetup._MAX_PARAMS_TAGS_PER_BATCH := 2 |}
      {| MLflow._initialized := false; MLflow._log_artifacts := false |} false
      {| is_world_process_zero := true; global_step := 0 |}
      [("seed", VInt 42); ("run_name", VStr "a long name"); ("fp16", VBool true);
       ("epochs", VInt 3)]
      None
    = (Ok tt, s', MLflowSetup.StartRun :: tr)
    /\ MLflowSetup.logged_params tr
       = [("seed", VInt 42); ("fp16", VBool true); ("epochs", VInt 3)]
    /\ MLflowSetup.warned_params tr = [("run_name", VStr "a long name")].
Proof.
  assert (Hwf : PyDict.wf [("seed", VInt 42%Z); ("run_name", VStr "a long name");
                           ("fp16", VBool true); ("epochs", VInt 3%Z)]).
  { apply wfb_wf. reflexivity. }
  destruct (mlflow_setup_logs_each_parameter_once
              (fun v => match v with VStr s => String.length s | _ => 1 end)
              {| MLflowSetup._MAX_PARAM_VAL_LENGTH := 3;
                 MLflowSetup._MAX_PARAMS_TAGS_PER_BATCH := 2 |}
              {| MLflow._initialized := false; MLflow._log_artifacts := false |} false
              {| is_world_process_zero := true; global_step := 0 |}
              [("seed", VInt 42%Z); ("run_name", VStr "a long name");
               ("fp16", VBool true); ("epochs", VInt 3%Z)]
              None eq_refl eq_refl Hwf Logic.I)
    as (s' & tr & Hrun & _ & Hlogged & Hwarned & _).
  exists s', tr. split; [exact Hrun|]. split; [exact Hlogged | exact Hwarned].
Defined.

(** * The Optuna search and the checkpoint of a trial *)

Section OptunaSearch.
Import Optuna.







(** *** The checkpoint of a trial *)

Lemma fold_last {A} (p : string -> bool) (f : string -> A) (l : list string) acc :
  fold_left (fun checkpoint subdir => if p subdir then Some (f subdir) else checkpoint)
    l acc
  = match list.last (List.filter p l) with
    | Some s => Some (f s)
    | None => acc
    end.
Proof.
  revert acc. induction l as [|s l IH]; intros acc; cbn [fold_left List.filter];
    [reflexivity|].
  rewrite IH. destruct (p s) eqn:E; [|reflexivity].
  destruct (List.filter p l) as [|s' l'] eqn:El; [reflexivity|].
  change (list.last (s :: s' :: l')) with (list.last (s' :: l')).
  destruct (list.last (s' :: l')) eqn:Elast; [reflexivity|].
  apply last_None in Elast. discriminate.
Qed.

(** X25. The checkpoint a trial resumes from: of the entries of the
    trial's checkpoint directory whose name starts with the checkpoint
    prefix, the one [os.listdir] lists last; none when there is no such
    entry, and none, without listing anything, when no directory is
    given. *)
Theorem find_checkpoint_takes_last PREFIX path_join listdir :
  (forall dir subdirs,
      dir <> "" -> listdir dir = Ok subdirs ->
      find_checkpoint PREFIX path_join listdir (Some dir)
      = Ok (option_map (path_join dir)
              (list.last (List.filter (fun s => PyStr.startswith s PREFIX) subdirs))))
  /\ find_checkpoint PREFIX path_join listdir None = Ok None
  /\ find_checkpoint PREFIX path_join listdir (Some "") = Ok None.
Proof.
  split; [|split; reflexivity].
  intros dir subdirs Hdir Hls. unfold find_checkpoint.
  destruct (String.eqb_spec dir "") as [E|_]; [contradiction|].
  rewrite Hls, fold_last.
  destruct (list.last _); reflexivity.
Qed.

End OptunaSearch.


Lemma find_checkpoint_takes_last_witness :
  Optuna.find_checkpoint "checkpoint" (fun d s => d ++ "/" ++ s)
    (fun _ => Ok ["checkpoint-500"; "runs"; "checkpoint-1000"; "checkpoint-20"])
    (Some "trial_0")
  = Ok (Some "trial_0/checkpoint-20").
Proof.
  apply (proj1 (find_checkpoint_takes_last "checkpoint" (fun d s => d ++ "/" ++ s)
                  (fun _ => Ok ["checkpoint-500"; "runs"; "checkpoint-1000"; "checkpoint-20"]))
           "trial_0" ["checkpoint-500"; "runs"; "checkpoint-1000"; "checkpoint-20"]).
  - discriminate.
  - reflexivity.
Defined.

(** * [deepspeed_init] on the path of a config file *)

Section FromFile.
Import DS Frame ConfigFile.
Local Open Scope py_scope.

(** [deepspeed_init] on the path of a file that holds a JSON object, up
    to the first merge step: either an early error (DeepSpeed missing or
    too old, a refused key, or a text nested deeper than [json.load] can
    parse), with no call made and the flag untouched, or the rest of the
    function on the dict [y] that [json.load] built, with the three keys
    of the first step set. *)
Lemma deepspeed_init_prefix_file env t n r w path pairs :
  deepspeed (args t) = VStr path ->
  files env path = FsFile (Some (JDict pairs)) ->
  (exists e w',
      deepspeed_init env t n r w = (Raise e, w')
      /\ trace w' = trace w
      /\ _is_deepspeed_zero3_enabled w' = _is_deepspeed_zero3_enabled w
      /\ (deepspeed_importable env = false
          \/ deepspeed_version_ok env = false
          \/ (exists k, In k refused_keys /\ PyDict.mem k pairs = true)
          \/ json_depth_limit env < json_depth (JDict pairs)))
  \/ (exists y items1 items2,
        fst (alloc_json (JDict pairs) (heap w)) = VRef y
        /\ snd (alloc_json (JDict pairs) (heap w)) !! y = Some (ODict items1)
        /\ deepspeed_init env t n r w
           = init_tail env t n r (VRef y)
               (with_heap (<[y := ODict items2]> (snd (alloc_json (JDict pairs) (heap w)))) w)
        /\ (forall k, PyDict.mem k items1 = PyDict.mem k pairs)
        /\ (forall k, ~ In k batch_keys -> PyDict.get k items2 = PyDict.get k items1)
        /\ PyDict.get "train_micro_batch_size_per_gpu" items2
           = Some (VInt (per_device_train_batch_size (args t)))
        /\ PyDict.get "gradient_accumulation_steps" items2
           = Some (VInt (gradient_accumulation_steps (args t)))
        /\ deepspeed_importable env = true
        /\ deepspeed_version_ok env = true
        /\ (forall k, In k refused_keys -> PyDict.mem k pairs = false)).
Proof.
  intros Hds Hfile.
  remember (deepspeed_init env t n r w) as res eqn:Hres.
  change (deepspeed_init env t n r)
    with ((if deepspeed_importable env then ret tt else raise ImportError) ;;
          config <- deepspeed_parse_config env (deepspeed (args t)) ;;
          check_batch_keys config ;;
          merge_batch_args (args t) config ;;
          init_tail env t n r config) in Hres.
  rewrite Hds in Hres.
  destruct (deepspeed_importable env) eqn:Himp;
    [|left; exists ImportError, w; conjs; auto].
  unfold bind at 1 in Hres. cbn [ret] in Hres.
  destruct (deepspeed_version_ok env) eqn:Hv.
  2:{ left. exists ImportError, w.
      rewrite (bind_raise _ _ _ _ _ (deepspeed_parse_config_version _ _ _ Hv)) in Hres.
      conjs; auto. }
  destruct (Nat.le_gt_cases (json_depth (JDict pairs)) (json_depth_limit env))
    as [Hdepth|Hdeep].
  2:{ left. exists RecursionError, w.
      rewrite (bind_raise _ _ _ _ _
                 (parse_config_file_too_deep env path _ w Hfile Hv Hdeep)) in Hres.
      conjs; auto. }
  rewrite (bind_ok _ _ _ _ _ (parse_config_file env path _ w Hfile Hv Hdepth)) in Hres.
  destruct (alloc_json_dict pairs (heap w)) as (y & kvs & h1 & Halloc & Hkvs & Hy).
  rewrite Halloc in *. cbn [fst snd] in *.
  set (h' := <[y := ODict (PyDict.of_pairs kvs)]> h1) in *.
  assert (Hy1 : heap (with_heap h' w) !! y = Some (ODict (PyDict.of_pairs kvs)))
    by apply lookup_insert_eq.
  assert (Hmem : forall k, PyDict.mem k (PyDict.of_pairs kvs) = PyDict.mem k pairs).
  { intros k. rewrite mem_of_pairs. apply mem_keys_eq.
    pose proof (alloc_pairs_keys alloc_json pairs (heap w)) as Hk. rewrite Hkvs in Hk.
    exact Hk. }
  unfold bind at 1 in Hres. rewrite (check_batch_keys_dict _ _ _ Hy1) in Hres.
  rewrite !Hmem in Hres.
  destruct (PyDict.mem "train_batch_size" pairs) eqn:E1.
  { left. do 2 eexists. split; [exact Hres|]. conjs; auto.
    right; right; left. exists "train_batch_size". split; [cbn; tauto | exact E1]. }
  destruct (PyDict.mem "train_micro_batch_size_per_gpu" pairs) eqn:E2.
  { left. do 2 eexists. split; [exact Hres|]. conjs; auto.
    right; right; left. exists "train_micro_batch_size_per_gpu". split; [cbn; tauto | exact E2]. }
  cbn [orb] in Hres.
  destruct (PyDict.mem "gradient_accumulation_steps" pairs) eqn:E3.
  { left. do 2 eexists. split; [exact Hres|]. conjs; auto.
    right; right; left. exists "gradient_accumulation_steps". split; [cbn; tauto | exact E3]. }
  right. cbv beta iota in Hres.
  destruct (merge_batch_args_effect (args t) y _ _ Hy1)
    as (items2 & Hm & Hb1 & Hb2 & _ & Hother).
  rewrite (bind_ok _ _ _ _ _ Hm) in Hres. rewrite with_heap_heap, with_heap_twice in Hres.
  exists y, (PyDict.of_pairs kvs), items2.
  split; [reflexivity|]. split; [apply lookup_insert_eq|]. split; [exact Hres|].
  conjs; auto. intros k [<-|[<-|[<-|[]]]]; assumption.
Qed.

(** X26. The same on the path of a config file holding a JSON object.
    When [deepspeed_init] returns, [create_optimizer] was called exactly
    when the file has no [optimizer] entry and [create_scheduler]
    exactly when it has no [scheduler] entry, before the one
    [deepspeed.initialize], which got the trainer's optimizer and
    scheduler exactly in those cases; and the config the engine was
    given has the batch size and the gradient accumulation of the
    trainer's arguments. *)
Theorem deepspeed_init_file_calls env t n r w path pairs eng w' :
  deepspeed (args t) = VStr path ->
  files env path = FsFile (Some (JDict pairs)) ->
  deepspeed_init env t n r w = (Ok eng, w') ->
  trainer_optimizer eng = negb (PyDict.mem "optimizer" pairs)
  /\ trainer_lr_scheduler eng = negb (PyDict.mem "scheduler" pairs)
  /\ (exists y, engine_config eng = VRef y /\ batch_args_set (args t) y w')
  /\ exists tr',
       trace w'
       = (trace w
            ++ (if PyDict.mem "optimizer" pairs then [] else [CreateOptimizer])
            ++ (if PyDict.mem "scheduler" pairs then [] else [CreateScheduler n])
            ++ [Initialize (engine_config eng) (trainer_optimizer eng)
                  (trainer_lr_scheduler eng)]
            ++ tr')%list
       /\ (tr' = [] \/ exists p, r = Some p /\ tr' = [LoadCheckpoint p]).
Proof.
  intros Hds Hfile Hrun.
  destruct (deepspeed_init_prefix_file env t n r w path pairs Hds Hfile)
    as [(e & w1 & He & _)
       | (y & items1 & items2 & _ & Hy1 & Htail & Hmem & Hother & Hb1 & Hb2 & _)];
    [congruence|].
  rewrite Htail in Hrun. clear Htail.
  set (mo := PyDict.mem "optimizer" pairs) in *.
  set (ms := PyDict.mem "scheduler" pairs) in *.
  set (I := fun w0 : world =>
              (entry y "train_micro_batch_size_per_gpu"
                 (VInt (per_device_train_batch_size (args t))) w0
               /\ entry y "gradient_accumulation_steps"
                    (VInt (gradient_accumulation_steps (args t))) w0)
              /\ (key_is y "optimizer" mo w0 /\ key_is y "scheduler" ms w0)).
  assert (HI : stable written I).
  { repeat apply stable_and;
      [apply stable_entry | apply stable_entry | apply stable_key_is | apply stable_key_is];
      not_a_key. }
  assert (HE : emit_stable I).
  { repeat apply emit_stable_and;
      [apply emit_stable_entry | apply emit_stable_entry
       | apply emit_stable_key_is | apply emit_stable_key_is]. }
  assert (HF : flag_stable I).
  { intros w0 f H. exact H. }
  set (w2 := with_heap (<[y := ODict items2]> (snd (alloc_json (JDict pairs) (heap w)))) w)
    in *.
  assert (Hw2 : I w2).
  { split; split; exists items2; (split; [apply lookup_insert_eq|]); auto.
    - unfold PyDict.mem. rewrite (Hother "optimizer") by not_a_key. apply Hmem.
    - unfold PyDict.mem. rewrite (Hother "scheduler") by not_a_key. apply Hmem. }
  pose proof (init_tail_calls I HI HE HF env t n r y mo ms (trace w)
                (fun _ H => proj1 (proj2 H)) (fun _ H => proj2 (proj2 H)) w2
                (conj Hw2 eq_refl)) as H.
  rewrite Hrun in H.
  destruct H as (-> & Hw' & tr' & Ht & Hr).
  cbn [trainer_optimizer trainer_lr_scheduler engine_config].
  split; [reflexivity|]. split; [reflexivity|]. split; [|eauto].
  exists y. split; [reflexivity|].
  destruct Hw' as [[(it & Hit & H1) (it' & Hit' & H2)] _].
  rewrite Hit in Hit'. injection Hit' as <-. exists it. auto.
Qed.

(** X27. The ZeRO-3 flag after [deepspeed_init] on a config file.
    When the call returns and the [zero_optimization] entry of the file
    is an object, the flag is whether the [stage] of that object equals
    3; when the file has no such entry, the flag is as it was, whether
    the call returns or raises. *)
Theorem deepspeed_init_file_zero3_flag env t n r w path pairs :
  deepspeed (args t) = VStr path ->
  files env path = FsFile (Some (JDict pairs)) ->
  (forall zero eng w',
      PyDict.get "zero_optimization" (PyDict.of_pairs pairs) = Some (JDict zero) ->
      deepspeed_init env t n r w = (Ok eng, w') ->
      _is_deepspeed_zero3_enabled w' = Some (stage_is_3 zero))
  /\ (PyDict.mem "zero_optimization" pairs = false ->
      _is_deepspeed_zero3_enabled (snd (deepspeed_init env t n r w))
      = _is_deepspeed_zero3_enabled w).
Proof.
  intros Hds Hfile.
  destruct (deepspeed_init_prefix_file env t n r w path pairs Hds Hfile)
    as [(e & w1 & He & _ & Hf & _)
       | (y & items1 & items2 & Hcfg & Hy1 & Htail & Hmem & Hother & _)].
  { split; [intros; congruence | intros _; rewrite He; exact Hf]. }
  rewrite Htail. clear Htail.
  set (h' := snd (alloc_json (JDict pairs) (heap w))) in *.
  set (w2 := with_heap (<[y := ODict items2]> h') w).
  split.
  - intros zero eng w' Hzo Hrun.
    destruct (discover_on_loaded pairs w) as [_ Hsome]. cbv zeta in Hsome.
    destruct (Hsome zero Hzo) as (lz & zitems & _ & Hg & Hne & Hlz & Hst).
    rewrite Hcfg in Hg, Hne. fold h' in Hg, Hlz.
    assert (Hg' : fst (getitem (VRef y) "zero_optimization" (with_heap h' w))
                  = Ok (VRef lz)) by (rewrite Hg; reflexivity).
    apply getitem_ok in Hg' as (y0 & it & [= <-] & Hit & Hzo1).
    cbn [heap with_heap] in Hit, Hlz. rewrite Hy1 in Hit. injection Hit as <-.
    set (sv := match PyDict.get "stage" zitems with Some v => v | None => VNone end).
    assert (Hsv : py_eq_int sv 3 = stage_is_3 zero).
    { unfold sv, stage_is_3.
      destruct (PyDict.get "stage" (PyDict.of_pairs zero)),
               (PyDict.get "stage" zitems); try contradiction; [exact Hst | reflexivity]. }
    rewrite <- Hsv.
    set (I := fun w0 : world =>
                entry y "zero_optimization" (VRef lz) w0 /\ dict_get lz "stage" sv w0).
    set (J := fun w0 : world => _is_deepspeed_zero3_enabled w0 = Some (py_eq_int sv 3)).
    assert (H : hoare I (init_tail env t n r (VRef y)) (fun _ w0 => J w0) (fun _ => True)).
    { apply hoare_before_zero.
      - apply stable_and; [apply stable_entry | apply stable_dict_get]; not_a_key.
      - apply emit_stable_and; [apply emit_stable_entry | apply emit_stable_dict_get].
      - intros optimizer lr_scheduler.
        eapply hoare_bind; [apply merge_zero_flag|]. intros u. cbn beta.
        eapply keeps_hoare_bind; [apply (stable_emit J (emit_stable_flag _))|]. intros _ _.
        eapply keeps_hoare_bind; [apply (stable_resume J (emit_stable_flag _))|].
        intros _ _. apply hoare_ret. auto. }
    assert (Hw2 : I w2).
    { split.
      - exists items2. split; [apply lookup_insert_eq|].
        rewrite (Hother "zero_optimization") by not_a_key. exact Hzo1.
      - exists zitems. split; [|reflexivity]. unfold w2. cbn [heap with_heap].
        rewrite lookup_insert_ne by congruence. exact Hlz. }
    specialize (H _ Hw2). rewrite Hrun in H. exact H.
  - intros Hzo.
    set (I := fun w0 : world =>
                lacks y "zero_optimization" w0
                /\ _is_deepspeed_zero3_enabled w0 = _is_deepspeed_zero3_enabled w).
    assert (HI : stable written I).
    { apply stable_and; [apply stable_lacks; not_a_key | apply stable_flag]. }
    assert (HE : emit_stable I).
    { apply emit_stable_and; [apply emit_stable_lacks | apply emit_stable_flag]. }
    assert (H : keeps I (init_tail env t n r (VRef y)) (fun _ => True)).
    { unfold init_tail.
      eapply keeps_bind; [apply (stable_merge_optimizer written I HI written_optimizer HE)|].
      intros optimizer _.
      eapply keeps_bind; [apply (stable_merge_scheduler written I HI written_scheduler HE)|].
      intros lr_scheduler _.
      eapply keeps_bind; [apply (stable_merge_fp16 written I HI written_fp16)|].
      intros _ _.
      eapply keeps_bind with (Q := fun _ => True).
      { intros w0 Hw0. rewrite merge_zero_absent by apply Hw0.
        split; [exact Hw0 | exact Logic.I]. }
      intros _ _.
      eapply keeps_bind; [apply (stable_emit I HE)|]. intros _ _.
      eapply keeps_bind; [apply (stable_resume I HE)|]. intros _ _.
      apply keeps_ret. exact Logic.I. }
    assert (Hw2 : I w2).
    { split; [|reflexivity]. exists items2. split; [apply lookup_insert_eq|].
      transitivity (PyDict.mem "zero_optimization" items1);
        [unfold PyDict.mem; rewrite (Hother "zero_optimization") by not_a_key; reflexivity
        | rewrite Hmem; exact Hzo]. }
    specialize (H _ Hw2).
    destruct (init_tail env t n r (VRef y) w2) as [[eng|e] w']; apply H.
Qed.


End FromFile.

Section FileInstances.
Import DS Frame ConfigFile Examples Configs.

Lemma deepspeed_init_file_calls_witness :
  exists eng w' y,
    deepspeed_init env_zero3_file trainer_with_file 1000 None (world_of ∅) = (Ok eng, w')
    /\ trainer_optimizer eng = true
    /\ trainer_lr_scheduler eng = true
    /\ engine_config eng = VRef y
    /\ batch_args_set (args trainer_with_file) y w'.
Proof.
  destruct (deepspeed_init env_zero3_file trainer_with_file 1000 None (world_of ∅))
    as [[eng|e] w'] eqn:E; [|vm_compute in E; discriminate E].
  destruct (deepspeed_init_file_calls env_zero3_file trainer_with_file 1000 None
              (world_of ∅) "ds_config.json"
              [("zero_optimization", JDict [("stage", JInt 3)])] eng w'
              eq_refl eq_refl E)
    as (Ho & Hs & (y & Hy & Hb) & _).
  exists eng, w', y. split; [reflexivity|]. auto.
Defined.

Lemma deepspeed_init_file_zero3_flag_witness :
  exists eng w',
    deepspeed_init env_zero3_file trainer_with_file 1000 None (world_of ∅) = (Ok eng, w')
    /\ _is_deepspeed_zero3_enabled w' = Some true.
Proof.
  destruct (deepspeed_init env_zero3_file trainer_with_file 1000 None (world_of ∅))
    as [[eng|e] w'] eqn:E; [|vm_compute in E; discriminate E].
  exists eng, w'. split; [reflexivity|].
  apply (proj1 (deepspeed_init_file_zero3_flag env_zero3_file trainer_with_file 1000 None
                  (world_of ∅) "ds_config.json"
                  [("zero_optimization", JDict [("stage", JInt 3)])] eq_refl eq_refl)
           [("stage", JInt 3)] eng w' eq_refl E).
Defined.


End FileInstances.

(** * [deepspeed_init]: the values it writes into the sections *)

Section Slots.
Import DS Frame.
Local Open Scope py_scope.

Lemma stable_slot (K : string -> Prop) c k0 ov :
  ~ K k0 -> stable K (slot c k0 ov).
Proof.
  intros Hk0. split.
  - intros w l items k v (it & Hc & Hm) Hl Hk. unfold slot. cbn [heap with_heap].
    destruct (decide (l = c)) as [->|Hne].
    + rewrite lookup_insert_eq. eexists. split; [reflexivity|].
      rewrite Hc in Hl. injection Hl as <-. rewrite get_set_ne; [exact Hm|].
      intros ->. contradiction.
    + rewrite lookup_insert_ne by exact Hne. eauto.
  - intros w o (it & Hc & Hm). unfold slot. cbn [heap with_heap].
    rewrite lookup_insert_ne by (eapply fresh_lookup; eassumption). eauto.
Qed.

Lemma float_of_int_cases z w :
  float_of_int z w = (Ok (float_of_Z z), w) \/ float_of_int z w = (Raise OverflowError, w).
Proof. unfold float_of_int. destruct (float_of_Z z); auto. Qed.

(** An assignment to the key of a slot. *)
Lemma setitem_slot (J : world -> Prop) z k f ov w :
  stable (eq k) J -> slot z k ov w -> J w ->
  exists w1, setitem (VRef z) k f w = (Ok tt, w1) /\ slot z k (Some f) w1 /\ J w1.
Proof.
  intros HJ (zi & Hz & _) Hw. eexists. split; [apply (setitem_dict _ _ _ _ _ Hz)|].
  split.
  - exists (PyDict.set k f zi). cbn [heap with_heap].
    rewrite lookup_insert_eq, get_set_eq. auto.
  - apply (proj1 HJ) with (k := k); auto.
Qed.

(** [if d.get(k) == 0: d[k] = f] *)
Lemma fill_step (J : world -> Prop) z k f ov :
  stable (eq k) J ->
  hoare (fun w => slot z k ov w /\ J w)
    (v <- get (VRef z) k ;;
     if py_eq_int v 0 then setitem (VRef z) k f else ret tt)
    (fun _ w => slot z k (filled ov f) w /\ J w)
    (fun _ => True).
Proof.
  intros HJ w [Hs Hw]. pose proof Hs as (zi & Hz & Hg).
  rewrite (bind_ok _ _ _ _ _ (get_dict _ _ k _ Hz)), Hg.
  destruct ov as [v|]; cbn [filled py_eq_int]; [|split; assumption].
  destruct (py_eq_int v 0); [|split; assumption].
  destruct (setitem_slot J z k f _ w HJ Hs Hw) as (w1 & -> & H1 & H2). split; assumption.
Qed.

(** The same for the one value that is a float product. *)
Lemma fill_step_float (J : world -> Prop) z k (hidden_size : Z) ov :
  stable (eq k) J ->
  hoare (fun w => slot z k ov w /\ J w)
    (v <- get (VRef z) k ;;
     if py_eq_int v 0
     then
       f <- float_of_int hidden_size ;;
       let x := SFmul prec emax float_0_9 f in
       f <- float_of_int hidden_size ;;
       setitem (VRef z) k (VFloat (SFmul prec emax x f))
     else ret tt)
    (fun _ w =>
       slot z k
         (filled ov
            (VFloat (SFmul prec emax
                       (SFmul prec emax float_0_9 (float_of_Z hidden_size))
                       (float_of_Z hidden_size)))) w
       /\ J w)
    (fun _ => True).
Proof.
  intros HJ w [Hs Hw]. pose proof Hs as (zi & Hz & Hg).
  rewrite (bind_ok _ _ _ _ _ (get_dict _ _ k _ Hz)), Hg.
  destruct ov as [v|]; cbn [filled py_eq_int]; [|split; assumption].
  destruct (py_eq_int v 0); [|split; assumption].
  destruct (float_of_int_cases hidden_size w) as [Hf|Hf].
  - rewrite (bind_ok _ _ _ _ _ Hf). cbv zeta. rewrite (bind_ok _ _ _ _ _ Hf).
    destruct (setitem_slot J z k
                (VFloat (SFmul prec emax
                           (SFmul prec emax float_0_9 (float_of_Z hidden_size))
                           (float_of_Z hidden_size))) _ w HJ Hs Hw)
      as (w1 & -> & H1 & H2).
    split; assumption.
  - rewrite (bind_raise _ _ _ _ _ Hf). exact Logic.I.
Qed.

Lemma hoare_assoc {A B C} (P : world -> Prop) (c : M A) (k : A -> M B) (rest : M C) Q E :
  hoare P (bind (bind c k) (fun _ => rest)) Q E ->
  hoare P (bind c (fun a => bind (k a) (fun _ => rest))) Q E.
Proof.
  intros H w Hw. specialize (H w Hw). unfold bind in *.
  destruct (c w) as [[a|e] w1]; exact H.
Qed.

(** The three sizes of [merge_zero], from the first read on. *)
Lemma zero_buckets_fill (hidden_size : Z) y z o1 o2 o3 :
  hoare (fun w => entry y "zero_optimization" (VRef z) w
                  /\ slot z "reduce_bucket_size" o1 w
                  /\ slot z "stage3_prefetch_bucket_size" o2 w
                  /\ slot z "stage3_param_persistence_threshold" o3 w)
    (v <- get (VRef z) "reduce_bucket_size" ;;
     (if py_eq_int v 0
      then setitem (VRef z) "reduce_bucket_size" (VInt (hidden_size * hidden_size))
      else ret tt) ;;
     v <- get (VRef z) "stage3_prefetch_bucket_size" ;;
     (if py_eq_int v 0
      then
        f <- float_of_int hidden_size ;;
        let x := SFmul prec emax float_0_9 f in
        f <- float_of_int hidden_size ;;
        setitem (VRef z) "stage3_prefetch_bucket_size" (VFloat (SFmul prec emax x f))
      else ret tt) ;;
     v <- get (VRef z) "stage3_param_persistence_threshold" ;;
     (if py_eq_int v 0
      then setitem (VRef z) "stage3_param_persistence_threshold" (VInt (10 * hidden_size))
      else ret tt))
    (fun _ w =>
       entry y "zero_optimization" (VRef z) w
       /\ slot z "reduce_bucket_size" (filled o1 (VInt (hidden_size * hidden_size))) w
       /\ slot z "stage3_prefetch_bucket_size"
            (filled o2
               (VFloat (SFmul prec emax
                          (SFmul prec emax float_0_9 (float_of_Z hidden_size))
                          (float_of_Z hidden_size)))) w
       /\ slot z "stage3_param_persistence_threshold"
            (filled o3 (VInt (10 * hidden_size))) w)
    (fun _ => True).
Proof.
  assert (HS : forall k k1 k2 a b,
             k <> "zero_optimization" -> k <> k1 -> k <> k2 ->
             stable (eq k)
               (fun w => entry y "zero_optimization" (VRef z) w
                         /\ slot z k1 a w /\ slot z k2 b w)).
  { intros k k1 k2 a b N0 N1 N2.
    repeat apply stable_and;
      [apply (stable_slot _ y "zero_optimization" (Some (VRef z))) | apply stable_slot
       | apply stable_slot];
      intros E; congruence. }
  apply hoare_assoc.
  eapply hoare_bind.
  { eapply hoare_weaken;
      [eapply (fill_step _ z "reduce_bucket_size" (VInt (hidden_size * hidden_size)) o1),
         (HS _ "stage3_prefetch_bucket_size" "stage3_param_persistence_threshold" o2 o3);
         discriminate
      | intros w (He & H1 & H2 & H3); repeat split; eassumption
      | intros a w H; exact H
      | auto]. }
  intros u1. apply hoare_assoc.
  eapply hoare_bind.
  { eapply hoare_weaken;
      [eapply (fill_step_float _ z "stage3_prefetch_bucket_size" hidden_size o2),
         (HS _ "reduce_bucket_size" "stage3_param_persistence_threshold"
            (filled o1 (VInt (hidden_size * hidden_size))) o3);
         discriminate
      | intros w (H1 & He & H2 & H3); repeat split; eassumption
      | intros a w H; exact H
      | auto]. }
  intros u2.
  eapply hoare_weaken;
    [eapply (fill_step _ z "stage3_param_persistence_threshold" (VInt (10 * hidden_size)) o3),
       (HS _ "reduce_bucket_size" "stage3_prefetch_bucket_size"
          (filled o1 (VInt (hidden_size * hidden_size)))
          (filled o2
             (VFloat (SFmul prec emax
                        (SFmul prec emax float_0_9 (float_of_Z hidden_size))
                        (float_of_Z hidden_size)))));
       discriminate
    | intros w (H2 & He & H1 & H3); repeat split; eassumption
    | intros a w (H3 & He & H1 & H2); repeat split; assumption
    | auto].
Qed.

(** [merge_zero] on a config with a ZeRO section: each of the three
    sizes that is [0] gets its value from the model, the others stay. *)
Lemma merge_zero_fills t y z o1 o2 o3 :
  hoare (fun w => entry y "zero_optimization" (VRef z) w
                  /\ slot z "reduce_bucket_size" o1 w
                  /\ slot z "stage3_prefetch_bucket_size" o2 w
                  /\ slot z "stage3_param_persistence_threshold" o3 w)
    (merge_zero t (VRef y))
    (fun _ w =>
       entry y "zero_optimization" (VRef z) w
       /\ slot z "reduce_bucket_size"
            (filled o1 (VInt (model_hidden_size t * model_hidden_size t))) w
       /\ slot z "stage3_prefetch_bucket_size"
            (filled o2
               (VFloat (SFmul prec emax
                          (SFmul prec emax float_0_9 (float_of_Z (model_hidden_size t)))
                          (float_of_Z (model_hidden_size t))))) w
       /\ slot z "stage3_param_persistence_threshold"
            (filled o3 (VInt (10 * model_hidden_size t))) w)
    (fun _ => True).
Proof.
  intros w (He & H1 & H2 & H3). unfold merge_zero.
  pose proof He as (it & Hy & Hz). pose proof H1 as (zi & Hzl & _).
  rewrite (bind_ok _ _ _ _ _ (contains_dict _ _ _ _ Hy)), (get_mem _ _ _ Hz).
  rewrite (bind_ok _ _ _ _ _ (getitem_dict _ _ _ _ _ Hy Hz)).
  rewrite (bind_ok _ _ _ _ _ (get_dict _ _ _ _ Hzl)).
  unfold deepspeed_zero3_enable. unfold bind at 1. cbn [set_flag].
  apply (zero_buckets_fill (model_hidden_size t) y z o1 o2 o3).
  repeat split; assumption.
Qed.

End Slots.

Ltac other_key :=
  let H := fresh in
  unfold Frame.zero_section_keys, Frame.scheduler_section_keys, Frame.optimizer_keys,
    Frame.scheduler_keys, Frame.fp16_keys, Frame.zero_keys, Frame.batch_keys;
  cbn [In]; intros H; intuition (subst; discriminate).

Section SectionValues.
Import DS Frame.
Local Open Scope py_scope.

(** The steps between the first merge and [merge_zero], for an
    invariant on keys that these steps do not write. *)
Lemma hoare_before_zero_on (K : string -> Prop) (I : world -> Prop) env t n r y R :
  stable K I -> emit_stable I ->
  (forall k, In k optimizer_keys -> K k) ->
  (forall k, In k scheduler_keys -> K k) ->
  (forall k, In k fp16_keys -> K k) ->
  (forall optimizer lr_scheduler,
      hoare I
        (merge_zero t (VRef y) ;;
         emit (Initialize (VRef y) optimizer lr_scheduler) ;;
         resume env r ;;
         ret {| engine_config := VRef y;
                trainer_optimizer := optimizer;
                trainer_lr_scheduler := lr_scheduler |})
        R (fun _ => True)) ->
  hoare I (init_tail env t n r (VRef y)) R (fun _ => True).
Proof.
  intros HI HE HKo HKs HKf Hrest. unfold init_tail.
  eapply keeps_hoare_bind; [apply (stable_merge_optimizer K I HI HKo HE)|].
  intros optimizer _.
  eapply keeps_hoare_bind; [apply (stable_merge_scheduler K I HI HKs HE)|].
  intros lr_scheduler _.
  eapply keeps_hoare_bind; [apply (stable_merge_fp16 K I HI HKf)|].
  intros _ _. apply Hrest.
Qed.

(** The end of [deepspeed_init]: the engine is created and the
    checkpoint loaded, the config stays. *)
Lemma hoare_after_zero (I : world -> Prop) env r e (eng : Engine) :
  emit_stable I ->
  hoare I (emit e ;; resume env r ;; ret eng)
    (fun eng' w => eng' = eng /\ I w) (fun _ => True).
Proof.
  intros HE.
  eapply keeps_hoare_bind; [apply (stable_emit I HE)|]. intros _ _.
  eapply keeps_hoare_bind; [apply (stable_resume I HE)|]. intros _ _.
  apply hoare_ret. auto.
Qed.

(** A key of a copied dict that the first merge step does not write. *)
Lemma copied_key memo (zitems zitems' : list (string * value)) k :
  PyDict.mem k zitems' = PyDict.mem k zitems ->
  (forall v, PyDict.get k zitems = Some v ->
     exists v', PyDict.get k zitems' = Some v' /\ copy_val memo v v') ->
  match PyDict.get k zitems with
  | None => PyDict.get k zitems' = None
  | Some v => exists v', PyDict.get k zitems' = Some v' /\ copy_val memo v v'
  end.
Proof.
  intros Hm Hg. unfold PyDict.mem in Hm.
  destruct (PyDict.get k zitems) as [v|]; [apply Hg; reflexivity|].
  destruct (PyDict.get k zitems'); [discriminate | reflexivity].
Qed.

Lemma copy_val_plain memo v v' : (forall x, v <> VRef x) -> copy_val memo v v' -> v' = v.
Proof. destruct v; cbn; intros Hn H; try exact H. exfalso. eapply Hn. reflexivity. Qed.

(** X29. The sizes of the ZeRO section.  When [deepspeed_init] returns
    on a config dict with a [zero_optimization] section, then in the
    config of the engine each of [reduce_bucket_size],
    [stage3_prefetch_bucket_size] and
    [stage3_param_persistence_threshold] that the user gave as [0] has
    the value computed from the hidden size of the model; one given
    with another value has that value; one not given is not there. *)
Theorem deepspeed_init_zero_buckets env t n r w l items z zitems eng w' :
  heap_wf (heap w) ->
  heap w !! l = Some (ODict items) ->
  deepspeed (args t) = VRef l ->
  PyDict.get "zero_optimization" items = Some (VRef z) ->
  heap w !! z = Some (ODict zitems) ->
  deepspeed_init env t n r w = (Ok eng, w') ->
  exists y z',
    engine_config eng = VRef y
    /\ entry y "zero_optimization" (VRef z') w'
    /\ forall k f, In (k, f) (bucket_defaults t) ->
         match PyDict.get k zitems with
         | None => lacks z' k w'
         | Some v =>
             if py_eq_int v 0 then entry z' k f w'
             else (forall x, v <> VRef x) -> entry z' k v w'
         end.
Proof.
  intros Hwf Hl Hds Hzo Hz Hrun.
  destruct (deepspeed_init_prefix env t n r w l items Hwf Hl Hds)
    as [(e & w1 & He & _) | (y & h2 & memo & Htail & Hly & Hcopy & _)];
    [congruence|].
  rewrite Htail in Hrun. clear Htail.
  destruct (Hcopy l y items Hly Hl) as (items2 & Hy2 & _ & Hget).
  destruct (Hget "zero_optimization" (VRef z) ltac:(other_key) Hzo) as (v' & Hzo2 & Hcv).
  cbn in Hcv. destruct Hcv as (z' & Hmz & Hv'). subst v'.
  destruct (Hcopy z z' zitems Hmz Hz) as (zitems2 & Hz2 & Hmemz & Hgetz).
  assert (Hrel : forall k, ~ In k batch_keys ->
            match PyDict.get k zitems with
            | None => PyDict.get k zitems2 = None
            | Some v => exists v', PyDict.get k zitems2 = Some v' /\ copy_val memo v v'
            end).
  { intros k Hk. apply copied_key; [apply Hmemz, Hk | intros v; apply Hgetz, Hk]. }
  clear Hcopy Hget Hmemz Hgetz.
  set (P := fun (o1 o2 o3 : option value) (w0 : world) =>
              entry y "zero_optimization" (VRef z') w0
              /\ slot z' "reduce_bucket_size" o1 w0
              /\ slot z' "stage3_prefetch_bucket_size" o2 w0
              /\ slot z' "stage3_param_persistence_threshold" o3 w0).
  set (K := fun k : string => ~ In k zero_section_keys).
  assert (HP : forall o1 o2 o3, stable K (P o1 o2 o3)).
  { intros o1 o2 o3. unfold P.
    repeat apply stable_and;
      [apply (stable_slot _ y "zero_optimization" (Some (VRef z'))) | apply stable_slot..];
      intros H; apply H; unfold zero_section_keys, zero_keys; cbn [In]; tauto. }
  assert (HE : forall o1 o2 o3, emit_stable (P o1 o2 o3)).
  { intros o1 o2 o3 w0 e H. exact H. }
  set (o1 := PyDict.get "reduce_bucket_size" zitems2).
  set (o2 := PyDict.get "stage3_prefetch_bucket_size" zitems2).
  set (o3 := PyDict.get "stage3_param_persistence_threshold" zitems2).
  set (hs := model_hidden_size t).
  set (f1 := VInt (hs * hs)).
  set (f2 := VFloat (SFmul prec emax (SFmul prec emax float_0_9 (float_of_Z hs))
                       (float_of_Z hs))).
  set (f3 := VInt (10 * hs)).
  assert (Hend : engine_config eng = VRef y
                 /\ P (filled o1 f1) (filled o2 f2) (filled o3 f3) w').
  { assert (Hw2 : P o1 o2 o3 (with_heap h2 w)).
    { unfold P, entry, slot. cbn [heap with_heap]. repeat split; eauto. }
    pose proof (hoare_before_zero_on K (P o1 o2 o3) env t n r y
                  (fun eng0 w0 => engine_config eng0 = VRef y
                                  /\ P (filled o1 f1) (filled o2 f2) (filled o3 f3) w0)
                  (HP _ _ _) (HE _ _ _)
                  ltac:(intros k; unfold K; other_key)
                  ltac:(intros k; unfold K; other_key)
                  ltac:(intros k; unfold K; other_key)) as Hh.
    lapply Hh.
    - intros Hh'. specialize (Hh' _ Hw2). rewrite Hrun in Hh'. exact Hh'.
    - intros optimizer lr_scheduler.
      eapply hoare_bind; [apply (merge_zero_fills t y z' o1 o2 o3)|].
      intros u. eapply hoare_weaken;
        [apply (hoare_after_zero _ env r _ _ (HE (filled o1 f1) (filled o2 f2) (filled o3 f3)))
        | intros w0 H; exact H
        | intros eng0 w0 [-> H]; split; [reflexivity | exact H]
        | auto]. }
  destruct Hend as (Heng & Hzo' & H1 & H2 & H3).
  exists y, z'. split; [exact Heng|]. split; [exact Hzo'|].
  assert (Hout : forall k f, ~ In k batch_keys ->
            slot z' k (filled (PyDict.get k zitems2) f) w' ->
            match PyDict.get k zitems with
            | None => lacks z' k w'
            | Some v =>
                if py_eq_int v 0 then entry z' k f w'
                else (forall x, v <> VRef x) -> entry z' k v w'
            end).
  { intros k f Hk Hs. specialize (Hrel k Hk).
    destruct (PyDict.get k zitems) as [v|].
    - destruct Hrel as (v' & Hv' & Hcv). rewrite Hv' in Hs. cbn [filled] in Hs.
      rewrite (copy_val_eq_int _ _ _ _ Hcv) in Hs.
      destruct (py_eq_int v 0); [exact Hs|].
      intros Hn. rewrite (copy_val_plain _ _ _ Hn Hcv) in Hs. exact Hs.
    - rewrite Hrel in Hs. cbn [filled] in Hs.
      destruct Hs as (it & Hit & Hg). exists it. split; [exact Hit|].
      unfold PyDict.mem. rewrite Hg. reflexivity. }
  intros k f [E|[E|[E|[]]]]; injection E as <- <-;
    apply Hout; first [other_key | assumption].
Qed.

(** *** The scheduler section *)

Lemma override_params_cons config section kv rest w :
  override_params config section (kv :: rest) w
  = (override_params config section [kv] ;; override_params config section rest) w.
Proof.
  unfold override_params. cbn [for_each]. unfold bind.
  destruct kv as [k v].
  match goal with |- match ?c with _ => _ end = _ => destruct c as [[[]|e] w1] end;
    reflexivity.
Qed.

(** [if k in config[section]["params"]: config[section]["params"][k] = v] *)
Lemma override_one (J : world -> Prop) y section s p k v ov w :
  stable (eq k) J ->
  slot y section (Some (VRef s)) w ->
  slot s "params" (Some (VRef p)) w ->
  slot p k ov w -> J w ->
  exists w1,
    override_params (VRef y) section [(k, v)] w = (Ok tt, w1)
    /\ slot p k (overridden ov v) w1 /\ J w1.
Proof.
  intros HJ (yi & Hy & Hsec) (si & Hs & Hpar) Hp Hw.
  pose proof Hp as (pi & Hpi & Hk).
  unfold override_params. cbn [for_each]. unfold bind at 1.
  rewrite (bind_ok _ _ _ _ _ (getitem_dict _ _ _ _ _ Hy Hsec)).
  rewrite (bind_ok _ _ _ _ _ (getitem_dict _ _ _ _ _ Hs Hpar)).
  rewrite (bind_ok _ _ _ _ _ (contains_dict _ _ _ _ Hpi)).
  unfold PyDict.mem. rewrite Hk.
  destruct ov as [v0|]; cbn [overridden].
  - rewrite (bind_ok _ _ _ _ _ (getitem_dict _ _ _ _ _ Hy Hsec)).
    rewrite (bind_ok _ _ _ _ _ (getitem_dict _ _ _ _ _ Hs Hpar)).
    destruct (setitem_slot J p k v _ w HJ Hp Hw) as (w1 & -> & H1 & H2).
    exists w1. auto.
  - exists w. auto.
Qed.

Ltac slots_stable :=
  repeat apply stable_and; apply stable_slot; intros E; discriminate E.

(** [merge_scheduler] on a config with a scheduler section and its
    params: it returns; [total_num_steps] is set for a [WarmupDecayLR],
    and the two warmup values are replaced where they are present. *)
Lemma merge_scheduler_sets a n y s p ty o0 o1 o2 w :
  scheduler_params y s p ty o0 o1 o2 w ->
  exists w1,
    merge_scheduler a n (VRef y) w = (Ok false, w1)
    /\ scheduler_params y s p ty
         (if py_eq_str ty "WarmupDecayLR" then Some (VInt n) else o0)
         (overridden o1 (VFloat (learning_rate a)))
         (overridden o2 (VInt (warmup_steps a))) w1.
Proof.
  intros (Hy & Hty & Hpar & H0 & H1 & H2).
  assert (Hhas : has y "scheduler" w).
  { destruct Hy as (yi & Hyi & Hg). exists yi. split; [exact Hyi|].
    unfold PyDict.mem. rewrite Hg. reflexivity. }
  rewrite (merge_scheduler_present a n y w Hhas).
  pose proof Hy as (yi & Hyi & Hsch). pose proof Hty as (si & Hsi & Hsty).
  rewrite (bind_ok _ _ _ _ _ (getitem_dict _ _ _ _ _ Hyi Hsch)).
  rewrite (bind_ok _ _ _ _ _ (getitem_dict _ _ _ _ _ Hsi Hsty)).
  (* the total number of steps *)
  assert (Hstep : exists w1,
            (if py_eq_str ty "WarmupDecayLR"
             then
               sched <- getitem (VRef y) "scheduler" ;;
               p0 <- getitem sched "params" ;;
               setitem p0 "total_num_steps" (VInt n)
             else ret tt) w = (Ok tt, w1)
            /\ scheduler_params y s p ty
                 (if py_eq_str ty "WarmupDecayLR" then Some (VInt n) else o0) o1 o2 w1).
  { destruct (py_eq_str ty "WarmupDecayLR").
    - rewrite (bind_ok _ _ _ _ _ (getitem_dict _ _ _ _ _ Hyi Hsch)).
      destruct Hpar as (si' & Hsi' & Hspar).
      rewrite (bind_ok _ _ _ _ _ (getitem_dict _ _ _ _ _ Hsi' Hspar)).
      destruct (setitem_slot
                  (fun w0 => slot y "scheduler" (Some (VRef s)) w0
                             /\ slot s "type" (Some ty) w0
                             /\ slot s "params" (Some (VRef p)) w0
                             /\ slot p "warmup_max_lr" o1 w0
                             /\ slot p "warmup_num_steps" o2 w0)
                  p "total_num_steps" (VInt n) o0 w ltac:(slots_stable) H0)
        as (w1 & Hset & Hs0 & Hy1 & Hty1 & Hpar1 & Hs1 & Hs2).
      { repeat split; first [assumption | exists si'; auto]. }
      exists w1. split; [exact Hset|]. repeat split; assumption.
    - exists w. split; [reflexivity|]. repeat split; assumption. }
  destruct Hstep as (w1 & Hrun1 & Hy1 & Hty1 & Hpar1 & Hs0 & Hs1 & Hs2).
  rewrite (bind_ok _ _ _ _ _ Hrun1). clear Hrun1.
  set (o0' := if py_eq_str ty "WarmupDecayLR" then Some (VInt n) else o0) in *.
  (* the two warmup values *)
  unfold bind at 1. rewrite override_params_cons. unfold bind at 1.
  destruct (override_one
              (fun w0 => slot y "scheduler" (Some (VRef s)) w0
                         /\ slot s "type" (Some ty) w0
                         /\ slot s "params" (Some (VRef p)) w0
                         /\ slot p "total_num_steps" o0' w0
                         /\ slot p "warmup_num_steps" o2 w0)
              y "scheduler" s p "warmup_max_lr" (VFloat (learning_rate a)) o1 w1
              ltac:(slots_stable) Hy1 Hpar1 Hs1 ltac:(repeat split; assumption))
    as (w2 & -> & Hs1' & Hy2 & Hty2 & Hpar2 & Hs0' & Hs2').
  destruct (override_one
              (fun w0 => slot y "scheduler" (Some (VRef s)) w0
                         /\ slot s "type" (Some ty) w0
                         /\ slot s "params" (Some (VRef p)) w0
                         /\ slot p "total_num_steps" o0' w0
                         /\ slot p "warmup_max_lr"
                              (overridden o1 (VFloat (learning_rate a))) w0)
              y "scheduler" s p "warmup_num_steps" (VInt (warmup_steps a)) o2 w2
              ltac:(slots_stable) Hy2 Hpar2 Hs2' ltac:(repeat split; assumption))
    as (w3 & -> & Hs2'' & Hy3 & Hty3 & Hpar3 & Hs0'' & Hs1'').
  exists w3. split; [reflexivity|]. repeat split; assumption.
Qed.

Lemma copy_val_eq_str memo v v' s : copy_val memo v v' -> py_eq_str v' s = py_eq_str v s.
Proof. destruct v; cbn; try (intros ->; reflexivity). intros (y & _ & ->). reflexivity. Qed.

Lemma stable_scheduler_params (K : string -> Prop) y s p ty o0 o1 o2 :
  (forall k, K k -> ~ In k scheduler_section_keys) ->
  stable K (scheduler_params y s p ty o0 o1 o2).
Proof.
  intros HK. unfold scheduler_params.
  repeat apply stable_and; apply stable_slot; intros Hk; apply (HK _ Hk);
    unfold scheduler_section_keys; cbn [In]; tauto.
Qed.

(** X30. The scheduler section.  When [deepspeed_init] returns on a
    config dict whose [scheduler] section has a type and params, then in
    the config of the engine the params of a [WarmupDecayLR] have
    [total_num_steps] set to the number of training steps, whatever the
    user wrote; for another type [total_num_steps] is not added; and
    [warmup_max_lr] and [warmup_num_steps] are the learning rate and the
    warmup steps of the arguments where the user gave them, and are not
    added where the user did not. *)
Theorem deepspeed_init_scheduler_params env t n r w l items s sitems ty p pitems eng w' :
  heap_wf (heap w) ->
  heap w !! l = Some (ODict items) ->
  deepspeed (args t) = VRef l ->
  PyDict.get "scheduler" items = Some (VRef s) ->
  heap w !! s = Some (ODict sitems) ->
  PyDict.get "type" sitems = Some ty ->
  PyDict.get "params" sitems = Some (VRef p) ->
  heap w !! p = Some (ODict pitems) ->
  deepspeed_init env t n r w = (Ok eng, w') ->
  exists y s' p',
    engine_config eng = VRef y
    /\ trainer_lr_scheduler eng = false
    /\ entry y "scheduler" (VRef s') w'
    /\ entry s' "params" (VRef p') w'
    /\ (if py_eq_str ty "WarmupDecayLR"
        then entry p' "total_num_steps" (VInt n) w'
        else PyDict.mem "total_num_steps" pitems = false -> lacks p' "total_num_steps" w')
    /\ forall k v, In (k, v) (scheduler_overrides (args t)) ->
         if PyDict.mem k pitems then entry p' k v w' else lacks p' k w'.
Proof.
  intros Hwf Hl Hds Hsch Hs Hty Hpar Hp Hrun.
  destruct (deepspeed_init_prefix env t n r w l items Hwf Hl Hds)
    as [(e & w1 & He & _) | (y & h2 & memo & Htail & Hly & Hcopy & _)];
    [congruence|].
  rewrite Htail in Hrun. clear Htail.
  destruct (Hcopy l y items Hly Hl) as (items2 & Hy2 & _ & Hget).
  destruct (Hget "scheduler" (VRef s) ltac:(other_key) Hsch) as (v' & Hsch2 & Hcv).
  cbn in Hcv. destruct Hcv as (s' & Hms & Hv'). subst v'.
  destruct (Hcopy s s' sitems Hms Hs) as (sitems2 & Hs2 & _ & Hgets).
  destruct (Hgets "type" ty ltac:(other_key) Hty) as (ty' & Hty2 & Hcty).
  destruct (Hgets "params" (VRef p) ltac:(other_key) Hpar) as (v' & Hpar2 & Hcv).
  cbn in Hcv. destruct Hcv as (p' & Hmp & Hv'). subst v'.
  destruct (Hcopy p p' pitems Hmp Hp) as (pitems2 & Hp2 & Hmemp & _).
  clear Hcopy Hget Hgets.
  set (K := fun k : string => ~ In k scheduler_section_keys).
  assert (HK : forall k, K k -> ~ In k scheduler_section_keys) by (intros k H; exact H).
  assert (HE : forall o0 o1 o2, emit_stable (scheduler_params y s' p' ty' o0 o1 o2)).
  { intros o0 o1 o2 w0 e H. exact H. }
  assert (HF : forall o0 o1 o2, flag_stable (scheduler_params y s' p' ty' o0 o1 o2)).
  { intros o0 o1 o2 w0 f H. exact H. }
  set (o0 := PyDict.get "total_num_steps" pitems2).
  set (o1 := PyDict.get "warmup_max_lr" pitems2).
  set (o2 := PyDict.get "warmup_num_steps" pitems2).
  set (o0' := if py_eq_str ty' "WarmupDecayLR" then Some (VInt n) else o0).
  set (o1' := overridden o1 (VFloat (learning_rate (args t)))).
  set (o2' := overridden o2 (VInt (warmup_steps (args t)))).
  assert (Hend : (engine_config eng = VRef y /\ trainer_lr_scheduler eng = false)
                 /\ scheduler_params y s' p' ty' o0' o1' o2' w').
  { assert (Hw2 : scheduler_params y s' p' ty' o0 o1 o2 (with_heap h2 w)).
    { unfold scheduler_params, slot. cbn [heap with_heap]. repeat split; eauto. }
    assert (Hh : hoare (scheduler_params y s' p' ty' o0 o1 o2)
                   (init_tail env t n r (VRef y))
                   (fun eng0 w0 =>
                      (engine_config eng0 = VRef y /\ trainer_lr_scheduler eng0 = false)
                      /\ scheduler_params y s' p' ty' o0' o1' o2' w0)
                   (fun _ => True)).
    { unfold init_tail.
      eapply keeps_hoare_bind;
        [apply (stable_merge_optimizer K _ (stable_scheduler_params K _ _ _ _ _ _ _ HK)
                  ltac:(intros k; unfold K; other_key) (HE _ _ _))|].
      intros optimizer _.
      eapply hoare_bind with
        (Q := fun b w0 => b = false /\ scheduler_params y s' p' ty' o0' o1' o2' w0).
      { intros w0 Hw0.
        destruct (merge_scheduler_sets (args t) n y s' p' ty' o0 o1 o2 w0 Hw0)
          as (w1 & -> & H1). split; [reflexivity | exact H1]. }
      intros lr_scheduler.
      eapply hoare_weaken with
        (P := fun w0 => lr_scheduler = false
                        /\ scheduler_params y s' p' ty' o0' o1' o2' w0)
        (Q := fun eng0 w0 =>
                (engine_config eng0 = VRef y /\ trainer_lr_scheduler eng0 = false)
                /\ scheduler_params y s' p' ty' o0' o1' o2' w0)
        (E := fun _ => True); [|auto..].
      intros w0 [-> Hw0]. revert w0 Hw0.
      change (hoare (scheduler_params y s' p' ty' o0' o1' o2')
                (merge_fp16 t (VRef y) ;;
                 merge_zero t (VRef y) ;;
                 emit (Initialize (VRef y) optimizer false) ;;
                 resume env r ;;
                 ret {| engine_config := VRef y;
                        trainer_optimizer := optimizer;
                        trainer_lr_scheduler := false |})
                (fun eng0 w0 =>
                   (engine_config eng0 = VRef y /\ trainer_lr_scheduler eng0 = false)
                   /\ scheduler_params y s' p' ty' o0' o1' o2' w0)
                (fun _ => True)).
      eapply keeps_hoare_bind;
        [apply (stable_merge_fp16 K _ (stable_scheduler_params K _ _ _ _ _ _ _ HK)
                  ltac:(intros k; unfold K; other_key))|].
      intros _ _.
      eapply keeps_hoare_bind;
        [apply (stable_merge_zero K _ (stable_scheduler_params K _ _ _ _ _ _ _ HK)
                  ltac:(intros k; unfold K; other_key) (HF _ _ _))|].
      intros _ _.
      eapply hoare_weaken;
        [apply (hoare_after_zero _ env r _ _ (HE o0' o1' o2'))
        | intros w0 H; exact H
        | intros eng0 w0 [-> H]; split; [split; reflexivity | exact H]
        | auto]. }
    specialize (Hh _ Hw2). rewrite Hrun in Hh. exact Hh. }
  destruct Hend as ((Heng & Hlr) & Hy' & _ & Hpar' & H0 & H1 & H2).
  exists y, s', p'. split; [exact Heng|]. split; [exact Hlr|].
  split; [exact Hy'|]. split; [exact Hpar'|].
  assert (Hmem : forall k, ~ In k batch_keys ->
            PyDict.mem k pitems = false -> PyDict.get k pitems2 = None).
  { intros k Hk Hm. rewrite <- (Hmemp k Hk) in Hm. unfold PyDict.mem in Hm.
    destruct (PyDict.get k pitems2); [discriminate | reflexivity]. }
  assert (Hov : forall k v,
            ~ In k batch_keys ->
            slot p' k (overridden (PyDict.get k pitems2) v) w' ->
            if PyDict.mem k pitems then entry p' k v w' else lacks p' k w').
  { intros k v Hk Hslot. rewrite <- (Hmemp k Hk). unfold PyDict.mem.
    destruct (PyDict.get k pitems2) eqn:Eg; cbn [overridden] in Hslot; [exact Hslot|].
    destruct Hslot as (it & Hit & Hg). exists it. split; [exact Hit|].
    unfold PyDict.mem. rewrite Hg. reflexivity. }
  split.
  - unfold o0' in H0. rewrite (copy_val_eq_str _ _ _ _ Hcty) in H0.
    destruct (py_eq_str ty "WarmupDecayLR"); [exact H0|].
    intros Hm. unfold o0 in H0. rewrite (Hmem "total_num_steps" ltac:(other_key) Hm) in H0.
    destruct H0 as (it & Hit & Hg). exists it. split; [exact Hit|].
    unfold PyDict.mem. rewrite Hg. reflexivity.
  - intros k v [E|[E|[]]]; injection E as <- <-; apply Hov;
      first [other_key | assumption].
Qed.

End SectionValues.

Section SectionInstances.
Import DS Frame Examples.

Lemma deepspeed_init_zero_buckets_witness :
  exists eng w' y z',
    deepspeed_init env_plain trainer_8_2 1000 None (world_of heap_nested_config)
    = (Ok eng, w')
    /\ engine_config eng = VRef y
    /\ entry y "zero_optimization" (VRef z') w'
    /\ entry z' "reduce_bucket_size" (VInt 1048576) w'
    /\ lacks z' "stage3_prefetch_bucket_size" w'.
Proof.
  destruct (deepspeed_init env_plain trainer_8_2 1000 None (world_of heap_nested_config))
    as [[eng|e] w'] eqn:E; [|vm_compute in E; discriminate E].
  destruct (deepspeed_init_zero_buckets env_plain trainer_8_2 1000 None
              (world_of heap_nested_config) 1%positive
              [("optimizer", VRef 2); ("scheduler", VRef 4); ("zero_optimization", VRef 6)]
              6%positive [("stage", VInt 3); ("reduce_bucket_size", VInt 0)] eng w'
              ltac:(apply heap_wfb_wf; vm_compute; reflexivity)
              ltac:(vm_compute; reflexivity) eq_refl eq_refl
              ltac:(vm_compute; reflexivity) E)
    as (y & z' & Heng & Hzo & Hb).
  exists eng, w', y, z'. split; [reflexivity|]. split; [exact Heng|]. split; [exact Hzo|].
  split.
  - exact (Hb "reduce_bucket_size" (VInt 1048576) (or_introl eq_refl)).
  - exact (Hb "stage3_prefetch_bucket_size" _ (or_intror (or_introl eq_refl))).
Defined.

Lemma deepspeed_init_scheduler_params_witness :
  exists eng w' y s' p',
    deepspeed_init env_plain trainer_8_2 1000 None (world_of heap_nested_config)
    = (Ok eng, w')
    /\ engine_config eng = VRef y
    /\ entry y "scheduler" (VRef s') w'
    /\ entry s' "params" (VRef p') w'
    /\ entry p' "total_num_steps" (VInt 1000) w'
    /\ entry p' "warmup_num_steps" (VInt 100) w'
    /\ lacks p' "warmup_max_lr" w'.
Proof.
  destruct (deepspeed_init env_plain trainer_8_2 1000 None (world_of heap_nested_config))
    as [[eng|e] w'] eqn:E; [|vm_compute in E; discriminate E].
  destruct (deepspeed_init_scheduler_params env_plain trainer_8_2 1000 None
              (world_of heap_nested_config) 1%positive
              [("optimizer", VRef 2); ("scheduler", VRef 4); ("zero_optimization", VRef 6)]
              4%positive [("type", VStr "WarmupDecayLR"); ("params", VRef 5)]
              (VStr "WarmupDecayLR")
              5%positive [("warmup_num_steps", VInt 0)] eng w'
              ltac:(apply heap_wfb_wf; vm_compute; reflexivity)
              ltac:(vm_compute; reflexivity) eq_refl eq_refl
              ltac:(vm_compute; reflexivity) eq_refl eq_refl
              ltac:(vm_compute; reflexivity) E)
    as (y & s' & p' & Heng & _ & Hsch & Hpar & Hsteps & Hov).
  exists eng, w', y, s', p'. split; [reflexivity|]. split; [exact Heng|].
  split; [exact Hsch|]. split; [exact Hpar|]. split; [exact Hsteps|].
  split.
  - exact (Hov "warmup_num_steps" (VInt 100) (or_intror (or_introl eq_refl))).
  - exact (Hov "warmup_max_lr" _ (or_introl eq_refl)).
Defined.

End SectionInstances.
